(** * honggfuzz: the input mangling routines ([mangle.c])

    A shallow embedding of [mangle.c] and of [util_rndGet] and [util_hash]
    of [util.c], with the properties of the mutation engine stated over
    it.

    - integers of type [size_t] and [uint64_t] are [Z] with the
      wrap-around at [2^64] written out ([u64]); [ssize_t] and [int64_t]
      values are reinterpreted with [s64]; bytes are [Z] in [0, 256);
    - [run->dynfile->data] is a list of bytes whose length is the capacity
      of the backing storage, [run->dynfile->size] the logical length;
    - the code runs in a state-and-error monad over [run_t]: [LOG_F] is
      the abort [LogFatal], an access outside an object or a division by
      zero is the abort [Undefined];
    - [/dev/urandom], the corpus and the clock are tapes in [run_t]. *)

From Stdlib Require Import ZArith List Lia Bool.
Import ListNotations.
Open Scope Z_scope.

(** ** Machine integers *)

Definition u64 (x : Z) : Z := x mod 2 ^ 64.
Definition u32 (x : Z) : Z := x mod 2 ^ 32.
Definition u16 (x : Z) : Z := x mod 2 ^ 16.
Definition u8 (x : Z) : Z := x mod 2 ^ 8.

(** Reinterpretation of the low [8 * w] bits as a signed integer. *)
Definition sint (w : Z) (x : Z) : Z :=
  let m := 2 ^ (8 * w) in
  let r := x mod m in
  if r <? m / 2 then r else r - m.

Definition s64 : Z -> Z := sint 8.

(** Modelled from the spec: the macros [HF_MIN] and [HF_MAX] come from
    [libhfcommon/common.h], which is not among the sources; they are the
    spec's [min] and [max]. *)
Definition HF_MIN (a b : Z) : Z := if a <? b then a else b.
Definition HF_MAX (a b : Z) : Z := if a >? b then a else b.

(** Maximum reasonable block size for many types of mutations. *)
Definition HF_MAX_LEN_BLOCK : Z := 512.

Definition UINT8_MAX : Z := 255.

(** ** Data model *)

(** An entry of the dictionary, of the comparison feedback map or of the
    table of magic values: a byte array and the number of bytes in use,
    an unsigned integer. *)
Record token_t := mkToken { tok_val : list Z; tok_len : N }.

(** [cmpfeedback_t]: [cnt] is read atomically and may exceed the array. *)
Record cmpfeedback_t := mkCmpFeedback { cmp_cnt : Z; cmp_valArr : list token_t }.

(** [run->global], read-only while an input is mangled. *)
Record honggfuzz_t := mkGlobal {
  mutate_maxInputSz : Z;
  mutate_mutationsPerRun : Z;
  mutate_dictionary : list token_t;
  mutate_dictionaryCnt : Z;
  cfg_only_printable : bool;
  feedback_cmpFeedback : bool;
  feedback_cmpFeedbackMap : cmpfeedback_t;
  timing_lastCovUpdate : Z
}.

(** [run_t]: the input under mutation, the per-run mutation count, and the
    outside world as tapes: the 64-bit values [util_rndGet] ends up with
    after reading [/dev/urandom] and mixing in the clock, the inputs the
    corpus hands out, and the clock in milliseconds. *)
Record run_t := mkRun {
  dynfile_data : list Z;
  dynfile_size : Z;
  mutationsPerRun : Z;
  urandom : nat -> Z;
  urandom_pos : nat;
  corpus : list (list Z);
  timeNowMillis : Z
}.

Definition set_data (d : list Z) (run : run_t) : run_t :=
  mkRun d (dynfile_size run) (mutationsPerRun run) (urandom run)
        (urandom_pos run) (corpus run) (timeNowMillis run).

Definition set_size (n : Z) (run : run_t) : run_t :=
  mkRun (dynfile_data run) n (mutationsPerRun run) (urandom run)
        (urandom_pos run) (corpus run) (timeNowMillis run).

Definition set_urandom_pos (p : nat) (run : run_t) : run_t :=
  mkRun (dynfile_data run) (dynfile_size run) (mutationsPerRun run)
        (urandom run) p (corpus run) (timeNowMillis run).

Definition set_corpus (c : list (list Z)) (run : run_t) : run_t :=
  mkRun (dynfile_data run) (dynfile_size run) (mutationsPerRun run)
        (urandom run) (urandom_pos run) c (timeNowMillis run).

(** ** The monad *)

Inductive abort := LogFatal | Undefined.

Inductive result (A : Type) :=
| Ok (a : A)
| Abort (e : abort).
Arguments Ok {A} a.
Arguments Abort {A} e.

Definition M (A : Type) : Type := run_t -> result (A * run_t).

Definition ret {A} (a : A) : M A := fun run => Ok (a, run).

Definition bind {A B} (m : M A) (f : A -> M B) : M B :=
  fun run =>
    match m run with
    | Ok (a, run') => f a run'
    | Abort e => Abort e
    end.

Definition LOG_F {A} : M A := fun _ => Abort LogFatal.
Definition undefined {A} : M A := fun _ => Abort Undefined.

Notation "x <- m ;; k" := (bind m (fun x => k))
  (at level 61, m at next level, right associativity).
Notation "m ;; k" := (bind m (fun _ => k))
  (at level 61, right associativity).

Definition when (b : bool) (m : M unit) : M unit := if b then m else ret tt.

Definition get_size : M Z := fun run => Ok (dynfile_size run, run).
Definition get_data : M (list Z) := fun run => Ok (dynfile_data run, run).
Definition put_data (d : list Z) : M unit := fun run => Ok (tt, set_data d run).

(** ** Memory *)

(** A pointer to bytes: into the input itself, [&run->dynfile->data[off]],
    or into an object outside it (a table, a token, a stack buffer, a
    corpus file). *)
Inductive ptr :=
| Data (off : Z)
| Ext (buf : list Z) (off : Z).

Definition slice (off n : Z) (l : list Z) : list Z :=
  firstn (Z.to_nat n) (skipn (Z.to_nat off) l).

Definition splice (off : Z) (bs l : list Z) : list Z :=
  firstn (Z.to_nat off) l ++ bs ++ skipn (Z.to_nat off + length bs) l.

Definition in_bounds (off n : Z) (l : list Z) : bool :=
  (0 <=? off) && (0 <=? n) && (off + n <=? Z.of_nat (length l)).

(** Read [n] bytes at [p]. *)
Definition load (p : ptr) (n : Z) : M (list Z) :=
  match p with
  | Data off =>
      d <- get_data ;;
      if in_bounds off n d then ret (slice off n d) else undefined
  | Ext buf off =>
      if in_bounds off n buf then ret (slice off n buf) else undefined
  end.

(** Write the bytes [bs] at [&run->dynfile->data[off]]. *)
Definition store (off : Z) (bs : list Z) : M unit :=
  d <- get_data ;;
  if in_bounds off (Z.of_nat (length bs)) d
  then put_data (splice off bs d) else undefined.

(** [run->dynfile->data[off]] as an rvalue and as an lvalue. *)
Definition load_byte (off : Z) : M Z :=
  bs <- load (Data off) 1 ;; ret (nth 0 bs 0).

Definition store_byte (off : Z) (v : Z) : M unit := store off [u8 v].

(** [memmove(&run->dynfile->data[off], src, n)]: the source is read in
    full before the destination is written. *)
Definition memmove (off : Z) (src : ptr) (n : Z) : M unit :=
  bs <- load src n ;; store off bs.

(** [memset(&run->dynfile->data[off], c, n)]. *)
Definition memset (off : Z) (c : Z) (n : Z) : M unit :=
  if 0 <=? n then store off (repeat (u8 c) (Z.to_nat n)) else undefined.

(** Modelled from the spec: [input_setSize] is not among the sources; the
    spec's [buffer.set_size(n)] grows or shrinks the logical length, the
    capacity being fixed at initialisation. *)
Definition input_setSize (sz : Z) : M unit :=
  fun run => Ok (tt, set_size sz run).

(** Modelled from the spec: [input_getRandomInputAsBuf] is not among the
    sources; the spec's [fetch_random_prior] returns the bytes of a prior
    input, of size 0 when there is none. *)
Definition input_getRandomInputAsBuf : M (list Z) :=
  fun run =>
    match corpus run with
    | [] => Ok ([], run)
    | f :: rest => Ok (f, set_corpus rest run)
    end.

(** ** [util.c] *)

(** The value of [rnd] in [util_rndGet] once [/dev/urandom] has been read
    and the three clock samples mixed in. *)
Definition urandom_read : M Z :=
  fun run =>
    Ok (u64 (urandom run (urandom_pos run)),
        set_urandom_pos (S (urandom_pos run)) run).

Definition util_rndGet (min max : Z) : M Z :=
  rnd <- urandom_read ;;
  if min >? max then LOG_F
  else
    let d := u64 (max - min + 1) in
    if d =? 0 then undefined else ret (u64 (rnd mod d + min)).

(** [util_hash]: the elements of [buf] are the values of [buf[i]], of type
    [char] (signed or not); [ret += buf[i]] converts them to [uint64_t]. *)
Fixpoint util_hash_loop (buf : list Z) (ret : Z) : Z :=
  match buf with
  | [] => ret
  | c :: rest =>
      let ret := u64 (ret + c) in
      let ret := u64 (ret + u64 (Z.shiftl ret 10)) in
      let ret := Z.lxor ret (Z.shiftr ret 6) in
      util_hash_loop rest ret
  end.

Definition util_hash (buf : list Z) : Z := util_hash_loop buf 0.

(** Modelled from the spec: [util_rnd64] is not among the sources; the
    spec's [rnd64() -> u64]. *)
Definition util_rnd64 : M Z := urandom_read.

(** Modelled from the spec: [util_turnToPrintable] is not among the
    sources; each byte is remapped into the printable range by
    [b mod 95 + 32], the mapping the spec names. *)
Definition toPrintable (b : Z) : Z := b mod 95 + 32.

Definition util_turnToPrintable (off sz : Z) : M unit :=
  bs <- load (Data off) sz ;; store off (map toPrintable bs).

(** Modelled from the spec: [util_rndPrintable] is not among the sources;
    a single byte in [0x20, 0x7E]. *)
Definition util_rndPrintable : M Z := util_rndGet 32 126.

(** [n] results of [m], in order. *)
Fixpoint replicateM {A} (n : nat) (m : M A) : M (list A) :=
  match n with
  | O => ret []
  | S n' => a <- m ;; l <- replicateM n' m ;; ret (a :: l)
  end.

(** Modelled from the spec: [util_rndBuf] and [util_rndBufPrintable] are
    not among the sources; they produce [sz] arbitrary bytes, respectively
    [sz] bytes in [0x20, 0x7E], here one draw for each byte. *)
Definition util_rndBuf (sz : Z) : M (list Z) :=
  replicateM (Z.to_nat sz) (r <- util_rnd64 ;; ret (u8 r)).

Definition util_rndBufPrintable (sz : Z) : M (list Z) :=
  replicateM (Z.to_nat sz) util_rndPrintable.

(** ** Integers in memory *)

(** The [w] bytes of [v], least significant first (the host is
    little-endian). *)
Fixpoint encode_le (w : nat) (v : Z) : list Z :=
  match w with
  | O => []
  | S w' => u8 v :: encode_le w' (v / 256)
  end.

Fixpoint decode_le (bs : list Z) : Z :=
  match bs with
  | [] => 0
  | b :: bs' => b + 256 * decode_le bs'
  end.

(** [__builtin_bswap16], [__builtin_bswap32], [__builtin_bswap64] on the
    low [w] bytes of [v]. *)
Definition bswap (w : nat) (v : Z) : Z := decode_le (rev (encode_le w v)).

(** ** [snprintf(buf, sizeof(buf), "%-19" PRId64, v)] with [char buf[20]] *)

Fixpoint digits (fuel : nat) (n : Z) (acc : list Z) : list Z :=
  match fuel with
  | O => acc
  | S fuel' =>
      let acc' := (48 + n mod 10) :: acc in
      if n / 10 =? 0 then acc' else digits fuel' (n / 10) acc'
  end.

Definition decimal (v : Z) : list Z :=
  if v <? 0 then 45 :: digits 20 (- v) [] else digits 20 v [].

Definition snprintf_19d (v : Z) : list Z :=
  let s := decimal v in
  firstn 19 (s ++ repeat 32 (19 - length s)) ++ [0].

(** ** The table of magic values *)

Definition magic (val : list Z) (size : Z) : token_t :=
  mkToken val (Z.to_N size).

Definition mangleMagicVals : list token_t := [
  (* 1B - No endianness *)
  magic [0; 0; 0; 0; 0; 0; 0; 0] 1;
  magic [1; 0; 0; 0; 0; 0; 0; 0] 1;
  magic [2; 0; 0; 0; 0; 0; 0; 0] 1;
  magic [3; 0; 0; 0; 0; 0; 0; 0] 1;
  magic [4; 0; 0; 0; 0; 0; 0; 0] 1;
  magic [5; 0; 0; 0; 0; 0; 0; 0] 1;
  magic [6; 0; 0; 0; 0; 0; 0; 0] 1;
  magic [7; 0; 0; 0; 0; 0; 0; 0] 1;
  magic [8; 0; 0; 0; 0; 0; 0; 0] 1;
  magic [9; 0; 0; 0; 0; 0; 0; 0] 1;
  magic [10; 0; 0; 0; 0; 0; 0; 0] 1;
  magic [11; 0; 0; 0; 0; 0; 0; 0] 1;
  magic [12; 0; 0; 0; 0; 0; 0; 0] 1;
  magic [13; 0; 0; 0; 0; 0; 0; 0] 1;
  magic [14; 0; 0; 0; 0; 0; 0; 0] 1;
  magic [15; 0; 0; 0; 0; 0; 0; 0] 1;
  magic [16; 0; 0; 0; 0; 0; 0; 0] 1;
  magic [32; 0; 0; 0; 0; 0; 0; 0] 1;
  magic [64; 0; 0; 0; 0; 0; 0; 0] 1;
  magic [126; 0; 0; 0; 0; 0; 0; 0] 1;
  magic [127; 0; 0; 0; 0; 0; 0; 0] 1;
  magic [128; 0; 0; 0; 0; 0; 0; 0] 1;
  magic [129; 0; 0; 0; 0; 0; 0; 0] 1;
  magic [192; 0; 0; 0; 0; 0; 0; 0] 1;
  magic [254; 0; 0; 0; 0; 0; 0; 0] 1;
  magic [255; 0; 0; 0; 0; 0; 0; 0] 1;
  (* 2B - NE *)
  magic [0; 0; 0; 0; 0; 0; 0; 0] 2;
  magic [1; 1; 0; 0; 0; 0; 0; 0] 2;
  magic [128; 128; 0; 0; 0; 0; 0; 0] 2;
  magic [255; 255; 0; 0; 0; 0; 0; 0] 2;
  (* 2B - BE *)
  magic [0; 1; 0; 0; 0; 0; 0; 0] 2;
  magic [0; 2; 0; 0; 0; 0; 0; 0] 2;
  magic [0; 3; 0; 0; 0; 0; 0; 0] 2;
  magic [0; 4; 0; 0; 0; 0; 0; 0] 2;
  magic [0; 5; 0; 0; 0; 0; 0; 0] 2;
  magic [0; 6; 0; 0; 0; 0; 0; 0] 2;
  magic [0; 7; 0; 0; 0; 0; 0; 0] 2;
  magic [0; 8; 0; 0; 0; 0; 0; 0] 2;
  magic [0; 9; 0; 0; 0; 0; 0; 0] 2;
  magic [0; 10; 0; 0; 0; 0; 0; 0] 2;
  magic [0; 11; 0; 0; 0; 0; 0; 0] 2;
  magic [0; 12; 0; 0; 0; 0; 0; 0] 2;
  magic [0; 13; 0; 0; 0; 0; 0; 0] 2;
  magic [0; 14; 0; 0; 0; 0; 0; 0] 2;
  magic [0; 15; 0; 0; 0; 0; 0; 0] 2;
  magic [0; 16; 0; 0; 0; 0; 0; 0] 2;
  magic [0; 32; 0; 0; 0; 0; 0; 0] 2;
  magic [0; 64; 0; 0; 0; 0; 0; 0] 2;
  magic [0; 126; 0; 0; 0; 0; 0; 0] 2;
  magic [0; 127; 0; 0; 0; 0; 0; 0] 2;
  magic [0; 128; 0; 0; 0; 0; 0; 0] 2;
  magic [0; 129; 0; 0; 0; 0; 0; 0] 2;
  magic [0; 192; 0; 0; 0; 0; 0; 0] 2;
  magic [0; 254; 0; 0; 0; 0; 0; 0] 2;
  magic [0; 255; 0; 0; 0; 0; 0; 0] 2;
  magic [126; 255; 0; 0; 0; 0; 0; 0] 2;
  magic [127; 255; 0; 0; 0; 0; 0; 0] 2;
  magic [128; 0; 0; 0; 0; 0; 0; 0] 2;
  magic [128; 1; 0; 0; 0; 0; 0; 0] 2;
  magic [255; 254; 0; 0; 0; 0; 0; 0] 2;
  (* 2B - LE *)
  magic [0; 0; 0; 0; 0; 0; 0; 0] 2;
  magic [1; 0; 0; 0; 0; 0; 0; 0] 2;
  magic [2; 0; 0; 0; 0; 0; 0; 0] 2;
  magic [3; 0; 0; 0; 0; 0; 0; 0] 2;
  magic [4; 0; 0; 0; 0; 0; 0; 0] 2;
  magic [5; 0; 0; 0; 0; 0; 0; 0] 2;
  magic [6; 0; 0; 0; 0; 0; 0; 0] 2;
  magic [7; 0; 0; 0; 0; 0; 0; 0] 2;
  magic [8; 0; 0; 0; 0; 0; 0; 0] 2;
  magic [9; 0; 0; 0; 0; 0; 0; 0] 2;
  magic [10; 0; 0; 0; 0; 0; 0; 0] 2;
  magic [11; 0; 0; 0; 0; 0; 0; 0] 2;
  magic [12; 0; 0; 0; 0; 0; 0; 0] 2;
  magic [13; 0; 0; 0; 0; 0; 0; 0] 2;
  magic [14; 0; 0; 0; 0; 0; 0; 0] 2;
  magic [15; 0; 0; 0; 0; 0; 0; 0] 2;
  magic [16; 0; 0; 0; 0; 0; 0; 0] 2;
  magic [32; 0; 0; 0; 0; 0; 0; 0] 2;
  magic [64; 0; 0; 0; 0; 0; 0; 0] 2;
  magic [126; 0; 0; 0; 0; 0; 0; 0] 2;
  magic [127; 0; 0; 0; 0; 0; 0; 0] 2;
  magic [128; 0; 0; 0; 0; 0; 0; 0] 2;
  magic [129; 0; 0; 0; 0; 0; 0; 0] 2;
  magic [192; 0; 0; 0; 0; 0; 0; 0] 2;
  magic [254; 0; 0; 0; 0; 0; 0; 0] 2;
  magic [255; 0; 0; 0; 0; 0; 0; 0] 2;
  magic [255; 126; 0; 0; 0; 0; 0; 0] 2;
  magic [255; 127; 0; 0; 0; 0; 0; 0] 2;
  magic [0; 128; 0; 0; 0; 0; 0; 0] 2;
  magic [1; 128; 0; 0; 0; 0; 0; 0] 2;
  magic [254; 255; 0; 0; 0; 0; 0; 0] 2;
  (* 4B - NE *)
  magic [0; 0; 0; 0; 0; 0; 0; 0] 4;
  magic [1; 1; 1; 1; 0; 0; 0; 0] 4;
  magic [128; 128; 128; 128; 0; 0; 0; 0] 4;
  magic [255; 255; 255; 255; 0; 0; 0; 0] 4;
  (* 4B - BE *)
  magic [0; 0; 0; 1; 0; 0; 0; 0] 4;
  magic [0; 0; 0; 2; 0; 0; 0; 0] 4;
  magic [0; 0; 0; 3; 0; 0; 0; 0] 4;
  magic [0; 0; 0; 4; 0; 0; 0; 0] 4;
  magic [0; 0; 0; 5; 0; 0; 0; 0] 4;
  magic [0; 0; 0; 6; 0; 0; 0; 0] 4;
  magic [0; 0; 0; 7; 0; 0; 0; 0] 4;
  magic [0; 0; 0; 8; 0; 0; 0; 0] 4;
  magic [0; 0; 0; 9; 0; 0; 0; 0] 4;
  magic [0; 0; 0; 10; 0; 0; 0; 0] 4;
  magic [0; 0; 0; 11; 0; 0; 0; 0] 4;
  magic [0; 0; 0; 12; 0; 0; 0; 0] 4;
  magic [0; 0; 0; 13; 0; 0; 0; 0] 4;
  magic [0; 0; 0; 14; 0; 0; 0; 0] 4;
  magic [0; 0; 0; 15; 0; 0; 0; 0] 4;
  magic [0; 0; 0; 16; 0; 0; 0; 0] 4;
  magic [0; 0; 0; 32; 0; 0; 0; 0] 4;
  magic [0; 0; 0; 64; 0; 0; 0; 0] 4;
  magic [0; 0; 0; 126; 0; 0; 0; 0] 4;
  magic [0; 0; 0; 127; 0; 0; 0; 0] 4;
  magic [0; 0; 0; 128; 0; 0; 0; 0] 4;
  magic [0; 0; 0; 129; 0; 0; 0; 0] 4;
  magic [0; 0; 0; 192; 0; 0; 0; 0] 4;
  magic [0; 0; 0; 254; 0; 0; 0; 0] 4;
  magic [0; 0; 0; 255; 0; 0; 0; 0] 4;
  magic [126; 255; 255; 255; 0; 0; 0; 0] 4;
  magic [127; 255; 255; 255; 0; 0; 0; 0] 4;
  magic [128; 0; 0; 0; 0; 0; 0; 0] 4;
  magic [128; 0; 0; 1; 0; 0; 0; 0] 4;
  magic [255; 255; 255; 254; 0; 0; 0; 0] 4;
  (* 4B - LE *)
  magic [0; 0; 0; 0; 0; 0; 0; 0] 4;
  magic [1; 0; 0; 0; 0; 0; 0; 0] 4;
  magic [2; 0; 0; 0; 0; 0; 0; 0] 4;
  magic [3; 0; 0; 0; 0; 0; 0; 0] 4;
  magic [4; 0; 0; 0; 0; 0; 0; 0] 4;
  magic [5; 0; 0; 0; 0; 0; 0; 0] 4;
  magic [6; 0; 0; 0; 0; 0; 0; 0] 4;
  magic [7; 0; 0; 0; 0; 0; 0; 0] 4;
  magic [8; 0; 0; 0; 0; 0; 0; 0] 4;
  magic [9; 0; 0; 0; 0; 0; 0; 0] 4;
  magic [10; 0; 0; 0; 0; 0; 0; 0] 4;
  magic [11; 0; 0; 0; 0; 0; 0; 0] 4;
  magic [12; 0; 0; 0; 0; 0; 0; 0] 4;
  magic [13; 0; 0; 0; 0; 0; 0; 0] 4;
  magic [14; 0; 0; 0; 0; 0; 0; 0] 4;
  magic [15; 0; 0; 0; 0; 0; 0; 0] 4;
  magic [16; 0; 0; 0; 0; 0; 0; 0] 4;
  magic [32; 0; 0; 0; 0; 0; 0; 0] 4;
  magic [64; 0; 0; 0; 0; 0; 0; 0] 4;
  magic [126; 0; 0; 0; 0; 0; 0; 0] 4;
  magic [127; 0; 0; 0; 0; 0; 0; 0] 4;
  magic [128; 0; 0; 0; 0; 0; 0; 0] 4;
  magic [129; 0; 0; 0; 0; 0; 0; 0] 4;
  magic [192; 0; 0; 0; 0; 0; 0; 0] 4;
  magic [254; 0; 0; 0; 0; 0; 0; 0] 4;
  magic [255; 0; 0; 0; 0; 0; 0; 0] 4;
  magic [255; 255; 255; 126; 0; 0; 0; 0] 4;
  magic [255; 255; 255; 127; 0; 0; 0; 0] 4;
  magic [0; 0; 0; 128; 0; 0; 0; 0] 4;
  magic [1; 0; 0; 128; 0; 0; 0; 0] 4;
  magic [254; 255; 255; 255; 0; 0; 0; 0] 4;
  (* 8B - NE *)
  magic [0; 0; 0; 0; 0; 0; 0; 0] 8;
  magic [1; 1; 1; 1; 1; 1; 1; 1] 8;
  magic [128; 128; 128; 128; 128; 128; 128; 128] 8;
  magic [255; 255; 255; 255; 255; 255; 255; 255] 8;
  (* 8B - BE *)
  magic [0; 0; 0; 0; 0; 0; 0; 1] 8;
  magic [0; 0; 0; 0; 0; 0; 0; 2] 8;
  magic [0; 0; 0; 0; 0; 0; 0; 3] 8;
  magic [0; 0; 0; 0; 0; 0; 0; 4] 8;
  magic [0; 0; 0; 0; 0; 0; 0; 5] 8;
  magic [0; 0; 0; 0; 0; 0; 0; 6] 8;
  magic [0; 0; 0; 0; 0; 0; 0; 7] 8;
  magic [0; 0; 0; 0; 0; 0; 0; 8] 8;
  magic [0; 0; 0; 0; 0; 0; 0; 9] 8;
  magic [0; 0; 0; 0; 0; 0; 0; 10] 8;
  magic [0; 0; 0; 0; 0; 0; 0; 11] 8;
  magic [0; 0; 0; 0; 0; 0; 0; 12] 8;
  magic [0; 0; 0; 0; 0; 0; 0; 13] 8;
  magic [0; 0; 0; 0; 0; 0; 0; 14] 8;
  magic [0; 0; 0; 0; 0; 0; 0; 15] 8;
  magic [0; 0; 0; 0; 0; 0; 0; 16] 8;
  magic [0; 0; 0; 0; 0; 0; 0; 32] 8;
  magic [0; 0; 0; 0; 0; 0; 0; 64] 8;
  magic [0; 0; 0; 0; 0; 0; 0; 126] 8;
  magic [0; 0; 0; 0; 0; 0; 0; 127] 8;
  magic [0; 0; 0; 0; 0; 0; 0; 128] 8;
  magic [0; 0; 0; 0; 0; 0; 0; 129] 8;
  magic [0; 0; 0; 0; 0; 0; 0; 192] 8;
  magic [0; 0; 0; 0; 0; 0; 0; 254] 8;
  magic [0; 0; 0; 0; 0; 0; 0; 255] 8;
  magic [126; 255; 255; 255; 255; 255; 255; 255] 8;
  magic [127; 255; 255; 255; 255; 255; 255; 255] 8;
  magic [128; 0; 0; 0; 0; 0; 0; 0] 8;
  magic [128; 0; 0; 0; 0; 0; 0; 1] 8;
  magic [255; 255; 255; 255; 255; 255; 255; 254] 8;
  (* 8B - LE *)
  magic [0; 0; 0; 0; 0; 0; 0; 0] 8;
  magic [1; 0; 0; 0; 0; 0; 0; 0] 8;
  magic [2; 0; 0; 0; 0; 0; 0; 0] 8;
  magic [3; 0; 0; 0; 0; 0; 0; 0] 8;
  magic [4; 0; 0; 0; 0; 0; 0; 0] 8;
  magic [5; 0; 0; 0; 0; 0; 0; 0] 8;
  magic [6; 0; 0; 0; 0; 0; 0; 0] 8;
  magic [7; 0; 0; 0; 0; 0; 0; 0] 8;
  magic [8; 0; 0; 0; 0; 0; 0; 0] 8;
  magic [9; 0; 0; 0; 0; 0; 0; 0] 8;
  magic [10; 0; 0; 0; 0; 0; 0; 0] 8;
  magic [11; 0; 0; 0; 0; 0; 0; 0] 8;
  magic [12; 0; 0; 0; 0; 0; 0; 0] 8;
  magic [13; 0; 0; 0; 0; 0; 0; 0] 8;
  magic [14; 0; 0; 0; 0; 0; 0; 0] 8;
  magic [15; 0; 0; 0; 0; 0; 0; 0] 8;
  magic [16; 0; 0; 0; 0; 0; 0; 0] 8;
  magic [32; 0; 0; 0; 0; 0; 0; 0] 8;
  magic [64; 0; 0; 0; 0; 0; 0; 0] 8;
  magic [126; 0; 0; 0; 0; 0; 0; 0] 8;
  magic [127; 0; 0; 0; 0; 0; 0; 0] 8;
  magic [128; 0; 0; 0; 0; 0; 0; 0] 8;
  magic [129; 0; 0; 0; 0; 0; 0; 0] 8;
  magic [192; 0; 0; 0; 0; 0; 0; 0] 8;
  magic [254; 0; 0; 0; 0; 0; 0; 0] 8;
  magic [255; 0; 0; 0; 0; 0; 0; 0] 8;
  magic [255; 255; 255; 255; 255; 255; 255; 126] 8;
  magic [255; 255; 255; 255; 255; 255; 255; 127] 8;
  magic [0; 0; 0; 0; 0; 0; 0; 128] 8;
  magic [1; 0; 0; 0; 0; 0; 0; 128] 8;
  magic [254; 255; 255; 255; 255; 255; 255; 255] 8
].

(** The number of elements of an array. *)
Definition ARRAYSIZE {A} (l : list A) : Z := Z.of_nat (length l).

(** [arr[i]]; an index outside the array is undefined behaviour. *)
Definition index {A} (l : list A) (i : Z) : M A :=
  if 0 <=? i then
    match nth_error l (Z.to_nat i) with
    | Some a => ret a
    | None => undefined
    end
  else undefined.

(** ** [mangle.c] *)

Section Mangle.

(** [_HF_INPUT_MAX_SIZE] is defined in a header that is not among the
    sources, and [run->global] is fixed while an input is mangled. *)
Variable HF_INPUT_MAX_SIZE : Z.
Variable global : honggfuzz_t.

Definition mangle_LenLeft (off : Z) : M Z :=
  size <- get_size ;;
  (if off >=? size then LOG_F else ret tt) ;;
  ret (u64 (size - off - 1)).

(** Get a random value between <1:max> with x^2 distribution. *)
Definition mangle_getLen (max : Z) : M Z :=
  if max >? HF_INPUT_MAX_SIZE then LOG_F
  else if max =? 0 then LOG_F
  else if max =? 1 then ret 1
  else
    let max2 := u64 (max * max) in
    let max3 := u64 (max * max * max) in
    rnd <- util_rndGet 1 (u64 (max2 - 1)) ;;
    let r := u64 (rnd * rnd) in
    if max3 =? 0 then undefined
    else
      let r := r / max3 in
      let r := u64 (r + 1) in
      if r <? 1 then LOG_F
      else if r >? max then LOG_F
      else ret r.

(** Prefer smaller values here, so use mangle_getLen(). *)
Definition mangle_getOffSet : M Z :=
  size <- get_size ;;
  r <- mangle_getLen size ;;
  ret (u64 (r - 1)).

Definition mangle_Move (off_from off_to len : Z) : M unit :=
  size <- get_size ;;
  if off_from >=? size then ret tt
  else if off_to >=? size then ret tt
  else
    let len_from := u64 (size - off_from) in
    let len := HF_MIN len len_from in
    let len_to := u64 (size - off_to) in
    let len := HF_MIN len len_to in
    memmove off_to (Data off_from) len.

Definition mangle_Overwrite (off : Z) (src : ptr) (len : Z) (printable : bool)
  : M unit :=
  if len =? 0 then ret tt
  else
    size <- get_size ;;
    let maxToCopy := u64 (size - off) in
    let len := if len >? maxToCopy then maxToCopy else len in
    memmove off src len ;;
    when printable (util_turnToPrintable off len).

Definition mangle_Inflate (off len : Z) (printable : bool) : M Z :=
  size <- get_size ;;
  let maxInputSz := mutate_maxInputSz global in
  if size >=? maxInputSz then ret 0
  else
    let len :=
      if len >? u64 (maxInputSz - size) then u64 (maxInputSz - size) else len in
    input_setSize (u64 (size + len)) ;;
    size' <- get_size ;;
    mangle_Move off (u64 (off + len)) size' ;;
    when printable (memset off 32 len) ;;
    ret len.

Definition mangle_Insert (off : Z) (val : ptr) (len : Z) (printable : bool)
  : M unit :=
  len <- mangle_Inflate off len printable ;;
  mangle_Overwrite off val len printable.

Definition mangle_MemCopyOverwrite (printable : bool) : M unit :=
  off_from <- mangle_getOffSet ;;
  off_to <- mangle_getOffSet ;;
  size <- get_size ;;
  len <- mangle_getLen (HF_MIN HF_MAX_LEN_BLOCK (u64 (size - off_from))) ;;
  mangle_Overwrite off_to (Data off_from) len printable.

Definition mangle_MemCopyInsert (printable : bool) : M unit :=
  off_to <- mangle_getOffSet ;;
  off_from <- mangle_getOffSet ;;
  size <- get_size ;;
  len <- mangle_getLen (HF_MIN HF_MAX_LEN_BLOCK (u64 (size - off_from))) ;;
  mangle_Insert off_to (Data off_from) len printable.

(** The two bytes of [uint16_t buf] in [mangle_BytesOverwrite] and
    [mangle_BytesInsert]. *)
Definition rnd_uint16_buf (printable : bool) : M (list Z) :=
  if printable then util_rndBufPrintable 2
  else r <- util_rnd64 ;; ret (encode_le 2 (u16 r)).

Definition mangle_BytesOverwrite (printable : bool) : M unit :=
  off <- mangle_getOffSet ;;
  buf <- rnd_uint16_buf printable ;;
  (* Overwrite with random 1-2-byte values *)
  toCopy <- util_rndGet 1 2 ;;
  mangle_Overwrite off (Ext buf 0) toCopy printable.

Definition mangle_BytesInsert (printable : bool) : M unit :=
  buf <- rnd_uint16_buf printable ;;
  off <- mangle_getOffSet ;;
  (* Insert random 1-2-byte values *)
  toCopy <- util_rndGet 1 2 ;;
  mangle_Insert off (Ext buf 0) toCopy printable.

Definition mangle_ByteRepeatOverwrite (printable : bool) : M unit :=
  off <- mangle_getOffSet ;;
  let destOff := u64 (off + 1) in
  size <- get_size ;;
  let maxSz := u64 (size - destOff) in
  (* No space to repeat *)
  if maxSz =? 0 then mangle_BytesOverwrite printable
  else
    len <- mangle_getLen (HF_MIN HF_MAX_LEN_BLOCK maxSz) ;;
    b <- load_byte off ;;
    memset destOff b len.

Definition mangle_ByteRepeatInsert (printable : bool) : M unit :=
  off <- mangle_getOffSet ;;
  let destOff := u64 (off + 1) in
  size <- get_size ;;
  let maxSz := u64 (size - destOff) in
  (* No space to repeat *)
  if maxSz =? 0 then mangle_BytesInsert printable
  else
    len <- mangle_getLen (HF_MIN HF_MAX_LEN_BLOCK maxSz) ;;
    len <- mangle_Inflate destOff len printable ;;
    b <- load_byte off ;;
    memset destOff b len.

Definition mangle_Bit (printable : bool) : M unit :=
  off <- mangle_getOffSet ;;
  k <- util_rndGet 0 7 ;;
  b <- load_byte off ;;
  store_byte off (Z.lxor b (u8 (u32 (Z.shiftl 1 k)))) ;;
  when printable (util_turnToPrintable off 1).

Definition mangle_MagicOverwrite (printable : bool) : M unit :=
  off <- mangle_getOffSet ;;
  choice <- util_rndGet 0 (ARRAYSIZE mangleMagicVals - 1) ;;
  m <- index mangleMagicVals choice ;;
  mangle_Overwrite off (Ext (tok_val m) 0) (Z.of_N (tok_len m)) printable.

Definition mangle_MagicInsert (printable : bool) : M unit :=
  choice <- util_rndGet 0 (ARRAYSIZE mangleMagicVals - 1) ;;
  off <- mangle_getOffSet ;;
  m <- index mangleMagicVals choice ;;
  mangle_Insert off (Ext (tok_val m) 0) (Z.of_N (tok_len m)) printable.

Definition mangle_DictionaryOverwrite (printable : bool) : M unit :=
  if mutate_dictionaryCnt global =? 0 then mangle_BytesOverwrite printable
  else
    off <- mangle_getOffSet ;;
    choice <- util_rndGet 0 (u64 (mutate_dictionaryCnt global - 1)) ;;
    t <- index (mutate_dictionary global) choice ;;
    mangle_Overwrite off (Ext (tok_val t) 0) (Z.of_N (tok_len t)) printable.

Definition mangle_DictionaryInsert (printable : bool) : M unit :=
  if mutate_dictionaryCnt global =? 0 then mangle_BytesInsert printable
  else
    choice <- util_rndGet 0 (u64 (mutate_dictionaryCnt global - 1)) ;;
    off <- mangle_getOffSet ;;
    t <- index (mutate_dictionary global) choice ;;
    mangle_Insert off (Ext (tok_val t) 0) (Z.of_N (tok_len t)) printable.

(** [None] is the [NULL] result; otherwise the token's bytes and [*len]. *)
Definition mangle_FeedbackDict : M (option (list Z * Z)) :=
  if negb (feedback_cmpFeedback global) then ret None
  else
    let cmpf := feedback_cmpFeedbackMap global in
    let cnt := u32 (cmp_cnt cmpf) in
    if cnt =? 0 then ret None
    else
      let cnt :=
        if cnt >? ARRAYSIZE (cmp_valArr cmpf)
        then u32 (ARRAYSIZE (cmp_valArr cmpf)) else cnt in
      choice <- util_rndGet 0 (u32 (cnt - 1)) ;;
      let choice := u32 choice in
      t <- index (cmp_valArr cmpf) choice ;;
      let len := u32 (Z.of_N (tok_len t)) in
      if len =? 0 then ret None else ret (Some (tok_val t, len)).

Definition mangle_ConstFeedbackInsert (printable : bool) : M unit :=
  r <- mangle_FeedbackDict ;;
  match r with
  | None => mangle_BytesInsert printable
  | Some (val, len) =>
      off <- mangle_getOffSet ;;
      mangle_Insert off (Ext val 0) len printable
  end.

Definition mangle_ConstFeedbackOverwrite (printable : bool) : M unit :=
  r <- mangle_FeedbackDict ;;
  match r with
  | None => mangle_BytesOverwrite printable
  | Some (val, len) =>
      off <- mangle_getOffSet ;;
      mangle_Overwrite off (Ext val 0) len printable
  end.

Definition mangle_MemSet (printable : bool) : M unit :=
  off <- mangle_getOffSet ;;
  size <- get_size ;;
  len <- mangle_getLen (HF_MIN HF_MAX_LEN_BLOCK (u64 (size - off))) ;;
  val <- (if printable then util_rndPrintable else util_rndGet 0 UINT8_MAX) ;;
  memset off val len.

Definition mangle_RandomOverwrite (printable : bool) : M unit :=
  off <- mangle_getOffSet ;;
  size <- get_size ;;
  len <- mangle_getLen (HF_MIN HF_MAX_LEN_BLOCK (u64 (size - off))) ;;
  bs <- (if printable then util_rndBufPrintable len else util_rndBuf len) ;;
  store off bs.

Definition mangle_RandomInsert (printable : bool) : M unit :=
  off <- mangle_getOffSet ;;
  size <- get_size ;;
  len <- mangle_getLen (HF_MIN HF_MAX_LEN_BLOCK (u64 (size - off))) ;;
  len <- mangle_Inflate off len printable ;;
  bs <- (if printable then util_rndBufPrintable len else util_rndBuf len) ;;
  store off bs.

(** The cases 2, 4 and 8 of [mangle_AddSubWithRange]: [val] is an
    [intN_t] read from the input, [delta] is added to it in native or in
    foreign endianness, and the result is written back.  The addition
    wraps around at the width of [val]. *)
Definition AddSub_wide (off : Z) (w : nat) (delta : Z) (printable : bool)
  : M unit :=
  bs <- load (Data off) (Z.of_nat w) ;;
  let val := sint (Z.of_nat w) (decode_le bs) in
  r <- util_rnd64 ;;
  let val :=
    if negb (Z.land r 1 =? 0) then sint (Z.of_nat w) (val + delta)
    else
      (* Foreign endianess *)
      let val := sint (Z.of_nat w) (bswap w val) in
      let val := sint (Z.of_nat w) (val + delta) in
      sint (Z.of_nat w) (bswap w val) in
  mangle_Overwrite off (Ext (encode_le w val) 0) (Z.of_nat w) printable.

Definition mangle_AddSubWithRange
  (off varLen range : Z) (printable : bool) : M unit :=
  r <- util_rndGet 0 (u64 (range * 2)) ;;
  let delta := s64 (s64 r - s64 range) in
  if varLen =? 1 then
    b <- load_byte off ;;
    store_byte off (b + delta)
  else if varLen =? 2 then AddSub_wide off 2 delta printable
  else if varLen =? 4 then AddSub_wide off 4 delta printable
  else if varLen =? 8 then AddSub_wide off 8 delta printable
  else LOG_F.

Definition mangle_AddSub (printable : bool) : M unit :=
  off <- mangle_getOffSet ;;
  (* 1,2,4,8 *)
  k <- util_rndGet 0 3 ;;
  let varLen := u32 (Z.shiftl 1 k) in
  size <- get_size ;;
  let varLen := if u64 (size - off) <? varLen then 1 else varLen in
  range <-
    (if varLen =? 1 then ret 16
     else if varLen =? 2 then ret 4096
     else if varLen =? 4 then ret 1048576
     else if varLen =? 8 then ret 268435456
     else LOG_F) ;;
  mangle_AddSubWithRange off varLen range printable.

Definition mangle_IncByte (printable : bool) : M unit :=
  off <- mangle_getOffSet ;;
  b <- load_byte off ;;
  if printable then store_byte off (Z.rem (b - 32 + 1) 95 + 32)
  else store_byte off (b + 1).

Definition mangle_DecByte (printable : bool) : M unit :=
  off <- mangle_getOffSet ;;
  b <- load_byte off ;;
  if printable then store_byte off (Z.rem (b - 32 + 94) 95 + 32)
  else store_byte off (b - 1).

Definition mangle_NegByte (printable : bool) : M unit :=
  off <- mangle_getOffSet ;;
  b <- load_byte off ;;
  if printable then store_byte off (94 - (b - 32) + 32)
  else store_byte off (Z.lnot b).

Definition mangle_Expand (printable : bool) : M unit :=
  off <- mangle_getOffSet ;;
  r <- util_rnd64 ;;
  let maxInputSz := mutate_maxInputSz global in
  len <-
    (if negb (r mod 16 =? 0)
     then mangle_getLen (HF_MIN 16 (u64 (maxInputSz - off)))
     else mangle_getLen (u64 (maxInputSz - off))) ;;
  _ <- mangle_Inflate off len printable ;;
  ret tt.

Definition mangle_Shrink (printable : bool) : M unit :=
  size <- get_size ;;
  if size <=? 2 then ret tt
  else
    off_start <- mangle_getOffSet ;;
    len <- mangle_LenLeft off_start ;;
    if len =? 0 then ret tt
    else
      r <- util_rnd64 ;;
      len <-
        (if negb (r mod 16 =? 0) then mangle_getLen (HF_MIN 16 len)
         else mangle_getLen len) ;;
      let off_end := u64 (off_start + len) in
      size <- get_size ;;
      let len_to_move := u64 (size - off_end) in
      mangle_Move off_end off_start len_to_move ;;
      size <- get_size ;;
      input_setSize (u64 (size - len)).

(** [buf] after [snprintf], and [len] bytes of it as the source. *)
Definition mangle_ASCIINumOverwrite (printable : bool) : M unit :=
  off <- mangle_getOffSet ;;
  len <- util_rndGet 2 8 ;;
  r <- util_rnd64 ;;
  let buf := snprintf_19d (s64 r) in
  mangle_Overwrite off (Ext buf 0) len printable.

Definition mangle_ASCIINumInsert (printable : bool) : M unit :=
  off <- mangle_getOffSet ;;
  len <- util_rndGet 2 8 ;;
  r <- util_rnd64 ;;
  let buf := snprintf_19d (s64 r) in
  mangle_Insert off (Ext buf 0) len printable.

Definition mangle_SpliceOverwrite (printable : bool) : M unit :=
  buf <- input_getRandomInputAsBuf ;;
  let sz := ARRAYSIZE buf in
  if sz =? 0 then mangle_BytesOverwrite printable
  else
    r <- mangle_getLen sz ;;
    let remoteOff := u64 (r - 1) in
    localOff <- mangle_getOffSet ;;
    size <- get_size ;;
    len <- mangle_getLen (HF_MIN (u64 (sz - remoteOff)) (u64 (size - localOff))) ;;
    mangle_Overwrite localOff (Ext buf remoteOff) len printable.

Definition mangle_SpliceInsert (printable : bool) : M unit :=
  buf <- input_getRandomInputAsBuf ;;
  let sz := ARRAYSIZE buf in
  if sz =? 0 then mangle_BytesInsert printable
  else
    r <- mangle_getLen sz ;;
    let remoteOff := u64 (r - 1) in
    localOff <- mangle_getOffSet ;;
    size <- get_size ;;
    len <- mangle_getLen (HF_MIN (u64 (sz - remoteOff)) (u64 (size - localOff))) ;;
    mangle_Insert localOff (Ext buf remoteOff) len printable.

Definition mangle_Resize (printable : bool) : M unit :=
  size <- get_size ;;
  let oldsz := s64 size in
  let maxInputSz := mutate_maxInputSz global in
  choice <- util_rndGet 0 32 ;;
  newsz <-
    (if choice =? 0 then
       (* Set new size arbitrarily *)
       r <- util_rndGet 1 maxInputSz ;; ret (s64 r)
     else if (1 <=? choice) && (choice <=? 4) then
       (* Increase size by a small value *)
       r <- util_rndGet 0 8 ;; ret (s64 (oldsz + s64 r))
     else if choice =? 5 then
       (* Increase size by a larger value *)
       r <- util_rndGet 9 128 ;; ret (s64 (oldsz + s64 r))
     else if (6 <=? choice) && (choice <=? 9) then
       (* Decrease size by a small value *)
       r <- util_rndGet 0 8 ;; ret (s64 (oldsz - s64 r))
     else if choice =? 10 then
       (* Decrease size by a larger value *)
       r <- util_rndGet 9 128 ;; ret (s64 (oldsz - s64 r))
     else if (11 <=? choice) && (choice <=? 32) then
       (* Do nothing *)
       ret oldsz
     else LOG_F) ;;
  let newsz := if newsz <? 1 then 1 else newsz in
  let newsz := if newsz >? s64 maxInputSz then s64 maxInputSz else newsz in
  input_setSize (u64 newsz) ;;
  if newsz >? oldsz then when printable (memset oldsz 32 (u64 (newsz - oldsz)))
  else ret tt.

Definition mangleFuncs : list (bool -> M unit) := [
  (* Every *Insert or Expand expands file, so add more Shrink's *)
  mangle_Shrink;
  mangle_Shrink;
  mangle_Shrink;
  mangle_Shrink;
  mangle_Expand;
  mangle_Bit;
  mangle_IncByte;
  mangle_DecByte;
  mangle_NegByte;
  mangle_AddSub;
  mangle_MemSet;
  mangle_MemCopyOverwrite;
  mangle_MemCopyInsert;
  mangle_BytesOverwrite;
  mangle_BytesInsert;
  mangle_ASCIINumOverwrite;
  mangle_ASCIINumInsert;
  mangle_ByteRepeatOverwrite;
  mangle_ByteRepeatInsert;
  mangle_MagicOverwrite;
  mangle_MagicInsert;
  mangle_DictionaryOverwrite;
  mangle_DictionaryInsert;
  mangle_ConstFeedbackOverwrite;
  mangle_ConstFeedbackInsert;
  mangle_RandomOverwrite;
  mangle_RandomInsert;
  mangle_SpliceOverwrite;
  mangle_SpliceInsert
].

(** The loop [for (x = 0; x < changesCnt; x++)]. *)
Fixpoint mangle_loop (n : nat) : M unit :=
  match n with
  | O => ret tt
  | S n' =>
      choice <- util_rndGet 0 (ARRAYSIZE mangleFuncs - 1) ;;
      f <- index mangleFuncs choice ;;
      f (cfg_only_printable global) ;;
      mangle_loop n'
  end.

(** [run->mutationsPerRun]. *)
Definition get_mutationsPerRun : M Z :=
  fun run => Ok (mutationsPerRun run, run).

(** Modelled from the spec: [util_timeNowMillis] is not among the
    sources; the spec's [now_ms()]. *)
Definition util_timeNowMillis : M Z :=
  fun run => Ok (timeNowMillis run, run).

(** The write barrier [wmb()] that ends the function orders the writes for
    other processes and changes nothing in this state. *)

Definition mangle_mangleContent (slow_factor : Z) : M unit :=
  mpr <- get_mutationsPerRun ;;
  if mpr =? 0 then ret tt
  else
    size <- get_size ;;
    when (size =? 0) (mangle_Resize (cfg_only_printable global)) ;;
    let mutationsPerRun := mutate_mutationsPerRun global in
    (* Give it a good shake-up, if it's a slow input *)
    changesCnt <-
      (if (0 <=? slow_factor) && (slow_factor <=? 2) then
         util_rndGet 1 mutationsPerRun
       else if (3 <=? slow_factor) && (slow_factor <=? 4) then
         ret (HF_MAX mutationsPerRun 5)
       else if (5 <=? slow_factor) && (slow_factor <=? 9) then
         ret (HF_MAX mutationsPerRun 7)
       else ret (HF_MAX mutationsPerRun 10)) ;;
    now <- util_timeNowMillis ;;
    (if now - timing_lastCovUpdate global >? 1000 then
       r <- util_rnd64 ;;
       if r mod 3 =? 0 then mangle_SpliceOverwrite (cfg_only_printable global)
       else if r mod 3 =? 1 then mangle_SpliceInsert (cfg_only_printable global)
       else ret tt
     else ret tt) ;;
    mangle_loop (Z.to_nat changesCnt).

End Mangle.

(** * Vocabulary of the properties *)

(** What a call leaves untouched besides the tapes' positions. *)
Definition same_file (run run' : run_t) : Prop :=
  dynfile_data run' = dynfile_data run /\
  dynfile_size run' = dynfile_size run /\
  mutationsPerRun run' = mutationsPerRun run /\
  corpus run' = corpus run.

(** Up to this bound on [max] the cube in [mangle_getLen] fits 64 bits. *)
Definition getLen_cube_limit : Z := 2642245.

(** The byte at index [i]. *)
Definition byte_at (l : list Z) (i : Z) : Z := nth (Z.to_nat i) l 0.

(** The bytes a pointer designates. *)
Definition bytes_of (p : ptr) (run : run_t) : list Z :=
  match p with
  | Data _ => dynfile_data run
  | Ext buf _ => buf
  end.

(** The offset of a pointer in its object. *)
Definition ptr_off (p : ptr) : Z :=
  match p with
  | Data off => off
  | Ext _ off => off
  end.

(** Sample inputs: a tape that yields the values of [l] and then zeros, a
    run with one mutation per run, no corpus and the clock at 0, and a
    configuration without dictionary and without feedback. *)
Definition tape (l : list Z) : nat -> Z := fun n => nth n l 0.

Definition sample_run (d : list Z) (size : Z) (rnd : list Z) : run_t :=
  mkRun d size 1 (tape rnd) 0 [] 0.

Definition sample_global (maxInputSz : Z) (only_printable : bool)
  : honggfuzz_t :=
  mkGlobal maxInputSz 1 [] 0 only_printable false (mkCmpFeedback 0 []) 0.

(** The bytes of the input after [n] bytes were moved from [from] to [to],
    all of them read before any is written. *)
Definition moved (from to n : Z) (d : list Z) : list Z :=
  splice to (slice from n d) d.

(** The printable ASCII range [0x20, 0x7E]. *)
Definition printable_byte (b : Z) : Prop := 32 <= b <= 126.

(** The bytes [mangle_Overwrite] ends up writing: [n] bytes of the source,
    remapped when [printable] is set. *)
Definition written (src : ptr) (n : Z) (printable : bool) (run : run_t)
  : list Z :=
  let bs := slice (ptr_off src) n (bytes_of src run) in
  if printable then map toPrintable bs else bs.

(** The bytes of the input after a gap of [n] bytes was opened at [off]:
    the bytes of [off, size) move right by [n], and the gap is filled
    with spaces when [printable] is set. *)
Definition inflated (off n size : Z) (printable : bool) (d : list Z)
  : list Z :=
  let d1 := moved off (off + n) (size - off) d in
  if printable then splice off (repeat 32 (Z.to_nat n)) d1 else d1.

(** [wp ab m run Q]: [Q] holds of what [m] returns from [run], and [ab]
    holds if it aborts. *)
Definition wp {A} (ab : Prop) (m : M A) (run : run_t)
           (Q : A -> run_t -> Prop) : Prop :=
  match m run with
  | Ok (a, run') => Q a run'
  | Abort _ => ab
  end.

(** What a call that only moves the random tape or rewrites bytes in place
    leaves as it was. *)
Definition keeps (run run' : run_t) : Prop :=
  dynfile_size run' = dynfile_size run /\
  length (dynfile_data run') = length (dynfile_data run) /\
  corpus run' = corpus run /\
  mutationsPerRun run' = mutationsPerRun run.

(** The size has grown by [n]; the capacity, the corpus and the mutation
    count are as before. *)
Definition grown (n : Z) (run run' : run_t) : Prop :=
  dynfile_size run' = dynfile_size run + n /\
  length (dynfile_data run') = length (dynfile_data run) /\
  corpus run' = corpus run /\
  mutationsPerRun run' = mutationsPerRun run.

(** [maxInputSz] is a [size_t]. *)
Definition typed (g : honggfuzz_t) : Prop :=
  0 <= mutate_maxInputSz g < 18446744073709551616.

(** The size bound of the input. *)
Definition fits (g : honggfuzz_t) (run : run_t) : Prop :=
  0 <= dynfile_size run <= mutate_maxInputSz g.

(** A token holds at least [tok_len] bytes. *)
Definition token_ok (t : token_t) : Prop :=
  Z.of_N (tok_len t) <= Z.of_nat (length (tok_val t)).

(** The same for an entry of the feedback map, whose length is read as a
    32-bit value. *)
Definition feedback_ok (t : token_t) : Prop :=
  u32 (Z.of_N (tok_len t)) <= Z.of_nat (length (tok_val t)).

(** The configuration under which no operator aborts: sizes within the
    range where [mangle_getLen] does not overflow, a dictionary and a
    feedback map whose entries hold the bytes they announce. *)
Definition safe_cfg (hf : Z) (g : honggfuzz_t) : Prop :=
  mutate_maxInputSz g <= hf /\
  mutate_maxInputSz g <= getLen_cube_limit /\
  1 <= mutate_mutationsPerRun g < 18446744073709551616 /\
  0 <= mutate_dictionaryCnt g <= Z.of_nat (length (mutate_dictionary g)) /\
  mutate_dictionaryCnt g < 18446744073709551616 /\
  Forall token_ok (mutate_dictionary g) /\
  1 <= Z.of_nat (length (cmp_valArr (feedback_cmpFeedbackMap g)))
    < 4294967296 /\
  Forall feedback_ok (cmp_valArr (feedback_cmpFeedbackMap g)).

(** A corpus file within the sizes [mangle_getLen] accepts. *)
Definition corpus_ok (hf : Z) (f : list Z) : Prop :=
  Z.of_nat (length f) <= hf /\ Z.of_nat (length f) <= getLen_cube_limit.

(** The state under which no operator aborts. *)
Definition safe_run (hf : Z) (g : honggfuzz_t) (run : run_t) : Prop :=
  mutate_maxInputSz g <= Z.of_nat (length (dynfile_data run)) /\
  Forall (corpus_ok hf) (corpus run).

(** What every operator guarantees of the state it leaves. *)
Definition mangled (g : honggfuzz_t) (run run' : run_t) : Prop :=
  fits g run' /\
  (1 <= dynfile_size run -> 1 <= dynfile_size run') /\
  length (dynfile_data run') = length (dynfile_data run) /\
  incl (corpus run') (corpus run) /\
  mutationsPerRun run' = mutationsPerRun run.

(** An operator keeps the size bound and non-emptiness, and returns when
    the configuration is safe and aborting is not allowed. *)
Definition op_ok (ab : Prop) (hf : Z) (g : honggfuzz_t) (op : bool -> M unit)
  : Prop :=
  forall (printable : bool) (run : run_t),
    typed g -> fits g run ->
    ab \/ (safe_cfg hf g /\ safe_run hf g run /\ 1 <= dynfile_size run) ->
    wp ab (op printable) run (fun _ run' => mangled g run run').

(** What [mangle_Shrink] does to the size: nothing up to size 2, and
    otherwise it removes at most the [size - off_start - 1] bytes that
    follow the offset it drew. *)
Definition shrunk (hf : Z) (run run' : run_t) : Prop :=
  dynfile_size run' <= dynfile_size run /\
  (dynfile_size run <= 2 -> run' = run) /\
  (2 < dynfile_size run ->
   exists off_start run1,
     mangle_getOffSet hf run = Ok (off_start, run1) /\
     0 <= off_start < dynfile_size run /\
     dynfile_size run - dynfile_size run'
       <= dynfile_size run - off_start - 1).

(** What [mangle_Insert] of bytes from outside the input does: the size
    grows by [n = min len (maxInputSz - size)], the bytes before [off]
    stay, the first [n] bytes of the source, remapped when [printable] is
    set, are at [off], and the bytes that were at [off, size) follow
    them. *)
Definition inserted (off : Z) (buf : list Z) (soff n : Z) (printable : bool)
           (run run' : run_t) : Prop :=
  dynfile_size run' = dynfile_size run + n /\
  length (dynfile_data run') = length (dynfile_data run) /\
  (forall i, 0 <= i < off ->
     byte_at (dynfile_data run') i = byte_at (dynfile_data run) i) /\
  (forall i, 0 <= i < n ->
     byte_at (dynfile_data run') (off + i) =
       if printable then toPrintable (byte_at buf (soff + i))
       else byte_at buf (soff + i)) /\
  (forall i, off <= i < dynfile_size run ->
     byte_at (dynfile_data run') (i + n) = byte_at (dynfile_data run) i).

(** What [mangle_Overwrite] of bytes from outside the input does. *)
Definition overwritten (off : Z) (buf : list Z) (soff n : Z)
           (printable : bool) (run run' : run_t) : Prop :=
  dynfile_size run' = dynfile_size run /\
  length (dynfile_data run') = length (dynfile_data run) /\
  (forall i, 0 <= i ->
     byte_at (dynfile_data run') i =
       if (off <=? i) && (i <? off + n)
       then
         if printable then toPrintable (byte_at buf (soff + (i - off)))
         else byte_at buf (soff + (i - off))
       else byte_at (dynfile_data run) i).

(** The bytes of the input are printable. *)
Definition printable_input (run : run_t) : Prop :=
  forall i, 0 <= i < dynfile_size run ->
            printable_byte (byte_at (dynfile_data run) i).

(** The bytes of the input outside [off, off + n) are printable. *)
Definition printable_outside (off n : Z) (run : run_t) : Prop :=
  forall i, 0 <= i < dynfile_size run -> ~ (off <= i < off + n) ->
            printable_byte (byte_at (dynfile_data run) i).

(** In printable mode an operator leaves a printable input printable. *)
Definition keeps_printable (ab : Prop) (hf : Z) (g : honggfuzz_t)
           (op : bool -> M unit) : Prop :=
  forall run : run_t,
    typed g -> fits g run -> printable_input run ->
    ab \/ (safe_cfg hf g /\ safe_run hf g run /\ 1 <= dynfile_size run) ->
    wp ab (op true) run (fun _ run' => printable_input run').

(** The bytes of the input are values of [uint8_t]. *)
Definition bytes_input (run : run_t) : Prop :=
  forall i, 0 <= i < dynfile_size run ->
            0 <= byte_at (dynfile_data run) i < 256.

(** [run'] draws the random values [run] draws. *)
Definition same_tape (run run' : run_t) : Prop :=
  urandom run' = urandom run /\ urandom_pos run' = urandom_pos run.

(** The random source moved on by [n] reads, the rest being as before. *)
Definition advanced (n : nat) (run run' : run_t) : Prop :=
  run' = set_urandom_pos (n + urandom_pos run) run.

(** An operator that never returns from an empty input. *)
Definition fatal_on_empty (op : bool -> M unit) : Prop :=
  forall (printable : bool) (run : run_t),
    dynfile_size run = 0 ->
    wp True (op printable) run (fun _ _ => False).

(** A character of a decimal number as [snprintf] prints it with ["%-19"
    PRId64]: a digit, the minus sign or the padding space. *)
Definition decimal_char (c : Z) : Prop := c = 45 \/ c = 32 \/ 48 <= c <= 57.

(** The bytes outside the block [off, off + n) are those of before. *)
Definition same_outside (off n : Z) (run run' : run_t) : Prop :=
  forall i, 0 <= i -> ~ (off <= i < off + n) ->
            byte_at (dynfile_data run') i = byte_at (dynfile_data run) i.

(** A change in place: the size stays, and so does every byte outside one
    block that lies inside the input. *)
Definition changed_in_place (run run' : run_t) : Prop :=
  dynfile_size run' = dynfile_size run /\
  exists off n,
    0 <= off /\ 0 <= n /\ off + n <= dynfile_size run /\
    same_outside off n run run'.

(** A gap of [n] bytes opened at [off]: the bytes before [off] stay, the
    bytes that were at [off, size) are [n] places further, and the bytes
    past the new size stay. *)
Definition gap (off n : Z) (run run' : run_t) : Prop :=
  (forall i, 0 <= i < off ->
     byte_at (dynfile_data run') i = byte_at (dynfile_data run) i) /\
  (forall i, off <= i < dynfile_size run ->
     byte_at (dynfile_data run') (i + n) = byte_at (dynfile_data run) i) /\
  (forall i, dynfile_size run + n <= i ->
     byte_at (dynfile_data run') i = byte_at (dynfile_data run) i).

(** An insertion: the size grows by the length of a gap opened inside the
    input, and no byte of the input is lost. *)
Definition block_inserted (run run' : run_t) : Prop :=
  exists off n,
    0 <= off <= dynfile_size run /\ 0 <= n /\
    dynfile_size run' = dynfile_size run + n /\
    gap off n run run'.

(** An operator whose effect has the shape [P], and which returns when the
    configuration is safe and aborting is not allowed. *)
Definition has_shape (ab : Prop) (hf : Z) (g : honggfuzz_t)
           (P : run_t -> run_t -> Prop) (op : bool -> M unit) : Prop :=
  forall (printable : bool) (run : run_t),
    typed g -> fits g run ->
    ab \/ (safe_cfg hf g /\ safe_run hf g run /\ 1 <= dynfile_size run) ->
    wp ab (op printable) run (fun _ run' => P run run').

(** The entries of [mangleFuncs] that rewrite bytes of the input. *)
Definition overwriting (hf : Z) (g : honggfuzz_t) : list (bool -> M unit) := [
  mangle_Bit hf;
  mangle_IncByte hf;
  mangle_DecByte hf;
  mangle_NegByte hf;
  mangle_AddSub hf;
  mangle_MemSet hf;
  mangle_MemCopyOverwrite hf;
  mangle_BytesOverwrite hf;
  mangle_ASCIINumOverwrite hf;
  mangle_ByteRepeatOverwrite hf;
  mangle_MagicOverwrite hf;
  mangle_DictionaryOverwrite hf g;
  mangle_ConstFeedbackOverwrite hf g;
  mangle_RandomOverwrite hf;
  mangle_SpliceOverwrite hf
].

(** The entries of [mangleFuncs] that make the input longer. *)
Definition inserting (hf : Z) (g : honggfuzz_t) : list (bool -> M unit) := [
  mangle_Expand hf g;
  mangle_MemCopyInsert hf g;
  mangle_BytesInsert hf g;
  mangle_ASCIINumInsert hf g;
  mangle_ByteRepeatInsert hf g;
  mangle_MagicInsert hf g;
  mangle_DictionaryInsert hf g;
  mangle_ConstFeedbackInsert hf g;
  mangle_RandomInsert hf g;
  mangle_SpliceInsert hf g
].

(** What the dictionary operators leave: an entry among the first
    [dictionaryCnt], written over the input or inserted into it. *)
Definition entry_written (g : honggfuzz_t) (printable : bool)
           (run run' : run_t) : Prop :=
  exists k t off,
    0 <= k < mutate_dictionaryCnt g /\
    nth_error (mutate_dictionary g) (Z.to_nat k) = Some t /\
    0 <= off < dynfile_size run /\
    overwritten off (tok_val t) 0
                (Z.min (Z.of_N (tok_len t)) (dynfile_size run - off))
                printable run run'.

Definition entry_inserted (g : honggfuzz_t) (printable : bool)
           (run run' : run_t) : Prop :=
  exists k t off,
    0 <= k < mutate_dictionaryCnt g /\
    nth_error (mutate_dictionary g) (Z.to_nat k) = Some t /\
    0 <= off < dynfile_size run /\
    inserted off (tok_val t) 0
             (Z.min (Z.of_N (tok_len t))
                    (mutate_maxInputSz g - dynfile_size run))
             printable run run'.

(** What the magic operators leave: an entry of [mangleMagicVals], of
    size 1, 2, 4 or 8, written over the input or inserted into it. *)
Definition magic_written (printable : bool) (run run' : run_t) : Prop :=
  exists m off,
    In m mangleMagicVals /\ In (Z.of_N (tok_len m)) [1; 2; 4; 8] /\
    0 <= off < dynfile_size run /\
    overwritten off (tok_val m) 0
                (Z.min (Z.of_N (tok_len m)) (dynfile_size run - off))
                printable run run'.

Definition magic_inserted (g : honggfuzz_t) (printable : bool)
           (run run' : run_t) : Prop :=
  exists m off,
    In m mangleMagicVals /\ In (Z.of_N (tok_len m)) [1; 2; 4; 8] /\
    0 <= off < dynfile_size run /\
    inserted off (tok_val m) 0
             (Z.min (Z.of_N (tok_len m))
                    (mutate_maxInputSz g - dynfile_size run))
             printable run run'.

(** * Properties *)

(** ** Machine integers *)

Lemma u64_small (x : Z) : 0 <= x < 18446744073709551616 -> u64 x = x.
Proof. intros H. unfold u64. apply Z.mod_small. exact H. Qed.

Lemma u64_range (x : Z) : 0 <= u64 x < 18446744073709551616.
Proof. unfold u64. apply Z.mod_pos_bound. reflexivity. Qed.

Lemma u8_range (x : Z) : 0 <= u8 x < 256.
Proof. unfold u8. apply Z.mod_pos_bound. reflexivity. Qed.

Lemma s64_small (x : Z) : 0 <= x < 9223372036854775808 -> s64 x = x.
Proof.
  intros H. unfold s64, sint.
  change (2 ^ (8 * 8)) with 18446744073709551616.
  change (18446744073709551616 / 2) with 9223372036854775808.
  rewrite Z.mod_small by lia.
  destruct (Z.ltb_spec x 9223372036854775808); lia.
Qed.

Lemma HF_MIN_spec (a b : Z) : HF_MIN a b = Z.min a b.
Proof. unfold HF_MIN. destruct (Z.ltb_spec a b); lia. Qed.

Lemma HF_MAX_spec (a b : Z) : HF_MAX a b = Z.max a b.
Proof. unfold HF_MAX. rewrite Z.gtb_ltb. destruct (Z.ltb_spec b a); lia. Qed.

(** ** The random source *)

Lemma same_file_refl (run : run_t) : same_file run run.
Proof. repeat split. Qed.

Lemma same_file_trans (a b c : run_t) :
  same_file a b -> same_file b c -> same_file a c.
Proof.
  unfold same_file. intros (?&?&?&?) (?&?&?&?). repeat split; congruence.
Qed.

Lemma util_rndGet_ok (min max : Z) (run : run_t) :
  0 <= min <= max -> max < 18446744073709551616 ->
  max - min + 1 < 18446744073709551616 ->
  exists r,
    util_rndGet min max run
      = Ok (r, set_urandom_pos (S (urandom_pos run)) run) /\
    min <= r <= max.
Proof.
  intros Hmm Hmax Hd. unfold util_rndGet, bind, urandom_read.
  destruct (Z.gtb_spec min max) as [Hgt | _]; [lia |].
  rewrite (u64_small (max - min + 1)) by lia.
  destruct (Z.eqb_spec (max - min + 1) 0) as [H0 | _]; [lia |].
  assert (Hb : 0 <= u64 (urandom run (urandom_pos run)) mod (max - min + 1)
               < max - min + 1) by (apply Z.mod_pos_bound; lia).
  eexists. split.
  - unfold ret. rewrite (u64_small (_ mod _ + _)) by lia. reflexivity.
  - lia.
Qed.

(** Whenever [util_rndGet] returns, the value is in range and only the
    tape has moved. *)
Lemma util_rndGet_inv (min max : Z) (run : run_t) (r : Z) (run' : run_t) :
  0 <= min -> max < 18446744073709551616 ->
  util_rndGet min max run = Ok (r, run') ->
  min <= r <= max /\ run' = set_urandom_pos (S (urandom_pos run)) run.
Proof.
  intros Hmin Hmax. unfold util_rndGet, bind, urandom_read.
  destruct (Z.gtb_spec min max) as [Hgt | Hle]; [discriminate |].
  assert (Hd : max - min + 1 < 18446744073709551616
               \/ max - min + 1 = 18446744073709551616) by lia.
  destruct Hd as [Hd | Hd].
  - rewrite (u64_small (max - min + 1)) by lia.
    destruct (Z.eqb_spec (max - min + 1) 0) as [H0 | _]; [lia |].
    assert (Hb : 0 <= u64 (urandom run (urandom_pos run)) mod (max - min + 1)
                 < max - min + 1) by (apply Z.mod_pos_bound; lia).
    unfold ret. rewrite (u64_small (_ mod _ + _)) by lia.
    intros H. inversion H; subst. split; [lia | reflexivity].
  - rewrite Hd. change (u64 18446744073709551616 =? 0) with true. discriminate.
Qed.

(** ** The length sampler *)

(** Whenever [mangle_getLen] returns, its final checks have passed. *)
Lemma mangle_getLen_inv (hf max : Z) (run : run_t) (r : Z) (run' : run_t) :
  mangle_getLen hf max run = Ok (r, run') ->
  1 <= r <= max /\ same_file run run'.
Proof.
  unfold mangle_getLen.
  destruct (max >? hf); [discriminate |].
  destruct (max =? 0); [discriminate |].
  destruct (Z.eqb_spec max 1) as [-> | _].
  - intros H. inversion H; subst. split; [lia | apply same_file_refl].
  - unfold bind at 1.
    destruct (util_rndGet 1 (u64 (u64 (max * max) - 1)) run)
      as [[rnd run1] | e] eqn:Hr; [| discriminate].
    destruct (u64 (max * max * max) =? 0); [discriminate |].
    destruct (Z.ltb_spec (u64 (u64 (rnd * rnd) / u64 (max * max * max) + 1)) 1);
      [discriminate |].
    destruct (Z.gtb_spec (u64 (u64 (rnd * rnd) / u64 (max * max * max) + 1)) max);
      [discriminate |].
    intros Heq. inversion Heq; subst. split; [lia |].
    apply util_rndGet_inv in Hr;
      [| lia | apply (u64_range (u64 (max * max) - 1))].
    destruct Hr as [_ ->]. repeat split.
Qed.

Lemma mangle_getLen_ok (hf max : Z) (run : run_t) :
  1 <= max <= hf -> max <= getLen_cube_limit ->
  exists r run',
    mangle_getLen hf max run = Ok (r, run') /\
    1 <= r <= max /\ same_file run run'.
Proof.
  unfold getLen_cube_limit. intros Hmax Hlim. unfold mangle_getLen.
  destruct (Z.gtb_spec max hf); [lia |].
  destruct (Z.eqb_spec max 0); [lia |].
  destruct (Z.eqb_spec max 1) as [-> | Hn1].
  - exists 1, run. repeat split; lia.
  - assert (H2 : 4 <= max * max <= 2642245 * 2642245) by nia.
    assert (H3 : 8 <= max * max * max <= 2642245 * 2642245 * 2642245) by nia.
    rewrite (u64_small (max * max)) by lia.
    rewrite (u64_small (max * max * max)) by lia.
    rewrite (u64_small (max * max - 1)) by lia.
    destruct (util_rndGet_ok 1 (max * max - 1) run) as (rnd & Hr & Hrnd);
      [lia | lia | lia |].
    unfold bind at 1. rewrite Hr.
    destruct (Z.eqb_spec (max * max * max) 0); [lia |].
    assert (Hq : 0 <= u64 (rnd * rnd) / (max * max * max) < max).
    { split.
      - apply Z.div_pos; [apply u64_range | lia].
      - apply Z.div_lt_upper_bound; [lia |].
        assert (Hle : u64 (rnd * rnd) <= rnd * rnd)
          by (unfold u64; apply Z.mod_le; [nia | reflexivity]).
        nia. }
    rewrite (u64_small (_ / _ + 1)) by lia.
    destruct (Z.ltb_spec (u64 (rnd * rnd) / (max * max * max) + 1) 1); [lia |].
    destruct (Z.gtb_spec (u64 (rnd * rnd) / (max * max * max) + 1) max); [lia |].
    eexists _, _. split; [reflexivity |]. split; [lia | repeat split].
Qed.

(** ** Byte lists *)

Lemma in_bounds_true (off n : Z) (l : list Z) :
  in_bounds off n l = true <->
  0 <= off /\ 0 <= n /\ off + n <= Z.of_nat (length l).
Proof.
  unfold in_bounds. rewrite !andb_true_iff, !Z.leb_le. tauto.
Qed.

Lemma in_bounds_false (off n : Z) (l : list Z) :
  in_bounds off n l = false <->
  ~ (0 <= off /\ 0 <= n /\ off + n <= Z.of_nat (length l)).
Proof.
  rewrite <- in_bounds_true. destruct (in_bounds off n l).
  - split; [discriminate | intros H; exfalso; apply H; reflexivity].
  - split; [intros _ H; discriminate | reflexivity].
Qed.

Lemma length_slice (off n : Z) (l : list Z) :
  0 <= off -> 0 <= n -> off + n <= Z.of_nat (length l) ->
  length (slice off n l) = Z.to_nat n.
Proof.
  intros. unfold slice. rewrite length_firstn, length_skipn. lia.
Qed.

Lemma length_splice (off : Z) (bs l : list Z) :
  0 <= off -> off + Z.of_nat (length bs) <= Z.of_nat (length l) ->
  length (splice off bs l) = length l.
Proof.
  intros. unfold splice.
  rewrite !length_app, length_firstn, length_skipn. lia.
Qed.

Lemma byte_at_slice (off n : Z) (l : list Z) (i : Z) :
  0 <= off -> 0 <= i < n ->
  byte_at (slice off n l) i = byte_at l (off + i).
Proof.
  intros Hoff Hi. unfold byte_at, slice.
  rewrite nth_firstn.
  destruct (Nat.ltb_spec (Z.to_nat i) (Z.to_nat n)) as [_ | Hge]; [| lia].
  rewrite nth_skipn. f_equal. lia.
Qed.

Lemma byte_at_splice (off : Z) (bs l : list Z) (i : Z) :
  0 <= off -> off + Z.of_nat (length bs) <= Z.of_nat (length l) -> 0 <= i ->
  byte_at (splice off bs l) i =
    if (off <=? i) && (i <? off + Z.of_nat (length bs))
    then byte_at bs (i - off) else byte_at l i.
Proof.
  intros Hoff Hb Hi. unfold byte_at, splice.
  assert (Hlen : length (firstn (Z.to_nat off) l) = Z.to_nat off)
    by (rewrite length_firstn; lia).
  destruct (Z.leb_spec off i) as [Hle | Hlt]; cbn [andb].
  - rewrite app_nth2 by lia. rewrite Hlen.
    destruct (Z.ltb_spec i (off + Z.of_nat (length bs))) as [Hin | Hout].
    + rewrite app_nth1 by lia. f_equal. lia.
    + rewrite app_nth2 by lia. rewrite nth_skipn. f_equal. lia.
  - rewrite app_nth1 by lia. rewrite nth_firstn.
    destruct (Nat.ltb_spec (Z.to_nat i) (Z.to_nat off)); [reflexivity | lia].
Qed.

(** Two lists of the same length with the same bytes are equal. *)
Lemma byte_at_ext (l1 l2 : list Z) :
  length l1 = length l2 ->
  (forall i, 0 <= i < Z.of_nat (length l1) -> byte_at l1 i = byte_at l2 i) ->
  l1 = l2.
Proof.
  intros Hlen Hnth. apply (nth_ext l1 l2 0 0 Hlen).
  intros n Hn. specialize (Hnth (Z.of_nat n)). unfold byte_at in Hnth.
  rewrite Nat2Z.id in Hnth. apply Hnth. lia.
Qed.

Lemma byte_at_map (f : Z -> Z) (l : list Z) (i : Z) :
  0 <= i < Z.of_nat (length l) ->
  byte_at (map f l) i = f (byte_at l i).
Proof.
  intros Hi. unfold byte_at.
  rewrite (nth_indep (map f l) 0 (f 0)) by (rewrite length_map; lia).
  apply map_nth.
Qed.

Lemma byte_at_repeat (c : Z) (n : nat) (i : Z) :
  0 <= i < Z.of_nat n -> byte_at (repeat c n) i = c.
Proof. intros Hi. unfold byte_at. apply nth_repeat_lt. lia. Qed.

(** ** Memory accesses inside the objects *)

Lemma load_Data_ok (off n : Z) (run : run_t) :
  0 <= off -> 0 <= n -> off + n <= Z.of_nat (length (dynfile_data run)) ->
  load (Data off) n run = Ok (slice off n (dynfile_data run), run).
Proof.
  intros. unfold load, bind, get_data.
  replace (in_bounds off n (dynfile_data run)) with true; [reflexivity |].
  symmetry. apply in_bounds_true. lia.
Qed.

Lemma load_Ext_ok (buf : list Z) (off n : Z) (run : run_t) :
  0 <= off -> 0 <= n -> off + n <= Z.of_nat (length buf) ->
  load (Ext buf off) n run = Ok (slice off n buf, run).
Proof.
  intros. unfold load.
  replace (in_bounds off n buf) with true; [reflexivity |].
  symmetry. apply in_bounds_true. lia.
Qed.

Lemma store_ok (off : Z) (bs : list Z) (run : run_t) :
  0 <= off ->
  off + Z.of_nat (length bs) <= Z.of_nat (length (dynfile_data run)) ->
  store off bs run = Ok (tt, set_data (splice off bs (dynfile_data run)) run).
Proof.
  intros. unfold store, bind, get_data.
  replace (in_bounds off (Z.of_nat (length bs)) (dynfile_data run)) with true;
    [reflexivity |].
  symmetry. apply in_bounds_true. lia.
Qed.

Lemma load_ok (p : ptr) (n : Z) (run : run_t) :
  0 <= ptr_off p -> 0 <= n ->
  ptr_off p + n <= Z.of_nat (length (bytes_of p run)) ->
  load p n run = Ok (slice (ptr_off p) n (bytes_of p run), run).
Proof.
  destruct p; cbn [ptr_off bytes_of]; intros.
  - apply load_Data_ok; assumption.
  - apply load_Ext_ok; assumption.
Qed.

Lemma memmove_ok (off : Z) (src : ptr) (n : Z) (run : run_t) :
  0 <= ptr_off src -> 0 <= n ->
  ptr_off src + n <= Z.of_nat (length (bytes_of src run)) ->
  0 <= off -> off + n <= Z.of_nat (length (dynfile_data run)) ->
  memmove off src n run
    = Ok (tt, set_data
                (splice off (slice (ptr_off src) n (bytes_of src run))
                        (dynfile_data run)) run).
Proof.
  intros. unfold memmove, bind. rewrite load_ok by assumption.
  apply store_ok; [assumption |]. rewrite length_slice by assumption. lia.
Qed.

Lemma memset_ok (off c n : Z) (run : run_t) :
  0 <= off -> 0 <= n -> off + n <= Z.of_nat (length (dynfile_data run)) ->
  memset off c n run
    = Ok (tt, set_data
                (splice off (repeat (u8 c) (Z.to_nat n)) (dynfile_data run))
                run).
Proof.
  intros. unfold memset.
  destruct (Z.leb_spec 0 n); [| lia].
  apply store_ok; [assumption |]. rewrite repeat_length. lia.
Qed.

(** ** [mangle_Move] *)

Lemma byte_at_moved (from to n : Z) (d : list Z) (i : Z) :
  0 <= from -> 0 <= to -> 0 <= n ->
  from + n <= Z.of_nat (length d) -> to + n <= Z.of_nat (length d) ->
  0 <= i ->
  byte_at (moved from to n d) i =
    if (to <=? i) && (i <? to + n) then byte_at d (from + (i - to))
    else byte_at d i.
Proof.
  intros. unfold moved.
  rewrite byte_at_splice by (rewrite ?length_slice; lia).
  rewrite length_slice by lia. rewrite Z2Nat.id by lia.
  destruct (Z.leb_spec to i); cbn [andb]; [| reflexivity].
  destruct (Z.ltb_spec i (to + n)); [| reflexivity].
  apply byte_at_slice; lia.
Qed.

Lemma mangle_Move_out (off_from off_to len : Z) (run : run_t) :
  off_from >= dynfile_size run \/ off_to >= dynfile_size run ->
  mangle_Move off_from off_to len run = Ok (tt, run).
Proof.
  intros Hout. unfold mangle_Move, bind, get_size.
  destruct (Z.geb_spec off_from (dynfile_size run)); [reflexivity |].
  destruct (Z.geb_spec off_to (dynfile_size run)); [reflexivity | lia].
Qed.

Lemma mangle_Move_ok (off_from off_to len : Z) (run : run_t) :
  0 <= off_from < dynfile_size run -> 0 <= off_to < dynfile_size run ->
  0 <= len ->
  dynfile_size run < 18446744073709551616 ->
  dynfile_size run <= Z.of_nat (length (dynfile_data run)) ->
  mangle_Move off_from off_to len run
    = Ok (tt, set_data
                (moved off_from off_to
                       (Z.min (Z.min (dynfile_size run - off_from)
                                     (dynfile_size run - off_to)) len)
                       (dynfile_data run)) run).
Proof.
  intros Hfrom Hto Hlen Hsz Hcap. unfold mangle_Move, bind, get_size.
  destruct (Z.geb_spec off_from (dynfile_size run)); [lia |].
  destruct (Z.geb_spec off_to (dynfile_size run)); [lia |].
  rewrite !HF_MIN_spec, !u64_small by lia.
  replace (Z.min (Z.min len (dynfile_size run - off_from))
                 (dynfile_size run - off_to))
    with (Z.min (Z.min (dynfile_size run - off_from)
                       (dynfile_size run - off_to)) len) by lia.
  rewrite memmove_ok by (cbn [ptr_off bytes_of]; lia). reflexivity.
Qed.

Lemma length_moved (from to n : Z) (d : list Z) :
  0 <= from -> 0 <= to -> 0 <= n ->
  from + n <= Z.of_nat (length d) -> to + n <= Z.of_nat (length d) ->
  length (moved from to n d) = length d.
Proof.
  intros. unfold moved. apply length_splice; [lia |].
  rewrite length_slice by lia. lia.
Qed.

(** C4. [mangle_Move] leaves the input as it is when either offset is at
    or past [size]; otherwise it moves exactly
    [min (size - off_from) (size - off_to) len] bytes, and the outcome is
    that of reading the source bytes in full and then writing them at the
    destination: byte [i] of the destination range is the byte that was
    at [off_from + (i - off_to)] before the call, every other byte and
    the size are as before. *)
Theorem mangle_Move_read_then_write (off_from off_to len : Z) (run : run_t) :
  0 <= off_from -> 0 <= off_to -> 0 <= len ->
  dynfile_size run < 18446744073709551616 ->
  dynfile_size run <= Z.of_nat (length (dynfile_data run)) ->
  let size := dynfile_size run in
  let d := dynfile_data run in
  let n := Z.min (Z.min (size - off_from) (size - off_to)) len in
  (off_from >= size \/ off_to >= size ->
   mangle_Move off_from off_to len run = Ok (tt, run)) /\
  (off_from < size -> off_to < size ->
   mangle_Move off_from off_to len run
     = Ok (tt, set_data (moved off_from off_to n d) run) /\
   moved off_from off_to n d = splice off_to (slice off_from n d) d /\
   length (moved off_from off_to n d) = length d /\
   forall i, 0 <= i ->
     byte_at (moved off_from off_to n d) i =
       if (off_to <=? i) && (i <? off_to + n)
       then byte_at d (off_from + (i - off_to))
       else byte_at d i).
Proof.
  intros Hfrom Hto Hlen Hsz Hcap size d n. split.
  - apply mangle_Move_out.
  - intros Hf Ht. subst size d n.
    split; [apply mangle_Move_ok; lia |].
    split; [reflexivity |].
    split; [apply length_moved; lia |].
    intros i Hi. apply byte_at_moved; lia.
Qed.

Lemma mangle_Move_read_then_write_witness :
  mangle_Move 0 1 3 (sample_run [1; 2; 3; 4; 5] 4 [])
    = Ok (tt, sample_run [1; 1; 2; 3; 5] 4 []).
Proof.
  destruct (mangle_Move_read_then_write 0 1 3 (sample_run [1; 2; 3; 4; 5] 4 []))
    as [_ Hin]; [lia | lia | lia | cbn; lia | cbn; lia |].
  destruct Hin as (Hrun & _); [cbn; lia | cbn; lia |].
  exact Hrun.
Defined.

(** ** [mangle_Overwrite] *)

Lemma toPrintable_range (b : Z) : printable_byte (toPrintable b).
Proof.
  unfold printable_byte, toPrintable.
  assert (0 <= b mod 95 < 95) by (apply Z.mod_pos_bound; lia). lia.
Qed.

Lemma set_data_same (run : run_t) : set_data (dynfile_data run) run = run.
Proof. destruct run; reflexivity. Qed.

Lemma splice_nil (off : Z) (l : list Z) : splice off [] l = l.
Proof.
  unfold splice. cbn [app length]. rewrite Nat.add_0_r. apply firstn_skipn.
Qed.

Lemma slice_splice (off : Z) (bs l : list Z) :
  0 <= off -> off + Z.of_nat (length bs) <= Z.of_nat (length l) ->
  slice off (Z.of_nat (length bs)) (splice off bs l) = bs.
Proof.
  intros Hoff Hb. apply byte_at_ext.
  - rewrite length_slice; rewrite ?length_splice; lia.
  - intros i Hi. rewrite length_slice in Hi by (rewrite ?length_splice; lia).
    rewrite byte_at_slice by lia. rewrite byte_at_splice by lia.
    destruct (Z.leb_spec off (off + i)); [| lia].
    destruct (Z.ltb_spec (off + i) (off + Z.of_nat (length bs))); [| lia].
    cbn [andb]. f_equal. lia.
Qed.

Lemma splice_splice (off : Z) (bs bs' l : list Z) :
  0 <= off -> off + Z.of_nat (length bs) <= Z.of_nat (length l) ->
  length bs' = length bs ->
  splice off bs' (splice off bs l) = splice off bs' l.
Proof.
  intros Hoff Hb Hlen. apply byte_at_ext.
  - rewrite !length_splice; rewrite ?length_splice; lia.
  - intros i Hi.
    rewrite !byte_at_splice by (rewrite ?length_splice; lia).
    rewrite Hlen. destruct ((off <=? i) && (i <? off + Z.of_nat (length bs)));
      reflexivity.
Qed.

Lemma util_turnToPrintable_ok (off n : Z) (bs : list Z) (run : run_t) :
  n = Z.of_nat (length bs) -> 0 <= off ->
  off + n <= Z.of_nat (length (dynfile_data run)) ->
  util_turnToPrintable off n (set_data (splice off bs (dynfile_data run)) run)
    = Ok (tt, set_data (splice off (map toPrintable bs) (dynfile_data run)) run).
Proof.
  intros -> Hoff Hb. unfold util_turnToPrintable, bind.
  rewrite load_Data_ok; cbn [dynfile_data set_data];
    rewrite ?length_splice; try lia.
  rewrite slice_splice by lia.
  rewrite store_ok; cbn [dynfile_data set_data];
    rewrite ?length_splice, ?length_map; try lia.
  rewrite splice_splice by (rewrite ?length_map; lia). reflexivity.
Qed.

Lemma length_written (src : ptr) (n : Z) (printable : bool) (run : run_t) :
  0 <= ptr_off src -> 0 <= n ->
  ptr_off src + n <= Z.of_nat (length (bytes_of src run)) ->
  length (written src n printable run) = Z.to_nat n.
Proof.
  intros. unfold written.
  destruct printable; rewrite ?length_map; apply length_slice; assumption.
Qed.

Lemma byte_at_written (src : ptr) (n : Z) (printable : bool) (run : run_t)
      (i : Z) :
  0 <= ptr_off src -> 0 <= i < n ->
  ptr_off src + n <= Z.of_nat (length (bytes_of src run)) ->
  byte_at (written src n printable run) i =
    let b := byte_at (bytes_of src run) (ptr_off src + i) in
    if printable then toPrintable b else b.
Proof.
  intros. unfold written. destruct printable; cbn zeta.
  - rewrite byte_at_map by (rewrite length_slice; lia).
    rewrite byte_at_slice by lia. reflexivity.
  - apply byte_at_slice; lia.
Qed.

Lemma mangle_Overwrite_ok (off : Z) (src : ptr) (len : Z) (printable : bool)
      (run : run_t) :
  0 <= off <= dynfile_size run -> 0 <= len ->
  dynfile_size run < 18446744073709551616 ->
  dynfile_size run <= Z.of_nat (length (dynfile_data run)) ->
  let n := Z.min len (dynfile_size run - off) in
  0 <= ptr_off src ->
  ptr_off src + n <= Z.of_nat (length (bytes_of src run)) ->
  mangle_Overwrite off src len printable run
    = Ok (tt, set_data (splice off (written src n printable run)
                               (dynfile_data run)) run).
Proof.
  intros Hoff Hlen Hsz Hcap n Hsrc Hread. unfold mangle_Overwrite.
  destruct (Z.eqb_spec len 0) as [-> | Hnz].
  - replace n with 0 by lia. unfold written, slice. cbn [Z.to_nat firstn].
    destruct printable; cbn [map]; rewrite splice_nil, set_data_same;
      reflexivity.
  - unfold bind at 1. unfold get_size. rewrite u64_small by lia.
    replace (if len >? dynfile_size run - off
             then dynfile_size run - off else len) with n
      by (destruct (Z.gtb_spec len (dynfile_size run - off)); lia).
    unfold bind. rewrite memmove_ok by lia.
    assert (Hl : length (slice (ptr_off src) n (bytes_of src run))
                 = Z.to_nat n) by (apply length_slice; lia).
    unfold written, when. destruct printable; [| reflexivity].
    rewrite util_turnToPrintable_ok by (rewrite ?Hl; lia). reflexivity.
Qed.



(** Within the input [mangle_Overwrite] clamps as intended: for an
    offset [off <= size] it copies exactly [min len (size - off)] bytes of
    [src] to [data + off], each of them remapped by [toPrintable], hence
    in [0x20, 0x7E], when [printable] is set; no byte outside
    [off, off + min len (size - off)) changes, and when [off = size] or
    [len = 0] the call changes nothing at all. *)
Theorem mangle_Overwrite_copies (off : Z) (src : ptr) (len : Z)
        (printable : bool) (run : run_t) :
  0 <= off <= dynfile_size run -> 0 <= len ->
  dynfile_size run < 18446744073709551616 ->
  dynfile_size run <= Z.of_nat (length (dynfile_data run)) ->
  0 <= ptr_off src ->
  ptr_off src + Z.min len (dynfile_size run - off)
    <= Z.of_nat (length (bytes_of src run)) ->
  exists d',
    mangle_Overwrite off src len printable run = Ok (tt, set_data d' run) /\
    length d' = length (dynfile_data run) /\
    (forall i, 0 <= i ->
       byte_at d' i =
         if (off <=? i) && (i <? off + Z.min len (dynfile_size run - off))
         then
           let b := byte_at (bytes_of src run) (ptr_off src + (i - off)) in
           if printable then toPrintable b else b
         else byte_at (dynfile_data run) i) /\
    (printable = true ->
     forall i, off <= i < off + Z.min len (dynfile_size run - off) ->
       printable_byte (byte_at d' i)) /\
    (off = dynfile_size run \/ len = 0 ->
     mangle_Overwrite off src len printable run = Ok (tt, run)).
Proof.
  intros Hoff Hlen Hsz Hcap Hsrc Hread.
  set (n := Z.min len (dynfile_size run - off)) in *.
  assert (Hw : length (written src n printable run) = Z.to_nat n)
    by (apply length_written; lia).
  assert (Hpt : forall i, 0 <= i ->
            byte_at (splice off (written src n printable run)
                            (dynfile_data run)) i =
            if (off <=? i) && (i <? off + n)
            then
              let b := byte_at (bytes_of src run) (ptr_off src + (i - off)) in
              if printable then toPrintable b else b
            else byte_at (dynfile_data run) i).
  { intros i Hi. rewrite byte_at_splice by (rewrite ?Hw; lia).
    rewrite Hw, Z2Nat.id by lia.
    destruct (Z.leb_spec off i); cbn [andb]; [| reflexivity].
    destruct (Z.ltb_spec i (off + n)); [| reflexivity].
    apply byte_at_written; lia. }
  exists (splice off (written src n printable run) (dynfile_data run)).
  split; [apply mangle_Overwrite_ok; assumption |].
  split; [apply length_splice; rewrite ?Hw; lia |].
  split; [exact Hpt |]. split.
  - intros -> i Hi. rewrite Hpt by lia.
    destruct (Z.leb_spec off i); [| lia].
    destruct (Z.ltb_spec i (off + n)); [| lia].
    cbn [andb]. apply toPrintable_range.
  - intros Hnop. rewrite mangle_Overwrite_ok by assumption.
    fold n. replace n with 0 by lia.
    unfold written, slice. cbn [Z.to_nat firstn].
    destruct printable; cbn [map]; rewrite splice_nil, set_data_same;
      reflexivity.
Qed.

(** No guard stands before the subtraction [size - off] of
    [mangle_Overwrite]: past [size], an offset that no caller passes, it
    wraps around in [size_t] and [len] is not clamped.  With [size = 2] in
    a buffer of capacity 4, one byte at offset 3 is written. *)
Theorem mangle_Overwrite_past_size :
  3 >= dynfile_size (sample_run [65; 66; 67; 68] 2 []) /\
  mangle_Overwrite 3 (Ext [90] 0) 1 false (sample_run [65; 66; 67; 68] 2 [])
    = Ok (tt, sample_run [65; 66; 67; 90] 2 []) /\
  mangle_Overwrite 3 (Ext [90] 0) 1 false (sample_run [65; 66; 67; 68] 2 [])
    <> Ok (tt, sample_run [65; 66; 67; 68] 2 []).
Proof.
  split; [vm_compute; discriminate |].
  split; [vm_compute; reflexivity |].
  vm_compute. discriminate.
Qed.

Lemma mangle_Overwrite_copies_witness :
  exists d',
    mangle_Overwrite 1 (Ext [200; 201; 202] 0) 3 true
                     (sample_run [65; 66; 67; 68] 3 [])
      = Ok (tt, set_data d' (sample_run [65; 66; 67; 68] 3 [])) /\
    byte_at d' 1 = toPrintable 200 /\ byte_at d' 3 = 68.
Proof.
  destruct (mangle_Overwrite_copies 1 (Ext [200; 201; 202] 0) 3 true
              (sample_run [65; 66; 67; 68] 3 []))
    as (d' & Hrun & _ & Hpt & _);
    [cbn; lia | lia | cbn; lia | cbn; lia | cbn; lia | cbn; lia |].
  exists d'. split; [exact Hrun |].
  split; [rewrite Hpt by lia; reflexivity | rewrite Hpt by lia; reflexivity].
Defined.

(** ** [mangle_Inflate] *)

Lemma set_size_same (run : run_t) : set_size (dynfile_size run) run = run.
Proof. destruct run; reflexivity. Qed.

Lemma mangle_Inflate_full (g : honggfuzz_t) (off len : Z) (printable : bool)
      (run : run_t) :
  dynfile_size run >= mutate_maxInputSz g ->
  mangle_Inflate g off len printable run = Ok (0, run).
Proof.
  intros Hfull. unfold mangle_Inflate, bind, get_size.
  destruct (Z.geb_spec (dynfile_size run) (mutate_maxInputSz g));
    [reflexivity | lia].
Qed.

Lemma mangle_Inflate_ok (g : honggfuzz_t) (off len : Z) (printable : bool)
      (run : run_t) :
  0 <= off < dynfile_size run -> 0 <= len ->
  dynfile_size run < mutate_maxInputSz g ->
  mutate_maxInputSz g < 18446744073709551616 ->
  mutate_maxInputSz g <= Z.of_nat (length (dynfile_data run)) ->
  let n := Z.min len (mutate_maxInputSz g - dynfile_size run) in
  mangle_Inflate g off len printable run
    = Ok (n, set_data (inflated off n (dynfile_size run) printable
                                (dynfile_data run))
               (set_size (dynfile_size run + n) run)).
Proof.
  intros Hoff Hlen Hroom Hmax Hcap n. unfold mangle_Inflate.
  unfold bind at 1. unfold get_size at 1.
  destruct (Z.geb_spec (dynfile_size run) (mutate_maxInputSz g)); [lia |].
  rewrite (u64_small (mutate_maxInputSz g - dynfile_size run)) by lia.
  replace (if len >? mutate_maxInputSz g - dynfile_size run
           then mutate_maxInputSz g - dynfile_size run else len) with n
    by (destruct (Z.gtb_spec len (mutate_maxInputSz g - dynfile_size run));
        lia).
  rewrite !u64_small by lia.
  unfold bind at 1. unfold input_setSize.
  unfold bind at 1. unfold get_size at 1.
  unfold bind at 1.
  rewrite mangle_Move_ok by (cbn [dynfile_size dynfile_data set_size]; lia).
  cbn [dynfile_size dynfile_data set_size].
  replace (Z.min (Z.min (dynfile_size run + n - off)
                        (dynfile_size run + n - (off + n)))
                 (dynfile_size run + n))
    with (dynfile_size run - off) by lia.
  unfold inflated, when. destruct printable; [| reflexivity].
  unfold bind. rewrite memset_ok;
    cbn [dynfile_size dynfile_data set_size set_data];
    rewrite ?length_moved; try lia.
  reflexivity.
Qed.

Lemma byte_at_inflated (off n size : Z) (printable : bool) (d : list Z)
      (i : Z) :
  0 <= off < size -> 0 <= n -> size + n <= Z.of_nat (length d) -> 0 <= i ->
  byte_at (inflated off n size printable d) i =
    if printable && (off <=? i) && (i <? off + n) then 32
    else if (off + n <=? i) && (i <? size + n) then byte_at d (i - n)
    else byte_at d i.
Proof.
  intros Hoff Hn Hcap Hi. unfold inflated.
  assert (Hm : byte_at (moved off (off + n) (size - off) d) i =
               if (off + n <=? i) && (i <? size + n) then byte_at d (i - n)
               else byte_at d i).
  { rewrite byte_at_moved by lia.
    replace (off + n + (size - off)) with (size + n) by lia.
    destruct ((off + n <=? i) && (i <? size + n)); [f_equal; lia | reflexivity]. }
  destruct printable; cbn [andb]; [| exact Hm].
  rewrite byte_at_splice by (rewrite ?repeat_length, ?length_moved; lia).
  rewrite repeat_length, Z2Nat.id by lia.
  destruct (Z.leb_spec off i); cbn [andb]; [| exact Hm].
  destruct (Z.ltb_spec i (off + n)); [| exact Hm].
  apply byte_at_repeat. lia.
Qed.

Lemma length_inflated (off n size : Z) (printable : bool) (d : list Z) :
  0 <= off < size -> 0 <= n -> size + n <= Z.of_nat (length d) ->
  length (inflated off n size printable d) = length d.
Proof.
  intros. unfold inflated. destruct printable.
  - rewrite length_splice; rewrite ?repeat_length, ?length_moved; lia.
  - apply length_moved; lia.
Qed.

(** C5. For [off < size], [mangle_Inflate] returns
    [actual = min len (maxInputSz - size)] and grows [size] by exactly
    that much; the bytes before [off] stay, the bytes that were at
    [off, old size) are found [actual] places to the right, and the gap
    holds spaces when [printable] is set.  With [size = maxInputSz] on
    entry it returns 0 and the whole state, contents and size, is
    unchanged. *)
Theorem mangle_Inflate_shifts (g : honggfuzz_t) (off len : Z)
        (printable : bool) (run : run_t) :
  0 <= off < dynfile_size run -> 0 <= len ->
  dynfile_size run <= mutate_maxInputSz g ->
  mutate_maxInputSz g < 18446744073709551616 ->
  mutate_maxInputSz g <= Z.of_nat (length (dynfile_data run)) ->
  let actual := Z.min len (mutate_maxInputSz g - dynfile_size run) in
  exists run',
    mangle_Inflate g off len printable run = Ok (actual, run') /\
    dynfile_size run' = dynfile_size run + actual /\
    length (dynfile_data run') = length (dynfile_data run) /\
    (forall i, 0 <= i < off ->
       byte_at (dynfile_data run') i = byte_at (dynfile_data run) i) /\
    (forall i, off <= i < dynfile_size run ->
       byte_at (dynfile_data run') (i + actual)
         = byte_at (dynfile_data run) i) /\
    (printable = true ->
     forall i, off <= i < off + actual -> byte_at (dynfile_data run') i = 32) /\
    (dynfile_size run = mutate_maxInputSz g -> actual = 0 /\ run' = run).
Proof.
  intros Hoff Hlen Hle Hmax Hcap actual.
  destruct (Z.eq_dec (dynfile_size run) (mutate_maxInputSz g)) as [Heq | Hne].
  - exists run. assert (Ha : actual = 0) by lia. rewrite Ha.
    split; [apply mangle_Inflate_full; lia |].
    split; [lia |]. split; [reflexivity |].
    split; [reflexivity |].
    split; [intros i _; f_equal; lia |].
    split; [intros _ i Hi; lia | split; reflexivity].
  - eexists. split; [apply mangle_Inflate_ok; lia |].
    fold actual. cbn [dynfile_size dynfile_data set_size set_data].
    split; [reflexivity |].
    split; [apply length_inflated; lia |].
    split; [| split; [| split]].
    + intros i Hi. rewrite byte_at_inflated by lia.
      destruct (Z.leb_spec off i); [lia |]. rewrite andb_false_r. cbn [andb].
      destruct (Z.leb_spec (off + actual) i); [lia | reflexivity].
    + intros i Hi. rewrite byte_at_inflated by lia.
      destruct (Z.ltb_spec (i + actual) (off + actual)); [lia |].
      rewrite andb_false_r.
      destruct (Z.leb_spec (off + actual) (i + actual)); [| lia].
      destruct (Z.ltb_spec (i + actual) (dynfile_size run + actual)); [| lia].
      cbn [andb]. f_equal. lia.
    + intros -> i Hi. rewrite byte_at_inflated by lia.
      destruct (Z.leb_spec off i); [| lia].
      destruct (Z.ltb_spec i (off + actual)); [| lia]. reflexivity.
    + intros Heq. lia.
Qed.

Lemma mangle_Inflate_shifts_witness :
  exists run',
    mangle_Inflate (sample_global 6 true) 1 2 true
                   (sample_run [65; 66; 67; 68; 0; 0; 0] 4 [])
      = Ok (2, run') /\
    dynfile_size run' = 6 /\
    byte_at (dynfile_data run') 1 = 32 /\
    byte_at (dynfile_data run') 3 = 66.
Proof.
  destruct (mangle_Inflate_shifts (sample_global 6 true) 1 2 true
              (sample_run [65; 66; 67; 68; 0; 0; 0] 4 []))
    as (run' & Hrun & Hsz & _ & _ & Hshift & Hgap & _);
    [cbn; lia | lia | cbn; lia | cbn; lia | cbn; lia |].
  exists run'. split; [exact Hrun |]. split; [exact Hsz |].
  split; [apply Hgap; [reflexivity | cbn; lia] |].
  apply (Hshift 1). cbn. lia.
Defined.

(** C6. The cube in [mangle_getLen] is computed in 64 bits.  With
    [max = 4194304 = 2^22], a value [_HF_INPUT_MAX_SIZE] allows as soon
    as it is at least 4 MiB, [max3] wraps around to 0 and the division
    is undefined; with [max = 2642246], the first value whose cube
    exceeds [2^64], the draw [rnd = 3370204561656] gives
    [ret = 9212122 > max] and the check on [ret > max] is reached. *)
Theorem mangle_getLen_cube_overflow (hf : Z) (run : run_t) :
  4194304 <= hf ->
  u64 (urandom run (urandom_pos run)) = 3370204561655 ->
  mangle_getLen hf 4194304 run = Abort Undefined /\
  mangle_getLen hf 2642246 run = Abort LogFatal.
Proof.
  intros Hhf Htape. unfold mangle_getLen.
  destruct (Z.gtb_spec 4194304 hf); [lia |].
  destruct (Z.gtb_spec 2642246 hf); [lia |].
  change (4194304 =? 0) with false. change (4194304 =? 1) with false.
  change (2642246 =? 0) with false. change (2642246 =? 1) with false.
  unfold util_rndGet, urandom_read, bind. cbv beta iota. rewrite Htape.
  split; vm_compute; reflexivity.
Qed.

Lemma mangle_getLen_cube_overflow_witness :
  mangle_getLen 134217728 4194304 (sample_run [] 4194304 [3370204561655])
    = Abort Undefined /\
  mangle_getLen 134217728 2642246 (sample_run [] 4194304 [3370204561655])
    = Abort LogFatal.
Proof.
  apply (mangle_getLen_cube_overflow 134217728
           (sample_run [] 4194304 [3370204561655])).
  - lia.
  - reflexivity.
Defined.

(** ** The dispatcher with mutation disabled *)

(** C7. With [run->mutationsPerRun == 0], [mangle_mangleContent] returns
    at once: the state after the call, the size and every byte of the
    input included, is the state before it. *)
Theorem mangle_mangleContent_disabled
        (hf : Z) (g : honggfuzz_t) (slow_factor : Z) (run : run_t) :
  mutationsPerRun run = 0 ->
  mangle_mangleContent hf g slow_factor run = Ok (tt, run).
Proof.
  intros Hz. unfold mangle_mangleContent, bind, get_mutationsPerRun.
  rewrite Hz. reflexivity.
Qed.

Lemma mangle_mangleContent_disabled_witness :
  mangle_mangleContent 134217728 (sample_global 8 false) 0
                       (mkRun [1; 2; 3; 0] 3 0 (tape [7]) 0 [] 0)
    = Ok (tt, mkRun [1; 2; 3; 0] 3 0 (tape [7]) 0 [] 0).
Proof.
  apply (mangle_mangleContent_disabled 134217728 (sample_global 8 false) 0
           (mkRun [1; 2; 3; 0] 3 0 (tape [7]) 0 [] 0)).
  reflexivity.
Defined.

(** ** Weakest preconditions

    [wp ab m run Q]: when [m] returns from [run], [Q] holds of the result
    and of the final state; when it aborts, [ab] holds.  With [ab := True]
    this is partial correctness, with [ab := False] it also says that [m]
    returns. *)

Lemma keeps_refl (run : run_t) : keeps run run.
Proof. repeat split. Qed.

Lemma keeps_trans (a b c : run_t) : keeps a b -> keeps b c -> keeps a c.
Proof.
  unfold keeps. intros (?&?&?&?) (?&?&?&?). repeat split; congruence.
Qed.

Lemma wp_ret {A} (ab : Prop) (a : A) (run : run_t) (Q : A -> run_t -> Prop) :
  Q a run -> wp ab (ret a) run Q.
Proof. intros H. exact H. Qed.

Lemma wp_bind {A B} (ab : Prop) (m : M A) (f : A -> M B) (run : run_t)
      (Q : B -> run_t -> Prop) :
  wp ab m run (fun a run' => wp ab (f a) run' Q) -> wp ab (bind m f) run Q.
Proof.
  unfold wp, bind. destruct (m run) as [[a run'] | e]; intros H; exact H.
Qed.

Lemma wp_mono {A} (ab : Prop) (m : M A) (run : run_t)
      (Q Q' : A -> run_t -> Prop) :
  wp ab m run Q -> (forall a run', Q a run' -> Q' a run') -> wp ab m run Q'.
Proof.
  unfold wp. destruct (m run) as [[a run'] | e]; intros H HQ;
    [apply HQ; exact H | exact H].
Qed.

Lemma wp_intro {A} (ab : Prop) (m : M A) (run : run_t)
      (Q : A -> run_t -> Prop) :
  (forall a run', m run = Ok (a, run') -> Q a run') ->
  (ab \/ exists r, m run = Ok r) ->
  wp ab m run Q.
Proof.
  unfold wp. destruct (m run) as [[a run'] | e]; intros HQ Hok.
  - apply HQ. reflexivity.
  - destruct Hok as [Ha | [r Hr]]; [exact Ha | discriminate].
Qed.

Lemma wp_returns {A} (m : M A) (run : run_t) (Q : A -> run_t -> Prop) :
  wp False m run Q -> exists a run', m run = Ok (a, run') /\ Q a run'.
Proof.
  unfold wp. destruct (m run) as [[a run'] | e]; intros H; [| contradiction].
  exists a, run'. split; [reflexivity | exact H].
Qed.

Lemma wp_result {A} (m : M A) (run : run_t) (Q : A -> run_t -> Prop)
      (a : A) (run' : run_t) :
  wp True m run Q -> m run = Ok (a, run') -> Q a run'.
Proof. unfold wp. intros H Heq. rewrite Heq in H. exact H. Qed.

Lemma wp_abort {A} (ab : Prop) (m : M A) (run : run_t)
      (Q : A -> run_t -> Prop) :
  ab -> wp True m run Q -> wp ab m run Q.
Proof.
  unfold wp. destruct (m run) as [[a run'] | e]; intros Ha H;
    [exact H | exact Ha].
Qed.

Lemma wp_LOG_F {A} (ab : Prop) (run : run_t) (Q : A -> run_t -> Prop) :
  ab -> wp ab LOG_F run Q.
Proof. intros H. exact H. Qed.

Lemma wp_undefined {A} (ab : Prop) (run : run_t) (Q : A -> run_t -> Prop) :
  ab -> wp ab undefined run Q.
Proof. intros H. exact H. Qed.

Lemma wp_when (ab : Prop) (b : bool) (m : M unit) (run : run_t)
      (Q : unit -> run_t -> Prop) :
  (b = true -> wp ab m run Q) -> (b = false -> Q tt run) ->
  wp ab (when b m) run Q.
Proof. destruct b; intros H1 H2; [apply H1 | apply H2]; reflexivity. Qed.

Lemma wp_get_size (ab : Prop) (run : run_t) (Q : Z -> run_t -> Prop) :
  Q (dynfile_size run) run -> wp ab get_size run Q.
Proof. intros H. exact H. Qed.

Lemma wp_input_setSize (ab : Prop) (sz : Z) (run : run_t)
      (Q : unit -> run_t -> Prop) :
  Q tt (set_size sz run) -> wp ab (input_setSize sz) run Q.
Proof. intros H. exact H. Qed.

Lemma wp_util_rnd64 (ab : Prop) (run : run_t) (Q : Z -> run_t -> Prop) :
  (forall r run', 0 <= r < 18446744073709551616 -> keeps run run' ->
                  Q r run') ->
  wp ab util_rnd64 run Q.
Proof.
  intros H. unfold wp, util_rnd64, urandom_read.
  apply H; [apply u64_range | repeat split].
Qed.

Lemma wp_util_rndGet (ab : Prop) (min max : Z) (run : run_t)
      (Q : Z -> run_t -> Prop) :
  0 <= min -> max < 18446744073709551616 ->
  ab \/ (min <= max /\ max - min + 1 < 18446744073709551616) ->
  (forall r run', min <= r <= max -> keeps run run' -> Q r run') ->
  wp ab (util_rndGet min max) run Q.
Proof.
  intros Hmin Hmax Hpre HQ. apply wp_intro.
  - intros r run' Heq. apply util_rndGet_inv in Heq; [| lia | lia].
    destruct Heq as [Hr ->]. apply HQ; [exact Hr | repeat split].
  - destruct Hpre as [Ha | [Hle Hd]]; [left; exact Ha | right].
    destruct (util_rndGet_ok min max run) as (r & Hr & _); [lia | lia | lia |].
    eexists. exact Hr.
Qed.

Lemma same_file_keeps (run run' : run_t) :
  same_file run run' -> keeps run run'.
Proof.
  unfold same_file, keeps. intros (Hd & Hs & Hm & Hc).
  repeat split; congruence.
Qed.

Lemma wp_mangle_getLen (ab : Prop) (hf max : Z) (run : run_t)
      (Q : Z -> run_t -> Prop) :
  ab \/ (1 <= max <= hf /\ max <= getLen_cube_limit) ->
  (forall r run', 1 <= r <= max -> same_file run run' -> Q r run') ->
  wp ab (mangle_getLen hf max) run Q.
Proof.
  intros Hpre HQ. apply wp_intro.
  - intros r run' Heq. apply mangle_getLen_inv in Heq.
    destruct Heq as [Hr Hsf]. apply HQ; assumption.
  - destruct Hpre as [Ha | [H1 H2]]; [left; exact Ha | right].
    destruct (mangle_getLen_ok hf max run H1 H2) as (r & run' & Hr & _).
    eexists. exact Hr.
Qed.

Lemma wp_mangle_getOffSet (ab : Prop) (hf : Z) (run : run_t)
      (Q : Z -> run_t -> Prop) :
  dynfile_size run < 18446744073709551616 ->
  ab \/ (1 <= dynfile_size run <= hf /\ dynfile_size run <= getLen_cube_limit) ->
  (forall off run', 0 <= off < dynfile_size run -> same_file run run' ->
                    Q off run') ->
  wp ab (mangle_getOffSet hf) run Q.
Proof.
  intros Hsz Hpre HQ. unfold mangle_getOffSet.
  apply wp_bind, wp_get_size, wp_bind.
  apply wp_mangle_getLen; [exact Hpre |].
  intros r run' Hr Hsf. apply wp_ret.
  rewrite u64_small by lia. apply HQ; [lia | exact Hsf].
Qed.

(** ** The memory primitives, returning or not *)

Lemma load_inv (p : ptr) (n : Z) (run : run_t) (bs : list Z) (run' : run_t) :
  load p n run = Ok (bs, run') ->
  run' = run /\ 0 <= n /\ length bs = Z.to_nat n.
Proof.
  destruct p as [off | buf off]; unfold load, bind, get_data.
  - destruct (in_bounds off n (dynfile_data run)) eqn:Hb; [| discriminate].
    apply in_bounds_true in Hb. intros H. inversion H; subst.
    repeat split; [lia | apply length_slice; lia].
  - destruct (in_bounds off n buf) eqn:Hb; [| discriminate].
    apply in_bounds_true in Hb. intros H. inversion H; subst.
    repeat split; [lia | apply length_slice; lia].
Qed.

Lemma store_inv (off : Z) (bs : list Z) (run : run_t) (run' : run_t) :
  store off bs run = Ok (tt, run') -> keeps run run'.
Proof.
  unfold store, bind, get_data, put_data.
  destruct (in_bounds off (Z.of_nat (length bs)) (dynfile_data run)) eqn:Hb;
    [| discriminate].
  apply in_bounds_true in Hb. intros H. inversion H; subst.
  repeat split. cbn [dynfile_data set_data]. apply length_splice; lia.
Qed.

Lemma wp_load (ab : Prop) (p : ptr) (n : Z) (run : run_t)
      (Q : list Z -> run_t -> Prop) :
  ab \/ (0 <= ptr_off p /\ 0 <= n /\
         ptr_off p + n <= Z.of_nat (length (bytes_of p run))) ->
  (forall bs, 0 <= n -> length bs = Z.to_nat n -> Q bs run) ->
  wp ab (load p n) run Q.
Proof.
  intros Hpre HQ. apply wp_intro.
  - intros bs run' Heq. apply load_inv in Heq.
    destruct Heq as (-> & Hn & Hl). apply HQ; assumption.
  - destruct Hpre as [Ha | (H1 & H2 & H3)]; [left; exact Ha | right].
    eexists. apply load_ok; assumption.
Qed.

Lemma wp_store (ab : Prop) (off : Z) (bs : list Z) (run : run_t)
      (Q : unit -> run_t -> Prop) :
  ab \/ (0 <= off /\
         off + Z.of_nat (length bs) <= Z.of_nat (length (dynfile_data run))) ->
  (forall run', keeps run run' -> Q tt run') ->
  wp ab (store off bs) run Q.
Proof.
  intros Hpre HQ. apply wp_intro.
  - intros [] run' Heq. apply HQ. eapply store_inv. exact Heq.
  - destruct Hpre as [Ha | (H1 & H2)]; [left; exact Ha | right].
    eexists. apply store_ok; assumption.
Qed.

Lemma wp_load_byte (ab : Prop) (off : Z) (run : run_t)
      (Q : Z -> run_t -> Prop) :
  ab \/ (0 <= off < Z.of_nat (length (dynfile_data run))) ->
  (forall b, Q b run) ->
  wp ab (load_byte off) run Q.
Proof.
  intros Hpre HQ. unfold load_byte. apply wp_bind, wp_load.
  - destruct Hpre as [Ha | H]; [left; exact Ha | right].
    cbn [ptr_off bytes_of]. lia.
  - intros bs _ _. apply wp_ret, HQ.
Qed.

Lemma wp_store_byte (ab : Prop) (off v : Z) (run : run_t)
      (Q : unit -> run_t -> Prop) :
  ab \/ (0 <= off < Z.of_nat (length (dynfile_data run))) ->
  (forall run', keeps run run' -> Q tt run') ->
  wp ab (store_byte off v) run Q.
Proof.
  intros Hpre HQ. unfold store_byte. apply wp_store; [| exact HQ].
  destruct Hpre as [Ha | H]; [left; exact Ha | right]. cbn [length]. lia.
Qed.

Lemma wp_memset (ab : Prop) (off c n : Z) (run : run_t)
      (Q : unit -> run_t -> Prop) :
  ab \/ (0 <= off /\ 0 <= n /\
         off + n <= Z.of_nat (length (dynfile_data run))) ->
  (forall run', keeps run run' -> Q tt run') ->
  wp ab (memset off c n) run Q.
Proof.
  intros Hpre HQ. unfold memset.
  destruct (Z.leb_spec 0 n).
  - apply wp_store; [| exact HQ].
    destruct Hpre as [Ha | H']; [left; exact Ha | right].
    rewrite repeat_length. lia.
  - apply wp_undefined. destruct Hpre as [Ha | H']; [exact Ha | lia].
Qed.

Lemma wp_memmove (ab : Prop) (off : Z) (src : ptr) (n : Z) (run : run_t)
      (Q : unit -> run_t -> Prop) :
  ab \/ (0 <= ptr_off src /\ 0 <= n /\
         ptr_off src + n <= Z.of_nat (length (bytes_of src run)) /\
         0 <= off /\ off + n <= Z.of_nat (length (dynfile_data run))) ->
  (forall run', keeps run run' -> Q tt run') ->
  wp ab (memmove off src n) run Q.
Proof.
  intros Hpre HQ. unfold memmove. apply wp_bind, wp_load.
  - destruct Hpre as [Ha | H]; [left; exact Ha | right]. lia.
  - intros bs Hn Hl. apply wp_store; [| exact HQ].
    destruct Hpre as [Ha | H]; [left; exact Ha | right]. lia.
Qed.

Lemma wp_util_turnToPrintable (ab : Prop) (off sz : Z) (run : run_t)
      (Q : unit -> run_t -> Prop) :
  ab \/ (0 <= off /\ 0 <= sz /\
         off + sz <= Z.of_nat (length (dynfile_data run))) ->
  (forall run', keeps run run' -> Q tt run') ->
  wp ab (util_turnToPrintable off sz) run Q.
Proof.
  intros Hpre HQ. unfold util_turnToPrintable. apply wp_bind, wp_load.
  - destruct Hpre as [Ha | H]; [left; exact Ha | right].
    cbn [ptr_off bytes_of]. lia.
  - intros bs Hn Hl. apply wp_store; [| exact HQ].
    destruct Hpre as [Ha | H]; [left; exact Ha | right].
    rewrite length_map. lia.
Qed.

Lemma wp_index {A} (ab : Prop) (l : list A) (i : Z) (run : run_t)
      (Q : A -> run_t -> Prop) :
  ab \/ (0 <= i < Z.of_nat (length l)) ->
  (forall a, In a l -> Q a run) ->
  wp ab (index l i) run Q.
Proof.
  intros Hpre HQ. unfold index.
  destruct (Z.leb_spec 0 i).
  - destruct (nth_error l (Z.to_nat i)) as [a |] eqn:Hn.
    + apply wp_ret, HQ. eapply nth_error_In. exact Hn.
    + apply wp_undefined. destruct Hpre as [Ha | H']; [exact Ha |].
      apply nth_error_None in Hn. lia.
  - apply wp_undefined. destruct Hpre as [Ha | H']; [exact Ha | lia].
Qed.

Lemma wp_replicateM {A} (ab : Prop) (n : nat) (m : M A) (run : run_t)
      (Q : list A -> run_t -> Prop) :
  (forall run1 (Q1 : A -> run_t -> Prop),
     keeps run run1 ->
     (forall a run2, keeps run1 run2 -> Q1 a run2) -> wp ab m run1 Q1) ->
  (forall l run', length l = n -> keeps run run' -> Q l run') ->
  wp ab (replicateM n m) run Q.
Proof.
  intros Hm. revert Q.
  assert (Hgen : forall run0, keeps run run0 ->
            forall Q : list A -> run_t -> Prop,
              (forall l run', length l = n -> keeps run0 run' -> Q l run') ->
              wp ab (replicateM n m) run0 Q).
  { induction n as [| n IH]; intros run0 Hk Q HQ; cbn [replicateM].
    - apply wp_ret, HQ; [reflexivity | apply keeps_refl].
    - apply wp_bind, Hm; [exact Hk |]. intros a run2 Hk2.
      apply wp_bind, IH; [eapply keeps_trans; eassumption |].
      intros l run3 Hl Hk3. apply wp_ret, HQ; [cbn; lia |].
      eapply keeps_trans; eassumption. }
  intros Q HQ. apply Hgen; [apply keeps_refl | exact HQ].
Qed.

Lemma wp_util_rndBuf (ab : Prop) (sz : Z) (run : run_t)
      (Q : list Z -> run_t -> Prop) :
  (forall l run', length l = Z.to_nat sz -> keeps run run' -> Q l run') ->
  wp ab (util_rndBuf sz) run Q.
Proof.
  intros HQ. unfold util_rndBuf. apply wp_replicateM; [| exact HQ].
  intros run1 Q1 _ HQ1. apply wp_bind, wp_util_rnd64.
  intros r run2 _ Hk. apply wp_ret, HQ1, Hk.
Qed.

Lemma wp_util_rndPrintable (ab : Prop) (run : run_t) (Q : Z -> run_t -> Prop) :
  (forall r run', 32 <= r <= 126 -> keeps run run' -> Q r run') ->
  wp ab util_rndPrintable run Q.
Proof.
  intros HQ. unfold util_rndPrintable.
  apply wp_util_rndGet; [lia | lia | right; lia | exact HQ].
Qed.

Lemma wp_util_rndBufPrintable (ab : Prop) (sz : Z) (run : run_t)
      (Q : list Z -> run_t -> Prop) :
  (forall l run', length l = Z.to_nat sz -> keeps run run' -> Q l run') ->
  wp ab (util_rndBufPrintable sz) run Q.
Proof.
  intros HQ. unfold util_rndBufPrintable. apply wp_replicateM; [| exact HQ].
  intros run1 Q1 _ HQ1. apply wp_util_rndPrintable.
  intros r run2 _ Hk. apply HQ1, Hk.
Qed.

(** ** The buffer primitives, returning or not *)

Lemma length_bytes_of (src : ptr) (run run' : run_t) :
  length (dynfile_data run') = length (dynfile_data run) ->
  length (bytes_of src run') = length (bytes_of src run).
Proof. intros H. destruct src; [exact H | reflexivity]. Qed.

Lemma wp_mangle_Move (ab : Prop) (off_from off_to len : Z) (run : run_t)
      (Q : unit -> run_t -> Prop) :
  ab \/ (0 <= off_from /\ 0 <= off_to /\ 0 <= len /\
         dynfile_size run < 18446744073709551616 /\
         dynfile_size run <= Z.of_nat (length (dynfile_data run))) ->
  (forall run', keeps run run' -> Q tt run') ->
  wp ab (mangle_Move off_from off_to len) run Q.
Proof.
  intros Hpre HQ. unfold mangle_Move. apply wp_bind, wp_get_size.
  destruct (Z.geb_spec off_from (dynfile_size run));
    [apply wp_ret, HQ, keeps_refl |].
  destruct (Z.geb_spec off_to (dynfile_size run));
    [apply wp_ret, HQ, keeps_refl |].
  apply wp_memmove; [| exact HQ].
  destruct Hpre as [Ha | Hp]; [left; exact Ha | right].
  rewrite !HF_MIN_spec, !u64_small by lia. cbn [ptr_off bytes_of]. lia.
Qed.

Lemma wp_mangle_Overwrite (ab : Prop) (off : Z) (src : ptr) (len : Z)
      (printable : bool) (run : run_t) (Q : unit -> run_t -> Prop) :
  ab \/ (0 <= off <= dynfile_size run /\ 0 <= len /\
         dynfile_size run < 18446744073709551616 /\
         dynfile_size run <= Z.of_nat (length (dynfile_data run)) /\
         0 <= ptr_off src /\
         ptr_off src + Z.min len (dynfile_size run - off)
           <= Z.of_nat (length (bytes_of src run))) ->
  (forall run', keeps run run' -> Q tt run') ->
  wp ab (mangle_Overwrite off src len printable) run Q.
Proof.
  intros Hpre HQ. unfold mangle_Overwrite.
  destruct (Z.eqb_spec len 0); [apply wp_ret, HQ, keeps_refl |].
  apply wp_bind, wp_get_size.
  assert (Hn : ab \/
            (0 <= off <= dynfile_size run /\ 0 <= len /\
             dynfile_size run <= Z.of_nat (length (dynfile_data run)) /\
             0 <= ptr_off src /\
             ptr_off src + Z.min len (dynfile_size run - off)
               <= Z.of_nat (length (bytes_of src run)) /\
             (if len >? u64 (dynfile_size run - off)
              then u64 (dynfile_size run - off) else len)
             = Z.min len (dynfile_size run - off))).
  { destruct Hpre as [Ha | Hp]; [left; exact Ha | right].
    rewrite u64_small by lia.
    destruct (Z.gtb_spec len (dynfile_size run - off)); lia. }
  apply wp_bind, wp_memmove.
  - destruct Hn as [Ha | Hp]; [left; exact Ha | right]. lia.
  - intros run1 (Hs & Hl & Hc & Hm). apply wp_when.
    + intros _. apply wp_util_turnToPrintable.
      * destruct Hn as [Ha | Hp]; [left; exact Ha | right]. lia.
      * intros run2 Hk. apply HQ.
        eapply keeps_trans; [| exact Hk]. repeat split; assumption.
    + intros _. apply HQ. repeat split; assumption.
Qed.

Lemma wp_mangle_Inflate (ab : Prop) (g : honggfuzz_t) (off len : Z)
      (printable : bool) (run : run_t) (Q : Z -> run_t -> Prop) :
  0 <= len -> 0 <= dynfile_size run ->
  mutate_maxInputSz g < 18446744073709551616 ->
  ab \/ (0 <= off < dynfile_size run /\
         mutate_maxInputSz g <= Z.of_nat (length (dynfile_data run))) ->
  (forall n run',
     0 <= n <= len ->
     n <= Z.max 0 (mutate_maxInputSz g - dynfile_size run) ->
     (n = Z.min len (mutate_maxInputSz g - dynfile_size run)
      \/ mutate_maxInputSz g <= dynfile_size run) ->
     grown n run run' -> Q n run') ->
  wp ab (mangle_Inflate g off len printable) run Q.
Proof.
  intros Hlen Hsz Hmax Hpre HQ. unfold mangle_Inflate.
  apply wp_bind, wp_get_size.
  destruct (Z.geb_spec (dynfile_size run) (mutate_maxInputSz g)).
  { apply wp_ret, HQ; [lia | lia | right; lia |].
    repeat split. lia. }
  rewrite (u64_small (mutate_maxInputSz g - dynfile_size run)) by lia.
  set (n := if len >? mutate_maxInputSz g - dynfile_size run
            then mutate_maxInputSz g - dynfile_size run else len).
  assert (Hn : n = Z.min len (mutate_maxInputSz g - dynfile_size run))
    by (subst n;
        destruct (Z.gtb_spec len (mutate_maxInputSz g - dynfile_size run));
        lia).
  rewrite (u64_small (dynfile_size run + n)) by lia.
  apply wp_bind, wp_input_setSize, wp_bind, wp_get_size.
  cbn [dynfile_size set_size].
  apply wp_bind, wp_mangle_Move.
  { destruct Hpre as [Ha | Hp]; [left; exact Ha | right].
    cbn [dynfile_size dynfile_data set_size].
    rewrite u64_small by lia. lia. }
  intros run1 (Hs1 & Hl1 & Hc1 & Hm1).
  cbn [dynfile_size dynfile_data set_size corpus mutationsPerRun] in *.
  apply wp_bind, wp_when.
  - intros _. apply wp_memset.
    + destruct Hpre as [Ha | Hp]; [left; exact Ha | right]. lia.
    + intros run2 (Hs2 & Hl2 & Hc2 & Hm2). apply wp_ret, HQ;
        [lia | lia | left; exact Hn |].
      repeat split; congruence.
  - intros _. apply wp_ret, HQ; [lia | lia | left; exact Hn |].
    repeat split; congruence.
Qed.

Lemma wp_mangle_Insert (ab : Prop) (g : honggfuzz_t) (off : Z) (val : ptr)
      (len : Z) (printable : bool) (run : run_t) (Q : unit -> run_t -> Prop) :
  0 <= len -> 0 <= dynfile_size run ->
  mutate_maxInputSz g < 18446744073709551616 ->
  ab \/ (0 <= off < dynfile_size run /\
         dynfile_size run <= mutate_maxInputSz g /\
         mutate_maxInputSz g <= Z.of_nat (length (dynfile_data run)) /\
         0 <= ptr_off val /\
         ptr_off val + Z.min len (mutate_maxInputSz g - dynfile_size run)
           <= Z.of_nat (length (bytes_of val run))) ->
  (forall n run',
     0 <= n <= len ->
     n <= Z.max 0 (mutate_maxInputSz g - dynfile_size run) ->
     (n = Z.min len (mutate_maxInputSz g - dynfile_size run)
      \/ mutate_maxInputSz g <= dynfile_size run) ->
     grown n run run' -> Q tt run') ->
  wp ab (mangle_Insert g off val len printable) run Q.
Proof.
  intros Hlen Hsz Hmax Hpre HQ. unfold mangle_Insert.
  apply wp_bind, wp_mangle_Inflate; [exact Hlen | exact Hsz | exact Hmax | |].
  { destruct Hpre as [Ha | Hp]; [left; exact Ha | right]. lia. }
  intros n run1 Hn Hroom Hval (Hs1 & Hl1 & Hc1 & Hm1).
  apply wp_mangle_Overwrite.
  - destruct Hpre as [Ha | Hp]; [left; exact Ha | right].
    rewrite (length_bytes_of val run run1 Hl1). lia.
  - intros run2 (Hs2 & Hl2 & Hc2 & Hm2).
    apply (HQ n); [lia | lia | exact Hval |].
    repeat split; congruence.
Qed.

(** ** The operators *)

Lemma mangled_same_corpus (g : honggfuzz_t) (run run' : run_t) :
  0 <= dynfile_size run' <= mutate_maxInputSz g ->
  (1 <= dynfile_size run -> 1 <= dynfile_size run') ->
  length (dynfile_data run') = length (dynfile_data run) ->
  corpus run' = corpus run ->
  mutationsPerRun run' = mutationsPerRun run ->
  mangled g run run'.
Proof.
  intros Hf Hle Hl Hc Hm. unfold mangled, fits.
  split; [exact Hf |]. split; [exact Hle |]. split; [exact Hl |].
  split; [rewrite Hc; apply incl_refl | exact Hm].
Qed.

Lemma mangled_trans (g : honggfuzz_t) (a b c : run_t) :
  mangled g a b -> mangled g b c -> mangled g a c.
Proof.
  unfold mangled. intros (Hf1 & H1 & Hl1 & Hc1 & Hm1) (Hf2 & H2 & Hl2 & Hc2 & Hm2).
  split; [exact Hf2 |]. split; [tauto |]. split; [congruence |].
  split; [eapply incl_tran; eassumption | congruence].
Qed.

(** Side conditions: either aborting is allowed, or they follow from the
    safe configuration by arithmetic. *)
Ltac side H :=
  let Ha := fresh "Ha" in
  let Hcfg := fresh "Hcfg" in
  let Hrun := fresh "Hrun" in
  let Hone := fresh "Hone" in
  destruct H as [Ha | (Hcfg & Hrun & Hone)];
  [ left; exact Ha
  | right;
    unfold safe_cfg, safe_run, getLen_cube_limit in *;
    destruct Hcfg as (? & ? & ? & ? & ? & ? & ? & ?);
    destruct Hrun as (? & ?);
    rewrite ?HF_MIN_spec ].

Ltac frame H :=
  first [apply same_file_keeps in H | idtac];
  destruct H as (? & ? & ? & ?).

Ltac finish :=
  apply mangled_same_corpus; [lia | lia | lia | congruence | congruence].

Section Operators.

Variable ab : Prop.
Variable hf : Z.
Variable g : honggfuzz_t.

Lemma wp_rnd_uint16_buf (printable : bool) (run : run_t)
      (Q : list Z -> run_t -> Prop) :
  (forall l run', length l = 2%nat -> keeps run run' -> Q l run') ->
  wp ab (rnd_uint16_buf printable) run Q.
Proof.
  intros HQ. unfold rnd_uint16_buf. destruct printable.
  - apply wp_util_rndBufPrintable. exact HQ.
  - apply wp_bind, wp_util_rnd64. intros r run' _ Hk.
    apply wp_ret, HQ; [reflexivity | exact Hk].
Qed.

Lemma mangle_BytesOverwrite_ok : op_ok ab hf g (mangle_BytesOverwrite hf).
Proof.
  intros printable run Ht Hf Hs. unfold typed, fits in *.
  unfold mangle_BytesOverwrite.
  apply wp_bind, wp_mangle_getOffSet; [lia | side Hs; lia |].
  intros off run1 Hoff Hk1. frame Hk1.
  apply wp_bind, wp_rnd_uint16_buf. intros buf run2 Hbuf Hk2. frame Hk2.
  apply wp_bind, wp_util_rndGet; [lia | lia | right; lia |].
  intros toCopy run3 HtoCopy Hk3. frame Hk3.
  apply wp_mangle_Overwrite.
  - side Hs. cbn [ptr_off bytes_of]. lia.
  - intros run4 Hk4. frame Hk4. finish.
Qed.

Lemma mangle_BytesInsert_ok : op_ok ab hf g (mangle_BytesInsert hf g).
Proof.
  intros printable run Ht Hf Hs. unfold typed, fits in *.
  unfold mangle_BytesInsert.
  apply wp_bind, wp_rnd_uint16_buf. intros buf run1 Hbuf Hk1. frame Hk1.
  apply wp_bind, wp_mangle_getOffSet; [lia | side Hs; lia |].
  intros off run2 Hoff Hk2. frame Hk2.
  apply wp_bind, wp_util_rndGet; [lia | lia | right; lia |].
  intros toCopy run3 HtoCopy Hk3. frame Hk3.
  apply wp_mangle_Insert; [lia | lia | lia | |].
  - side Hs. cbn [ptr_off bytes_of]. lia.
  - intros n run4 Hn Hroom _ Hk4. frame Hk4. finish.
Qed.

Lemma mangle_MemCopyOverwrite_ok :
  op_ok ab hf g (mangle_MemCopyOverwrite hf).
Proof.
  intros printable run Ht Hf Hs. unfold typed, fits in *.
  unfold mangle_MemCopyOverwrite.
  apply wp_bind, wp_mangle_getOffSet; [lia | side Hs; lia |].
  intros off_from run1 Hfrom Hk1. frame Hk1.
  apply wp_bind, wp_mangle_getOffSet; [lia | side Hs; lia |].
  intros off_to run2 Hto Hk2. frame Hk2.
  apply wp_bind, wp_get_size.
  rewrite (u64_small (dynfile_size run2 - off_from)), HF_MIN_spec by lia.
  apply wp_bind, wp_mangle_getLen; [side Hs; unfold HF_MAX_LEN_BLOCK; lia |].
  intros len run3 Hlen Hk3. frame Hk3.
  apply wp_mangle_Overwrite.
  - side Hs. cbn [ptr_off bytes_of]. lia.
  - intros run4 Hk4. frame Hk4. finish.
Qed.

Lemma mangle_MemCopyInsert_ok :
  op_ok ab hf g (mangle_MemCopyInsert hf g).
Proof.
  intros printable run Ht Hf Hs. unfold typed, fits in *.
  unfold mangle_MemCopyInsert.
  apply wp_bind, wp_mangle_getOffSet; [lia | side Hs; lia |].
  intros off_to run1 Hto Hk1. frame Hk1.
  apply wp_bind, wp_mangle_getOffSet; [lia | side Hs; lia |].
  intros off_from run2 Hfrom Hk2. frame Hk2.
  apply wp_bind, wp_get_size.
  rewrite (u64_small (dynfile_size run2 - off_from)), HF_MIN_spec by lia.
  apply wp_bind, wp_mangle_getLen; [side Hs; unfold HF_MAX_LEN_BLOCK; lia |].
  intros len run3 Hlen Hk3. frame Hk3.
  apply wp_mangle_Insert; [lia | lia | lia | |].
  - side Hs. cbn [ptr_off bytes_of]. lia.
  - intros n run4 Hn Hroom _ Hk4. frame Hk4. finish.
Qed.

Lemma mangle_ByteRepeatOverwrite_ok :
  op_ok ab hf g (mangle_ByteRepeatOverwrite hf).
Proof.
  intros printable run Ht Hf Hs. unfold mangle_ByteRepeatOverwrite.
  pose proof Ht as Ht'. pose proof Hf as Hf'. unfold typed, fits in Ht', Hf'.
  apply wp_bind, wp_mangle_getOffSet; [lia | side Hs; lia |].
  intros off run1 Hoff Hk1. frame Hk1.
  apply wp_bind, wp_get_size.
  rewrite (u64_small (off + 1)) by lia.
  rewrite (u64_small (dynfile_size run1 - (off + 1))) by lia.
  destruct (Z.eqb_spec (dynfile_size run1 - (off + 1)) 0) as [Hz | Hnz].
  - eapply wp_mono.
    + apply mangle_BytesOverwrite_ok; [exact Ht | unfold fits; lia |].
      destruct Hs as [Ha | (Hcfg & Hrun & Hone)]; [left; exact Ha | right].
      unfold safe_run in *. split; [exact Hcfg |]. split; [| lia].
      destruct Hrun. split; [lia | congruence].
    + intros u run2 Hm. cbn beta in Hm.
      eapply mangled_trans; [| exact Hm]. finish.
  - rewrite HF_MIN_spec.
    apply wp_bind, wp_mangle_getLen; [side Hs; unfold HF_MAX_LEN_BLOCK; lia |].
    intros len run2 Hlen Hk2. frame Hk2.
    apply wp_bind, wp_load_byte; [side Hs; lia |]. intros b.
    apply wp_memset; [side Hs; lia |].
    intros run3 Hk3. frame Hk3. finish.
Qed.

Lemma mangle_ByteRepeatInsert_ok :
  op_ok ab hf g (mangle_ByteRepeatInsert hf g).
Proof.
  intros printable run Ht Hf Hs. unfold mangle_ByteRepeatInsert.
  pose proof Ht as Ht'. pose proof Hf as Hf'. unfold typed, fits in Ht', Hf'.
  apply wp_bind, wp_mangle_getOffSet; [lia | side Hs; lia |].
  intros off run1 Hoff Hk1. frame Hk1.
  apply wp_bind, wp_get_size.
  rewrite (u64_small (off + 1)) by lia.
  rewrite (u64_small (dynfile_size run1 - (off + 1))) by lia.
  destruct (Z.eqb_spec (dynfile_size run1 - (off + 1)) 0) as [Hz | Hnz].
  - eapply wp_mono.
    + apply mangle_BytesInsert_ok; [exact Ht | unfold fits; lia |].
      destruct Hs as [Ha | (Hcfg & Hrun & Hone)]; [left; exact Ha | right].
      unfold safe_run in *. split; [exact Hcfg |]. split; [| lia].
      destruct Hrun. split; [lia | congruence].
    + intros u run2 Hm. cbn beta in Hm.
      eapply mangled_trans; [| exact Hm]. finish.
  - rewrite HF_MIN_spec.
    apply wp_bind, wp_mangle_getLen; [side Hs; unfold HF_MAX_LEN_BLOCK; lia |].
    intros len run2 Hlen Hk2. frame Hk2.
    apply wp_bind, wp_mangle_Inflate; [lia | lia | lia | side Hs; lia |].
    intros n run3 Hn Hroom _ Hk3. frame Hk3.
    apply wp_bind, wp_load_byte; [side Hs; lia |]. intros b.
    apply wp_memset; [side Hs; lia |].
    intros run4 Hk4. frame Hk4. finish.
Qed.

Lemma mangle_Bit_ok : op_ok ab hf g (mangle_Bit hf).
Proof.
  intros printable run Ht Hf Hs. unfold typed, fits in *. unfold mangle_Bit.
  apply wp_bind, wp_mangle_getOffSet; [lia | side Hs; lia |].
  intros off run1 Hoff Hk1. frame Hk1.
  apply wp_bind, wp_util_rndGet; [lia | lia | right; lia |].
  intros k run2 Hk Hk2. frame Hk2.
  apply wp_bind, wp_load_byte; [side Hs; lia |]. intros b.
  apply wp_bind, wp_store_byte; [side Hs; lia |].
  intros run3 Hk3. frame Hk3.
  apply wp_when.
  - intros _. apply wp_util_turnToPrintable; [side Hs; lia |].
    intros run4 Hk4. frame Hk4. finish.
  - intros _. finish.
Qed.

Lemma mangleMagicVals_ok : Forall token_ok mangleMagicVals.
Proof.
  apply Forall_forall. intros t Ht.
  assert (Hb : forallb
                 (fun t => Z.of_N (tok_len t) <=? Z.of_nat (length (tok_val t)))
                 mangleMagicVals = true) by (vm_compute; reflexivity).
  rewrite forallb_forall in Hb. apply Z.leb_le, Hb, Ht.
Qed.

Lemma In_token_ok (l : list token_t) (t : token_t) :
  Forall token_ok l -> In t l ->
  Z.of_N (tok_len t) <= Z.of_nat (length (tok_val t)).
Proof. intros Hall Hin. rewrite Forall_forall in Hall. apply Hall, Hin. Qed.

Lemma mangle_MagicOverwrite_ok : op_ok ab hf g (mangle_MagicOverwrite hf).
Proof.
  intros printable run Ht Hf Hs. unfold typed, fits in *.
  unfold mangle_MagicOverwrite.
  apply wp_bind, wp_mangle_getOffSet; [lia | side Hs; lia |].
  intros off run1 Hoff Hk1. frame Hk1.
  change (ARRAYSIZE mangleMagicVals - 1) with 220.
  apply wp_bind, wp_util_rndGet; [lia | lia | right; lia |].
  intros choice run2 Hchoice Hk2. frame Hk2.
  apply wp_bind, wp_index.
  { right. change (Z.of_nat (length mangleMagicVals)) with 221. lia. }
  intros m Hin. pose proof (In_token_ok _ _ mangleMagicVals_ok Hin) as Hm.
  apply wp_mangle_Overwrite.
  - side Hs. cbn [ptr_off bytes_of]. lia.
  - intros run3 Hk3. frame Hk3. finish.
Qed.

Lemma mangle_MagicInsert_ok : op_ok ab hf g (mangle_MagicInsert hf g).
Proof.
  intros printable run Ht Hf Hs. unfold typed, fits in *.
  unfold mangle_MagicInsert.
  change (ARRAYSIZE mangleMagicVals - 1) with 220.
  apply wp_bind, wp_util_rndGet; [lia | lia | right; lia |].
  intros choice run1 Hchoice Hk1. frame Hk1.
  apply wp_bind, wp_mangle_getOffSet; [lia | side Hs; lia |].
  intros off run2 Hoff Hk2. frame Hk2.
  apply wp_bind, wp_index.
  { right. change (Z.of_nat (length mangleMagicVals)) with 221. lia. }
  intros m Hin. pose proof (In_token_ok _ _ mangleMagicVals_ok Hin) as Hm.
  apply wp_mangle_Insert; [lia | lia | lia | |].
  - side Hs. cbn [ptr_off bytes_of]. lia.
  - intros n run3 Hn Hroom _ Hk3. frame Hk3. finish.
Qed.

Lemma mangle_DictionaryOverwrite_ok :
  op_ok ab hf g (mangle_DictionaryOverwrite hf g).
Proof.
  intros printable run Ht Hf Hs. unfold mangle_DictionaryOverwrite.
  destruct (Z.eqb_spec (mutate_dictionaryCnt g) 0) as [Hz | Hnz];
    [apply mangle_BytesOverwrite_ok; assumption |].
  unfold typed, fits in *.
  apply wp_bind, wp_mangle_getOffSet; [lia | side Hs; lia |].
  intros off run1 Hoff Hk1. frame Hk1.
  pose proof (u64_range (mutate_dictionaryCnt g - 1)) as Hu.
  apply wp_bind, wp_util_rndGet; [lia | lia | |].
  { side Hs. rewrite u64_small by lia. lia. }
  intros choice run2 Hchoice Hk2. frame Hk2.
  apply wp_bind, wp_index.
  { side Hs. rewrite u64_small in Hchoice by lia. lia. }
  intros t Hin.
  apply wp_mangle_Overwrite.
  - side Hs. cbn [ptr_off bytes_of].
    assert (Z.of_N (tok_len t) <= Z.of_nat (length (tok_val t)))
      by (eapply In_token_ok; eassumption).
    lia.
  - intros run3 Hk3. frame Hk3. finish.
Qed.

Lemma mangle_DictionaryInsert_ok :
  op_ok ab hf g (mangle_DictionaryInsert hf g).
Proof.
  intros printable run Ht Hf Hs. unfold mangle_DictionaryInsert.
  destruct (Z.eqb_spec (mutate_dictionaryCnt g) 0) as [Hz | Hnz];
    [apply mangle_BytesInsert_ok; assumption |].
  unfold typed, fits in *.
  pose proof (u64_range (mutate_dictionaryCnt g - 1)) as Hu.
  apply wp_bind, wp_util_rndGet; [lia | lia | |].
  { side Hs. rewrite u64_small by lia. lia. }
  intros choice run1 Hchoice Hk1. frame Hk1.
  apply wp_bind, wp_mangle_getOffSet; [lia | side Hs; lia |].
  intros off run2 Hoff Hk2. frame Hk2.
  apply wp_bind, wp_index.
  { side Hs. rewrite u64_small in Hchoice by lia. lia. }
  intros t Hin.
  apply wp_mangle_Insert; [lia | lia | lia | |].
  - side Hs. cbn [ptr_off bytes_of].
    assert (Z.of_N (tok_len t) <= Z.of_nat (length (tok_val t)))
      by (eapply In_token_ok; eassumption).
    lia.
  - intros n run3 Hn Hroom _ Hk3. frame Hk3. finish.
Qed.

Lemma u32_range (x : Z) : 0 <= u32 x < 4294967296.
Proof. unfold u32. apply Z.mod_pos_bound. reflexivity. Qed.

Lemma u32_small (x : Z) : 0 <= x < 4294967296 -> u32 x = x.
Proof. intros H. unfold u32. apply Z.mod_small. exact H. Qed.

Lemma wp_mangle_FeedbackDict (run : run_t)
      (Q : option (list Z * Z) -> run_t -> Prop) :
  ab \/ safe_cfg hf g ->
  (forall run', keeps run run' -> Q None run') ->
  (forall t run',
     keeps run run' ->
     In t (cmp_valArr (feedback_cmpFeedbackMap g)) ->
     Q (Some (tok_val t, u32 (Z.of_N (tok_len t)))) run') ->
  wp ab (mangle_FeedbackDict g) run Q.
Proof.
  intros Hs HN HS. unfold mangle_FeedbackDict.
  destruct (feedback_cmpFeedback g); cbn [negb];
    [| apply wp_ret, HN, keeps_refl].
  destruct (Z.eqb_spec (u32 (cmp_cnt (feedback_cmpFeedbackMap g))) 0);
    [apply wp_ret, HN, keeps_refl |].
  pose proof (u32_range (cmp_cnt (feedback_cmpFeedbackMap g))) as Hc.
  set (cnt0 := u32 (cmp_cnt (feedback_cmpFeedbackMap g))) in *.
  set (arr := cmp_valArr (feedback_cmpFeedbackMap g)) in *.
  set (cnt := if cnt0 >? ARRAYSIZE arr then u32 (ARRAYSIZE arr) else cnt0).
  pose proof (u32_range (cnt - 1)) as Hc1.
  apply wp_bind, wp_util_rndGet; [lia | lia | right; lia |].
  intros choice run1 Hchoice Hk1.
  apply wp_bind, wp_index.
  - destruct Hs as [Ha | Hcfg]; [left; exact Ha | right].
    unfold safe_cfg in Hcfg.
    destruct Hcfg as (_ & _ & _ & _ & _ & _ & Harr & _). fold arr in Harr.
    assert (Hcnt : 1 <= cnt <= Z.of_nat (length arr)).
    { subst cnt. unfold ARRAYSIZE.
      destruct (Z.gtb_spec cnt0 (Z.of_nat (length arr)));
        [rewrite u32_small by lia |]; lia. }
    rewrite (u32_small (cnt - 1)) in Hchoice by lia.
    rewrite u32_small by lia. lia.
  - intros t Hin.
    destruct (Z.eqb_spec (u32 (Z.of_N (tok_len t))) 0);
      [apply wp_ret, HN, Hk1 | apply wp_ret, HS; assumption].
Qed.

Lemma In_feedback_ok (t : token_t) :
  safe_cfg hf g -> In t (cmp_valArr (feedback_cmpFeedbackMap g)) ->
  u32 (Z.of_N (tok_len t)) <= Z.of_nat (length (tok_val t)).
Proof.
  intros (_ & _ & _ & _ & _ & _ & _ & Hall) Hin.
  rewrite Forall_forall in Hall. apply Hall, Hin.
Qed.

(** An operator run after steps that kept the size and the capacity. *)
Lemma op_ok_after (op : bool -> M unit) (printable : bool)
      (run run0 : run_t) :
  op_ok ab hf g op -> typed g -> fits g run ->
  dynfile_size run0 = dynfile_size run ->
  length (dynfile_data run0) = length (dynfile_data run) ->
  incl (corpus run0) (corpus run) ->
  mutationsPerRun run0 = mutationsPerRun run ->
  ab \/ (safe_cfg hf g /\ safe_run hf g run /\ 1 <= dynfile_size run) ->
  wp ab (op printable) run0 (fun _ run' => mangled g run run').
Proof.
  intros Hop Ht Hf Hs0 Hl0 Hc0 Hm0 Hs. eapply wp_mono.
  - apply Hop; [exact Ht | unfold fits in *; lia |].
    destruct Hs as [Ha | (Hcfg & Hrun & Hone)]; [left; exact Ha | right].
    split; [exact Hcfg |]. split; [| lia].
    destruct Hrun as [Hcap Hcorp]. split; [lia |].
    rewrite Forall_forall in *. intros f Hin. apply Hcorp, Hc0, Hin.
  - intros u run' Hm. cbn beta in Hm.
    eapply mangled_trans; [| exact Hm].
    unfold mangled, fits in *. repeat split; try lia; assumption.
Qed.

Lemma mangle_ConstFeedbackInsert_ok :
  op_ok ab hf g (mangle_ConstFeedbackInsert hf g).
Proof.
  intros printable run Ht Hf Hs. unfold mangle_ConstFeedbackInsert.
  apply wp_bind, wp_mangle_FeedbackDict.
  - destruct Hs as [Ha | (Hcfg & _)]; [left; exact Ha | right; exact Hcfg].
  - intros run1 (Hs1 & Hl1 & Hc1 & Hm1).
    apply (op_ok_after _ printable run run1 mangle_BytesInsert_ok);
      try assumption.
    rewrite Hc1. apply incl_refl.
  - intros t run1 Hk1 Hin. frame Hk1. unfold typed, fits in *.
    pose proof (u32_range (Z.of_N (tok_len t))) as Hlen.
    apply wp_bind, wp_mangle_getOffSet; [lia | side Hs; lia |].
    intros off run2 Hoff Hk2. frame Hk2.
    apply wp_mangle_Insert; [lia | lia | lia | |].
    + destruct Hs as [Ha | (Hcfg & (Hcap & _) & Hone)];
        [left; exact Ha | right].
      pose proof (In_feedback_ok t Hcfg Hin).
      destruct Hcfg as (? & ? & _). cbn [ptr_off bytes_of]. lia.
    + intros n run3 Hn Hroom _ Hk3. frame Hk3. finish.
Qed.

Lemma mangle_ConstFeedbackOverwrite_ok :
  op_ok ab hf g (mangle_ConstFeedbackOverwrite hf g).
Proof.
  intros printable run Ht Hf Hs. unfold mangle_ConstFeedbackOverwrite.
  apply wp_bind, wp_mangle_FeedbackDict.
  - destruct Hs as [Ha | (Hcfg & _)]; [left; exact Ha | right; exact Hcfg].
  - intros run1 (Hs1 & Hl1 & Hc1 & Hm1).
    apply (op_ok_after _ printable run run1 mangle_BytesOverwrite_ok);
      try assumption.
    rewrite Hc1. apply incl_refl.
  - intros t run1 Hk1 Hin. frame Hk1. unfold typed, fits in *.
    pose proof (u32_range (Z.of_N (tok_len t))) as Hlen.
    apply wp_bind, wp_mangle_getOffSet; [lia | side Hs; lia |].
    intros off run2 Hoff Hk2. frame Hk2.
    apply wp_mangle_Overwrite.
    + destruct Hs as [Ha | (Hcfg & (Hcap & _) & Hone)];
        [left; exact Ha | right].
      pose proof (In_feedback_ok t Hcfg Hin).
      destruct Hcfg as (? & ? & _). cbn [ptr_off bytes_of]. lia.
    + intros run3 Hk3. frame Hk3. finish.
Qed.

Lemma mangle_MemSet_ok : op_ok ab hf g (mangle_MemSet hf).
Proof.
  intros printable run Ht Hf Hs. unfold typed, fits in *.
  unfold mangle_MemSet.
  apply wp_bind, wp_mangle_getOffSet; [lia | side Hs; lia |].
  intros off run1 Hoff Hk1. frame Hk1.
  apply wp_bind, wp_get_size.
  rewrite (u64_small (dynfile_size run1 - off)), HF_MIN_spec by lia.
  apply wp_bind, wp_mangle_getLen; [side Hs; unfold HF_MAX_LEN_BLOCK; lia |].
  intros len run2 Hlen Hk2. frame Hk2.
  apply wp_bind.
  assert (Hval : forall Q : Z -> run_t -> Prop,
            (forall v run', keeps run2 run' -> Q v run') ->
            wp ab (if printable then util_rndPrintable
                   else util_rndGet 0 UINT8_MAX) run2 Q).
  { intros Q HQ. destruct printable.
    - apply wp_util_rndPrintable. intros r run' _ Hk. apply HQ, Hk.
    - apply wp_util_rndGet; unfold UINT8_MAX; [lia | lia | right; lia |].
      intros r run' _ Hk. apply HQ, Hk. }
  apply Hval. intros val run3 Hk3. frame Hk3.
  apply wp_memset; [side Hs; lia |].
  intros run4 Hk4. frame Hk4. finish.
Qed.

Lemma wp_rnd_bytes (printable : bool) (len : Z) (run : run_t)
      (Q : list Z -> run_t -> Prop) :
  (forall l run', length l = Z.to_nat len -> keeps run run' -> Q l run') ->
  wp ab (if printable then util_rndBufPrintable len else util_rndBuf len)
     run Q.
Proof.
  intros HQ. destruct printable;
    [apply wp_util_rndBufPrintable | apply wp_util_rndBuf]; exact HQ.
Qed.

Lemma mangle_RandomOverwrite_ok : op_ok ab hf g (mangle_RandomOverwrite hf).
Proof.
  intros printable run Ht Hf Hs. unfold typed, fits in *.
  unfold mangle_RandomOverwrite.
  apply wp_bind, wp_mangle_getOffSet; [lia | side Hs; lia |].
  intros off run1 Hoff Hk1. frame Hk1.
  apply wp_bind, wp_get_size.
  rewrite (u64_small (dynfile_size run1 - off)), HF_MIN_spec by lia.
  apply wp_bind, wp_mangle_getLen; [side Hs; unfold HF_MAX_LEN_BLOCK; lia |].
  intros len run2 Hlen Hk2. frame Hk2.
  apply wp_bind, wp_rnd_bytes. intros bs run3 Hbs Hk3. frame Hk3.
  apply wp_store; [side Hs; lia |].
  intros run4 Hk4. frame Hk4. finish.
Qed.

Lemma mangle_RandomInsert_ok : op_ok ab hf g (mangle_RandomInsert hf g).
Proof.
  intros printable run Ht Hf Hs. unfold typed, fits in *.
  unfold mangle_RandomInsert.
  apply wp_bind, wp_mangle_getOffSet; [lia | side Hs; lia |].
  intros off run1 Hoff Hk1. frame Hk1.
  apply wp_bind, wp_get_size.
  rewrite (u64_small (dynfile_size run1 - off)), HF_MIN_spec by lia.
  apply wp_bind, wp_mangle_getLen; [side Hs; unfold HF_MAX_LEN_BLOCK; lia |].
  intros len run2 Hlen Hk2. frame Hk2.
  apply wp_bind, wp_mangle_Inflate; [lia | lia | lia | side Hs; lia |].
  intros n run3 Hn Hroom _ Hk3. frame Hk3.
  apply wp_bind, wp_rnd_bytes. intros bs run4 Hbs Hk4. frame Hk4.
  apply wp_store; [side Hs; lia |].
  intros run5 Hk5. frame Hk5. finish.
Qed.

(** The operators that rewrite the byte at a random offset. *)
Lemma byte_op_ok (f : bool -> Z -> Z) :
  op_ok ab hf g
        (fun printable =>
           off <- mangle_getOffSet hf ;;
           b <- load_byte off ;;
           store_byte off (f printable b)).
Proof.
  intros printable run Ht Hf Hs. unfold typed, fits in *.
  apply wp_bind, wp_mangle_getOffSet; [lia | side Hs; lia |].
  intros off run1 Hoff Hk1. frame Hk1.
  apply wp_bind, wp_load_byte; [side Hs; lia |]. intros b.
  apply wp_store_byte; [side Hs; lia |].
  intros run2 Hk2. frame Hk2. finish.
Qed.

Lemma mangle_IncByte_ok : op_ok ab hf g (mangle_IncByte hf).
Proof.
  intros printable run Ht Hf Hs.
  pose proof (byte_op_ok
                (fun p b => if p then Z.rem (b - 32 + 1) 95 + 32 else b + 1)
                printable run Ht Hf Hs) as H.
  unfold mangle_IncByte. destruct printable; exact H.
Qed.

Lemma mangle_DecByte_ok : op_ok ab hf g (mangle_DecByte hf).
Proof.
  intros printable run Ht Hf Hs.
  pose proof (byte_op_ok
                (fun p b => if p then Z.rem (b - 32 + 94) 95 + 32 else b - 1)
                printable run Ht Hf Hs) as H.
  unfold mangle_DecByte. destruct printable; exact H.
Qed.

Lemma mangle_NegByte_ok : op_ok ab hf g (mangle_NegByte hf).
Proof.
  intros printable run Ht Hf Hs.
  pose proof (byte_op_ok
                (fun p b => if p then 94 - (b - 32) + 32 else Z.lnot b)
                printable run Ht Hf Hs) as H.
  unfold mangle_NegByte. destruct printable; exact H.
Qed.

Lemma mangle_Expand_ok : op_ok ab hf g (mangle_Expand hf g).
Proof.
  intros printable run Ht Hf Hs. unfold typed, fits in *.
  unfold mangle_Expand.
  apply wp_bind, wp_mangle_getOffSet; [lia | side Hs; lia |].
  intros off run1 Hoff Hk1. frame Hk1.
  apply wp_bind, wp_util_rnd64. intros r run2 Hr Hk2. frame Hk2.
  rewrite (u64_small (mutate_maxInputSz g - off)), HF_MIN_spec by lia.
  apply wp_bind.
  assert (Hlen : forall Q : Z -> run_t -> Prop,
            (forall len run', 1 <= len -> keeps run2 run' -> Q len run') ->
            wp ab (if negb (r mod 16 =? 0)
                   then mangle_getLen hf (Z.min 16 (mutate_maxInputSz g - off))
                   else mangle_getLen hf (mutate_maxInputSz g - off)) run2 Q).
  { intros Q HQ. destruct (negb (r mod 16 =? 0)).
    - apply wp_mangle_getLen; [side Hs; lia |].
      intros len run' Hlen Hk. apply HQ; [lia | apply same_file_keeps, Hk].
    - apply wp_mangle_getLen; [side Hs; lia |].
      intros len run' Hlen Hk. apply HQ; [lia | apply same_file_keeps, Hk]. }
  apply Hlen. intros len run3 Hl Hk3. frame Hk3.
  apply wp_bind, wp_mangle_Inflate; [lia | lia | lia | side Hs; lia |].
  intros n run4 Hn Hroom _ Hk4. frame Hk4.
  apply wp_ret. finish.
Qed.

Lemma wp_mangle_LenLeft (off : Z) (run : run_t) (Q : Z -> run_t -> Prop) :
  0 <= off < dynfile_size run ->
  dynfile_size run < 18446744073709551616 ->
  Q (dynfile_size run - off - 1) run ->
  wp ab (mangle_LenLeft off) run Q.
Proof.
  intros Hoff Hsz HQ. unfold mangle_LenLeft.
  apply wp_bind, wp_get_size.
  destruct (Z.geb_spec off (dynfile_size run)); [lia |].
  apply wp_bind, wp_ret, wp_ret. rewrite u64_small by lia. exact HQ.
Qed.

Lemma wp_bind_eq {A B} (m : M A) (f : A -> M B) (run : run_t)
      (Q : B -> run_t -> Prop) :
  wp ab m run (fun a run' => m run = Ok (a, run') -> wp ab (f a) run' Q) ->
  wp ab (bind m f) run Q.
Proof.
  unfold wp, bind. destruct (m run) as [[a run'] | e]; intros H;
    [apply H; reflexivity | exact H].
Qed.

Lemma mangle_Shrink_shrinks (printable : bool) (run : run_t) :
  typed g -> fits g run ->
  ab \/ (safe_cfg hf g /\ safe_run hf g run /\ 1 <= dynfile_size run) ->
  wp ab (mangle_Shrink hf printable) run
     (fun _ run' => mangled g run run' /\ shrunk hf run run').
Proof.
  intros Ht Hf Hs. unfold typed, fits in *. unfold mangle_Shrink.
  apply wp_bind, wp_get_size.
  destruct (Z.leb_spec (dynfile_size run) 2) as [Hle | Hgt].
  { apply wp_ret. split; [finish |].
    split; [lia |]. split; [reflexivity | lia]. }
  apply wp_bind_eq, wp_mangle_getOffSet; [lia | side Hs; lia |].
  intros off_start run1 Hoff Hk1 Heq. frame Hk1.
  assert (Hsh : forall run',
            dynfile_size run' <= dynfile_size run ->
            off_start + 1 <= dynfile_size run' ->
            shrunk hf run run').
  { intros run' Hle' Hge'. split; [exact Hle' |]. split; [lia |].
    intros _. exists off_start, run1. split; [exact Heq |]. lia. }
  apply wp_bind, wp_mangle_LenLeft; [lia | lia |].
  destruct (Z.eqb_spec (dynfile_size run1 - off_start - 1) 0) as [Hz | Hnz].
  { apply wp_ret. split; [finish | apply Hsh; lia]. }
  apply wp_bind, wp_util_rnd64. intros r run2 Hr Hk2. frame Hk2.
  rewrite HF_MIN_spec.
  apply wp_bind.
  assert (Hlen : forall Q : Z -> run_t -> Prop,
            (forall len run',
               1 <= len <= dynfile_size run - off_start - 1 ->
               keeps run2 run' -> Q len run') ->
            wp ab (if negb (r mod 16 =? 0)
                   then mangle_getLen hf
                          (Z.min 16 (dynfile_size run1 - off_start - 1))
                   else mangle_getLen hf (dynfile_size run1 - off_start - 1))
               run2 Q).
  { intros Q HQ. destruct (negb (r mod 16 =? 0)).
    - apply wp_mangle_getLen; [side Hs; lia |].
      intros len run' Hlen Hk. apply HQ; [lia | apply same_file_keeps, Hk].
    - apply wp_mangle_getLen; [side Hs; lia |].
      intros len run' Hlen Hk. apply HQ; [lia | apply same_file_keeps, Hk]. }
  apply Hlen. intros len run3 Hl Hk3. frame Hk3.
  apply wp_bind, wp_get_size.
  rewrite (u64_small (off_start + len)) by lia.
  rewrite (u64_small (dynfile_size run3 - (off_start + len))) by lia.
  apply wp_bind, wp_mangle_Move; [side Hs; lia |].
  intros run4 Hk4. frame Hk4.
  apply wp_bind, wp_get_size, wp_input_setSize.
  rewrite u64_small by lia.
  split.
  - apply mangled_same_corpus;
      cbn [dynfile_size dynfile_data set_size corpus mutationsPerRun];
      [lia | lia | lia | congruence | congruence].
  - apply Hsh; cbn [dynfile_size set_size]; lia.
Qed.

Lemma mangle_Shrink_ok : op_ok ab hf g (mangle_Shrink hf).
Proof.
  intros printable run Ht Hf Hs. eapply wp_mono.
  - apply mangle_Shrink_shrinks; assumption.
  - intros u run' [Hm _]. exact Hm.
Qed.

Lemma length_encode_le (w : nat) (v : Z) : length (encode_le w v) = w.
Proof.
  revert v. induction w as [| w IH]; intros v; cbn [encode_le length];
    [reflexivity | rewrite IH; reflexivity].
Qed.

Lemma wp_AddSub_wide (off : Z) (w : nat) (delta : Z) (printable : bool)
      (run : run_t) (Q : unit -> run_t -> Prop) :
  ab \/ (0 <= off /\ off + Z.of_nat w <= dynfile_size run /\
         dynfile_size run < 18446744073709551616 /\
         dynfile_size run <= Z.of_nat (length (dynfile_data run))) ->
  (forall run', keeps run run' -> Q tt run') ->
  wp ab (AddSub_wide off w delta printable) run Q.
Proof.
  intros Hpre HQ. unfold AddSub_wide.
  apply wp_bind, wp_load.
  { destruct Hpre as [Ha | Hp]; [left; exact Ha | right].
    cbn [ptr_off bytes_of]. lia. }
  intros bs _ _.
  apply wp_bind, wp_util_rnd64. intros r run1 _ Hk1. frame Hk1.
  apply wp_mangle_Overwrite.
  - destruct Hpre as [Ha | Hp]; [left; exact Ha | right].
    cbn [ptr_off bytes_of]. rewrite length_encode_le. lia.
  - intros run2 Hk2. frame Hk2. apply HQ. repeat split; congruence.
Qed.

Lemma wp_mangle_AddSubWithRange (off varLen range : Z) (printable : bool)
      (run : run_t) (Q : unit -> run_t -> Prop) :
  0 <= range < 4294967296 ->
  ab \/ (0 <= off /\ off + varLen <= dynfile_size run /\
         (varLen = 1 \/ varLen = 2 \/ varLen = 4 \/ varLen = 8) /\
         dynfile_size run < 18446744073709551616 /\
         dynfile_size run <= Z.of_nat (length (dynfile_data run))) ->
  (forall run', keeps run run' -> Q tt run') ->
  wp ab (mangle_AddSubWithRange off varLen range printable) run Q.
Proof.
  intros Hrange Hpre HQ. unfold mangle_AddSubWithRange.
  rewrite (u64_small (range * 2)) by lia.
  apply wp_bind, wp_util_rndGet; [lia | lia | right; lia |].
  intros r run1 Hr Hk1. frame Hk1.
  assert (Hwide : forall w : nat, varLen = Z.of_nat w ->
            wp ab (AddSub_wide off w (s64 (s64 r - s64 range)) printable)
               run1 Q).
  { intros w Hw. apply wp_AddSub_wide.
    - destruct Hpre as [Ha | Hp]; [left; exact Ha | right]. lia.
    - intros run2 Hk2. frame Hk2. apply HQ. repeat split; congruence. }
  destruct (Z.eqb_spec varLen 1).
  { apply wp_bind, wp_load_byte.
    { destruct Hpre as [Ha | Hp]; [left; exact Ha | right]. lia. }
    intros b. apply wp_store_byte.
    { destruct Hpre as [Ha | Hp]; [left; exact Ha | right]. lia. }
    intros run2 Hk2. frame Hk2. apply HQ. repeat split; congruence. }
  destruct (Z.eqb_spec varLen 2); [apply Hwide; assumption |].
  destruct (Z.eqb_spec varLen 4); [apply Hwide; assumption |].
  destruct (Z.eqb_spec varLen 8); [apply Hwide; assumption |].
  apply wp_LOG_F. destruct Hpre as [Ha | Hp]; [exact Ha | lia].
Qed.

Lemma mangle_AddSub_ok : op_ok ab hf g (mangle_AddSub hf).
Proof.
  intros printable run Ht Hf Hs. unfold typed, fits in *.
  unfold mangle_AddSub.
  apply wp_bind, wp_mangle_getOffSet; [lia | side Hs; lia |].
  intros off run1 Hoff Hk1. frame Hk1.
  apply wp_bind, wp_util_rndGet; [lia | lia | right; lia |].
  intros k run2 Hk Hk2. frame Hk2.
  apply wp_bind, wp_get_size.
  rewrite (u64_small (dynfile_size run2 - off)) by lia.
  assert (Hcase : forall varLen range,
            (varLen = 1 \/ varLen = 2 \/ varLen = 4 \/ varLen = 8) ->
            0 <= range < 4294967296 ->
            off + varLen <= dynfile_size run2 ->
            wp ab (mangle_AddSubWithRange off varLen range printable) run2
               (fun _ run' => mangled g run run')).
  { intros varLen range Hv Hr Hfit. apply wp_mangle_AddSubWithRange.
    - exact Hr.
    - side Hs. lia.
    - intros run3 Hk3. frame Hk3. finish. }
  assert (Hk' : k = 0 \/ k = 1 \/ k = 2 \/ k = 3) by lia.
  destruct Hk' as [-> | [-> | [-> | ->]]].
  - change (u32 (Z.shiftl 1 0)) with 1.
    destruct (dynfile_size run2 - off <? 1);
      cbn [Z.eqb Pos.eqb]; apply wp_bind, wp_ret, Hcase; lia.
  - change (u32 (Z.shiftl 1 1)) with 2.
    destruct (Z.ltb_spec (dynfile_size run2 - off) 2);
      cbn [Z.eqb Pos.eqb]; apply wp_bind, wp_ret, Hcase; lia.
  - change (u32 (Z.shiftl 1 2)) with 4.
    destruct (Z.ltb_spec (dynfile_size run2 - off) 4);
      cbn [Z.eqb Pos.eqb]; apply wp_bind, wp_ret, Hcase; lia.
  - change (u32 (Z.shiftl 1 3)) with 8.
    destruct (Z.ltb_spec (dynfile_size run2 - off) 8);
      cbn [Z.eqb Pos.eqb]; apply wp_bind, wp_ret, Hcase; lia.
Qed.

Lemma length_snprintf_19d (v : Z) : length (snprintf_19d v) = 20%nat.
Proof.
  unfold snprintf_19d.
  rewrite length_app, length_firstn, length_app, repeat_length.
  cbn [length]. lia.
Qed.

Lemma mangle_ASCIINumOverwrite_ok :
  op_ok ab hf g (mangle_ASCIINumOverwrite hf).
Proof.
  intros printable run Ht Hf Hs. unfold typed, fits in *.
  unfold mangle_ASCIINumOverwrite.
  apply wp_bind, wp_mangle_getOffSet; [lia | side Hs; lia |].
  intros off run1 Hoff Hk1. frame Hk1.
  apply wp_bind, wp_util_rndGet; [lia | lia | right; lia |].
  intros len run2 Hlen Hk2. frame Hk2.
  apply wp_bind, wp_util_rnd64. intros r run3 Hr Hk3. frame Hk3.
  apply wp_mangle_Overwrite.
  - side Hs. cbn [ptr_off bytes_of]. rewrite length_snprintf_19d. lia.
  - intros run4 Hk4. frame Hk4. finish.
Qed.

Lemma mangle_ASCIINumInsert_ok :
  op_ok ab hf g (mangle_ASCIINumInsert hf g).
Proof.
  intros printable run Ht Hf Hs. unfold typed, fits in *.
  unfold mangle_ASCIINumInsert.
  apply wp_bind, wp_mangle_getOffSet; [lia | side Hs; lia |].
  intros off run1 Hoff Hk1. frame Hk1.
  apply wp_bind, wp_util_rndGet; [lia | lia | right; lia |].
  intros len run2 Hlen Hk2. frame Hk2.
  apply wp_bind, wp_util_rnd64. intros r run3 Hr Hk3. frame Hk3.
  apply wp_mangle_Insert; [lia | lia | lia | |].
  - side Hs. cbn [ptr_off bytes_of]. rewrite length_snprintf_19d. lia.
  - intros n run4 Hn Hroom _ Hk4. frame Hk4. finish.
Qed.

Lemma wp_input_getRandomInputAsBuf (run : run_t)
      (Q : list Z -> run_t -> Prop) :
  (forall buf run',
     dynfile_size run' = dynfile_size run ->
     length (dynfile_data run') = length (dynfile_data run) ->
     incl (corpus run') (corpus run) ->
     mutationsPerRun run' = mutationsPerRun run ->
     buf = [] \/ In buf (corpus run) ->
     Q buf run') ->
  wp ab input_getRandomInputAsBuf run Q.
Proof.
  intros HQ. unfold wp, input_getRandomInputAsBuf.
  destruct (corpus run) as [| f rest] eqn:Hc.
  - apply HQ; try reflexivity;
      [rewrite Hc; apply incl_refl | left; reflexivity].
  - apply HQ; try reflexivity.
    + cbn [corpus set_corpus]. apply incl_tl, incl_refl.
    + right. left. reflexivity.
Qed.

Lemma In_corpus_ok (run : run_t) (buf : list Z) :
  safe_run hf g run -> In buf (corpus run) -> corpus_ok hf buf.
Proof.
  intros [_ Hall] Hin. rewrite Forall_forall in Hall. apply Hall, Hin.
Qed.

Lemma mangle_SpliceOverwrite_ok :
  op_ok ab hf g (mangle_SpliceOverwrite hf).
Proof.
  intros printable run Ht Hf Hs. unfold mangle_SpliceOverwrite.
  apply wp_bind, wp_input_getRandomInputAsBuf.
  intros buf run0 Hs0 Hl0 Hc0 Hm0 Hbuf. unfold ARRAYSIZE.
  destruct (Z.eqb_spec (Z.of_nat (length buf)) 0) as [Hz | Hnz].
  { apply (op_ok_after _ printable run run0 mangle_BytesOverwrite_ok);
      assumption. }
  destruct Hbuf as [-> | Hin]; [cbn in Hnz; lia |].
  assert (Hok : ab \/ (corpus_ok hf buf)).
  { destruct Hs as [Ha | (_ & Hrun & _)]; [left; exact Ha | right].
    eapply In_corpus_ok; eassumption. }
  unfold typed, fits in *.
  apply wp_bind, wp_mangle_getLen.
  { destruct Hok as [Ha | [Hb1 Hb2]]; [left; exact Ha | right]. lia. }
  intros r run1 Hr Hk1. frame Hk1.
  apply wp_bind, wp_mangle_getOffSet; [lia | side Hs; lia |].
  intros localOff run2 Hoff Hk2. frame Hk2.
  apply wp_bind, wp_get_size.
  rewrite (u64_small (dynfile_size run2 - localOff)), HF_MIN_spec by lia.
  apply wp_bind, wp_mangle_getLen.
  { destruct Hok as [Ha | [Hb1 Hb2]]; [left; exact Ha |]. side Hs.
    rewrite (u64_small (r - 1)) by lia.
    rewrite (u64_small (Z.of_nat (length buf) - (r - 1))) by lia. lia. }
  intros len run3 Hlen Hk3. frame Hk3.
  apply wp_mangle_Overwrite.
  - destruct Hok as [Ha | [Hb1 Hb2]]; [left; exact Ha |]. side Hs.
    rewrite (u64_small (r - 1)) in * by lia.
    rewrite (u64_small (Z.of_nat (length buf) - (r - 1))) in Hlen by lia.
    cbn [ptr_off bytes_of]. lia.
  - intros run4 Hk4. frame Hk4.
    unfold mangled, fits. split; [lia |]. split; [lia |]. split; [lia |].
    split; [| congruence].
    replace (corpus run4) with (corpus run0) by congruence. exact Hc0.
Qed.

Lemma mangle_SpliceInsert_ok :
  op_ok ab hf g (mangle_SpliceInsert hf g).
Proof.
  intros printable run Ht Hf Hs. unfold mangle_SpliceInsert.
  apply wp_bind, wp_input_getRandomInputAsBuf.
  intros buf run0 Hs0 Hl0 Hc0 Hm0 Hbuf. unfold ARRAYSIZE.
  destruct (Z.eqb_spec (Z.of_nat (length buf)) 0) as [Hz | Hnz].
  { apply (op_ok_after _ printable run run0 mangle_BytesInsert_ok);
      assumption. }
  destruct Hbuf as [-> | Hin]; [cbn in Hnz; lia |].
  assert (Hok : ab \/ (corpus_ok hf buf)).
  { destruct Hs as [Ha | (_ & Hrun & _)]; [left; exact Ha | right].
    eapply In_corpus_ok; eassumption. }
  unfold typed, fits in *.
  apply wp_bind, wp_mangle_getLen.
  { destruct Hok as [Ha | [Hb1 Hb2]]; [left; exact Ha | right]. lia. }
  intros r run1 Hr Hk1. frame Hk1.
  apply wp_bind, wp_mangle_getOffSet; [lia | side Hs; lia |].
  intros localOff run2 Hoff Hk2. frame Hk2.
  apply wp_bind, wp_get_size.
  rewrite (u64_small (dynfile_size run2 - localOff)), HF_MIN_spec by lia.
  apply wp_bind, wp_mangle_getLen.
  { destruct Hok as [Ha | [Hb1 Hb2]]; [left; exact Ha |]. side Hs.
    rewrite (u64_small (r - 1)) by lia.
    rewrite (u64_small (Z.of_nat (length buf) - (r - 1))) by lia. lia. }
  intros len run3 Hlen Hk3. frame Hk3.
  apply wp_mangle_Insert; [lia | lia | lia | |].
  - destruct Hok as [Ha | [Hb1 Hb2]]; [left; exact Ha |]. side Hs.
    rewrite (u64_small (r - 1)) in * by lia.
    rewrite (u64_small (Z.of_nat (length buf) - (r - 1))) in Hlen by lia.
    cbn [ptr_off bytes_of]. lia.
  - intros n run4 Hn Hroom _ Hk4. frame Hk4.
    unfold mangled, fits. split; [lia |]. split; [lia |]. split; [lia |].
    split; [| congruence].
    replace (corpus run4) with (corpus run0) by congruence. exact Hc0.
Qed.

Lemma s64_unfold (x : Z) :
  0 <= x < 18446744073709551616 ->
  s64 x = if x <? 9223372036854775808 then x else x - 18446744073709551616.
Proof.
  intros H. unfold s64, sint.
  change (2 ^ (8 * 8)) with 18446744073709551616.
  change (18446744073709551616 / 2) with 9223372036854775808.
  rewrite Z.mod_small by lia. reflexivity.
Qed.

Lemma u64_wrap_neg (x : Z) :
  0 <= x < 18446744073709551616 -> u64 (x - 18446744073709551616) = x.
Proof.
  intros H. unfold u64. change (2 ^ 64) with 18446744073709551616.
  replace (x - 18446744073709551616)
    with (x + (-1) * 18446744073709551616) by lia.
  rewrite Z_mod_plus_full. apply Z.mod_small. exact H.
Qed.

(** The two clamps of [mangle_Resize]. *)
Lemma Resize_clamp (max newsz : Z) :
  0 <= max < 18446744073709551616 ->
  let n1 := if newsz <? 1 then 1 else newsz in
  let n2 := if n1 >? s64 max then s64 max else n1 in
  0 <= u64 n2 <= max /\ (1 <= max -> 1 <= u64 n2) /\
  (max < 9223372036854775808 -> u64 n2 = n2).
Proof.
  intros Hmax n1 n2. subst n1 n2. rewrite (s64_unfold max Hmax).
  destruct (Z.ltb_spec newsz 1);
    destruct (Z.ltb_spec max 9223372036854775808);
    match goal with
    | |- context [?a >? ?b] => destruct (Z.gtb_spec a b)
    end;
    rewrite ?u64_wrap_neg by lia; rewrite ?u64_small by lia; lia.
Qed.

Lemma mangle_Resize_ok (printable : bool) (run : run_t) :
  typed g -> fits g run ->
  ab \/ (safe_cfg hf g /\ safe_run hf g run /\ 1 <= mutate_maxInputSz g) ->
  wp ab (mangle_Resize g printable) run
     (fun _ run' =>
        mangled g run run' /\
        (1 <= mutate_maxInputSz g -> 1 <= dynfile_size run')).
Proof.
  intros Ht Hf Hs. unfold typed, fits in *. unfold mangle_Resize.
  apply wp_bind, wp_get_size.
  apply wp_bind, wp_util_rndGet; [lia | lia | right; lia |].
  intros choice run1 Hchoice Hk1. frame Hk1.
  apply wp_bind.
  assert (Hnew : forall Q : Z -> run_t -> Prop,
            (forall newsz run', keeps run1 run' -> Q newsz run') ->
            wp ab
               (if choice =? 0 then
                  r <- util_rndGet 1 (mutate_maxInputSz g) ;; ret (s64 r)
                else if (1 <=? choice) && (choice <=? 4) then
                  r <- util_rndGet 0 8 ;;
                  ret (s64 (s64 (dynfile_size run) + s64 r))
                else if choice =? 5 then
                  r <- util_rndGet 9 128 ;;
                  ret (s64 (s64 (dynfile_size run) + s64 r))
                else if (6 <=? choice) && (choice <=? 9) then
                  r <- util_rndGet 0 8 ;;
                  ret (s64 (s64 (dynfile_size run) - s64 r))
                else if choice =? 10 then
                  r <- util_rndGet 9 128 ;;
                  ret (s64 (s64 (dynfile_size run) - s64 r))
                else if (11 <=? choice) && (choice <=? 32) then
                  ret (s64 (dynfile_size run))
                else LOG_F) run1 Q).
  { intros Q HQ.
    assert (Hdraw : forall lo hi (f : Z -> Z),
              0 <= lo <= hi -> hi < 1000 ->
              wp ab (r <- util_rndGet lo hi ;; ret (f r)) run1 Q).
    { intros lo hi f Hlo Hhi.
      apply wp_bind, wp_util_rndGet; [lia | lia | right; lia |].
      intros r run' _ Hk. apply wp_ret, HQ, Hk. }
    destruct (Z.eqb_spec choice 0).
    { apply wp_bind, wp_util_rndGet; [lia | lia | side Hs; lia |].
      intros r run' _ Hk. apply wp_ret, HQ, Hk. }
    destruct (Z.leb_spec 1 choice); [| lia].
    destruct (Z.leb_spec choice 4); cbn [andb]; [apply Hdraw; lia |].
    destruct (Z.eqb_spec choice 5); [apply Hdraw; lia |].
    destruct (Z.leb_spec 6 choice); [| lia].
    destruct (Z.leb_spec choice 9); cbn [andb]; [apply Hdraw; lia |].
    destruct (Z.eqb_spec choice 10); [apply Hdraw; lia |].
    destruct (Z.leb_spec 11 choice); [| lia].
    destruct (Z.leb_spec choice 32); cbn [andb]; [| lia].
    apply wp_ret, HQ, keeps_refl. }
  apply Hnew. intros newsz run2 Hk2. frame Hk2.
  destruct (Resize_clamp (mutate_maxInputSz g) newsz Ht) as (Hb & Hone & Hsmall).
  cbv zeta in Hb, Hone, Hsmall.
  set (n2 := if (if newsz <? 1 then 1 else newsz) >? s64 (mutate_maxInputSz g)
             then s64 (mutate_maxInputSz g)
             else if newsz <? 1 then 1 else newsz) in *.
  apply wp_bind, wp_input_setSize.
  assert (Hfin : forall run',
            dynfile_size run' = u64 n2 ->
            length (dynfile_data run') = length (dynfile_data run2) ->
            corpus run' = corpus run2 ->
            mutationsPerRun run' = mutationsPerRun run2 ->
            mangled g run run' /\
            (1 <= mutate_maxInputSz g -> 1 <= dynfile_size run')).
  { intros run' Hs' Hl' Hc' Hm'. split; [| lia].
    apply mangled_same_corpus; [lia | lia | lia | congruence | congruence]. }
  destruct (Z.gtb_spec n2 (s64 (dynfile_size run))) as [Hgt | Hle].
  - apply wp_when.
    + intros _. apply wp_memset.
      * side Hs. cbn [dynfile_data set_size].
        rewrite s64_small in * by lia.
        rewrite Hsmall in * by lia. rewrite u64_small by lia. lia.
      * intros run3 Hk3. frame Hk3.
        cbn [dynfile_size dynfile_data set_size corpus mutationsPerRun] in *.
        apply Hfin; congruence.
    + intros _. apply Hfin; reflexivity.
  - apply wp_ret, Hfin; reflexivity.
Qed.

(** ** The dispatcher *)

Lemma mangleFuncs_ok : Forall (op_ok ab hf g) (mangleFuncs hf g).
Proof.
  unfold mangleFuncs.
  repeat (apply Forall_cons;
          [first [ apply mangle_Shrink_ok
                 | apply mangle_Expand_ok
                 | apply mangle_Bit_ok
                 | apply mangle_IncByte_ok
                 | apply mangle_DecByte_ok
                 | apply mangle_NegByte_ok
                 | apply mangle_AddSub_ok
                 | apply mangle_MemSet_ok
                 | apply mangle_MemCopyOverwrite_ok
                 | apply mangle_MemCopyInsert_ok
                 | apply mangle_BytesOverwrite_ok
                 | apply mangle_BytesInsert_ok
                 | apply mangle_ASCIINumOverwrite_ok
                 | apply mangle_ASCIINumInsert_ok
                 | apply mangle_ByteRepeatOverwrite_ok
                 | apply mangle_ByteRepeatInsert_ok
                 | apply mangle_MagicOverwrite_ok
                 | apply mangle_MagicInsert_ok
                 | apply mangle_DictionaryOverwrite_ok
                 | apply mangle_DictionaryInsert_ok
                 | apply mangle_ConstFeedbackOverwrite_ok
                 | apply mangle_ConstFeedbackInsert_ok
                 | apply mangle_RandomOverwrite_ok
                 | apply mangle_RandomInsert_ok
                 | apply mangle_SpliceOverwrite_ok
                 | apply mangle_SpliceInsert_ok ] |]).
  apply Forall_nil.
Qed.

Lemma mangled_refl (run : run_t) : fits g run -> mangled g run run.
Proof.
  intros Hf. unfold mangled. split; [exact Hf |]. split; [tauto |].
  split; [reflexivity |]. split; [apply incl_refl | reflexivity].
Qed.

(** The safe configuration survives an operator. *)
Lemma safe_after (run run' : run_t) (P : Prop) :
  mangled g run run' -> 1 <= dynfile_size run' ->
  ab \/ (safe_cfg hf g /\ safe_run hf g run /\ P) ->
  ab \/ (safe_cfg hf g /\ safe_run hf g run' /\ 1 <= dynfile_size run').
Proof.
  intros (Hf & H1 & Hl & Hc & Hm) Hone [Ha | (Hcfg & [Hcap Hcorp] & _)];
    [left; exact Ha | right].
  split; [exact Hcfg |]. split; [| exact Hone].
  split; [lia |]. rewrite Forall_forall in *.
  intros f Hin. apply Hcorp, Hc, Hin.
Qed.

Lemma mangle_loop_ok (n : nat) (run : run_t) :
  typed g -> fits g run ->
  ab \/ (safe_cfg hf g /\ safe_run hf g run /\ 1 <= dynfile_size run) ->
  wp ab (mangle_loop hf g n) run (fun _ run' => mangled g run run').
Proof.
  intros Ht. revert run. induction n as [| n IH]; intros run Hf Hs;
    cbn [mangle_loop].
  - apply wp_ret, mangled_refl, Hf.
  - change (ARRAYSIZE (mangleFuncs hf g) - 1) with 28.
    apply wp_bind, wp_util_rndGet; [lia | lia | right; lia |].
    intros choice run1 Hchoice (Hs1 & Hl1 & Hc1 & Hm1).
    apply wp_bind, wp_index.
    { right. change (Z.of_nat (length (mangleFuncs hf g))) with 29. lia. }
    intros f Hin.
    pose proof mangleFuncs_ok as Hall. rewrite Forall_forall in Hall.
    apply wp_bind. eapply wp_mono.
    + apply (op_ok_after f (cfg_only_printable g) run run1 (Hall f Hin));
        try assumption.
      rewrite Hc1. apply incl_refl.
    + intros u run2 Hm. cbn beta in Hm. eapply wp_mono.
      * apply IH; [apply Hm |].
        destruct Hs as [Ha | Hs]; [left; exact Ha |].
        apply (safe_after run run2 (1 <= dynfile_size run) Hm);
          [| right; exact Hs].
        destruct Hm as (_ & H1 & _). apply H1. tauto.
      * intros u' run3 Hm'. cbn beta in Hm'.
        eapply mangled_trans; eassumption.
Qed.

Lemma wp_util_rndGet_any (min max : Z) (run : run_t)
      (Q : Z -> run_t -> Prop) :
  ab \/ (0 <= min <= max /\ max < 18446744073709551616 /\
         max - min + 1 < 18446744073709551616) ->
  (forall r run', keeps run run' -> Q r run') ->
  wp ab (util_rndGet min max) run Q.
Proof.
  intros Hpre HQ. apply wp_intro.
  - intros r run'. unfold util_rndGet, bind, urandom_read.
    destruct (min >? max); [discriminate |].
    destruct (u64 (max - min + 1) =? 0); [discriminate |].
    intros H. inversion H; subst. apply HQ. repeat split.
  - destruct Hpre as [Ha | (H1 & H2 & H3)]; [left; exact Ha | right].
    destruct (util_rndGet_ok min max run) as (r & Hr & _); [lia | lia | lia |].
    eexists. exact Hr.
Qed.

Lemma mangle_mangleContent_ok (slow_factor : Z) (run : run_t) :
  typed g -> fits g run ->
  ab \/ (safe_cfg hf g /\ safe_run hf g run /\ 1 <= mutate_maxInputSz g) ->
  wp ab (mangle_mangleContent hf g slow_factor) run
     (fun _ run' =>
        mangled g run run' /\
        (mutationsPerRun run <> 0 -> 1 <= mutate_maxInputSz g ->
         1 <= dynfile_size run')).
Proof.
  intros Ht Hf Hs. unfold mangle_mangleContent.
  apply wp_bind. unfold get_mutationsPerRun at 1. unfold wp at 1.
  destruct (Z.eqb_spec (mutationsPerRun run) 0) as [Hz | Hnz].
  { apply wp_ret. split; [apply mangled_refl, Hf | tauto]. }
  apply wp_bind, wp_get_size.
  (* the bootstrap of an empty input *)
  apply wp_bind.
  apply (wp_mono ab _ run
           (fun _ run1 =>
              mangled g run run1 /\
              (1 <= mutate_maxInputSz g -> 1 <= dynfile_size run1))).
  { apply wp_when.
    - intros _. apply mangle_Resize_ok; assumption.
    - intros Hne. split; [apply mangled_refl, Hf |].
      apply Z.eqb_neq in Hne. unfold fits in Hf. lia. }
  intros u run1 [Hm1 Hone1]. clear u.
  assert (Hs1 : ab \/ (safe_cfg hf g /\ safe_run hf g run1 /\
                       1 <= dynfile_size run1)).
  { destruct Hs as [Ha | Hs']; [left; exact Ha |].
    apply (safe_after run run1 (1 <= mutate_maxInputSz g) Hm1);
      [| right; exact Hs'].
    apply Hone1. tauto. }
  assert (Hf1 : fits g run1) by apply Hm1.
  (* the number of changes *)
  apply wp_bind.
  apply (wp_mono ab _ run1 (fun _ run2 => keeps run1 run2)).
  { assert (Hmax : forall c, wp ab (ret (HF_MAX (mutate_mutationsPerRun g) c))
                                run1 (fun _ run2 => keeps run1 run2))
      by (intros c; apply wp_ret, keeps_refl).
    destruct ((0 <=? slow_factor) && (slow_factor <=? 2)).
    - apply wp_util_rndGet_any.
      + destruct Hs as [Ha | (Hcfg & _)]; [left; exact Ha | right].
        destruct Hcfg as (_ & _ & Hmpr & _). lia.
      + intros r run2 Hk. exact Hk.
    - destruct ((3 <=? slow_factor) && (slow_factor <=? 4)); [apply Hmax |].
      destruct ((5 <=? slow_factor) && (slow_factor <=? 9)); apply Hmax. }
  intros changesCnt run2 (Hs2 & Hl2 & Hc2 & Hm2).
  apply wp_bind. unfold util_timeNowMillis at 1. unfold wp at 1.
  (* the splice of a stale input *)
  apply wp_bind.
  apply (wp_mono ab _ run2 (fun _ run3 => mangled g run1 run3)).
  { assert (Hskip : mangled g run1 run2).
    { unfold mangled, fits in *. destruct Hm1 as (? & ? & ? & ? & ?).
      split; [lia |]. split; [lia |]. split; [lia |].
      split; [rewrite Hc2; apply incl_refl | congruence]. }
    destruct (timeNowMillis run2 - timing_lastCovUpdate g >? 1000);
      [| apply wp_ret, Hskip].
    apply wp_bind, wp_util_rnd64.
    intros r run3 _ (Hs3 & Hl3 & Hc3 & Hm3).
    destruct (r mod 3 =? 0).
    - apply (op_ok_after _ _ run1 run3 mangle_SpliceOverwrite_ok);
        try assumption; try congruence.
    - destruct (r mod 3 =? 1).
      + apply (op_ok_after _ _ run1 run3 mangle_SpliceInsert_ok);
          try assumption; try congruence.
      + apply wp_ret. eapply mangled_trans; [exact Hskip |].
        unfold mangled, fits in *. destruct Hskip as (? & ? & ? & ? & ?).
        split; [lia |]. split; [lia |]. split; [lia |].
        split; [rewrite Hc3; apply incl_refl | congruence]. }
  intros u run3 Hm3. clear u.
  (* the loop *)
  eapply wp_mono.
  - apply mangle_loop_ok; [exact Ht | apply Hm3 |].
    destruct Hs1 as [Ha | Hs1']; [left; exact Ha |].
    apply (safe_after run1 run3 (1 <= dynfile_size run1) Hm3);
      [| right; exact Hs1'].
    destruct Hm3 as (_ & H1 & _). apply H1. tauto.
  - intros u run4 Hm4. cbn beta in Hm4.
    assert (Hall : mangled g run run4).
    { eapply mangled_trans; [exact Hm1 |].
      eapply mangled_trans; [exact Hm3 | exact Hm4]. }
    split; [exact Hall |]. intros _ Hmax.
    destruct Hm4 as (_ & H4 & _). destruct Hm3 as (_ & H3 & _).
    apply H4, H3, Hone1, Hmax.
Qed.

End Operators.

(** ** The size bound *)

(** C2. With [0 <= size <= maxInputSz] on entry, the size is again within
    [0, maxInputSz] whenever [mangle_mangleContent] returns, for every
    [slow_factor], and likewise after every operator of the dispatch
    table, after [mangle_Resize] and after [mangle_Inflate].  Under the
    safe configuration [mangle_mangleContent] does return. *)
Theorem mangle_size_bound (hf : Z) (g : honggfuzz_t) (run : run_t) :
  typed g -> fits g run ->
  (forall slow_factor run',
     mangle_mangleContent hf g slow_factor run = Ok (tt, run') ->
     fits g run') /\
  (forall op printable run',
     In op (mangleFuncs hf g) -> op printable run = Ok (tt, run') ->
     fits g run') /\
  (forall printable run',
     mangle_Resize g printable run = Ok (tt, run') -> fits g run') /\
  (forall off len printable n run',
     0 <= len -> mangle_Inflate g off len printable run = Ok (n, run') ->
     fits g run') /\
  (safe_cfg hf g -> safe_run hf g run -> 1 <= mutate_maxInputSz g ->
   forall slow_factor, exists run',
     mangle_mangleContent hf g slow_factor run = Ok (tt, run') /\
     fits g run').
Proof.
  intros Ht Hf. split; [| split; [| split; [| split]]].
  - intros slow_factor run' Heq.
    pose proof (mangle_mangleContent_ok True hf g slow_factor run Ht Hf
                  (or_introl I)) as H.
    apply (wp_result _ _ _ _ _ H Heq).
  - intros op printable run' Hin Heq.
    pose proof (mangleFuncs_ok True hf g) as Hall.
    rewrite Forall_forall in Hall.
    pose proof (Hall op Hin printable run Ht Hf (or_introl I)) as H.
    apply (wp_result _ _ _ _ _ H Heq).
  - intros printable run' Heq.
    pose proof (mangle_Resize_ok True hf g printable run Ht Hf
                  (or_introl I)) as H.
    apply (wp_result _ _ _ _ _ H Heq).
  - intros off len printable n run' Hlen Heq.
    unfold typed, fits in *.
    assert (H : wp True (mangle_Inflate g off len printable) run
                   (fun _ run' =>
                      0 <= dynfile_size run' <= mutate_maxInputSz g)).
    { apply wp_mangle_Inflate; [lia | lia | lia | left; exact I |].
      intros n0 run0 Hn Hroom _ (Hs & _). lia. }
    apply (wp_result _ _ _ _ _ H Heq).
  - intros Hcfg Hrun Hmax slow_factor.
    pose proof (mangle_mangleContent_ok False hf g slow_factor run Ht Hf
                  (or_intror (conj Hcfg (conj Hrun Hmax)))) as H.
    apply wp_returns in H. destruct H as ([] & run' & Heq & Hm & _).
    exists run'. split; [exact Heq | apply Hm].
Qed.

Lemma typed_sample (maxInputSz : Z) (p : bool) :
  0 <= maxInputSz < 18446744073709551616 ->
  typed (sample_global maxInputSz p).
Proof. intros H. exact H. Qed.

Lemma mangle_size_bound_witness :
  exists run',
    mangle_mangleContent 134217728 (sample_global 8 false) 0
                         (sample_run [1; 2; 3; 4; 5; 6; 7; 8] 5 [0; 0; 3; 1; 1])
      = Ok (tt, run') /\
    fits (sample_global 8 false) run'.
Proof.
  assert (Ht : typed (sample_global 8 false)) by (apply typed_sample; lia).
  assert (Hf : fits (sample_global 8 false)
                    (sample_run [1; 2; 3; 4; 5; 6; 7; 8] 5 [0; 0; 3; 1; 1]))
    by (unfold fits; cbn; lia).
  eexists. split; [vm_compute; reflexivity |].
  apply (proj1 (mangle_size_bound 134217728 (sample_global 8 false) _ Ht Hf) 0).
  vm_compute. reflexivity.
Defined.

(** ** Non-emptiness *)

(** C10. With [1 <= size <= maxInputSz] on entry, the size is at least 1
    after every operator of the dispatch table and after [mangle_Resize],
    whenever they return.  [mangle_Shrink] changes nothing when
    [size <= 2] and otherwise removes at most [size - off_start - 1]
    bytes, [off_start] being the offset it drew.  Under the safe
    configuration every operator of the table does return. *)
Theorem mangle_keeps_nonempty (hf : Z) (g : honggfuzz_t) (run : run_t) :
  typed g -> 1 <= dynfile_size run <= mutate_maxInputSz g ->
  (forall op printable run',
     In op (mangleFuncs hf g) -> op printable run = Ok (tt, run') ->
     1 <= dynfile_size run') /\
  (forall printable run',
     mangle_Resize g printable run = Ok (tt, run') ->
     1 <= dynfile_size run') /\
  (forall printable run',
     mangle_Shrink hf printable run = Ok (tt, run') ->
     1 <= dynfile_size run' /\ shrunk hf run run') /\
  (safe_cfg hf g -> safe_run hf g run ->
   forall op printable, In op (mangleFuncs hf g) ->
     exists run', op printable run = Ok (tt, run') /\
                  1 <= dynfile_size run').
Proof.
  intros Ht Hsz.
  assert (Hf : fits g run) by (unfold fits; lia).
  split; [| split; [| split]].
  - intros op printable run' Hin Heq.
    pose proof (mangleFuncs_ok True hf g) as Hall.
    rewrite Forall_forall in Hall.
    pose proof (Hall op Hin printable run Ht Hf (or_introl I)) as H.
    apply (wp_result _ _ _ _ _ H) in Heq.
    destruct Heq as (_ & H1 & _). apply H1. lia.
  - intros printable run' Heq.
    pose proof (mangle_Resize_ok True hf g printable run Ht Hf
                  (or_introl I)) as H.
    apply (wp_result _ _ _ _ _ H) in Heq.
    destruct Heq as [_ H1]. apply H1. lia.
  - intros printable run' Heq.
    pose proof (mangle_Shrink_shrinks True hf g printable run Ht Hf
                  (or_introl I)) as H.
    apply (wp_result _ _ _ _ _ H) in Heq.
    destruct Heq as [(_ & H1 & _) Hsh]. split; [apply H1; lia | exact Hsh].
  - intros Hcfg Hrun op printable Hin.
    pose proof (mangleFuncs_ok False hf g) as Hall.
    rewrite Forall_forall in Hall.
    assert (Hone : 1 <= dynfile_size run) by lia.
    pose proof (Hall op Hin printable run Ht Hf
                  (or_intror (conj Hcfg (conj Hrun Hone)))) as H.
    apply wp_returns in H. destruct H as ([] & run' & Heq & _ & H1 & _).
    exists run'. split; [exact Heq | apply H1; lia].
Qed.

Lemma mangle_keeps_nonempty_witness :
  exists run',
    mangle_Shrink 134217728 false
                  (sample_run [1; 2; 3; 4; 5; 6; 7; 8] 3 [0; 1; 1])
      = Ok (tt, run') /\
    1 <= dynfile_size run'.
Proof.
  assert (Ht : typed (sample_global 8 false)) by (apply typed_sample; lia).
  assert (Hsz : 1 <= dynfile_size
                       (sample_run [1; 2; 3; 4; 5; 6; 7; 8] 3 [0; 1; 1])
                <= mutate_maxInputSz (sample_global 8 false))
    by (cbn; lia).
  destruct (mangle_keeps_nonempty 134217728 (sample_global 8 false) _ Ht Hsz)
    as (_ & _ & Hshrink & _).
  eexists. split; [vm_compute; reflexivity |].
  apply (Hshrink false). vm_compute. reflexivity.
Defined.

(** ** The bootstrap of an empty input *)

(** The shape of [mangle_mangleContent]: a guard on the mutation count,
    the resize of an empty input, and the rest. *)
Lemma bootstrap_shape (resize rest : M unit) (run : run_t) :
  mutationsPerRun run <> 0 -> dynfile_size run = 0 ->
  (forall run1, resize run = Ok (tt, run1) ->
                1 <= dynfile_size run1 /\
                mutationsPerRun run1 = mutationsPerRun run) ->
  (mpr <- get_mutationsPerRun ;;
   if mpr =? 0 then ret tt
   else size <- get_size ;; when (size =? 0) resize ;; rest) run
  = (resize ;;
     mpr <- get_mutationsPerRun ;;
     if mpr =? 0 then ret tt
     else size <- get_size ;; when (size =? 0) resize ;; rest) run.
Proof.
  intros Hmpr Hz Hres. unfold bind, get_mutationsPerRun, get_size.
  destruct (Z.eqb_spec (mutationsPerRun run) 0) as [| _]; [contradiction |].
  rewrite Hz. change (0 =? 0) with true. cbn [when].
  destruct (resize run) as [[[] run1] | e] eqn:Heq; [| reflexivity].
  destruct (Hres run1 eq_refl) as [Hone Hm]. rewrite Hm.
  destruct (Z.eqb_spec (mutationsPerRun run) 0) as [| _]; [contradiction |].
  destruct (Z.eqb_spec (dynfile_size run1) 0) as [| _]; [lia |].
  reflexivity.
Qed.

(** C8. With [size = 0] on entry, mutation enabled and [maxInputSz >= 1],
    [mangle_mangleContent] is [mangle_Resize] followed by what
    [mangle_mangleContent] does on the resized input; [mangle_Resize]
    leaves a size of at least 1, so it is not run a second time, and the
    size is at least 1 whenever [mangle_mangleContent] returns.  Under
    the safe configuration it does return. *)
Theorem mangle_bootstrap (hf : Z) (g : honggfuzz_t) (slow_factor : Z)
        (run : run_t) :
  typed g -> 1 <= mutate_maxInputSz g ->
  dynfile_size run = 0 -> mutationsPerRun run <> 0 ->
  mangle_mangleContent hf g slow_factor run
    = (mangle_Resize g (cfg_only_printable g) ;;
       mangle_mangleContent hf g slow_factor) run /\
  (forall run1,
     mangle_Resize g (cfg_only_printable g) run = Ok (tt, run1) ->
     1 <= dynfile_size run1 /\ mutationsPerRun run1 = mutationsPerRun run) /\
  (forall run',
     mangle_mangleContent hf g slow_factor run = Ok (tt, run') ->
     1 <= dynfile_size run') /\
  (safe_cfg hf g -> safe_run hf g run ->
   exists run',
     mangle_mangleContent hf g slow_factor run = Ok (tt, run') /\
     1 <= dynfile_size run').
Proof.
  intros Ht Hmax Hz Hmpr.
  assert (Hf : fits g run) by (unfold fits; lia).
  assert (Hres : forall run1,
            mangle_Resize g (cfg_only_printable g) run = Ok (tt, run1) ->
            1 <= dynfile_size run1 /\
            mutationsPerRun run1 = mutationsPerRun run).
  { intros run1 Heq.
    pose proof (mangle_Resize_ok True hf g (cfg_only_printable g) run Ht Hf
                  (or_introl I)) as H.
    apply (wp_result _ _ _ _ _ H) in Heq.
    destruct Heq as [(_ & _ & _ & _ & Hm) H1]. split; [apply H1, Hmax | exact Hm]. }
  split; [| split; [exact Hres | split]].
  - unfold mangle_mangleContent.
    apply bootstrap_shape; assumption.
  - intros run' Heq.
    pose proof (mangle_mangleContent_ok True hf g slow_factor run Ht Hf
                  (or_introl I)) as H.
    apply (wp_result _ _ _ _ _ H) in Heq.
    destruct Heq as [_ H1]. apply H1; assumption.
  - intros Hcfg Hrun.
    pose proof (mangle_mangleContent_ok False hf g slow_factor run Ht Hf
                  (or_intror (conj Hcfg (conj Hrun Hmax)))) as H.
    apply wp_returns in H. destruct H as ([] & run' & Heq & _ & H1).
    exists run'. split; [exact Heq | apply H1; assumption].
Qed.

Lemma mangle_bootstrap_witness :
  exists run',
    mangle_mangleContent 134217728 (sample_global 8 true) 0
                         (sample_run [0; 0; 0; 0; 0; 0; 0; 0] 0
                                     [11; 0; 14; 65; 66; 0; 1])
      = Ok (tt, run') /\
    1 <= dynfile_size run'.
Proof.
  assert (Ht : typed (sample_global 8 true)) by (apply typed_sample; lia).
  destruct (mangle_bootstrap 134217728 (sample_global 8 true) 0
              (sample_run [0; 0; 0; 0; 0; 0; 0; 0] 0 [11; 0; 14; 65; 66; 0; 1])
              Ht)
    as (_ & _ & Hexit & _); [cbn; lia | reflexivity | cbn; lia |].
  eexists. split; [vm_compute; reflexivity |].
  apply Hexit. vm_compute. reflexivity.
Defined.

(** ** Insertion *)

Lemma mangle_Insert_inserts (g : honggfuzz_t) (off : Z) (buf : list Z)
      (soff len : Z) (printable : bool) (run : run_t) :
  0 <= off < dynfile_size run -> 0 <= len ->
  dynfile_size run <= mutate_maxInputSz g ->
  mutate_maxInputSz g < 18446744073709551616 ->
  mutate_maxInputSz g <= Z.of_nat (length (dynfile_data run)) ->
  0 <= soff ->
  soff + Z.min len (mutate_maxInputSz g - dynfile_size run)
    <= Z.of_nat (length buf) ->
  exists run',
    mangle_Insert g off (Ext buf soff) len printable run = Ok (tt, run') /\
    inserted off buf soff (Z.min len (mutate_maxInputSz g - dynfile_size run))
             printable run run'.
Proof.
  intros Hoff Hlen Hle Hmax Hcap Hsoff Hsrc.
  set (n := Z.min len (mutate_maxInputSz g - dynfile_size run)) in *.
  unfold mangle_Insert, bind.
  destruct (Z.eq_dec (dynfile_size run) (mutate_maxInputSz g)) as [Heq | Hne].
  - rewrite mangle_Inflate_full by lia.
    exists run. split; [reflexivity |].
    assert (Hn : n = 0) by lia. rewrite Hn. unfold inserted.
    split; [lia |]. split; [reflexivity |]. split; [reflexivity |].
    split; [intros i Hi; lia |]. intros i Hi. f_equal. lia.
  - rewrite mangle_Inflate_ok by lia. fold n.
    set (run1 := set_data (inflated off n (dynfile_size run) printable
                                    (dynfile_data run))
                          (set_size (dynfile_size run + n) run)).
    assert (Hl1 : length (dynfile_data run1) = length (dynfile_data run))
      by (apply length_inflated; lia).
    assert (Hn1 : Z.min n (dynfile_size run1 - off) = n)
      by (cbn [run1 dynfile_size set_data set_size]; lia).
    rewrite mangle_Overwrite_ok;
      rewrite ?Hn1; cbn [ptr_off bytes_of]; try lia;
      try (cbn [run1 dynfile_size set_data set_size]; lia).
    assert (Hw : length (written (Ext buf soff) n printable run1)
                 = Z.to_nat n)
      by (apply length_written; cbn [ptr_off bytes_of]; lia).
    assert (Hinf : forall i, 0 <= i ->
              byte_at (dynfile_data run1) i =
              if printable && (off <=? i) && (i <? off + n) then 32
              else if (off + n <=? i) && (i <? dynfile_size run + n)
                   then byte_at (dynfile_data run) (i - n)
                   else byte_at (dynfile_data run) i)
      by (intros i Hi; apply byte_at_inflated; lia).
    assert (Hpt : forall i, 0 <= i ->
              byte_at (splice off (written (Ext buf soff) n printable run1)
                              (dynfile_data run1)) i =
              if (off <=? i) && (i <? off + n)
              then byte_at (written (Ext buf soff) n printable run1) (i - off)
              else byte_at (dynfile_data run1) i).
    { intros i Hi. rewrite byte_at_splice;
        rewrite ?Hw, ?Hl1, ?Z2Nat.id; solve [lia | reflexivity]. }
    eexists. split; [reflexivity |].
    unfold inserted. cbn [dynfile_size dynfile_data set_data].
    split; [reflexivity |].
    split; [rewrite length_splice; rewrite ?Hw, ?Hl1; lia |].
    split; [| split].
    + intros i Hi. rewrite Hpt by lia.
      destruct (Z.leb_spec off i); [lia |]. cbn [andb].
      rewrite Hinf by lia.
      destruct (Z.leb_spec off i); [lia |]. rewrite andb_false_r. cbn [andb].
      destruct (Z.leb_spec (off + n) i); [lia | reflexivity].
    + intros i Hi. rewrite Hpt by lia.
      destruct (Z.leb_spec off (off + i)); [| lia].
      destruct (Z.ltb_spec (off + i) (off + n)); [| lia]. cbn [andb].
      rewrite byte_at_written by (cbn [ptr_off bytes_of]; lia).
      cbn [ptr_off bytes_of]. replace (off + i - off) with i by lia.
      reflexivity.
    + intros i Hi. rewrite Hpt by lia.
      destruct (Z.ltb_spec (i + n) (off + n)); [lia |].
      rewrite andb_false_r.
      rewrite Hinf by lia.
      destruct (Z.ltb_spec (i + n) (off + n)); [lia |].
      rewrite andb_false_r.
      destruct (Z.leb_spec (off + n) (i + n)); [| lia].
      destruct (Z.ltb_spec (i + n) (dynfile_size run + n)); [| lia].
      cbn [andb]. f_equal. lia.
Qed.

(** ** The dictionary operators without a dictionary *)

Lemma wp_util_rndGet_same (ab : Prop) (min max : Z) (run : run_t)
      (Q : Z -> run_t -> Prop) :
  0 <= min <= max -> max < 18446744073709551616 ->
  max - min + 1 < 18446744073709551616 ->
  (forall r run', min <= r <= max -> same_file run run' -> Q r run') ->
  wp ab (util_rndGet min max) run Q.
Proof.
  intros Hmin Hmax Hd HQ. unfold wp.
  destruct (util_rndGet_ok min max run) as (r & Hr & Hrange);
    [lia | lia | lia |].
  rewrite Hr. apply HQ; [exact Hrange | repeat split].
Qed.

Lemma wp_rnd_uint16_buf_same (ab : Prop) (printable : bool) (run : run_t)
      (Q : list Z -> run_t -> Prop) :
  (forall buf run', length buf = 2%nat -> same_file run run' -> Q buf run') ->
  wp ab (rnd_uint16_buf printable) run Q.
Proof.
  intros HQ. unfold rnd_uint16_buf. destruct printable.
  - unfold util_rndBufPrintable, util_rndPrintable.
    change (Z.to_nat 2) with 2%nat. cbn [replicateM].
    apply wp_bind, wp_util_rndGet_same; [lia | lia | lia |].
    intros a run1 _ Hk1.
    apply wp_bind, wp_bind, wp_util_rndGet_same; [lia | lia | lia |].
    intros b run2 _ Hk2.
    apply wp_bind, wp_ret, wp_ret, wp_ret, HQ; [reflexivity |].
    eapply same_file_trans; eassumption.
  - apply wp_bind. unfold wp, util_rnd64, urandom_read.
    apply wp_ret, HQ; [reflexivity | repeat split].
Qed.

Lemma mangle_Overwrite_overwrites (off : Z) (buf : list Z) (soff len : Z)
      (printable : bool) (run : run_t) :
  0 <= off <= dynfile_size run -> 0 <= len ->
  dynfile_size run < 18446744073709551616 ->
  dynfile_size run <= Z.of_nat (length (dynfile_data run)) ->
  0 <= soff ->
  soff + Z.min len (dynfile_size run - off) <= Z.of_nat (length buf) ->
  exists run',
    mangle_Overwrite off (Ext buf soff) len printable run = Ok (tt, run') /\
    overwritten off buf soff (Z.min len (dynfile_size run - off)) printable
                run run'.
Proof.
  intros Hoff Hlen Hsz Hcap Hsoff Hsrc.
  set (n := Z.min len (dynfile_size run - off)) in *.
  assert (Hw : length (written (Ext buf soff) n printable run) = Z.to_nat n)
    by (apply length_written; cbn [ptr_off bytes_of]; lia).
  eexists. split; [apply mangle_Overwrite_ok; cbn [ptr_off bytes_of]; lia |].
  fold n. unfold overwritten. cbn [dynfile_size dynfile_data set_data].
  split; [reflexivity |].
  split; [apply length_splice; rewrite ?Hw; lia |].
  intros i Hi. rewrite byte_at_splice by (rewrite ?Hw; lia).
  rewrite Hw, Z2Nat.id by lia.
  destruct (Z.leb_spec off i); cbn [andb]; [| reflexivity].
  destruct (Z.ltb_spec i (off + n)); [| reflexivity].
  rewrite byte_at_written by (cbn [ptr_off bytes_of]; lia). reflexivity.
Qed.

Lemma mangle_BytesInsert_inserts (hf : Z) (g : honggfuzz_t) (printable : bool)
      (run : run_t) :
  typed g -> 1 <= dynfile_size run <= mutate_maxInputSz g ->
  dynfile_size run <= hf -> dynfile_size run <= getLen_cube_limit ->
  mutate_maxInputSz g <= Z.of_nat (length (dynfile_data run)) ->
  exists run' off toCopy buf,
    mangle_BytesInsert hf g printable run = Ok (tt, run') /\
    0 <= off < dynfile_size run /\ 1 <= toCopy <= 2 /\
    length buf = 2%nat /\
    inserted off buf 0
             (Z.min toCopy (mutate_maxInputSz g - dynfile_size run))
             printable run run'.
Proof.
  intros Ht Hsz Hhf Hlim Hcap. unfold typed in Ht.
  assert (H : wp False (mangle_BytesInsert hf g printable) run
                 (fun _ run' =>
                    exists off toCopy buf,
                      0 <= off < dynfile_size run /\ 1 <= toCopy <= 2 /\
                      length buf = 2%nat /\
                      inserted off buf 0
                        (Z.min toCopy
                               (mutate_maxInputSz g - dynfile_size run))
                        printable run run')).
  { unfold mangle_BytesInsert.
    apply wp_bind, wp_rnd_uint16_buf_same.
    intros buf run1 Hbuf (Hd1 & Hs1 & Hm1 & Hc1).
    apply wp_bind, wp_mangle_getOffSet; [lia | right; lia |].
    intros off run2 Hoff (Hd2 & Hs2 & Hm2 & Hc2).
    apply wp_bind, wp_util_rndGet_same; [lia | lia | lia |].
    intros toCopy run3 HtoCopy (Hd3 & Hs3 & Hm3 & Hc3).
    assert (Hd : dynfile_data run3 = dynfile_data run) by congruence.
    assert (Hs : dynfile_size run3 = dynfile_size run) by congruence.
    destruct (mangle_Insert_inserts g off buf 0 toCopy printable run3)
      as (run' & Heq & Hins);
      rewrite ?Hd, ?Hs, ?Hbuf; try lia.
    unfold wp. rewrite Heq. exists off, toCopy, buf.
    split; [lia |]. split; [lia |]. split; [exact Hbuf |].
    unfold inserted in *. rewrite Hd, Hs in Hins. exact Hins. }
  apply wp_returns in H.
  destruct H as ([] & run' & Heq & off & toCopy & buf & Hrest).
  exists run', off, toCopy, buf. split; [exact Heq | exact Hrest].
Qed.

Lemma mangle_BytesOverwrite_overwrites (hf : Z) (printable : bool)
      (run : run_t) :
  1 <= dynfile_size run -> dynfile_size run < 18446744073709551616 ->
  dynfile_size run <= hf -> dynfile_size run <= getLen_cube_limit ->
  dynfile_size run <= Z.of_nat (length (dynfile_data run)) ->
  exists run' off toCopy buf,
    mangle_BytesOverwrite hf printable run = Ok (tt, run') /\
    0 <= off < dynfile_size run /\ 1 <= toCopy <= 2 /\
    length buf = 2%nat /\
    overwritten off buf 0 (Z.min toCopy (dynfile_size run - off))
                printable run run'.
Proof.
  intros Hone Hsz Hhf Hlim Hcap.
  assert (H : wp False (mangle_BytesOverwrite hf printable) run
                 (fun _ run' =>
                    exists off toCopy buf,
                      0 <= off < dynfile_size run /\ 1 <= toCopy <= 2 /\
                      length buf = 2%nat /\
                      overwritten off buf 0
                        (Z.min toCopy (dynfile_size run - off))
                        printable run run')).
  { unfold mangle_BytesOverwrite.
    apply wp_bind, wp_mangle_getOffSet; [lia | right; lia |].
    intros off run1 Hoff (Hd1 & Hs1 & Hm1 & Hc1).
    apply wp_bind, wp_rnd_uint16_buf_same.
    intros buf run2 Hbuf (Hd2 & Hs2 & Hm2 & Hc2).
    apply wp_bind, wp_util_rndGet_same; [lia | lia | lia |].
    intros toCopy run3 HtoCopy (Hd3 & Hs3 & Hm3 & Hc3).
    assert (Hd : dynfile_data run3 = dynfile_data run) by congruence.
    assert (Hs : dynfile_size run3 = dynfile_size run) by congruence.
    destruct (mangle_Overwrite_overwrites off buf 0 toCopy printable run3)
      as (run' & Heq & Hov);
      rewrite ?Hd, ?Hs, ?Hbuf; try lia.
    unfold wp. rewrite Heq. exists off, toCopy, buf.
    split; [lia |]. split; [lia |]. split; [exact Hbuf |].
    unfold overwritten in *. rewrite Hd, Hs in Hov. exact Hov. }
  apply wp_returns in H.
  destruct H as ([] & run' & Heq & off & toCopy & buf & Hrest).
  exists run', off, toCopy, buf. split; [exact Heq | exact Hrest].
Qed.

(** With [dictionaryCnt == 0], [mangle_DictionaryInsert] is
    [mangle_BytesInsert] and [mangle_DictionaryOverwrite] is
    [mangle_BytesOverwrite], on every state, hence for the same random
    tape.  On a non-empty input within the sizes that [mangle_getLen]
    handles neither aborts: the first inserts [min toCopy (maxInputSz -
    size)] bytes of a 2-byte buffer at the offset drawn, [toCopy] being 1
    or 2, the second overwrites [min toCopy (size - off)] bytes there. *)
Theorem mangle_Dictionary_fallthrough (hf : Z) (g : honggfuzz_t)
        (printable : bool) (run : run_t) :
  mutate_dictionaryCnt g = 0 ->
  mangle_DictionaryInsert hf g printable run
    = mangle_BytesInsert hf g printable run /\
  mangle_DictionaryOverwrite hf g printable run
    = mangle_BytesOverwrite hf printable run /\
  (typed g -> 1 <= dynfile_size run <= mutate_maxInputSz g ->
   dynfile_size run <= hf -> dynfile_size run <= getLen_cube_limit ->
   mutate_maxInputSz g <= Z.of_nat (length (dynfile_data run)) ->
   (exists run' off toCopy buf,
      mangle_DictionaryInsert hf g printable run = Ok (tt, run') /\
      0 <= off < dynfile_size run /\ 1 <= toCopy <= 2 /\
      length buf = 2%nat /\
      inserted off buf 0
               (Z.min toCopy (mutate_maxInputSz g - dynfile_size run))
               printable run run') /\
   (exists run' off toCopy buf,
      mangle_DictionaryOverwrite hf g printable run = Ok (tt, run') /\
      0 <= off < dynfile_size run /\ 1 <= toCopy <= 2 /\
      length buf = 2%nat /\
      overwritten off buf 0 (Z.min toCopy (dynfile_size run - off))
                  printable run run')).
Proof.
  intros Hcnt.
  assert (Hi : mangle_DictionaryInsert hf g printable run
               = mangle_BytesInsert hf g printable run)
    by (unfold mangle_DictionaryInsert; rewrite Hcnt; reflexivity).
  assert (Ho : mangle_DictionaryOverwrite hf g printable run
               = mangle_BytesOverwrite hf printable run)
    by (unfold mangle_DictionaryOverwrite; rewrite Hcnt; reflexivity).
  split; [exact Hi |]. split; [exact Ho |].
  intros Ht Hsz Hhf Hlim Hcap. rewrite Hi, Ho. split.
  - apply mangle_BytesInsert_inserts; assumption.
  - unfold typed in Ht. apply mangle_BytesOverwrite_overwrites; lia.
Qed.

Lemma mangle_Dictionary_fallthrough_witness :
  mangle_DictionaryInsert 134217728 (sample_global 8 false) false
                          (sample_run [1; 2; 3; 4; 5; 6; 7; 8] 3
                                      [513; 0; 1])
    = Ok (tt, mkRun [1; 2; 1; 2; 3; 6; 7; 8] 5 1 (tape [513; 0; 1]) 3 [] 0).
Proof.
  destruct (mangle_Dictionary_fallthrough 134217728 (sample_global 8 false)
              false (sample_run [1; 2; 3; 4; 5; 6; 7; 8] 3 [513; 0; 1]))
    as (Hins & _); [reflexivity |].
  rewrite Hins. vm_compute. reflexivity.
Defined.

(** ** The dictionary operators on a 4 MiB input *)

(** [mangle_getLen(4194304)]: the cube of [max] is 0 in 64 bits and the
    division is undefined, whatever is drawn. *)
Lemma mangle_getLen_4MiB (hf : Z) (run : run_t) :
  4194304 <= hf -> mangle_getLen hf 4194304 run = Abort Undefined.
Proof.
  intros Hhf. unfold mangle_getLen.
  destruct (Z.gtb_spec 4194304 hf); [lia |].
  change (4194304 =? 0) with false. change (4194304 =? 1) with false.
  cbv beta iota zeta.
  change (u64 (4194304 * 4194304 * 4194304) =? 0) with true.
  change (u64 (u64 (4194304 * 4194304) - 1)) with 17592186044415.
  unfold util_rndGet, urandom_read, bind. cbv beta iota.
  change (1 >? 17592186044415) with false.
  change (u64 (17592186044415 - 1 + 1) =? 0) with false.
  reflexivity.
Qed.

Lemma mangle_getOffSet_4MiB (hf : Z) (run : run_t) :
  4194304 <= hf -> dynfile_size run = 4194304 ->
  mangle_getOffSet hf run = Abort Undefined.
Proof.
  intros Hhf Hs. unfold mangle_getOffSet, bind, get_size.
  rewrite Hs, mangle_getLen_4MiB by exact Hhf. reflexivity.
Qed.

(** C9. With [dictionaryCnt == 0] the two dictionary operators are the
    [mangle_Bytes] operators, and both start, before they touch the input,
    by drawing an offset with [mangle_getOffSet], that is with
    [mangle_getLen(size)].  On an input of 4194304 bytes, a size
    [HF_INPUT_MAX_SIZE] allows as soon as it is at least 4 MiB, the cube
    in [mangle_getLen] wraps around to 0 and the division by it is
    undefined: [mangle_DictionaryInsert] and [mangle_DictionaryOverwrite]
    both abort there, whatever the random source yields. *)
Theorem mangle_Dictionary_fallthrough_aborts (hf : Z) (g : honggfuzz_t)
        (printable : bool) (run : run_t) :
  mutate_dictionaryCnt g = 0 -> 4194304 <= hf ->
  dynfile_size run = 4194304 ->
  mangle_DictionaryInsert hf g printable run = Abort Undefined /\
  mangle_DictionaryOverwrite hf g printable run = Abort Undefined.
Proof.
  intros Hcnt Hhf Hs. split.
  - unfold mangle_DictionaryInsert. rewrite Hcnt. cbv beta iota.
    change (0 =? 0) with true. cbv iota.
    unfold mangle_BytesInsert.
    destruct (wp_returns (rnd_uint16_buf printable) run
                (fun _ run1 => same_file run run1))
      as (buf & run1 & Heq & _ & Hs1 & _).
    { apply wp_rnd_uint16_buf_same. intros b r _ Hsf. exact Hsf. }
    unfold bind at 1. rewrite Heq.
    unfold bind at 1.
    rewrite mangle_getOffSet_4MiB by (rewrite ?Hs1; assumption).
    reflexivity.
  - unfold mangle_DictionaryOverwrite. rewrite Hcnt.
    change (0 =? 0) with true. cbv iota.
    unfold mangle_BytesOverwrite. unfold bind at 1.
    rewrite mangle_getOffSet_4MiB by assumption. reflexivity.
Qed.

Lemma mangle_Dictionary_fallthrough_aborts_witness :
  mangle_DictionaryInsert 134217728 (sample_global 4194304 false) false
    (sample_run (repeat 65 (Z.to_nat 4194304)) 4194304 [])
    = Abort Undefined /\
  mangle_DictionaryOverwrite 134217728 (sample_global 4194304 false) false
    (sample_run (repeat 65 (Z.to_nat 4194304)) 4194304 [])
    = Abort Undefined.
Proof.
  apply (mangle_Dictionary_fallthrough_aborts 134217728
           (sample_global 4194304 false) false
           (sample_run (repeat 65 (Z.to_nat 4194304)) 4194304 [])).
  - reflexivity.
  - lia.
  - reflexivity.
Defined.

(** ** Printable mode *)

(** *** Writes with their effect on the bytes *)

Lemma wp_load_exact {ab : Prop} (p : ptr) (n : Z) (run : run_t)
      (Q : list Z -> run_t -> Prop) :
  ab \/ (0 <= ptr_off p /\ 0 <= n /\
         ptr_off p + n <= Z.of_nat (length (bytes_of p run))) ->
  (0 <= ptr_off p -> 0 <= n ->
   ptr_off p + n <= Z.of_nat (length (bytes_of p run)) ->
   Q (slice (ptr_off p) n (bytes_of p run)) run) ->
  wp ab (load p n) run Q.
Proof.
  intros Hpre HQ. unfold wp.
  destruct p as [off | buf off]; unfold load, bind, get_data;
    cbn [ptr_off bytes_of] in *.
  - destruct (in_bounds off n (dynfile_data run)) eqn:Hb.
    + apply in_bounds_true in Hb. apply HQ; lia.
    + apply in_bounds_false in Hb.
      destruct Hpre as [Ha | Hp]; [exact Ha | contradiction].
  - destruct (in_bounds off n buf) eqn:Hb.
    + apply in_bounds_true in Hb. apply HQ; lia.
    + apply in_bounds_false in Hb.
      destruct Hpre as [Ha | Hp]; [exact Ha | contradiction].
Qed.

Lemma wp_store_exact {ab : Prop} (off : Z) (bs : list Z) (run : run_t)
      (Q : unit -> run_t -> Prop) :
  ab \/ (0 <= off /\
         off + Z.of_nat (length bs) <= Z.of_nat (length (dynfile_data run))) ->
  (0 <= off ->
   off + Z.of_nat (length bs) <= Z.of_nat (length (dynfile_data run)) ->
   Q tt (set_data (splice off bs (dynfile_data run)) run)) ->
  wp ab (store off bs) run Q.
Proof.
  intros Hpre HQ. unfold wp, store, bind, get_data, put_data.
  destruct (in_bounds off (Z.of_nat (length bs)) (dynfile_data run)) eqn:Hb.
  - apply in_bounds_true in Hb. apply HQ; lia.
  - apply in_bounds_false in Hb.
    destruct Hpre as [Ha | Hp]; [exact Ha | exfalso; apply Hb; lia].
Qed.

(** Printable bytes written over a range outside which the input is
    printable. *)
Lemma printable_splice (off : Z) (bs : list Z) (run : run_t) :
  0 <= off ->
  off + Z.of_nat (length bs) <= Z.of_nat (length (dynfile_data run)) ->
  printable_outside off (Z.of_nat (length bs)) run ->
  (forall j, 0 <= j < Z.of_nat (length bs) -> printable_byte (byte_at bs j)) ->
  printable_input (set_data (splice off bs (dynfile_data run)) run).
Proof.
  intros Hoff Hb Hout Hbs i Hi. cbn [dynfile_size dynfile_data set_data] in *.
  rewrite byte_at_splice by lia.
  destruct (Z.leb_spec off i); cbn [andb]; [| apply Hout; lia].
  destruct (Z.ltb_spec i (off + Z.of_nat (length bs)));
    [apply Hbs; lia | apply Hout; lia].
Qed.

Lemma printable_outside_splice (off : Z) (bs : list Z) (run : run_t) :
  0 <= off ->
  off + Z.of_nat (length bs) <= Z.of_nat (length (dynfile_data run)) ->
  printable_input run ->
  printable_outside off (Z.of_nat (length bs))
                    (set_data (splice off bs (dynfile_data run)) run).
Proof.
  intros Hoff Hb Hp i Hi Hout. cbn [dynfile_size dynfile_data set_data] in *.
  rewrite byte_at_splice by lia.
  destruct (Z.leb_spec off i); cbn [andb]; [| apply Hp; lia].
  destruct (Z.ltb_spec i (off + Z.of_nat (length bs))); [lia | apply Hp; lia].
Qed.

Lemma printable_input_same (run run' : run_t) :
  same_file run run' -> printable_input run -> printable_input run'.
Proof.
  intros (Hd & Hs & _) Hp i Hi. rewrite Hd. apply Hp. lia.
Qed.

Lemma keeps_set_data (d : list Z) (run : run_t) :
  length d = length (dynfile_data run) -> keeps run (set_data d run).
Proof. intros Hl. repeat split. exact Hl. Qed.

Lemma wp_store_printable {ab : Prop} (off : Z) (bs : list Z) (run : run_t)
      (Q : unit -> run_t -> Prop) :
  printable_input run -> Forall printable_byte bs ->
  ab \/ (0 <= off /\
         off + Z.of_nat (length bs) <= Z.of_nat (length (dynfile_data run))) ->
  (forall run', keeps run run' -> printable_input run' -> Q tt run') ->
  wp ab (store off bs) run Q.
Proof.
  intros Hp Hbs Hpre HQ. apply wp_store_exact; [exact Hpre |].
  intros Hoff Hb. apply HQ.
  - apply keeps_set_data, length_splice; lia.
  - apply printable_splice; [lia | lia | |].
    + intros i Hi _. apply Hp, Hi.
    + intros j Hj. rewrite Forall_forall in Hbs. apply Hbs.
      unfold byte_at. apply nth_In. lia.
Qed.

Lemma wp_memset_printable {ab : Prop} (off c n : Z) (run : run_t)
      (Q : unit -> run_t -> Prop) :
  printable_input run -> printable_byte c ->
  ab \/ (0 <= off /\ 0 <= n /\
         off + n <= Z.of_nat (length (dynfile_data run))) ->
  (forall run', keeps run run' -> printable_input run' -> Q tt run') ->
  wp ab (memset off c n) run Q.
Proof.
  intros Hp Hc Hpre HQ. unfold memset.
  destruct (Z.leb_spec 0 n).
  - apply wp_store_printable; [exact Hp | | | exact HQ].
    + unfold printable_byte in Hc. unfold u8.
      change (2 ^ 8) with 256. rewrite Z.mod_small by lia.
      apply Forall_forall. intros x Hx. apply repeat_spec in Hx. subst x.
      exact Hc.
    + destruct Hpre as [Ha | Hb]; [left; exact Ha | right].
      rewrite repeat_length. lia.
  - apply wp_undefined. destruct Hpre as [Ha | Hb]; [exact Ha | lia].
Qed.

Lemma wp_store_byte_printable {ab : Prop} (off v : Z) (run : run_t)
      (Q : unit -> run_t -> Prop) :
  printable_input run -> printable_byte v ->
  ab \/ (0 <= off < Z.of_nat (length (dynfile_data run))) ->
  (forall run', keeps run run' -> printable_input run' -> Q tt run') ->
  wp ab (store_byte off v) run Q.
Proof.
  intros Hp Hv Hpre HQ. unfold store_byte.
  apply wp_store_printable; [exact Hp | | | exact HQ].
  - unfold printable_byte in Hv. unfold u8.
    change (2 ^ 8) with 256. rewrite Z.mod_small by lia.
    constructor; [exact Hv | constructor].
  - destruct Hpre as [Ha | Hb]; [left; exact Ha | right]. cbn [length]. lia.
Qed.

Lemma wp_util_turnToPrintable_exact {ab : Prop} (off sz : Z) (run : run_t)
      (Q : unit -> run_t -> Prop) :
  printable_outside off sz run ->
  ab \/ (0 <= off /\ 0 <= sz /\
         off + sz <= Z.of_nat (length (dynfile_data run))) ->
  (forall run', keeps run run' -> printable_input run' -> Q tt run') ->
  wp ab (util_turnToPrintable off sz) run Q.
Proof.
  intros Hout Hpre HQ. unfold util_turnToPrintable.
  apply wp_bind, wp_load_exact.
  { destruct Hpre as [Ha | Hb]; [left; exact Ha | right].
    cbn [ptr_off bytes_of]. lia. }
  cbn [ptr_off bytes_of]. intros Hoff Hsz Hb.
  assert (Hl : length (slice off sz (dynfile_data run)) = Z.to_nat sz)
    by (apply length_slice; lia).
  apply wp_store_exact.
  { right. rewrite length_map, Hl. lia. }
  rewrite length_map, Hl. intros _ _. apply HQ.
  - apply keeps_set_data, length_splice; rewrite ?length_map, ?Hl; lia.
  - apply printable_splice; rewrite ?length_map, ?Hl, ?Z2Nat.id; try lia.
    + exact Hout.
    + intros j Hj. rewrite byte_at_map by (rewrite Hl; lia).
      apply toPrintable_range.
Qed.

Lemma wp_mangle_Overwrite_printable {ab : Prop} (off : Z) (src : ptr)
      (len : Z) (run : run_t) (Q : unit -> run_t -> Prop) :
  printable_input run ->
  ab \/ (0 <= off <= dynfile_size run /\ 0 <= len /\
         dynfile_size run < 18446744073709551616 /\
         dynfile_size run <= Z.of_nat (length (dynfile_data run)) /\
         0 <= ptr_off src /\
         ptr_off src + Z.min len (dynfile_size run - off)
           <= Z.of_nat (length (bytes_of src run))) ->
  (forall run', keeps run run' -> printable_input run' -> Q tt run') ->
  wp ab (mangle_Overwrite off src len true) run Q.
Proof.
  intros Hp Hpre HQ. unfold mangle_Overwrite.
  destruct (Z.eqb_spec len 0) as [Hz | Hnz];
    [apply wp_ret, HQ; [apply keeps_refl | exact Hp] |].
  apply wp_bind, wp_get_size.
  set (n := if len >? u64 (dynfile_size run - off)
            then u64 (dynfile_size run - off) else len).
  assert (Hn : ab \/
            (0 <= off /\ 0 <= n /\
             off + n <= Z.of_nat (length (dynfile_data run)) /\
             0 <= ptr_off src /\
             ptr_off src + n <= Z.of_nat (length (bytes_of src run)))).
  { destruct Hpre as [Ha | Hb]; [left; exact Ha | right]. subst n.
    rewrite u64_small by lia.
    destruct (Z.gtb_spec len (dynfile_size run - off)); lia. }
  unfold memmove. apply wp_bind, wp_bind, wp_load.
  { destruct Hn as [Ha | Hb]; [left; exact Ha | right]. lia. }
  intros bs Hn0 Hl. apply wp_store_exact.
  { destruct Hn as [Ha | Hb]; [left; exact Ha | right]. lia. }
  intros Hoff Hb. cbn [when].
  apply wp_util_turnToPrintable_exact.
  - replace n with (Z.of_nat (length bs)) by lia.
    apply printable_outside_splice; [lia | lia | exact Hp].
  - right. cbn [dynfile_data set_data]. rewrite length_splice by lia. lia.
  - intros run2 Hk Hp2. apply HQ; [| exact Hp2].
    eapply keeps_trans; [| exact Hk].
    apply keeps_set_data, length_splice; lia.
Qed.

Lemma printable_inflated (off n : Z) (run : run_t) (d' : list Z) (sz' : Z) :
  0 <= off < dynfile_size run -> 0 <= n ->
  dynfile_size run + n <= Z.of_nat (length (dynfile_data run)) ->
  printable_input run ->
  d' = inflated off n (dynfile_size run) true (dynfile_data run) ->
  sz' = dynfile_size run + n ->
  (forall i, 0 <= i < sz' -> printable_byte (byte_at d' i)) /\
  (forall i, 0 <= i < off -> byte_at d' i = byte_at (dynfile_data run) i) /\
  length d' = length (dynfile_data run).
Proof.
  intros Hoff Hn Hcap Hp -> ->. split; [| split].
  - intros i Hi. rewrite byte_at_inflated by lia. cbn [andb].
    destruct (Z.leb_spec off i); cbn [andb].
    + destruct (Z.ltb_spec i (off + n)); [unfold printable_byte; lia |].
      destruct (Z.leb_spec (off + n) i); [| lia].
      destruct (Z.ltb_spec i (dynfile_size run + n)); [| lia].
      cbn [andb]. apply Hp. lia.
    + destruct (Z.leb_spec (off + n) i); [lia |]. cbn [andb]. apply Hp. lia.
  - intros i Hi. rewrite byte_at_inflated by lia.
    destruct (Z.leb_spec off i); [lia |]. cbn [andb].
    destruct (Z.leb_spec (off + n) i); [lia | reflexivity].
  - apply length_inflated; lia.
Qed.

Lemma wp_mangle_Inflate_printable {ab : Prop} (g : honggfuzz_t)
      (off len : Z) (run : run_t) (Q : Z -> run_t -> Prop) :
  printable_input run ->
  0 <= off < dynfile_size run -> 0 <= len ->
  dynfile_size run <= mutate_maxInputSz g ->
  mutate_maxInputSz g < 18446744073709551616 ->
  ab \/ mutate_maxInputSz g <= Z.of_nat (length (dynfile_data run)) ->
  (forall n run',
     0 <= n <= len -> n <= mutate_maxInputSz g - dynfile_size run ->
     grown n run run' -> printable_input run' ->
     (forall i, 0 <= i < off ->
        byte_at (dynfile_data run') i = byte_at (dynfile_data run) i) ->
     Q n run') ->
  wp ab (mangle_Inflate g off len true) run Q.
Proof.
  intros Hp Hoff Hlen Hle Hmax Hpre HQ. unfold mangle_Inflate.
  apply wp_bind, wp_get_size.
  destruct (Z.geb_spec (dynfile_size run) (mutate_maxInputSz g)).
  { apply wp_ret, HQ; [lia | lia | | exact Hp | reflexivity].
    repeat split. lia. }
  rewrite (u64_small (mutate_maxInputSz g - dynfile_size run)) by lia.
  set (n := if len >? mutate_maxInputSz g - dynfile_size run
            then mutate_maxInputSz g - dynfile_size run else len).
  assert (Hn : 0 <= n <= len /\ n <= mutate_maxInputSz g - dynfile_size run)
    by (subst n;
        destruct (Z.gtb_spec len (mutate_maxInputSz g - dynfile_size run));
        lia).
  rewrite (u64_small (dynfile_size run + n)), (u64_small (off + n)) by lia.
  apply wp_bind, wp_input_setSize, wp_bind, wp_get_size.
  cbn [dynfile_size set_size].
  apply wp_bind. unfold mangle_Move.
  apply wp_bind, wp_get_size. cbn [dynfile_size set_size].
  destruct (Z.geb_spec off (dynfile_size run + n)); [lia |].
  destruct (Z.geb_spec (off + n) (dynfile_size run + n)); [lia |].
  rewrite !HF_MIN_spec, !u64_small by lia.
  replace (Z.min (Z.min (dynfile_size run + n) (dynfile_size run + n - off))
                 (dynfile_size run + n - (off + n)))
    with (dynfile_size run - off) by lia.
  unfold memmove. apply wp_bind, wp_load_exact.
  { destruct Hpre as [Ha | Hb]; [left; exact Ha | right].
    cbn [ptr_off bytes_of dynfile_data set_size]. lia. }
  cbn [ptr_off bytes_of dynfile_data set_size]. intros _ _ Hsrc.
  assert (Hl : length (slice off (dynfile_size run - off) (dynfile_data run))
               = Z.to_nat (dynfile_size run - off))
    by (apply length_slice; lia).
  apply wp_store_exact.
  { destruct Hpre as [Ha | Hb]; [left; exact Ha | right].
    cbn [dynfile_data set_size]. rewrite Hl. lia. }
  cbn [dynfile_data set_size]. rewrite Hl. intros _ Hdst.
  cbn [when]. apply wp_bind. unfold memset.
  destruct (Z.leb_spec 0 n); [| lia].
  apply wp_store_exact.
  { right. cbn [dynfile_data set_data].
    rewrite repeat_length, length_splice by (rewrite ?Hl; lia). lia. }
  intros _ _. apply wp_ret.
  cbn [dynfile_data set_data].
  destruct (printable_inflated off n run
              (splice off (repeat (u8 32) (Z.to_nat n))
                      (splice (off + n)
                              (slice off (dynfile_size run - off)
                                     (dynfile_data run))
                              (dynfile_data run)))
              (dynfile_size run + n))
    as (Hp' & Hsame & Hlen'); try lia; try assumption; try reflexivity.
  apply HQ; [lia | lia | | | exact Hsame].
  - repeat split. exact Hlen'.
  - intros i Hi. apply Hp'. exact Hi.
Qed.

Lemma wp_mangle_Insert_printable {ab : Prop} (g : honggfuzz_t) (off : Z)
      (val : ptr) (len : Z) (run : run_t) (Q : unit -> run_t -> Prop) :
  printable_input run ->
  0 <= off < dynfile_size run -> 0 <= len ->
  dynfile_size run <= mutate_maxInputSz g ->
  mutate_maxInputSz g < 18446744073709551616 ->
  ab \/ (mutate_maxInputSz g <= Z.of_nat (length (dynfile_data run)) /\
         0 <= ptr_off val /\
         ptr_off val + Z.min len (mutate_maxInputSz g - dynfile_size run)
           <= Z.of_nat (length (bytes_of val run))) ->
  (forall n run',
     0 <= n <= len -> n <= mutate_maxInputSz g - dynfile_size run ->
     grown n run run' -> printable_input run' -> Q tt run') ->
  wp ab (mangle_Insert g off val len true) run Q.
Proof.
  intros Hp Hoff Hlen Hle Hmax Hpre HQ. unfold mangle_Insert.
  apply wp_bind, wp_mangle_Inflate_printable; try assumption.
  { destruct Hpre as [Ha | Hb]; [left; exact Ha | right]. lia. }
  intros n run1 Hn Hroom (Hs1 & Hl1 & Hc1 & Hm1) Hp1 _.
  apply wp_mangle_Overwrite_printable; [exact Hp1 | |].
  - destruct Hpre as [Ha | Hb]; [left; exact Ha | right].
    rewrite (length_bytes_of val run run1 Hl1). lia.
  - intros run2 (Hs2 & Hl2 & Hc2 & Hm2) Hp2. apply (HQ n); [lia | lia | |].
    + repeat split; congruence.
    + exact Hp2.
Qed.

(** *** Draws and reads that leave the input as it is *)

Lemma wp_util_rnd64_same {ab : Prop} (run : run_t) (Q : Z -> run_t -> Prop) :
  (forall r run', 0 <= r < 18446744073709551616 -> same_file run run' ->
                  Q r run') ->
  wp ab util_rnd64 run Q.
Proof.
  intros H. unfold wp, util_rnd64, urandom_read.
  apply H; [apply u64_range | repeat split].
Qed.

Lemma wp_util_rndBufPrintable_printable {ab : Prop} (sz : Z) (run : run_t)
      (Q : list Z -> run_t -> Prop) :
  (forall l run', length l = Z.to_nat sz -> Forall printable_byte l ->
                  same_file run run' -> Q l run') ->
  wp ab (util_rndBufPrintable sz) run Q.
Proof.
  unfold util_rndBufPrintable. generalize (Z.to_nat sz) as n. intros n.
  revert run Q. induction n as [| n IH]; intros run Q HQ; cbn [replicateM].
  - apply wp_ret, HQ; [reflexivity | constructor | apply same_file_refl].
  - unfold util_rndPrintable at 1.
    apply wp_bind, wp_util_rndGet_same; [lia | lia | lia |].
    intros a run1 Ha Hk1. apply wp_bind, IH.
    intros l run2 Hl Hall Hk2. apply wp_ret, HQ.
    + cbn [length]. rewrite Hl. reflexivity.
    + constructor; [exact Ha | exact Hall].
    + eapply same_file_trans; eassumption.
Qed.

Lemma byte_at_slice_one (off : Z) (d : list Z) :
  0 <= off -> nth 0 (slice off 1 d) 0 = byte_at d off.
Proof.
  intros Hoff. change (nth 0 (slice off 1 d) 0) with (byte_at (slice off 1 d) 0).
  rewrite byte_at_slice by lia. f_equal. lia.
Qed.

Lemma wp_load_byte_exact {ab : Prop} (off : Z) (run : run_t)
      (Q : Z -> run_t -> Prop) :
  ab \/ (0 <= off < Z.of_nat (length (dynfile_data run))) ->
  (0 <= off < Z.of_nat (length (dynfile_data run)) ->
   Q (byte_at (dynfile_data run) off) run) ->
  wp ab (load_byte off) run Q.
Proof.
  intros Hpre HQ. unfold load_byte. apply wp_bind, wp_load_exact.
  - destruct Hpre as [Ha | H]; [left; exact Ha | right].
    cbn [ptr_off bytes_of]. lia.
  - cbn [ptr_off bytes_of]. intros Hoff _ Hb. apply wp_ret.
    rewrite byte_at_slice_one by lia. apply HQ. lia.
Qed.

Lemma wp_mangle_FeedbackDict_same {ab : Prop} (hf : Z) (g : honggfuzz_t)
      (run : run_t) (Q : option (list Z * Z) -> run_t -> Prop) :
  ab \/ safe_cfg hf g ->
  (forall run', same_file run run' -> Q None run') ->
  (forall t run',
     same_file run run' ->
     In t (cmp_valArr (feedback_cmpFeedbackMap g)) ->
     Q (Some (tok_val t, u32 (Z.of_N (tok_len t)))) run') ->
  wp ab (mangle_FeedbackDict g) run Q.
Proof.
  intros Hs HN HS. unfold mangle_FeedbackDict.
  destruct (feedback_cmpFeedback g); cbn [negb];
    [| apply wp_ret, HN, same_file_refl].
  destruct (Z.eqb_spec (u32 (cmp_cnt (feedback_cmpFeedbackMap g))) 0);
    [apply wp_ret, HN, same_file_refl |].
  pose proof (u32_range (cmp_cnt (feedback_cmpFeedbackMap g))) as Hc.
  set (cnt0 := u32 (cmp_cnt (feedback_cmpFeedbackMap g))) in *.
  set (arr := cmp_valArr (feedback_cmpFeedbackMap g)) in *.
  set (cnt := if cnt0 >? ARRAYSIZE arr then u32 (ARRAYSIZE arr) else cnt0).
  pose proof (u32_range (cnt - 1)) as Hc1.
  apply wp_bind, wp_util_rndGet_same; [lia | lia | lia |].
  intros choice run1 Hchoice Hk1.
  apply wp_bind, wp_index.
  - destruct Hs as [Ha | Hcfg]; [left; exact Ha | right].
    unfold safe_cfg in Hcfg.
    destruct Hcfg as (_ & _ & _ & _ & _ & _ & Harr & _). fold arr in Harr.
    assert (Hcnt : 1 <= cnt <= Z.of_nat (length arr)).
    { subst cnt. unfold ARRAYSIZE.
      destruct (Z.gtb_spec cnt0 (Z.of_nat (length arr)));
        [rewrite u32_small by lia |]; lia. }
    rewrite (u32_small (cnt - 1)) in Hchoice by lia.
    rewrite u32_small by lia. lia.
  - intros t Hin.
    destruct (Z.eqb_spec (u32 (Z.of_N (tok_len t))) 0);
      [apply wp_ret, HN, Hk1 | apply wp_ret, HS; assumption].
Qed.

Lemma wp_input_getRandomInputAsBuf_same {ab : Prop} (run : run_t)
      (Q : list Z -> run_t -> Prop) :
  (forall buf run',
     dynfile_size run' = dynfile_size run ->
     dynfile_data run' = dynfile_data run ->
     incl (corpus run') (corpus run) ->
     buf = [] \/ In buf (corpus run) ->
     Q buf run') ->
  wp ab input_getRandomInputAsBuf run Q.
Proof.
  intros HQ. unfold wp, input_getRandomInputAsBuf.
  destruct (corpus run) as [| f rest] eqn:Hc.
  - apply HQ; try reflexivity;
      [rewrite Hc; apply incl_refl | left; reflexivity].
  - apply HQ; try reflexivity.
    + cbn [corpus set_corpus]. apply incl_tl, incl_refl.
    + right. left. reflexivity.
Qed.

Lemma wp_mangle_Move_printable {ab : Prop} (off_from off_to len : Z)
      (run : run_t) (Q : unit -> run_t -> Prop) :
  printable_input run -> 0 <= off_from -> 0 <= off_to -> 0 <= len ->
  dynfile_size run < 18446744073709551616 ->
  ab \/ dynfile_size run <= Z.of_nat (length (dynfile_data run)) ->
  (forall run', keeps run run' -> printable_input run' -> Q tt run') ->
  wp ab (mangle_Move off_from off_to len) run Q.
Proof.
  intros Hp Hfrom Hto Hlen Hsz Hpre HQ. unfold mangle_Move.
  apply wp_bind, wp_get_size.
  destruct (Z.geb_spec off_from (dynfile_size run));
    [apply wp_ret, HQ; [apply keeps_refl | exact Hp] |].
  destruct (Z.geb_spec off_to (dynfile_size run));
    [apply wp_ret, HQ; [apply keeps_refl | exact Hp] |].
  rewrite !HF_MIN_spec, !u64_small by lia.
  set (n := Z.min (Z.min len (dynfile_size run - off_from))
                  (dynfile_size run - off_to)).
  unfold memmove. apply wp_bind, wp_load_exact.
  { destruct Hpre as [Ha | Hb]; [left; exact Ha | right].
    cbn [ptr_off bytes_of]. lia. }
  cbn [ptr_off bytes_of]. intros _ Hn Hsrc.
  assert (Hl : length (slice off_from n (dynfile_data run)) = Z.to_nat n)
    by (apply length_slice; lia).
  apply wp_store_exact.
  { destruct Hpre as [Ha | Hb]; [left; exact Ha | right]. rewrite Hl. lia. }
  rewrite Hl. intros _ Hdst. apply HQ.
  - apply keeps_set_data, length_splice; rewrite ?Hl; lia.
  - apply printable_splice; rewrite ?Hl; try lia.
    + intros i Hi _. apply Hp, Hi.
    + intros j Hj. rewrite byte_at_slice by lia. apply Hp. lia.
Qed.

(** *** The operators in printable mode *)

(** A step that left the input as it was: the input is still printable,
    and the sizes are those of before. *)
Ltac same H :=
  match goal with
  | Hp : printable_input _ |- _ =>
      let Hp' := fresh "Hp" in
      pose proof (printable_input_same _ _ H Hp) as Hp'; clear Hp
  end;
  frame H.

Section PrintableMode.

Variable ab : Prop.
Variable hf : Z.
Variable g : honggfuzz_t.

Lemma mangle_BytesOverwrite_printable :
  keeps_printable ab hf g (mangle_BytesOverwrite hf).
Proof.
  intros run Ht Hf Hp Hs. unfold typed, fits in *.
  unfold mangle_BytesOverwrite.
  apply wp_bind, wp_mangle_getOffSet; [lia | side Hs; lia |].
  intros off run1 Hoff Hk1. same Hk1.
  apply wp_bind, wp_rnd_uint16_buf_same. intros buf run2 Hbuf Hk2. same Hk2.
  apply wp_bind, wp_util_rndGet_same; [lia | lia | lia |].
  intros toCopy run3 HtoCopy Hk3. same Hk3.
  apply wp_mangle_Overwrite_printable; [assumption | |].
  - side Hs. cbn [ptr_off bytes_of]. lia.
  - intros run4 _ Hp4. exact Hp4.
Qed.

Lemma mangle_BytesInsert_printable :
  keeps_printable ab hf g (mangle_BytesInsert hf g).
Proof.
  intros run Ht Hf Hp Hs. unfold typed, fits in *.
  unfold mangle_BytesInsert.
  apply wp_bind, wp_rnd_uint16_buf_same. intros buf run1 Hbuf Hk1. same Hk1.
  apply wp_bind, wp_mangle_getOffSet; [lia | side Hs; lia |].
  intros off run2 Hoff Hk2. same Hk2.
  apply wp_bind, wp_util_rndGet_same; [lia | lia | lia |].
  intros toCopy run3 HtoCopy Hk3. same Hk3.
  apply wp_mangle_Insert_printable; [assumption | lia | lia | lia | lia | |].
  - side Hs. cbn [ptr_off bytes_of]. lia.
  - intros n run4 _ _ _ Hp4. exact Hp4.
Qed.

(** An operator run after steps that left the input as it was. *)
Lemma keeps_printable_after (op : bool -> M unit) (run run0 : run_t) :
  keeps_printable ab hf g op -> typed g -> fits g run ->
  dynfile_size run0 = dynfile_size run ->
  length (dynfile_data run0) = length (dynfile_data run) ->
  incl (corpus run0) (corpus run) ->
  printable_input run0 ->
  ab \/ (safe_cfg hf g /\ safe_run hf g run /\ 1 <= dynfile_size run) ->
  wp ab (op true) run0 (fun _ run' => printable_input run').
Proof.
  intros Hop Ht Hf Hs0 Hl0 Hc0 Hp0 Hs.
  apply Hop; [exact Ht | unfold fits in *; lia | exact Hp0 |].
  destruct Hs as [Ha | (Hcfg & Hrun & Hone)]; [left; exact Ha | right].
  split; [exact Hcfg |]. split; [| lia].
  destruct Hrun as [Hcap Hcorp]. split; [lia |].
  rewrite Forall_forall in *. intros f Hin. apply Hcorp, Hc0, Hin.
Qed.

Lemma mangle_MemCopyOverwrite_printable :
  keeps_printable ab hf g (mangle_MemCopyOverwrite hf).
Proof.
  intros run Ht Hf Hp Hs. unfold typed, fits in *.
  unfold mangle_MemCopyOverwrite.
  apply wp_bind, wp_mangle_getOffSet; [lia | side Hs; lia |].
  intros off_from run1 Hfrom Hk1. same Hk1.
  apply wp_bind, wp_mangle_getOffSet; [lia | side Hs; lia |].
  intros off_to run2 Hto Hk2. same Hk2.
  apply wp_bind, wp_get_size.
  rewrite (u64_small (dynfile_size run2 - off_from)), HF_MIN_spec by lia.
  apply wp_bind, wp_mangle_getLen; [side Hs; unfold HF_MAX_LEN_BLOCK; lia |].
  intros len run3 Hlen Hk3. same Hk3.
  apply wp_mangle_Overwrite_printable; [assumption | |].
  - side Hs. cbn [ptr_off bytes_of]. lia.
  - intros run4 _ Hp4. exact Hp4.
Qed.

Lemma mangle_MemCopyInsert_printable :
  keeps_printable ab hf g (mangle_MemCopyInsert hf g).
Proof.
  intros run Ht Hf Hp Hs. unfold typed, fits in *.
  unfold mangle_MemCopyInsert.
  apply wp_bind, wp_mangle_getOffSet; [lia | side Hs; lia |].
  intros off_to run1 Hto Hk1. same Hk1.
  apply wp_bind, wp_mangle_getOffSet; [lia | side Hs; lia |].
  intros off_from run2 Hfrom Hk2. same Hk2.
  apply wp_bind, wp_get_size.
  rewrite (u64_small (dynfile_size run2 - off_from)), HF_MIN_spec by lia.
  apply wp_bind, wp_mangle_getLen; [side Hs; unfold HF_MAX_LEN_BLOCK; lia |].
  intros len run3 Hlen Hk3. same Hk3.
  apply wp_mangle_Insert_printable; [assumption | lia | lia | lia | lia | |].
  - side Hs. cbn [ptr_off bytes_of]. lia.
  - intros n run4 _ _ _ Hp4. exact Hp4.
Qed.

Lemma mangle_ByteRepeatOverwrite_printable :
  keeps_printable ab hf g (mangle_ByteRepeatOverwrite hf).
Proof.
  intros run Ht Hf Hp Hs. unfold mangle_ByteRepeatOverwrite.
  pose proof Ht as Ht'. pose proof Hf as Hf'. unfold typed, fits in Ht', Hf'.
  apply wp_bind, wp_mangle_getOffSet; [lia | side Hs; lia |].
  intros off run1 Hoff Hk1. same Hk1.
  apply wp_bind, wp_get_size.
  rewrite (u64_small (off + 1)) by lia.
  rewrite (u64_small (dynfile_size run1 - (off + 1))) by lia.
  destruct (Z.eqb_spec (dynfile_size run1 - (off + 1)) 0) as [Hz | Hnz].
  - apply (keeps_printable_after _ run run1 mangle_BytesOverwrite_printable);
      try assumption.
    replace (corpus run1) with (corpus run) by congruence. apply incl_refl.
  - rewrite HF_MIN_spec.
    apply wp_bind, wp_mangle_getLen; [side Hs; unfold HF_MAX_LEN_BLOCK; lia |].
    intros len run2 Hlen Hk2. same Hk2.
    apply wp_bind, wp_load_byte_exact; [side Hs; lia |]. intros Hb.
    apply wp_memset_printable; [assumption | | side Hs; lia |].
    + match goal with Hp' : printable_input run2 |- _ => apply Hp' end. lia.
    + intros run3 _ Hp3. exact Hp3.
Qed.

Lemma mangle_ByteRepeatInsert_printable :
  keeps_printable ab hf g (mangle_ByteRepeatInsert hf g).
Proof.
  intros run Ht Hf Hp Hs. unfold mangle_ByteRepeatInsert.
  pose proof Ht as Ht'. pose proof Hf as Hf'. unfold typed, fits in Ht', Hf'.
  apply wp_bind, wp_mangle_getOffSet; [lia | side Hs; lia |].
  intros off run1 Hoff Hk1. same Hk1.
  apply wp_bind, wp_get_size.
  rewrite (u64_small (off + 1)) by lia.
  rewrite (u64_small (dynfile_size run1 - (off + 1))) by lia.
  destruct (Z.eqb_spec (dynfile_size run1 - (off + 1)) 0) as [Hz | Hnz].
  - apply (keeps_printable_after _ run run1 mangle_BytesInsert_printable);
      try assumption.
    replace (corpus run1) with (corpus run) by congruence. apply incl_refl.
  - rewrite HF_MIN_spec.
    apply wp_bind, wp_mangle_getLen; [side Hs; unfold HF_MAX_LEN_BLOCK; lia |].
    intros len run2 Hlen Hk2. same Hk2.
    apply wp_bind, wp_mangle_Inflate_printable;
      [assumption | lia | lia | lia | lia | side Hs; lia |].
    intros n run3 Hn Hroom (Hs3 & Hl3 & _) Hp3 _.
    apply wp_bind, wp_load_byte_exact; [side Hs; lia |]. intros Hb.
    apply wp_memset_printable; [exact Hp3 | apply Hp3; lia | side Hs; lia |].
    intros run4 _ Hp4. exact Hp4.
Qed.

Lemma mangle_Bit_printable : keeps_printable ab hf g (mangle_Bit hf).
Proof.
  intros run Ht Hf Hp Hs. unfold typed, fits in *. unfold mangle_Bit.
  apply wp_bind, wp_mangle_getOffSet; [lia | side Hs; lia |].
  intros off run1 Hoff Hk1. same Hk1.
  apply wp_bind, wp_util_rndGet_same; [lia | lia | lia |].
  intros k run2 Hk Hk2. same Hk2.
  apply wp_bind, wp_load_byte_exact; [side Hs; lia |]. intros Hb.
  unfold store_byte. apply wp_bind, wp_store_exact.
  { right. cbn [length]. lia. }
  cbn [length]. intros _ _. cbn [when].
  apply wp_util_turnToPrintable_exact.
  - apply (printable_outside_splice off [_] run2); cbn [length];
      [lia | lia | assumption].
  - right. cbn [dynfile_data set_data].
    rewrite length_splice by (cbn [length]; lia). lia.
  - intros run3 _ Hp3. exact Hp3.
Qed.

Lemma printable_IncByte (b : Z) :
  printable_byte b -> printable_byte (Z.rem (b - 32 + 1) 95 + 32).
Proof.
  unfold printable_byte. intros Hb. rewrite Z.rem_mod_nonneg by lia.
  assert (0 <= (b - 32 + 1) mod 95 < 95) by (apply Z.mod_pos_bound; lia). lia.
Qed.

Lemma printable_DecByte (b : Z) :
  printable_byte b -> printable_byte (Z.rem (b - 32 + 94) 95 + 32).
Proof.
  unfold printable_byte. intros Hb. rewrite Z.rem_mod_nonneg by lia.
  assert (0 <= (b - 32 + 94) mod 95 < 95) by (apply Z.mod_pos_bound; lia).
  lia.
Qed.

Lemma printable_NegByte (b : Z) :
  printable_byte b -> printable_byte (94 - (b - 32) + 32).
Proof. unfold printable_byte. lia. Qed.

(** The operators that rewrite the byte at a random offset, with a
    rewriting that keeps a printable byte printable. *)
Lemma byte_op_printable (f : Z -> Z) :
  (forall b, printable_byte b -> printable_byte (f b)) ->
  keeps_printable ab hf g
    (fun printable : bool =>
       off <- mangle_getOffSet hf ;;
       b <- load_byte off ;;
       store_byte off (f b)).
Proof.
  intros Hfp run Ht Hf Hp Hs. unfold typed, fits in *.
  apply wp_bind, wp_mangle_getOffSet; [lia | side Hs; lia |].
  intros off run1 Hoff Hk1. same Hk1.
  apply wp_bind, wp_load_byte_exact; [side Hs; lia |]. intros Hb.
  apply wp_store_byte_printable; [assumption | | right; lia |].
  - apply Hfp.
    match goal with Hp' : printable_input run1 |- _ => apply Hp' end. lia.
  - intros run2 _ Hp2. exact Hp2.
Qed.

Lemma mangle_IncByte_printable : keeps_printable ab hf g (mangle_IncByte hf).
Proof. exact (byte_op_printable _ printable_IncByte). Qed.

Lemma mangle_DecByte_printable : keeps_printable ab hf g (mangle_DecByte hf).
Proof. exact (byte_op_printable _ printable_DecByte). Qed.

Lemma mangle_NegByte_printable : keeps_printable ab hf g (mangle_NegByte hf).
Proof. exact (byte_op_printable _ printable_NegByte). Qed.

Lemma wp_util_rndGet_tape (min max : Z) (run : run_t)
      (Q : Z -> run_t -> Prop) :
  0 <= min -> max < 18446744073709551616 ->
  ab \/ (min <= max /\ max - min + 1 < 18446744073709551616) ->
  (forall r run', min <= r <= max -> same_file run run' -> Q r run') ->
  wp ab (util_rndGet min max) run Q.
Proof.
  intros Hmin Hmax Hpre HQ. apply wp_intro.
  - intros r run' Heq. apply util_rndGet_inv in Heq; [| lia | lia].
    destruct Heq as [Hr ->]. apply HQ; [exact Hr | repeat split].
  - destruct Hpre as [Ha | [Hle Hd]]; [left; exact Ha | right].
    destruct (util_rndGet_ok min max run) as (r & Hr & _); [lia | lia | lia |].
    eexists. exact Hr.
Qed.

Lemma mangle_MagicOverwrite_printable :
  keeps_printable ab hf g (mangle_MagicOverwrite hf).
Proof.
  intros run Ht Hf Hp Hs. unfold typed, fits in *.
  unfold mangle_MagicOverwrite.
  apply wp_bind, wp_mangle_getOffSet; [lia | side Hs; lia |].
  intros off run1 Hoff Hk1. same Hk1.
  change (ARRAYSIZE mangleMagicVals - 1) with 220.
  apply wp_bind, wp_util_rndGet_same; [lia | lia | lia |].
  intros choice run2 Hchoice Hk2. same Hk2.
  apply wp_bind, wp_index.
  { right. change (Z.of_nat (length mangleMagicVals)) with 221. lia. }
  intros m Hin. pose proof (In_token_ok _ _ mangleMagicVals_ok Hin) as Hm.
  apply wp_mangle_Overwrite_printable; [assumption | |].
  - side Hs. cbn [ptr_off bytes_of]. lia.
  - intros run3 _ Hp3. exact Hp3.
Qed.

Lemma mangle_MagicInsert_printable :
  keeps_printable ab hf g (mangle_MagicInsert hf g).
Proof.
  intros run Ht Hf Hp Hs. unfold typed, fits in *.
  unfold mangle_MagicInsert.
  change (ARRAYSIZE mangleMagicVals - 1) with 220.
  apply wp_bind, wp_util_rndGet_same; [lia | lia | lia |].
  intros choice run1 Hchoice Hk1. same Hk1.
  apply wp_bind, wp_mangle_getOffSet; [lia | side Hs; lia |].
  intros off run2 Hoff Hk2. same Hk2.
  apply wp_bind, wp_index.
  { right. change (Z.of_nat (length mangleMagicVals)) with 221. lia. }
  intros m Hin. pose proof (In_token_ok _ _ mangleMagicVals_ok Hin) as Hm.
  apply wp_mangle_Insert_printable; [assumption | lia | lia | lia | lia | |].
  - side Hs. cbn [ptr_off bytes_of]. lia.
  - intros n run3 _ _ _ Hp3. exact Hp3.
Qed.

Lemma mangle_DictionaryOverwrite_printable :
  keeps_printable ab hf g (mangle_DictionaryOverwrite hf g).
Proof.
  intros run Ht Hf Hp Hs. unfold mangle_DictionaryOverwrite.
  destruct (Z.eqb_spec (mutate_dictionaryCnt g) 0) as [Hz | Hnz];
    [apply mangle_BytesOverwrite_printable; assumption |].
  unfold typed, fits in *.
  apply wp_bind, wp_mangle_getOffSet; [lia | side Hs; lia |].
  intros off run1 Hoff Hk1. same Hk1.
  pose proof (u64_range (mutate_dictionaryCnt g - 1)) as Hu.
  apply wp_bind, wp_util_rndGet_tape; [lia | lia | |].
  { side Hs. rewrite u64_small by lia. lia. }
  intros choice run2 Hchoice Hk2. same Hk2.
  apply wp_bind, wp_index.
  { side Hs. rewrite u64_small in Hchoice by lia. lia. }
  intros t Hin.
  apply wp_mangle_Overwrite_printable; [assumption | |].
  - side Hs. cbn [ptr_off bytes_of].
    assert (Z.of_N (tok_len t) <= Z.of_nat (length (tok_val t)))
      by (eapply In_token_ok; eassumption).
    lia.
  - intros run3 _ Hp3. exact Hp3.
Qed.

Lemma mangle_DictionaryInsert_printable :
  keeps_printable ab hf g (mangle_DictionaryInsert hf g).
Proof.
  intros run Ht Hf Hp Hs. unfold mangle_DictionaryInsert.
  destruct (Z.eqb_spec (mutate_dictionaryCnt g) 0) as [Hz | Hnz];
    [apply mangle_BytesInsert_printable; assumption |].
  unfold typed, fits in *.
  pose proof (u64_range (mutate_dictionaryCnt g - 1)) as Hu.
  apply wp_bind, wp_util_rndGet_tape; [lia | lia | |].
  { side Hs. rewrite u64_small by lia. lia. }
  intros choice run1 Hchoice Hk1. same Hk1.
  apply wp_bind, wp_mangle_getOffSet; [lia | side Hs; lia |].
  intros off run2 Hoff Hk2. same Hk2.
  apply wp_bind, wp_index.
  { side Hs. rewrite u64_small in Hchoice by lia. lia. }
  intros t Hin.
  apply wp_mangle_Insert_printable; [assumption | lia | lia | lia | lia | |].
  - side Hs. cbn [ptr_off bytes_of].
    assert (Z.of_N (tok_len t) <= Z.of_nat (length (tok_val t)))
      by (eapply In_token_ok; eassumption).
    lia.
  - intros n run3 _ _ _ Hp3. exact Hp3.
Qed.

Lemma mangle_ConstFeedbackInsert_printable :
  keeps_printable ab hf g (mangle_ConstFeedbackInsert hf g).
Proof.
  intros run Ht Hf Hp Hs. unfold mangle_ConstFeedbackInsert.
  apply wp_bind, (wp_mangle_FeedbackDict_same hf).
  - destruct Hs as [Ha | (Hcfg & _)]; [left; exact Ha | right; exact Hcfg].
  - intros run1 Hk1. same Hk1.
    apply (keeps_printable_after _ run run1 mangle_BytesInsert_printable);
      try assumption.
    replace (corpus run1) with (corpus run) by congruence. apply incl_refl.
  - intros t run1 Hk1 Hin. same Hk1. unfold typed, fits in *.
    pose proof (u32_range (Z.of_N (tok_len t))) as Hlen.
    apply wp_bind, wp_mangle_getOffSet; [lia | side Hs; lia |].
    intros off run2 Hoff Hk2. same Hk2.
    apply wp_mangle_Insert_printable; [assumption | lia | lia | lia | lia | |].
    + destruct Hs as [Ha | (Hcfg & (Hcap & _) & Hone)];
        [left; exact Ha | right].
      pose proof (In_feedback_ok hf g t Hcfg Hin).
      destruct Hcfg as (? & ? & _). cbn [ptr_off bytes_of]. lia.
    + intros n run3 _ _ _ Hp3. exact Hp3.
Qed.

Lemma mangle_ConstFeedbackOverwrite_printable :
  keeps_printable ab hf g (mangle_ConstFeedbackOverwrite hf g).
Proof.
  intros run Ht Hf Hp Hs. unfold mangle_ConstFeedbackOverwrite.
  apply wp_bind, (wp_mangle_FeedbackDict_same hf).
  - destruct Hs as [Ha | (Hcfg & _)]; [left; exact Ha | right; exact Hcfg].
  - intros run1 Hk1. same Hk1.
    apply (keeps_printable_after _ run run1 mangle_BytesOverwrite_printable);
      try assumption.
    replace (corpus run1) with (corpus run) by congruence. apply incl_refl.
  - intros t run1 Hk1 Hin. same Hk1. unfold typed, fits in *.
    pose proof (u32_range (Z.of_N (tok_len t))) as Hlen.
    apply wp_bind, wp_mangle_getOffSet; [lia | side Hs; lia |].
    intros off run2 Hoff Hk2. same Hk2.
    apply wp_mangle_Overwrite_printable; [assumption | |].
    + destruct Hs as [Ha | (Hcfg & (Hcap & _) & Hone)];
        [left; exact Ha | right].
      pose proof (In_feedback_ok hf g t Hcfg Hin).
      destruct Hcfg as (? & ? & _). cbn [ptr_off bytes_of]. lia.
    + intros run3 _ Hp3. exact Hp3.
Qed.

Lemma mangle_MemSet_printable : keeps_printable ab hf g (mangle_MemSet hf).
Proof.
  intros run Ht Hf Hp Hs. unfold typed, fits in *.
  unfold mangle_MemSet.
  apply wp_bind, wp_mangle_getOffSet; [lia | side Hs; lia |].
  intros off run1 Hoff Hk1. same Hk1.
  apply wp_bind, wp_get_size.
  rewrite (u64_small (dynfile_size run1 - off)), HF_MIN_spec by lia.
  apply wp_bind, wp_mangle_getLen; [side Hs; unfold HF_MAX_LEN_BLOCK; lia |].
  intros len run2 Hlen Hk2. same Hk2.
  unfold util_rndPrintable.
  apply wp_bind, wp_util_rndGet_same; [lia | lia | lia |].
  intros val run3 Hval Hk3. same Hk3.
  apply wp_memset_printable; [assumption | exact Hval | side Hs; lia |].
  intros run4 _ Hp4. exact Hp4.
Qed.

Lemma mangle_RandomOverwrite_printable :
  keeps_printable ab hf g (mangle_RandomOverwrite hf).
Proof.
  intros run Ht Hf Hp Hs. unfold typed, fits in *.
  unfold mangle_RandomOverwrite.
  apply wp_bind, wp_mangle_getOffSet; [lia | side Hs; lia |].
  intros off run1 Hoff Hk1. same Hk1.
  apply wp_bind, wp_get_size.
  rewrite (u64_small (dynfile_size run1 - off)), HF_MIN_spec by lia.
  apply wp_bind, wp_mangle_getLen; [side Hs; unfold HF_MAX_LEN_BLOCK; lia |].
  intros len run2 Hlen Hk2. same Hk2.
  apply wp_bind, wp_util_rndBufPrintable_printable.
  intros bs run3 Hbs Hall Hk3. same Hk3.
  apply wp_store_printable; [assumption | exact Hall | side Hs; lia |].
  intros run4 _ Hp4. exact Hp4.
Qed.

Lemma mangle_RandomInsert_printable :
  keeps_printable ab hf g (mangle_RandomInsert hf g).
Proof.
  intros run Ht Hf Hp Hs. unfold typed, fits in *.
  unfold mangle_RandomInsert.
  apply wp_bind, wp_mangle_getOffSet; [lia | side Hs; lia |].
  intros off run1 Hoff Hk1. same Hk1.
  apply wp_bind, wp_get_size.
  rewrite (u64_small (dynfile_size run1 - off)), HF_MIN_spec by lia.
  apply wp_bind, wp_mangle_getLen; [side Hs; unfold HF_MAX_LEN_BLOCK; lia |].
  intros len run2 Hlen Hk2. same Hk2.
  apply wp_bind, wp_mangle_Inflate_printable;
    [assumption | lia | lia | lia | lia | side Hs; lia |].
  intros n run3 Hn Hroom (Hs3 & Hl3 & _) Hp3 _.
  apply wp_bind, wp_util_rndBufPrintable_printable.
  intros bs run4 Hbs Hall Hk4. same Hk4.
  apply wp_store_printable; [assumption | exact Hall | side Hs; lia |].
  intros run5 _ Hp5. exact Hp5.
Qed.

Lemma mangle_Expand_printable : keeps_printable ab hf g (mangle_Expand hf g).
Proof.
  intros run Ht Hf Hp Hs. unfold typed, fits in *.
  unfold mangle_Expand.
  apply wp_bind, wp_mangle_getOffSet; [lia | side Hs; lia |].
  intros off run1 Hoff Hk1. same Hk1.
  apply wp_bind, wp_util_rnd64_same. intros r run2 Hr Hk2. same Hk2.
  rewrite (u64_small (mutate_maxInputSz g - off)), HF_MIN_spec by lia.
  apply wp_bind.
  assert (Hlen : forall Q : Z -> run_t -> Prop,
            (forall len run', 1 <= len -> same_file run2 run' -> Q len run') ->
            wp ab (if negb (r mod 16 =? 0)
                   then mangle_getLen hf (Z.min 16 (mutate_maxInputSz g - off))
                   else mangle_getLen hf (mutate_maxInputSz g - off)) run2 Q).
  { intros Q HQ. destruct (negb (r mod 16 =? 0)).
    - apply wp_mangle_getLen; [side Hs; lia |].
      intros len run' Hlen Hk. apply HQ; [lia | exact Hk].
    - apply wp_mangle_getLen; [side Hs; lia |].
      intros len run' Hlen Hk. apply HQ; [lia | exact Hk]. }
  apply Hlen. intros len run3 Hl Hk3. same Hk3.
  apply wp_bind, wp_mangle_Inflate_printable;
    [assumption | lia | lia | lia | lia | side Hs; lia |].
  intros n run4 _ _ _ Hp4 _. apply wp_ret. exact Hp4.
Qed.

Lemma mangle_ASCIINumOverwrite_printable :
  keeps_printable ab hf g (mangle_ASCIINumOverwrite hf).
Proof.
  intros run Ht Hf Hp Hs. unfold typed, fits in *.
  unfold mangle_ASCIINumOverwrite.
  apply wp_bind, wp_mangle_getOffSet; [lia | side Hs; lia |].
  intros off run1 Hoff Hk1. same Hk1.
  apply wp_bind, wp_util_rndGet_same; [lia | lia | lia |].
  intros len run2 Hlen Hk2. same Hk2.
  apply wp_bind, wp_util_rnd64_same. intros r run3 Hr Hk3. same Hk3.
  apply wp_mangle_Overwrite_printable; [assumption | |].
  - side Hs. cbn [ptr_off bytes_of]. rewrite length_snprintf_19d. lia.
  - intros run4 _ Hp4. exact Hp4.
Qed.

Lemma mangle_ASCIINumInsert_printable :
  keeps_printable ab hf g (mangle_ASCIINumInsert hf g).
Proof.
  intros run Ht Hf Hp Hs. unfold typed, fits in *.
  unfold mangle_ASCIINumInsert.
  apply wp_bind, wp_mangle_getOffSet; [lia | side Hs; lia |].
  intros off run1 Hoff Hk1. same Hk1.
  apply wp_bind, wp_util_rndGet_same; [lia | lia | lia |].
  intros len run2 Hlen Hk2. same Hk2.
  apply wp_bind, wp_util_rnd64_same. intros r run3 Hr Hk3. same Hk3.
  apply wp_mangle_Insert_printable; [assumption | lia | lia | lia | lia | |].
  - side Hs. cbn [ptr_off bytes_of]. rewrite length_snprintf_19d. lia.
  - intros n run4 _ _ _ Hp4. exact Hp4.
Qed.

Lemma mangle_Shrink_printable : keeps_printable ab hf g (mangle_Shrink hf).
Proof.
  intros run Ht Hf Hp Hs. unfold typed, fits in *. unfold mangle_Shrink.
  apply wp_bind, wp_get_size.
  destruct (Z.leb_spec (dynfile_size run) 2) as [Hle | Hgt];
    [apply wp_ret; exact Hp |].
  apply wp_bind, wp_mangle_getOffSet; [lia | side Hs; lia |].
  intros off_start run1 Hoff Hk1. same Hk1.
  apply wp_bind, wp_mangle_LenLeft; [lia | lia |].
  destruct (Z.eqb_spec (dynfile_size run1 - off_start - 1) 0) as [Hz | Hnz];
    [apply wp_ret; assumption |].
  apply wp_bind, wp_util_rnd64_same. intros r run2 Hr Hk2. same Hk2.
  rewrite HF_MIN_spec.
  apply wp_bind.
  assert (Hlen : forall Q : Z -> run_t -> Prop,
            (forall len run',
               1 <= len <= dynfile_size run - off_start - 1 ->
               same_file run2 run' -> Q len run') ->
            wp ab (if negb (r mod 16 =? 0)
                   then mangle_getLen hf
                          (Z.min 16 (dynfile_size run1 - off_start - 1))
                   else mangle_getLen hf (dynfile_size run1 - off_start - 1))
               run2 Q).
  { intros Q HQ. destruct (negb (r mod 16 =? 0)).
    - apply wp_mangle_getLen; [side Hs; lia |].
      intros len run' Hlen Hk. apply HQ; [lia | exact Hk].
    - apply wp_mangle_getLen; [side Hs; lia |].
      intros len run' Hlen Hk. apply HQ; [lia | exact Hk]. }
  apply Hlen. intros len run3 Hl Hk3. same Hk3.
  apply wp_bind, wp_get_size.
  rewrite (u64_small (off_start + len)) by lia.
  rewrite (u64_small (dynfile_size run3 - (off_start + len))) by lia.
  apply wp_bind, wp_mangle_Move_printable;
    [assumption | lia | lia | lia | lia | side Hs; lia |].
  intros run4 Hk4 Hp4. frame Hk4.
  apply wp_bind, wp_get_size, wp_input_setSize.
  rewrite u64_small by lia.
  intros i Hi. cbn [dynfile_size dynfile_data set_size] in *.
  apply Hp4. lia.
Qed.

Lemma mangle_SpliceOverwrite_printable :
  keeps_printable ab hf g (mangle_SpliceOverwrite hf).
Proof.
  intros run Ht Hf Hp Hs. unfold mangle_SpliceOverwrite.
  apply wp_bind, wp_input_getRandomInputAsBuf_same.
  intros buf run0 Hs0 Hd0 Hc0 Hbuf. unfold ARRAYSIZE.
  assert (Hp0 : printable_input run0).
  { intros i Hi. rewrite Hd0. apply Hp. lia. }
  destruct (Z.eqb_spec (Z.of_nat (length buf)) 0) as [Hz | Hnz].
  { apply (keeps_printable_after _ run run0 mangle_BytesOverwrite_printable);
      try assumption. congruence. }
  destruct Hbuf as [-> | Hin]; [cbn in Hnz; lia |].
  assert (Hok : ab \/ (corpus_ok hf buf)).
  { destruct Hs as [Ha | (_ & Hrun & _)]; [left; exact Ha | right].
    eapply In_corpus_ok; eassumption. }
  clear Hp. unfold typed, fits in *.
  assert (Hl0 : length (dynfile_data run0) = length (dynfile_data run))
    by congruence.
  apply wp_bind, wp_mangle_getLen.
  { destruct Hok as [Ha | [Hb1 Hb2]]; [left; exact Ha | right]. lia. }
  intros r run1 Hr Hk1. same Hk1.
  apply wp_bind, wp_mangle_getOffSet; [lia | side Hs; lia |].
  intros localOff run2 Hoff Hk2. same Hk2.
  apply wp_bind, wp_get_size.
  rewrite (u64_small (dynfile_size run2 - localOff)), HF_MIN_spec by lia.
  apply wp_bind, wp_mangle_getLen.
  { destruct Hok as [Ha | [Hb1 Hb2]]; [left; exact Ha |]. side Hs.
    rewrite (u64_small (r - 1)) by lia.
    rewrite (u64_small (Z.of_nat (length buf) - (r - 1))) by lia. lia. }
  intros len run3 Hlen Hk3. same Hk3.
  apply wp_mangle_Overwrite_printable; [assumption | |].
  - destruct Hok as [Ha | [Hb1 Hb2]]; [left; exact Ha |]. side Hs.
    rewrite (u64_small (r - 1)) in * by lia.
    rewrite (u64_small (Z.of_nat (length buf) - (r - 1))) in Hlen by lia.
    cbn [ptr_off bytes_of]. lia.
  - intros run4 _ Hp4. exact Hp4.
Qed.

Lemma mangle_SpliceInsert_printable :
  keeps_printable ab hf g (mangle_SpliceInsert hf g).
Proof.
  intros run Ht Hf Hp Hs. unfold mangle_SpliceInsert.
  apply wp_bind, wp_input_getRandomInputAsBuf_same.
  intros buf run0 Hs0 Hd0 Hc0 Hbuf. unfold ARRAYSIZE.
  assert (Hp0 : printable_input run0).
  { intros i Hi. rewrite Hd0. apply Hp. lia. }
  destruct (Z.eqb_spec (Z.of_nat (length buf)) 0) as [Hz | Hnz].
  { apply (keeps_printable_after _ run run0 mangle_BytesInsert_printable);
      try assumption. congruence. }
  destruct Hbuf as [-> | Hin]; [cbn in Hnz; lia |].
  assert (Hok : ab \/ (corpus_ok hf buf)).
  { destruct Hs as [Ha | (_ & Hrun & _)]; [left; exact Ha | right].
    eapply In_corpus_ok; eassumption. }
  clear Hp. unfold typed, fits in *.
  assert (Hl0 : length (dynfile_data run0) = length (dynfile_data run))
    by congruence.
  apply wp_bind, wp_mangle_getLen.
  { destruct Hok as [Ha | [Hb1 Hb2]]; [left; exact Ha | right]. lia. }
  intros r run1 Hr Hk1. same Hk1.
  apply wp_bind, wp_mangle_getOffSet; [lia | side Hs; lia |].
  intros localOff run2 Hoff Hk2. same Hk2.
  apply wp_bind, wp_get_size.
  rewrite (u64_small (dynfile_size run2 - localOff)), HF_MIN_spec by lia.
  apply wp_bind, wp_mangle_getLen.
  { destruct Hok as [Ha | [Hb1 Hb2]]; [left; exact Ha |]. side Hs.
    rewrite (u64_small (r - 1)) by lia.
    rewrite (u64_small (Z.of_nat (length buf) - (r - 1))) by lia. lia. }
  intros len run3 Hlen Hk3. same Hk3.
  apply wp_mangle_Insert_printable; [assumption | lia | lia | lia | lia | |].
  - destruct Hok as [Ha | [Hb1 Hb2]]; [left; exact Ha |]. side Hs.
    rewrite (u64_small (r - 1)) in * by lia.
    rewrite (u64_small (Z.of_nat (length buf) - (r - 1))) in Hlen by lia.
    cbn [ptr_off bytes_of]. lia.
  - intros n run4 _ _ _ Hp4. exact Hp4.
Qed.

(** [mangle_Resize] compares and clamps the sizes as [ssize_t]: the bytes it
    appends are filled with spaces when the largest size fits 63 bits. *)
Lemma mangle_Resize_printable :
  mutate_maxInputSz g < 9223372036854775808 ->
  keeps_printable ab hf g (mangle_Resize g).
Proof.
  intros H63 run Ht Hf Hp Hs. unfold typed, fits in *. unfold mangle_Resize.
  apply wp_bind, wp_get_size.
  apply wp_bind, wp_util_rndGet_same; [lia | lia | lia |].
  intros choice run1 Hchoice Hk1. same Hk1.
  apply wp_bind.
  assert (Hnew : forall Q : Z -> run_t -> Prop,
            (forall newsz run', same_file run1 run' -> Q newsz run') ->
            wp ab
               (if choice =? 0 then
                  r <- util_rndGet 1 (mutate_maxInputSz g) ;; ret (s64 r)
                else if (1 <=? choice) && (choice <=? 4) then
                  r <- util_rndGet 0 8 ;;
                  ret (s64 (s64 (dynfile_size run) + s64 r))
                else if choice =? 5 then
                  r <- util_rndGet 9 128 ;;
                  ret (s64 (s64 (dynfile_size run) + s64 r))
                else if (6 <=? choice) && (choice <=? 9) then
                  r <- util_rndGet 0 8 ;;
                  ret (s64 (s64 (dynfile_size run) - s64 r))
                else if choice =? 10 then
                  r <- util_rndGet 9 128 ;;
                  ret (s64 (s64 (dynfile_size run) - s64 r))
                else if (11 <=? choice) && (choice <=? 32) then
                  ret (s64 (dynfile_size run))
                else LOG_F) run1 Q).
  { intros Q HQ.
    assert (Hdraw : forall lo hi (f : Z -> Z),
              0 <= lo <= hi -> hi < 1000 ->
              wp ab (r <- util_rndGet lo hi ;; ret (f r)) run1 Q).
    { intros lo hi f Hlo Hhi.
      apply wp_bind, wp_util_rndGet_same; [lia | lia | lia |].
      intros r run' _ Hk. apply wp_ret, HQ, Hk. }
    destruct (Z.eqb_spec choice 0).
    { apply wp_bind, wp_util_rndGet_tape; [lia | lia | side Hs; lia |].
      intros r run' _ Hk. apply wp_ret, HQ, Hk. }
    destruct (Z.leb_spec 1 choice); [| lia].
    destruct (Z.leb_spec choice 4); cbn [andb]; [apply Hdraw; lia |].
    destruct (Z.eqb_spec choice 5); [apply Hdraw; lia |].
    destruct (Z.leb_spec 6 choice); [| lia].
    destruct (Z.leb_spec choice 9); cbn [andb]; [apply Hdraw; lia |].
    destruct (Z.eqb_spec choice 10); [apply Hdraw; lia |].
    destruct (Z.leb_spec 11 choice); [| lia].
    destruct (Z.leb_spec choice 32); cbn [andb]; [| lia].
    apply wp_ret, HQ. repeat split. }
  apply Hnew. intros newsz run2 Hk2. same Hk2.
  destruct (Resize_clamp (mutate_maxInputSz g) newsz Ht) as (Hb & _ & Hsmall).
  cbv zeta in Hb, Hsmall. specialize (Hsmall H63).
  set (n2 := if (if newsz <? 1 then 1 else newsz) >? s64 (mutate_maxInputSz g)
             then s64 (mutate_maxInputSz g)
             else if newsz <? 1 then 1 else newsz) in *.
  rewrite Hsmall in *. rewrite (s64_small (dynfile_size run)) by lia.
  apply wp_bind, wp_input_setSize.
  destruct (Z.gtb_spec n2 (dynfile_size run)) as [Hgt | Hle].
  - cbn [when]. unfold memset. rewrite u64_small by lia.
    destruct (Z.leb_spec 0 (n2 - dynfile_size run)); [| lia].
    assert (Hl : Z.of_nat (length (repeat (u8 32)
                                          (Z.to_nat (n2 - dynfile_size run))))
                 = n2 - dynfile_size run) by (rewrite repeat_length; lia).
    apply wp_store_exact; cbn [dynfile_data dynfile_size set_size].
    { side Hs. rewrite Hl. lia. }
    intros _ Hcap.
    apply (printable_splice _ _ (set_size n2 run2));
      cbn [dynfile_data dynfile_size set_size]; [lia | exact Hcap | |].
    + intros i Hi Hout. rewrite Hl in Hout.
      cbn [dynfile_data dynfile_size set_size] in *.
      match goal with
      | Hp' : printable_input run2 |- _ => apply Hp'
      end. lia.
    + intros j Hj. rewrite byte_at_repeat by lia.
      unfold printable_byte. vm_compute. split; discriminate.
  - apply wp_ret. intros i Hi. cbn [dynfile_size dynfile_data set_size] in *.
    match goal with
    | Hp' : printable_input run2 |- _ => apply Hp'
    end. lia.
Qed.

(** Every entry of [mangleFuncs] other than [mangle_AddSub] (the tenth)
    leaves a printable input printable in printable mode. *)
Lemma mangleFuncs_printable :
  nth_error (mangleFuncs hf g) 9 = Some (mangle_AddSub hf) /\
  Forall (keeps_printable ab hf g)
         (firstn 9 (mangleFuncs hf g) ++ skipn 10 (mangleFuncs hf g)).
Proof.
  split; [reflexivity |].
  unfold mangleFuncs. cbn [firstn skipn app].
  repeat (apply Forall_cons;
          [first [ apply mangle_Shrink_printable
                 | apply mangle_Expand_printable
                 | apply mangle_Bit_printable
                 | apply mangle_IncByte_printable
                 | apply mangle_DecByte_printable
                 | apply mangle_NegByte_printable
                 | apply mangle_MemSet_printable
                 | apply mangle_MemCopyOverwrite_printable
                 | apply mangle_MemCopyInsert_printable
                 | apply mangle_BytesOverwrite_printable
                 | apply mangle_BytesInsert_printable
                 | apply mangle_ASCIINumOverwrite_printable
                 | apply mangle_ASCIINumInsert_printable
                 | apply mangle_ByteRepeatOverwrite_printable
                 | apply mangle_ByteRepeatInsert_printable
                 | apply mangle_MagicOverwrite_printable
                 | apply mangle_MagicInsert_printable
                 | apply mangle_DictionaryOverwrite_printable
                 | apply mangle_DictionaryInsert_printable
                 | apply mangle_ConstFeedbackOverwrite_printable
                 | apply mangle_ConstFeedbackInsert_printable
                 | apply mangle_RandomOverwrite_printable
                 | apply mangle_RandomInsert_printable
                 | apply mangle_SpliceOverwrite_printable
                 | apply mangle_SpliceInsert_printable ] |]).
  apply Forall_nil.
Qed.

End PrintableMode.

(** The wider cases of [mangle_AddSubWithRange] write through
    [mangle_Overwrite] and keep a printable input printable. *)
Lemma AddSub_wide_keeps_printable (off : Z) (w : nat) (delta : Z)
      (run : run_t) :
  0 <= off -> off + Z.of_nat w <= dynfile_size run ->
  dynfile_size run < 18446744073709551616 ->
  dynfile_size run <= Z.of_nat (length (dynfile_data run)) ->
  printable_input run ->
  exists run',
    AddSub_wide off w delta true run = Ok (tt, run') /\
    dynfile_size run' = dynfile_size run /\
    printable_input run'.
Proof.
  intros Hoff Hw Hsz Hcap Hp. unfold AddSub_wide, bind.
  rewrite load_Data_ok by lia.
  unfold util_rnd64, urandom_read.
  set (run1 := set_urandom_pos (S (urandom_pos run)) run).
  match goal with
  | |- context [mangle_Overwrite off (Ext ?b 0) _ true run1] =>
      set (buf := b)
  end.
  assert (Hbuf : length buf = w) by apply length_encode_le.
  destruct (mangle_Overwrite_overwrites off buf 0 (Z.of_nat w) true run1)
    as (run' & Heq & Hs' & Hl' & Hpt);
    cbn [run1 dynfile_size dynfile_data set_urandom_pos]; try lia.
  exists run'. split; [exact Heq |]. split; [exact Hs' |].
  intros i Hi. rewrite Hs' in Hi. cbn [run1 dynfile_size set_urandom_pos] in Hi.
  rewrite Hpt by lia.
  destruct ((off <=? i) && (i <? off + Z.min (Z.of_nat w) (dynfile_size run1 - off))).
  - apply toPrintable_range.
  - apply Hp. exact Hi.
Qed.

(** C1. [mangle_AddSubWithRange] adds [delta] to a single byte without
    remapping it: in printable mode, from the one-byte input " " (0x20),
    a run of [mangle_mangleContent] that picks [mangle_AddSub] and draws
    [delta = -16] returns with the byte 0x10, outside [0x20, 0x7E]. *)
Theorem mangle_AddSub_leaves_printable :
  cfg_only_printable (sample_global 4 true) = true /\
  printable_input (sample_run [32; 0; 0; 0] 1 [0; 9; 0; 0]) /\
  mangle_mangleContent 134217728 (sample_global 4 true) 0
                       (sample_run [32; 0; 0; 0] 1 [0; 9; 0; 0])
    = Ok (tt, mkRun [16; 0; 0; 0] 1 1 (tape [0; 9; 0; 0]) 4 [] 0) /\
  mangle_AddSub 134217728 true (sample_run [32; 0; 0; 0] 1 [0; 0])
    = Ok (tt, mkRun [16; 0; 0; 0] 1 1 (tape [0; 0]) 2 [] 0) /\
  ~ printable_input (mkRun [16; 0; 0; 0] 1 1 (tape [0; 9; 0; 0]) 4 [] 0).
Proof.
  split; [reflexivity |]. split; [| split; [| split]].
  - intros i Hi. cbn in Hi. assert (i = 0) by lia. subst i.
    unfold printable_byte. cbn. lia.
  - vm_compute. reflexivity.
  - vm_compute. reflexivity.
  - intros H. specialize (H 0). unfold printable_byte in H. cbn in H. lia.
Qed.

(** * The operators one by one, and the rest of [util.c] *)

(** ** [util_rndGet] *)

(** [util_rndGet(min, max)] with [min <= max] returns
    [rnd % (max - min + 1) + min], a value of [min, max], and reads the
    random source once. *)
Theorem util_rndGet_in_range (min max : Z) (run : run_t) :
  0 <= min <= max -> max < 18446744073709551616 ->
  max - min + 1 < 18446744073709551616 ->
  let r := u64 (urandom run (urandom_pos run)) mod (max - min + 1) + min in
  util_rndGet min max run
    = Ok (r, set_urandom_pos (S (urandom_pos run)) run) /\
  min <= r <= max.
Proof.
  intros Hmm Hmax Hd r. subst r.
  unfold util_rndGet, bind, urandom_read.
  destruct (Z.gtb_spec min max) as [Hgt | _]; [lia |].
  rewrite (u64_small (max - min + 1)) by lia.
  destruct (Z.eqb_spec (max - min + 1) 0) as [H0 | _]; [lia |].
  assert (Hb : 0 <= u64 (urandom run (urandom_pos run)) mod (max - min + 1)
               < max - min + 1) by (apply Z.mod_pos_bound; lia).
  split; [| lia].
  unfold ret. rewrite (u64_small (_ mod _ + _)) by lia. reflexivity.
Qed.

Lemma util_rndGet_in_range_witness :
  util_rndGet 9 128 (sample_run [] 0 [1000])
    = Ok (49, set_urandom_pos 1 (sample_run [] 0 [1000])) /\
  9 <= 49 <= 128.
Proof.
  apply (util_rndGet_in_range 9 128 (sample_run [] 0 [1000])); lia.
Defined.

(** The modulus [max - min + 1] is computed in 64 bits: over the whole
    range of [uint64_t] it wraps around to 0 and the remainder is
    undefined; over every other range with [min <= max] the call
    returns. *)
Theorem util_rndGet_full_range (min max : Z) (run : run_t) :
  0 <= min <= max -> max < 18446744073709551616 ->
  (max - min + 1 = 18446744073709551616 ->
   util_rndGet min max run = Abort Undefined) /\
  ((exists r run', util_rndGet min max run = Ok (r, run')) <->
   max - min + 1 < 18446744073709551616).
Proof.
  intros Hmm Hmax.
  assert (Hfull : max - min + 1 = 18446744073709551616 ->
                  util_rndGet min max run = Abort Undefined).
  { intros Hd. unfold util_rndGet, bind, urandom_read.
    destruct (Z.gtb_spec min max) as [Hgt | _]; [lia |].
    rewrite Hd. reflexivity. }
  split; [exact Hfull |]. split.
  - intros (r & run' & Heq).
    destruct (Z.lt_ge_cases (max - min + 1) 18446744073709551616) as [Hlt | Hge];
      [exact Hlt |].
    rewrite Hfull in Heq by lia. discriminate.
  - intros Hd.
    destruct (util_rndGet_ok min max run Hmm Hmax Hd) as (r & Heq & _).
    eexists _, _. exact Heq.
Qed.

Lemma util_rndGet_full_range_witness :
  (18446744073709551615 - 0 + 1 = 18446744073709551616 ->
   util_rndGet 0 18446744073709551615 (sample_run [] 0 [7])
     = Abort Undefined) /\
  ((exists r run',
      util_rndGet 0 18446744073709551615 (sample_run [] 0 [7])
        = Ok (r, run')) <->
   18446744073709551615 - 0 + 1 < 18446744073709551616).
Proof.
  apply (util_rndGet_full_range 0 18446744073709551615
           (sample_run [] 0 [7])); lia.
Defined.

(** ** [mangle_getLen] and [mangle_getOffSet] *)

(** Up to [max = 2642245], the largest value whose cube fits 64 bits,
    [mangle_getLen(max)] returns a value of [1, max]; it reads the random
    source once, and not at all for [max == 1]. *)
Theorem mangle_getLen_in_range (hf max : Z) (run : run_t) :
  1 <= max <= hf -> max <= getLen_cube_limit ->
  exists r,
    mangle_getLen hf max run
      = Ok (r, if max =? 1 then run
               else set_urandom_pos (S (urandom_pos run)) run) /\
    1 <= r <= max /\ (max = 1 -> r = 1).
Proof.
  unfold getLen_cube_limit. intros Hmax Hlim. unfold mangle_getLen.
  destruct (Z.gtb_spec max hf); [lia |].
  destruct (Z.eqb_spec max 0); [lia |].
  destruct (Z.eqb_spec max 1) as [-> | Hn1].
  - exists 1. repeat split; lia.
  - assert (H2 : 4 <= max * max <= 2642245 * 2642245) by nia.
    assert (H3 : 8 <= max * max * max <= 2642245 * 2642245 * 2642245) by nia.
    rewrite (u64_small (max * max)) by lia.
    rewrite (u64_small (max * max * max)) by lia.
    rewrite (u64_small (max * max - 1)) by lia.
    destruct (util_rndGet_ok 1 (max * max - 1) run) as (rnd & Hr & Hrnd);
      [lia | lia | lia |].
    unfold bind at 1. rewrite Hr.
    destruct (Z.eqb_spec (max * max * max) 0); [lia |].
    assert (Hq : 0 <= u64 (rnd * rnd) / (max * max * max) < max).
    { split.
      - apply Z.div_pos; [apply u64_range | lia].
      - apply Z.div_lt_upper_bound; [lia |].
        assert (Hle : u64 (rnd * rnd) <= rnd * rnd)
          by (unfold u64; apply Z.mod_le; [nia | reflexivity]).
        nia. }
    rewrite (u64_small (_ / _ + 1)) by lia.
    destruct (Z.ltb_spec (u64 (rnd * rnd) / (max * max * max) + 1) 1); [lia |].
    destruct (Z.gtb_spec (u64 (rnd * rnd) / (max * max * max) + 1) max); [lia |].
    eexists. split; [reflexivity |]. split; lia.
Qed.

Lemma mangle_getLen_in_range_witness :
  exists r,
    mangle_getLen 134217728 512 (sample_run [] 0 [100000])
      = Ok (r, if 512 =? 1 then sample_run [] 0 [100000]
               else set_urandom_pos 1 (sample_run [] 0 [100000])) /\
    1 <= r <= 512 /\ (512 = 1 -> r = 1).
Proof.
  apply (mangle_getLen_in_range 134217728 512 (sample_run [] 0 [100000]));
    unfold getLen_cube_limit; lia.
Defined.

(** ** The operators on an empty input *)

Ltac empty_offset :=
  apply wp_bind, wp_mangle_getOffSet;
  [lia | left; exact I | intros ? ? ? ?; lia].

Section EmptyInput.

Variable hf : Z.
Variable g : honggfuzz_t.

Lemma mangle_BytesOverwrite_empty : fatal_on_empty (mangle_BytesOverwrite hf).
Proof. intros p run Hz. unfold mangle_BytesOverwrite. empty_offset. Qed.

Lemma mangle_BytesInsert_empty : fatal_on_empty (mangle_BytesInsert hf g).
Proof.
  intros p run Hz. unfold mangle_BytesInsert.
  apply wp_bind, wp_rnd_uint16_buf. intros l run1 _ Hk1. frame Hk1.
  empty_offset.
Qed.

Lemma mangle_Expand_empty : fatal_on_empty (mangle_Expand hf g).
Proof. intros p run Hz. unfold mangle_Expand. empty_offset. Qed.

Lemma mangle_Bit_empty : fatal_on_empty (mangle_Bit hf).
Proof. intros p run Hz. unfold mangle_Bit. empty_offset. Qed.

Lemma mangle_IncByte_empty : fatal_on_empty (mangle_IncByte hf).
Proof. intros p run Hz. unfold mangle_IncByte. empty_offset. Qed.

Lemma mangle_DecByte_empty : fatal_on_empty (mangle_DecByte hf).
Proof. intros p run Hz. unfold mangle_DecByte. empty_offset. Qed.

Lemma mangle_NegByte_empty : fatal_on_empty (mangle_NegByte hf).
Proof. intros p run Hz. unfold mangle_NegByte. empty_offset. Qed.

Lemma mangle_AddSub_empty : fatal_on_empty (mangle_AddSub hf).
Proof. intros p run Hz. unfold mangle_AddSub. empty_offset. Qed.

Lemma mangle_MemSet_empty : fatal_on_empty (mangle_MemSet hf).
Proof. intros p run Hz. unfold mangle_MemSet. empty_offset. Qed.

Lemma mangle_MemCopyOverwrite_empty :
  fatal_on_empty (mangle_MemCopyOverwrite hf).
Proof. intros p run Hz. unfold mangle_MemCopyOverwrite. empty_offset. Qed.

Lemma mangle_MemCopyInsert_empty :
  fatal_on_empty (mangle_MemCopyInsert hf g).
Proof. intros p run Hz. unfold mangle_MemCopyInsert. empty_offset. Qed.

Lemma mangle_ASCIINumOverwrite_empty :
  fatal_on_empty (mangle_ASCIINumOverwrite hf).
Proof. intros p run Hz. unfold mangle_ASCIINumOverwrite. empty_offset. Qed.

Lemma mangle_ASCIINumInsert_empty :
  fatal_on_empty (mangle_ASCIINumInsert hf g).
Proof. intros p run Hz. unfold mangle_ASCIINumInsert. empty_offset. Qed.

Lemma mangle_ByteRepeatOverwrite_empty :
  fatal_on_empty (mangle_ByteRepeatOverwrite hf).
Proof. intros p run Hz. unfold mangle_ByteRepeatOverwrite. empty_offset. Qed.

Lemma mangle_ByteRepeatInsert_empty :
  fatal_on_empty (mangle_ByteRepeatInsert hf g).
Proof. intros p run Hz. unfold mangle_ByteRepeatInsert. empty_offset. Qed.

Lemma mangle_MagicOverwrite_empty : fatal_on_empty (mangle_MagicOverwrite hf).
Proof. intros p run Hz. unfold mangle_MagicOverwrite. empty_offset. Qed.

Lemma mangle_MagicInsert_empty : fatal_on_empty (mangle_MagicInsert hf g).
Proof.
  intros p run Hz. unfold mangle_MagicInsert.
  apply wp_bind, wp_util_rndGet_any; [left; exact I |].
  intros choice run1 Hk1. frame Hk1. empty_offset.
Qed.

Lemma mangle_DictionaryOverwrite_empty :
  fatal_on_empty (mangle_DictionaryOverwrite hf g).
Proof.
  intros p run Hz. unfold mangle_DictionaryOverwrite.
  destruct (mutate_dictionaryCnt g =? 0);
    [apply mangle_BytesOverwrite_empty; exact Hz | empty_offset].
Qed.

Lemma mangle_DictionaryInsert_empty :
  fatal_on_empty (mangle_DictionaryInsert hf g).
Proof.
  intros p run Hz. unfold mangle_DictionaryInsert.
  destruct (mutate_dictionaryCnt g =? 0);
    [apply mangle_BytesInsert_empty; exact Hz |].
  apply wp_bind, wp_util_rndGet_any; [left; exact I |].
  intros choice run1 Hk1. frame Hk1. empty_offset.
Qed.

Lemma mangle_ConstFeedbackOverwrite_empty :
  fatal_on_empty (mangle_ConstFeedbackOverwrite hf g).
Proof.
  intros p run Hz. unfold mangle_ConstFeedbackOverwrite.
  apply wp_bind, (wp_mangle_FeedbackDict True hf); [left; exact I | |].
  - intros run1 Hk1. frame Hk1. apply mangle_BytesOverwrite_empty. lia.
  - intros t run1 Hk1 _. frame Hk1. empty_offset.
Qed.

Lemma mangle_ConstFeedbackInsert_empty :
  fatal_on_empty (mangle_ConstFeedbackInsert hf g).
Proof.
  intros p run Hz. unfold mangle_ConstFeedbackInsert.
  apply wp_bind, (wp_mangle_FeedbackDict True hf); [left; exact I | |].
  - intros run1 Hk1. frame Hk1. apply mangle_BytesInsert_empty. lia.
  - intros t run1 Hk1 _. frame Hk1. empty_offset.
Qed.

Lemma mangle_RandomOverwrite_empty :
  fatal_on_empty (mangle_RandomOverwrite hf).
Proof. intros p run Hz. unfold mangle_RandomOverwrite. empty_offset. Qed.

Lemma mangle_RandomInsert_empty : fatal_on_empty (mangle_RandomInsert hf g).
Proof. intros p run Hz. unfold mangle_RandomInsert. empty_offset. Qed.

Lemma mangle_SpliceOverwrite_empty :
  fatal_on_empty (mangle_SpliceOverwrite hf).
Proof.
  intros p run Hz. unfold mangle_SpliceOverwrite.
  apply wp_bind, wp_input_getRandomInputAsBuf_same.
  intros buf run0 Hs0 _ _ _.
  destruct (ARRAYSIZE buf =? 0);
    [apply mangle_BytesOverwrite_empty; lia |].
  apply wp_bind, wp_mangle_getLen; [left; exact I |].
  intros r run1 _ Hk1. frame Hk1. empty_offset.
Qed.

Lemma mangle_SpliceInsert_empty : fatal_on_empty (mangle_SpliceInsert hf g).
Proof.
  intros p run Hz. unfold mangle_SpliceInsert.
  apply wp_bind, wp_input_getRandomInputAsBuf_same.
  intros buf run0 Hs0 _ _ _.
  destruct (ARRAYSIZE buf =? 0);
    [apply mangle_BytesInsert_empty; lia |].
  apply wp_bind, wp_mangle_getLen; [left; exact I |].
  intros r run1 _ Hk1. frame Hk1. empty_offset.
Qed.

End EmptyInput.

(** On an empty input [mangle_Shrink] returns at once, and every other
    entry of [mangleFuncs] aborts: each of them asks [mangle_getOffSet] for
    an offset, that is [mangle_getLen(0)].  [mangle_mangleContent] calls
    [mangle_Resize] first for that reason. *)
Theorem mangleFuncs_empty_input (hf : Z) (g : honggfuzz_t)
        (printable : bool) (run : run_t) :
  dynfile_size run = 0 ->
  mangle_Shrink hf printable run = Ok (tt, run) /\
  firstn 4 (mangleFuncs hf g) = repeat (mangle_Shrink hf) 4 /\
  (forall op r, In op (skipn 4 (mangleFuncs hf g)) ->
                op printable run <> Ok r).
Proof.
  intros Hz. split; [| split; [reflexivity |]].
  - unfold mangle_Shrink, bind, get_size. rewrite Hz. reflexivity.
  - assert (Hall : Forall fatal_on_empty (skipn 4 (mangleFuncs hf g))).
    { unfold mangleFuncs. cbn [skipn].
      repeat (apply Forall_cons;
              [first [ apply mangle_Expand_empty
                     | apply mangle_Bit_empty
                     | apply mangle_IncByte_empty
                     | apply mangle_DecByte_empty
                     | apply mangle_NegByte_empty
                     | apply mangle_AddSub_empty
                     | apply mangle_MemSet_empty
                     | apply mangle_MemCopyOverwrite_empty
                     | apply mangle_MemCopyInsert_empty
                     | apply mangle_BytesOverwrite_empty
                     | apply mangle_BytesInsert_empty
                     | apply mangle_ASCIINumOverwrite_empty
                     | apply mangle_ASCIINumInsert_empty
                     | apply mangle_ByteRepeatOverwrite_empty
                     | apply mangle_ByteRepeatInsert_empty
                     | apply mangle_MagicOverwrite_empty
                     | apply mangle_MagicInsert_empty
                     | apply mangle_DictionaryOverwrite_empty
                     | apply mangle_DictionaryInsert_empty
                     | apply mangle_ConstFeedbackOverwrite_empty
                     | apply mangle_ConstFeedbackInsert_empty
                     | apply mangle_RandomOverwrite_empty
                     | apply mangle_RandomInsert_empty
                     | apply mangle_SpliceOverwrite_empty
                     | apply mangle_SpliceInsert_empty ] |]).
      apply Forall_nil. }
    intros op [[] run'] Hin Heq. rewrite Forall_forall in Hall.
    apply (wp_result _ _ _ _ _ (Hall op Hin printable run Hz) Heq).
Qed.

Lemma mangleFuncs_empty_input_witness :
  mangle_Shrink 134217728 false (sample_run [0; 0] 0 [])
    = Ok (tt, sample_run [0; 0] 0 []) /\
  firstn 4 (mangleFuncs 134217728 (sample_global 2 false))
    = repeat (mangle_Shrink 134217728) 4 /\
  (forall op r,
     In op (skipn 4 (mangleFuncs 134217728 (sample_global 2 false))) ->
     op false (sample_run [0; 0] 0 []) <> Ok r).
Proof.
  apply (mangleFuncs_empty_input 134217728 (sample_global 2 false) false
           (sample_run [0; 0] 0 [])).
  reflexivity.
Defined.

(** ** [util_hash] *)

Lemma lxor_range (n a b : Z) :
  0 <= n -> 0 <= a < 2 ^ n -> 0 <= b < 2 ^ n -> 0 <= Z.lxor a b < 2 ^ n.
Proof.
  intros Hn Ha Hb.
  assert (H0 : 0 <= Z.lxor a b) by (apply Z.lxor_nonneg; lia).
  split; [exact H0 |].
  destruct (Z.eq_dec (Z.lxor a b) 0) as [-> | Hnz]; [lia |].
  assert (Hpos : 0 < n).
  { destruct (Z.eq_dec n 0) as [-> | ?]; [| lia].
    change (2 ^ 0) with 1 in *.
    assert (a = 0) by lia. assert (b = 0) by lia. subst a b.
    cbn in Hnz. congruence. }
  apply Z.log2_lt_pow2; [lia |].
  assert (Hl : Z.log2 (Z.lxor a b) <= Z.max (Z.log2 a) (Z.log2 b))
    by (apply Z.log2_lxor; lia).
  assert (Hla : Z.log2 a < n).
  { destruct (Z.eq_dec a 0) as [-> | ?]; [cbn; lia |].
    apply Z.log2_lt_pow2; lia. }
  assert (Hlb : Z.log2 b < n).
  { destruct (Z.eq_dec b 0) as [-> | ?]; [cbn; lia |].
    apply Z.log2_lt_pow2; lia. }
  lia.
Qed.

Lemma shiftr_range (a k : Z) :
  0 <= k -> 0 <= a < 18446744073709551616 ->
  0 <= Z.shiftr a k < 18446744073709551616.
Proof.
  intros Hk Ha. rewrite Z.shiftr_div_pow2 by lia.
  assert (0 < 2 ^ k) by (apply Z.pow_pos_nonneg; lia).
  split; [apply Z.div_pos; lia |].
  apply Z.le_lt_trans with a; [| lia].
  apply Z.div_le_upper_bound; [lia |]. nia.
Qed.

Lemma xorshift_range (a : Z) :
  0 <= a < 18446744073709551616 ->
  0 <= Z.lxor a (Z.shiftr a 6) < 18446744073709551616.
Proof.
  intros Ha. apply (lxor_range 64); [lia | exact Ha |].
  apply shiftr_range; [lia | exact Ha].
Qed.

Lemma testbit_above (a i : Z) :
  0 <= a < 18446744073709551616 -> 64 <= i -> Z.testbit a i = false.
Proof.
  intros Ha Hi. destruct (Z.eq_dec a 0) as [-> | Hnz];
    [apply Z.testbit_0_l |].
  apply Z.bits_above_log2; [lia |].
  assert (Z.log2 a < 64) by (apply Z.log2_lt_pow2; lia). lia.
Qed.

Lemma xorshift_inj (a b : Z) :
  0 <= a < 18446744073709551616 -> 0 <= b < 18446744073709551616 ->
  Z.lxor a (Z.shiftr a 6) = Z.lxor b (Z.shiftr b 6) -> a = b.
Proof.
  intros Ha Hb Heq. apply Z.bits_inj'. intros i Hi.
  assert (Hk : forall k : nat, forall j, 64 - Z.of_nat k <= j ->
                 Z.testbit a j = Z.testbit b j).
  { induction k as [| k IH]; intros j Hj.
    - rewrite !testbit_above by lia. reflexivity.
    - destruct (Z.le_gt_cases 0 j) as [Hj0 | Hj0].
      + assert (Hbit : Z.testbit (Z.lxor a (Z.shiftr a 6)) j
                       = Z.testbit (Z.lxor b (Z.shiftr b 6)) j)
          by (rewrite Heq; reflexivity).
        rewrite !Z.lxor_spec, !Z.shiftr_spec in Hbit by lia.
        rewrite (IH (j + 6)) in Hbit by lia.
        destruct (Z.testbit a j), (Z.testbit b j), (Z.testbit b (j + 6));
          cbn in Hbit; congruence.
      + rewrite !Z.testbit_neg_r by lia. reflexivity. }
  apply (Hk 64%nat). lia.
Qed.

Lemma mul1025_inj (a b : Z) :
  0 <= a < 18446744073709551616 -> 0 <= b < 18446744073709551616 ->
  u64 (a + u64 (Z.shiftl a 10)) = u64 (b + u64 (Z.shiftl b 10)) -> a = b.
Proof.
  intros Ha Hb. unfold u64. rewrite !Z.shiftl_mul_pow2 by lia.
  change (2 ^ 10) with 1024. change (2 ^ 64) with 18446744073709551616.
  rewrite !Z.add_mod_idemp_r by lia.
  replace (a + a * 1024) with (1025 * a) by lia.
  replace (b + b * 1024) with (1025 * b) by lia.
  intros Heq.
  assert (Hinv : forall x, 0 <= x < 18446744073709551616 ->
            (1151796703138937857 * ((1025 * x) mod 18446744073709551616))
              mod 18446744073709551616 = x).
  { intros x Hx. rewrite Z.mul_mod_idemp_r by lia.
    replace (1151796703138937857 * (1025 * x))
      with (x + 64 * x * 18446744073709551616) by lia.
    rewrite Z_mod_plus_full. apply Z.mod_small. exact Hx. }
  rewrite <- (Hinv a Ha), <- (Hinv b Hb), Heq. reflexivity.
Qed.

Lemma u64_add_inj (a b c : Z) :
  0 <= a < 18446744073709551616 -> 0 <= b < 18446744073709551616 ->
  u64 (a + c) = u64 (b + c) -> a = b.
Proof.
  intros Ha Hb. unfold u64. change (2 ^ 64) with 18446744073709551616.
  intros Heq.
  assert (H : (a + c - (b + c)) mod 18446744073709551616 = 0).
  { rewrite Zminus_mod, Heq, Z.sub_diag. reflexivity. }
  replace (a + c - (b + c)) with (a - b) in H by lia.
  apply Z.mod_divide in H; [| lia]. destruct H as [k Hk]. nia.
Qed.

Lemma u64_char_inj (ret a b : Z) :
  -128 <= a <= 255 -> -128 <= b <= 255 ->
  u64 (ret + a) = u64 (ret + b) -> a = b.
Proof.
  intros Ha Hb. unfold u64. change (2 ^ 64) with 18446744073709551616.
  intros Heq.
  assert (H : (ret + a - (ret + b)) mod 18446744073709551616 = 0).
  { rewrite Zminus_mod, Heq, Z.sub_diag. reflexivity. }
  replace (ret + a - (ret + b)) with (a - b) in H by lia.
  apply Z.mod_divide in H; [| lia]. destruct H as [k Hk]. nia.
Qed.

Lemma util_hash_loop_range (buf : list Z) (ret : Z) :
  0 <= ret < 18446744073709551616 ->
  0 <= util_hash_loop buf ret < 18446744073709551616.
Proof.
  revert ret. induction buf as [| c rest IH]; intros ret Hret;
    cbn [util_hash_loop]; [exact Hret |].
  apply IH, xorshift_range, u64_range.
Qed.

Lemma util_hash_loop_inj (buf : list Z) (s t : Z) :
  0 <= s < 18446744073709551616 -> 0 <= t < 18446744073709551616 ->
  util_hash_loop buf s = util_hash_loop buf t -> s = t.
Proof.
  revert s t. induction buf as [| c rest IH]; intros s t Hs Ht;
    cbn [util_hash_loop]; [trivial |].
  intros Heq. apply IH in Heq; try (apply xorshift_range, u64_range).
  apply xorshift_inj in Heq; try apply u64_range.
  apply mul1025_inj in Heq; try apply u64_range.
  apply (u64_add_inj s t c); assumption.
Qed.

Lemma util_hash_loop_app (l r : list Z) (ret : Z) :
  util_hash_loop (l ++ r) ret = util_hash_loop r (util_hash_loop l ret).
Proof.
  revert ret. induction l as [| c l IH]; intros ret; cbn [app util_hash_loop];
    [reflexivity | apply IH].
Qed.

(** Two buffers that differ in one byte only never have the same
    [util_hash]: each round of the loop is a bijection of the 64-bit
    state. *)
Theorem util_hash_one_byte_apart (l r : list Z) (a b : Z) :
  -128 <= a <= 255 -> -128 <= b <= 255 -> a <> b ->
  util_hash (l ++ a :: r) <> util_hash (l ++ b :: r).
Proof.
  intros Ha Hb Hab Heq. unfold util_hash in Heq.
  rewrite !util_hash_loop_app in Heq. cbn [util_hash_loop] in Heq.
  assert (Hl : 0 <= util_hash_loop l 0 < 18446744073709551616)
    by (apply util_hash_loop_range; lia).
  apply util_hash_loop_inj in Heq; try (apply xorshift_range, u64_range).
  apply xorshift_inj in Heq; try apply u64_range.
  apply mul1025_inj in Heq; try apply u64_range.
  apply u64_char_inj in Heq; [| assumption | assumption]. contradiction.
Qed.

Lemma util_hash_one_byte_apart_witness :
  util_hash ([104; 105] ++ 33 :: [10]) <> util_hash ([104; 105] ++ 63 :: [10]).
Proof.
  apply (util_hash_one_byte_apart [104; 105] [10] 33 63); lia.
Defined.

(** The hash does not see the length of a buffer of zero bytes: all of
    them hash to 0. *)
Theorem util_hash_zeros (n : nat) : util_hash (repeat 0 n) = 0.
Proof.
  unfold util_hash. induction n as [| n IH]; [reflexivity |].
  cbn [repeat util_hash_loop]. exact IH.
Qed.

(** ** [mangle_Insert] *)

(** [mangle_Insert] of [len] bytes from outside the input: the size grows
    by [n = min(len, maxInputSz - size)], the bytes before [off] stay, the
    first [n] bytes of the source (remapped in printable mode) are at
    [off], and the bytes that were at [off, size) follow them. *)
Theorem mangle_Insert_external (g : honggfuzz_t) (off : Z) (buf : list Z)
        (len : Z) (printable : bool) (run : run_t) :
  0 <= off < dynfile_size run -> 0 <= len ->
  dynfile_size run <= mutate_maxInputSz g ->
  mutate_maxInputSz g < 18446744073709551616 ->
  mutate_maxInputSz g <= Z.of_nat (length (dynfile_data run)) ->
  Z.min len (mutate_maxInputSz g - dynfile_size run)
    <= Z.of_nat (length buf) ->
  let n := Z.min len (mutate_maxInputSz g - dynfile_size run) in
  exists run',
    mangle_Insert g off (Ext buf 0) len printable run = Ok (tt, run') /\
    dynfile_size run' = dynfile_size run + n /\
    (forall i, 0 <= i < off ->
       byte_at (dynfile_data run') i = byte_at (dynfile_data run) i) /\
    (forall i, 0 <= i < n ->
       byte_at (dynfile_data run') (off + i) =
         if printable then toPrintable (byte_at buf i) else byte_at buf i) /\
    (forall i, off <= i < dynfile_size run ->
       byte_at (dynfile_data run') (i + n) = byte_at (dynfile_data run) i).
Proof.
  intros Hoff Hlen Hfit Hmax Hcap Hbuf n.
  destruct (mangle_Insert_inserts g off buf 0 len printable run)
    as (run' & Heq & Hs & _ & Hpre & Hins & Hpost); try lia.
  exists run'. split; [exact Heq |]. split; [exact Hs |].
  split; [exact Hpre |]. split; [| exact Hpost].
  intros i Hi. rewrite (Hins i Hi). reflexivity.
Qed.

Lemma mangle_Insert_external_witness :
  exists run',
    mangle_Insert (sample_global 6 false) 1 (Ext [88; 89; 90] 0) 3 false
                  (sample_run [65; 66; 67; 68; 0; 0] 4 [])
      = Ok (tt, run') /\
    dynfile_size run' = 4 + 2 /\
    (forall i, 0 <= i < 1 ->
       byte_at (dynfile_data run') i = byte_at [65; 66; 67; 68; 0; 0] i) /\
    (forall i, 0 <= i < 2 ->
       byte_at (dynfile_data run') (1 + i) = byte_at [88; 89; 90] i) /\
    (forall i, 1 <= i < 4 ->
       byte_at (dynfile_data run') (i + 2) = byte_at [65; 66; 67; 68; 0; 0] i).
Proof.
  apply (mangle_Insert_external (sample_global 6 false) 1 [88; 89; 90] 3 false
           (sample_run [65; 66; 67; 68; 0; 0] 4 [])); cbn; lia.
Defined.

(** [mangle_Insert] of bytes of the input itself, as [mangle_MemCopyInsert]
    calls it with [val = &data[from]]: the gap is opened first and the
    source is read afterwards, so a source byte that lies at or after the
    end of the gap is read [n] bytes before the place it had. *)
Theorem mangle_Insert_from_input (g : honggfuzz_t) (off from len : Z)
        (run : run_t) :
  0 <= off < dynfile_size run -> 0 <= from -> 0 <= len ->
  from + len <= dynfile_size run ->
  dynfile_size run <= mutate_maxInputSz g ->
  mutate_maxInputSz g < 18446744073709551616 ->
  mutate_maxInputSz g <= Z.of_nat (length (dynfile_data run)) ->
  let n := Z.min len (mutate_maxInputSz g - dynfile_size run) in
  exists run',
    mangle_Insert g off (Data from) len false run = Ok (tt, run') /\
    dynfile_size run' = dynfile_size run + n /\
    (forall i, 0 <= i < off ->
       byte_at (dynfile_data run') i = byte_at (dynfile_data run) i) /\
    (forall i, 0 <= i < n ->
       byte_at (dynfile_data run') (off + i) =
         byte_at (dynfile_data run)
                 (if off + n <=? from + i then from + i - n else from + i)) /\
    (forall i, off <= i < dynfile_size run ->
       byte_at (dynfile_data run') (i + n) = byte_at (dynfile_data run) i).
Proof.
  intros Hoff Hfrom Hlen Hsrc Hfit Hmax Hcap n. unfold mangle_Insert, bind.
  destruct (Z.eq_dec (dynfile_size run) (mutate_maxInputSz g)) as [Heq | Hne].
  - rewrite mangle_Inflate_full by lia.
    assert (Hn : n = 0) by lia. rewrite Hn.
    exists run. split; [reflexivity |]. split; [lia |].
    split; [reflexivity |]. split; [intros i Hi; lia |].
    intros i Hi. f_equal. lia.
  - rewrite mangle_Inflate_ok by lia. fold n.
    set (run1 := set_data (inflated off n (dynfile_size run) false
                                    (dynfile_data run))
                          (set_size (dynfile_size run + n) run)).
    assert (Hl1 : length (dynfile_data run1) = length (dynfile_data run))
      by (apply length_inflated; lia).
    assert (Hs1 : dynfile_size run1 = dynfile_size run + n) by reflexivity.
    assert (Hn1 : Z.min n (dynfile_size run1 - off) = n) by lia.
    rewrite mangle_Overwrite_ok;
      rewrite ?Hn1; cbn [ptr_off bytes_of]; try lia.
    assert (Hw : length (written (Data from) n false run1) = Z.to_nat n)
      by (apply length_written; cbn [ptr_off bytes_of]; lia).
    assert (Hinf : forall i, 0 <= i ->
              byte_at (dynfile_data run1) i =
              if (off + n <=? i) && (i <? dynfile_size run + n)
              then byte_at (dynfile_data run) (i - n)
              else byte_at (dynfile_data run) i).
    { intros i Hi. unfold run1. cbn [dynfile_data set_data].
      rewrite byte_at_inflated by lia. reflexivity. }
    assert (Hpt : forall i, 0 <= i ->
              byte_at (splice off (written (Data from) n false run1)
                              (dynfile_data run1)) i =
              if (off <=? i) && (i <? off + n)
              then byte_at (written (Data from) n false run1) (i - off)
              else byte_at (dynfile_data run1) i).
    { intros i Hi. rewrite byte_at_splice;
        rewrite ?Hw, ?Hl1, ?Z2Nat.id; solve [lia | reflexivity]. }
    eexists. split; [reflexivity |].
    cbn [dynfile_size dynfile_data set_data].
    split; [exact Hs1 |]. split; [| split].
    + intros i Hi. rewrite Hpt by lia.
      destruct (Z.leb_spec off i); [lia |]. cbn [andb].
      rewrite Hinf by lia.
      destruct (Z.leb_spec (off + n) i); [lia | reflexivity].
    + intros i Hi. rewrite Hpt by lia.
      destruct (Z.leb_spec off (off + i)); [| lia].
      destruct (Z.ltb_spec (off + i) (off + n)); [| lia]. cbn [andb].
      rewrite byte_at_written by (cbn [ptr_off bytes_of]; lia).
      cbn [ptr_off bytes_of]. replace (off + i - off) with i by lia.
      cbv zeta. rewrite Hinf by lia.
      destruct (Z.leb_spec (off + n) (from + i)); cbn [andb];
        [| reflexivity].
      destruct (Z.ltb_spec (from + i) (dynfile_size run + n)); [| lia].
      reflexivity.
    + intros i Hi. rewrite Hpt by lia.
      destruct (Z.ltb_spec (i + n) (off + n)); [lia |].
      rewrite andb_false_r.
      rewrite Hinf by lia.
      destruct (Z.leb_spec (off + n) (i + n)); [| lia].
      destruct (Z.ltb_spec (i + n) (dynfile_size run + n)); [| lia].
      cbn [andb]. f_equal. lia.
Qed.

Lemma mangle_Insert_from_input_witness :
  exists run',
    mangle_Insert (sample_global 6 false) 0 (Data 2) 2 false
                  (sample_run [65; 66; 67; 68; 0; 0] 4 [])
      = Ok (tt, run') /\
    dynfile_size run' = 4 + 2 /\
    byte_at (dynfile_data run') 0 = 65 /\
    byte_at (dynfile_data run') 1 = 66.
Proof.
  destruct (mangle_Insert_from_input (sample_global 6 false) 0 2 2
              (sample_run [65; 66; 67; 68; 0; 0] 4 []))
    as (run' & Heq & Hs & _ & Hins & _); try (cbn; lia).
  exists run'. split; [exact Heq |]. split; [exact Hs |].
  split; [apply (Hins 0) | apply (Hins 1)]; cbn; lia.
Defined.

(** ** Replaying the random source *)

Lemma advanced_refl (run : run_t) : advanced 0 run run.
Proof. unfold advanced. destruct run; reflexivity. Qed.

Lemma advanced_same_file (n : nat) (run run' : run_t) :
  advanced n run run' -> same_file run run'.
Proof. unfold advanced. intros ->. repeat split. Qed.

Lemma util_rndGet_replay (min max : Z) (run run' : run_t) (r : Z)
      (run1 : run_t) :
  same_tape run run' ->
  util_rndGet min max run = Ok (r, run1) ->
  advanced 1 run run1 /\
  util_rndGet min max run'
    = Ok (r, set_urandom_pos (S (urandom_pos run')) run').
Proof.
  intros [Hu Hp]. unfold util_rndGet, bind, urandom_read.
  rewrite Hu, Hp.
  destruct (min >? max); [discriminate |].
  destruct (u64 (max - min + 1) =? 0); [discriminate |].
  unfold ret. intros Heq. inversion Heq; subst. split; reflexivity.
Qed.

Lemma mangle_getLen_replay (hf max : Z) (run run' : run_t) (r : Z)
      (run1 : run_t) :
  same_tape run run' ->
  mangle_getLen hf max run = Ok (r, run1) ->
  exists n : nat,
    advanced n run run1 /\
    mangle_getLen hf max run'
      = Ok (r, set_urandom_pos (n + urandom_pos run') run').
Proof.
  intros Hsame. unfold mangle_getLen.
  destruct (max >? hf); [discriminate |].
  destruct (max =? 0); [discriminate |].
  destruct (max =? 1).
  - unfold ret. intros Heq. inversion Heq; subst. exists 0%nat.
    split; [apply advanced_refl |]. destruct run'; reflexivity.
  - unfold bind.
    destruct (util_rndGet 1 (u64 (u64 (max * max) - 1)) run)
      as [[rnd run0] |] eqn:Hr; [| discriminate].
    destruct (util_rndGet_replay _ _ _ _ _ _ Hsame Hr) as [Ha ->].
    destruct (u64 (max * max * max) =? 0); [discriminate |].
    match goal with
    | |- context [if ?c then LOG_F else _] => destruct c; [discriminate |]
    end.
    match goal with
    | |- context [if ?c then LOG_F else _] => destruct c; [discriminate |]
    end.
    unfold ret. intros Heq. inversion Heq; subst. exists 1%nat.
    split; [exact Ha | reflexivity].
Qed.

Lemma mangle_getOffSet_replay (hf : Z) (run run' : run_t) (off : Z)
      (run1 : run_t) :
  same_tape run run' -> dynfile_size run' = dynfile_size run ->
  mangle_getOffSet hf run = Ok (off, run1) ->
  exists n : nat,
    advanced n run run1 /\
    mangle_getOffSet hf run'
      = Ok (off, set_urandom_pos (n + urandom_pos run') run').
Proof.
  intros Hsame Hsz. unfold mangle_getOffSet, bind, get_size. rewrite Hsz.
  destruct (mangle_getLen hf (dynfile_size run) run) as [[r run0] |] eqn:Hr;
    [| discriminate].
  destruct (mangle_getLen_replay _ _ _ _ _ _ Hsame Hr) as (n & Ha & ->).
  unfold ret. intros Heq. inversion Heq; subst. exists n.
  split; [exact Ha | reflexivity].
Qed.

Lemma mangle_getOffSet_returns (hf : Z) (run : run_t) :
  1 <= dynfile_size run <= hf -> dynfile_size run <= getLen_cube_limit ->
  exists off run1,
    mangle_getOffSet hf run = Ok (off, run1) /\ 0 <= off < dynfile_size run.
Proof.
  intros Hsz Hlim.
  destruct (wp_returns (mangle_getOffSet hf) run
              (fun off _ => 0 <= off < dynfile_size run))
    as (off & run1 & Heq & Hoff).
  { apply wp_mangle_getOffSet;
      [unfold getLen_cube_limit in Hlim; lia | right; lia |].
    intros off run' Hoff _. exact Hoff. }
  exists off, run1. split; assumption.
Qed.

Lemma splice_same (off n : Z) (d : list Z) :
  0 <= off -> 0 <= n -> off + n <= Z.of_nat (length d) ->
  splice off (slice off n d) d = d.
Proof.
  intros Hoff Hn Hb.
  assert (Hl : length (slice off n d) = Z.to_nat n)
    by (apply length_slice; lia).
  apply byte_at_ext.
  - apply length_splice; rewrite ?Hl; lia.
  - intros i Hi. rewrite byte_at_splice by (rewrite ?Hl; lia).
    destruct (Z.leb_spec off i); cbn [andb]; [| reflexivity].
    destruct (Z.ltb_spec i (off + Z.of_nat (length (slice off n d))));
      [| reflexivity].
    rewrite byte_at_slice by lia. f_equal. lia.
Qed.

Lemma splice_one_same (off : Z) (d : list Z) :
  0 <= off < Z.of_nat (length d) -> splice off [byte_at d off] d = d.
Proof.
  intros Hoff.
  assert (Hs : slice off 1 d = [byte_at d off]).
  { apply byte_at_ext.
    - rewrite length_slice by lia. reflexivity.
    - rewrite length_slice by lia. intros i Hi. assert (i = 0) by lia. subst i.
      rewrite byte_at_slice by lia. cbn. f_equal. lia. }
  rewrite <- Hs. apply splice_same; lia.
Qed.

(** The shape of [mangle_IncByte], [mangle_DecByte] and [mangle_NegByte]
    in either mode: one byte, at a random offset, is replaced by a
    function of itself. *)
Lemma byte_op_exact (hf : Z) (f : Z -> Z) (run : run_t) (off : Z)
      (run1 : run_t) :
  mangle_getOffSet hf run = Ok (off, run1) -> same_file run run1 ->
  0 <= off < dynfile_size run ->
  dynfile_size run <= Z.of_nat (length (dynfile_data run)) ->
  (off <- mangle_getOffSet hf ;; b <- load_byte off ;; store_byte off (f b))
    run
  = Ok (tt, set_data (splice off [u8 (f (byte_at (dynfile_data run) off))]
                             (dynfile_data run)) run1).
Proof.
  intros Heq (Hd & Hs & _) Hoff Hcap. unfold bind at 1. rewrite Heq.
  unfold load_byte, bind. rewrite load_Data_ok by (rewrite ?Hd; lia).
  unfold ret, store_byte. rewrite store_ok by (rewrite ?Hd; cbn; lia).
  rewrite Hd, byte_at_slice_one by lia. reflexivity.
Qed.

(** Side conditions of an operator that starts with [mangle_getOffSet]:
    either aborting is allowed, or the size is in the range where
    [mangle_getLen] returns. *)
Ltac bounded H :=
  let Ha := fresh "Ha" in
  destruct H as [Ha | H];
  [ left; exact Ha
  | right; unfold getLen_cube_limit, HF_MAX_LEN_BLOCK in * ].

(** From a weakest precondition for either reading to the two readings:
    what holds whenever the call returns, and that it returns under [P]. *)
Lemma wp_both (m : M unit) (run : run_t) (P : Prop) (Q : run_t -> Prop) :
  (forall ab : Prop, ab \/ P -> wp ab m run (fun _ run' => Q run')) ->
  (forall run', m run = Ok (tt, run') -> Q run') /\
  (P -> exists run', m run = Ok (tt, run') /\ Q run').
Proof.
  intros H. split.
  - intros run' Heq.
    exact (wp_result m run _ tt run' (H True (or_introl I)) Heq).
  - intros HP.
    destruct (wp_returns m run _ (H False (or_intror HP)))
      as ([] & run' & Heq & HQ).
    exists run'. split; assumption.
Qed.

Lemma mangle_getOffSet_inv (hf : Z) (run : run_t) (off : Z) (run1 : run_t) :
  dynfile_size run < 18446744073709551616 ->
  mangle_getOffSet hf run = Ok (off, run1) ->
  0 <= off < dynfile_size run /\ same_file run run1.
Proof.
  intros Hsz Heq.
  apply (wp_result (mangle_getOffSet hf) run
           (fun off run1 => 0 <= off < dynfile_size run /\ same_file run run1)
           off run1); [| exact Heq].
  apply wp_mangle_getOffSet; [exact Hsz | left; exact I |].
  intros o r Ho Hsf. split; assumption.
Qed.

(** An operator that starts with [mangle_getOffSet] returns only if
    [mangle_getOffSet] does. *)
Lemma bind_getOffSet_inv {B} (hf : Z) (f : Z -> M B) (run : run_t) (b : B)
      (run' : run_t) :
  (off <- mangle_getOffSet hf ;; f off) run = Ok (b, run') ->
  exists off run1,
    mangle_getOffSet hf run = Ok (off, run1) /\ f off run1 = Ok (b, run').
Proof.
  unfold bind at 1.
  destruct (mangle_getOffSet hf run) as [[off run1] | e]; [| discriminate].
  intros H. exists off, run1. split; [reflexivity | exact H].
Qed.

(** ** [mangle_IncByte], [mangle_DecByte], [mangle_NegByte] *)

Lemma byte_op_round_trip (hf : Z) (f1 f2 : Z -> Z) (run : run_t) :
  dynfile_size run < 18446744073709551616 ->
  dynfile_size run <= Z.of_nat (length (dynfile_data run)) ->
  (forall i, 0 <= i < dynfile_size run ->
     u8 (f2 (u8 (f1 (byte_at (dynfile_data run) i))))
       = byte_at (dynfile_data run) i) ->
  forall run1,
    (off <- mangle_getOffSet hf ;; b <- load_byte off ;; store_byte off (f1 b))
      run = Ok (tt, run1) ->
    exists run2,
      (off <- mangle_getOffSet hf ;; b <- load_byte off ;;
       store_byte off (f2 b))
        (set_urandom_pos (urandom_pos run) run1) = Ok (tt, run2) /\
      dynfile_data run2 = dynfile_data run /\
      dynfile_size run2 = dynfile_size run.
Proof.
  intros Htyp Hcap Hinv run1' Hret.
  destruct (bind_getOffSet_inv _ _ _ _ _ Hret) as (off & run1 & Heq & _).
  destruct (mangle_getOffSet_inv hf run off run1 Htyp Heq) as [Hoff Hsf].
  rewrite (byte_op_exact hf f1 run off run1 Heq Hsf Hoff Hcap) in Hret.
  inversion Hret as [Hrun1]. clear Hret.
  set (d1 := splice off [u8 (f1 (byte_at (dynfile_data run) off))]
                    (dynfile_data run)).
  set (R := set_urandom_pos (urandom_pos run) (set_data d1 run1)).
  destruct (mangle_getOffSet_replay hf run run off run1) as (n & Ha & _);
    [split; reflexivity | reflexivity | exact Heq |].
  destruct (mangle_getOffSet_replay hf run R off run1) as (n' & _ & Heq2);
    [ | | exact Heq |].
  { unfold advanced in Ha. unfold R. rewrite Ha. split; reflexivity. }
  { unfold R. cbn. unfold advanced in Ha. rewrite Ha. reflexivity. }
  pose proof (advanced_same_file _ _ _ Ha) as Hsame.
  assert (Hl1 : length d1 = length (dynfile_data run))
    by (apply length_splice; cbn [length]; lia).
  assert (HdR : dynfile_data R = d1) by reflexivity.
  assert (HsR : dynfile_size R = dynfile_size run)
    by (unfold R; cbn; apply Hsame).
  eexists. split.
  - apply (byte_op_exact hf f2 R off _ Heq2); rewrite ?HsR, ?HdR, ?Hl1;
      try lia.
    repeat split.
  - cbn [dynfile_data dynfile_size set_data set_urandom_pos].
    rewrite HdR. split; [| exact HsR].
    assert (Hb : byte_at d1 off = u8 (f1 (byte_at (dynfile_data run) off))).
    { unfold d1. rewrite byte_at_splice by (cbn [length]; lia).
      cbn [length]. rewrite Z.sub_diag.
      destruct (Z.leb_spec off off); [| lia].
      destruct (Z.ltb_spec off (off + Z.of_nat 1)); [reflexivity | lia]. }
    rewrite Hb, Hinv by lia. unfold d1.
    rewrite splice_splice by (cbn [length]; lia).
    apply splice_one_same. lia.
Qed.

Lemma byte_op_returns (hf : Z) (f : Z -> Z) (run : run_t) :
  1 <= dynfile_size run <= hf -> dynfile_size run <= getLen_cube_limit ->
  dynfile_size run <= Z.of_nat (length (dynfile_data run)) ->
  exists run1,
    (off <- mangle_getOffSet hf ;; b <- load_byte off ;; store_byte off (f b))
      run = Ok (tt, run1).
Proof.
  intros Hsz Hlim Hcap.
  destruct (mangle_getOffSet_returns hf run Hsz Hlim)
    as (off & run1 & Heq & Hoff).
  destruct (mangle_getOffSet_inv hf run off run1) as [_ Hsf];
    [unfold getLen_cube_limit in Hlim; lia | exact Heq |].
  eexists. apply (byte_op_exact hf f run off run1); assumption.
Qed.

Lemma IncByte_DecByte_printable (b : Z) :
  32 <= b <= 126 ->
  u8 (Z.rem (u8 (Z.rem (b - 32 + 1) 95 + 32) - 32 + 94) 95 + 32) = b.
Proof.
  intros Hb.
  rewrite (Z.rem_mod_nonneg (b - 32 + 1)) by lia.
  assert (H1 : 0 <= (b - 32 + 1) mod 95 < 95)
    by (apply Z.mod_pos_bound; lia).
  unfold u8. change (2 ^ 8) with 256.
  rewrite (Z.mod_small ((b - 32 + 1) mod 95 + 32)) by lia.
  rewrite Z.rem_mod_nonneg by lia.
  replace ((b - 32 + 1) mod 95 + 32 - 32 + 94)
    with ((b - 32 + 1) mod 95 + 94) by lia.
  rewrite Z.add_mod_idemp_l by lia.
  replace (b - 32 + 1 + 94) with (b - 32 + 1 * 95) by lia.
  rewrite Z_mod_plus_full, (Z.mod_small (b - 32)) by lia.
  replace (b - 32 + 32) with b by lia. apply Z.mod_small. lia.
Qed.

Lemma IncByte_DecByte_byte (b : Z) :
  0 <= b < 256 -> u8 (u8 (b + 1) - 1) = b.
Proof.
  intros Hb. unfold u8. change (2 ^ 8) with 256.
  rewrite Zminus_mod_idemp_l.
  replace (b + 1 - 1) with b by lia. apply Z.mod_small. lia.
Qed.

(** [mangle_DecByte] undoes [mangle_IncByte] when it draws the same offset
    (the random source is set back to where it was): whenever
    [mangle_IncByte] returns, [mangle_DecByte] returns from the state it
    left, and the input is again what it was.  In printable mode this holds
    of a printable input, the two operators being the successor and the
    predecessor in the cycle [0x20 .. 0x7E].  [mangle_IncByte] returns for
    every size in [1, min(HF_INPUT_MAX_SIZE, getLen_cube_limit)]. *)
Theorem mangle_IncByte_DecByte (hf : Z) (printable : bool) (run : run_t) :
  dynfile_size run < 18446744073709551616 ->
  dynfile_size run <= Z.of_nat (length (dynfile_data run)) ->
  bytes_input run -> (printable = true -> printable_input run) ->
  (forall run1,
     mangle_IncByte hf printable run = Ok (tt, run1) ->
     exists run2,
       mangle_DecByte hf printable (set_urandom_pos (urandom_pos run) run1)
         = Ok (tt, run2) /\
       dynfile_data run2 = dynfile_data run /\
       dynfile_size run2 = dynfile_size run) /\
  (1 <= dynfile_size run <= hf -> dynfile_size run <= getLen_cube_limit ->
   exists run1, mangle_IncByte hf printable run = Ok (tt, run1)).
Proof.
  intros Htyp Hcap Hbytes Hprint.
  unfold mangle_IncByte, mangle_DecByte. destruct printable.
  - split.
    + apply (byte_op_round_trip hf (fun b => Z.rem (b - 32 + 1) 95 + 32)
               (fun b => Z.rem (b - 32 + 94) 95 + 32)); try assumption.
      intros i Hi. apply IncByte_DecByte_printable.
      apply (Hprint eq_refl i Hi).
    + intros Hsz Hlim.
      apply (byte_op_returns hf (fun b => Z.rem (b - 32 + 1) 95 + 32));
        assumption.
  - split.
    + apply (byte_op_round_trip hf (fun b => b + 1) (fun b => b - 1));
        try assumption.
      intros i Hi. apply IncByte_DecByte_byte, Hbytes, Hi.
    + intros Hsz Hlim.
      apply (byte_op_returns hf (fun b => b + 1)); assumption.
Qed.

Lemma mangle_IncByte_DecByte_witness :
  (forall run1,
     mangle_IncByte 134217728 true (sample_run [65; 126; 67; 0] 3 [10])
       = Ok (tt, run1) ->
     exists run2,
       mangle_DecByte 134217728 true (set_urandom_pos 0 run1)
         = Ok (tt, run2) /\
       dynfile_data run2 = [65; 126; 67; 0] /\
       dynfile_size run2 = 3) /\
  (exists run1,
     mangle_IncByte 134217728 true (sample_run [65; 126; 67; 0] 3 [10])
       = Ok (tt, run1)).
Proof.
  destruct (mangle_IncByte_DecByte 134217728 true
              (sample_run [65; 126; 67; 0] 3 [10])) as [H1 H2].
  - cbn. lia.
  - cbn. lia.
  - intros i Hi. cbn in Hi.
    assert (Hc : i = 0 \/ i = 1 \/ i = 2) by lia.
    destruct Hc as [-> | [-> | ->]]; vm_compute; split; congruence.
  - intros _ i Hi. cbn in Hi. unfold printable_byte.
    assert (Hc : i = 0 \/ i = 1 \/ i = 2) by lia.
    destruct Hc as [-> | [-> | ->]]; vm_compute; split; congruence.
  - split; [exact H1 |].
    apply H2; unfold getLen_cube_limit; cbn; lia.
Defined.

Lemma NegByte_printable_twice (b : Z) :
  0 <= b < 256 -> u8 (94 - (u8 (94 - (b - 32) + 32) - 32) + 32) = b.
Proof.
  intros Hb. unfold u8. change (2 ^ 8) with 256.
  replace (94 - (b - 32) + 32) with (158 - b) by lia.
  replace (94 - ((158 - b) mod 256 - 32) + 32)
    with (158 - (158 - b) mod 256) by lia.
  rewrite Zminus_mod_idemp_r.
  replace (158 - (158 - b)) with b by lia. apply Z.mod_small. lia.
Qed.

Lemma NegByte_lnot_twice (b : Z) :
  0 <= b < 256 -> u8 (Z.lnot (u8 (Z.lnot b))) = b.
Proof.
  intros Hb. unfold u8, Z.lnot. change (2 ^ 8) with 256.
  replace (Z.pred (- b)) with (-1 - b) by lia.
  replace (Z.pred (- ((-1 - b) mod 256)))
    with (-1 - (-1 - b) mod 256) by lia.
  rewrite Zminus_mod_idemp_r.
  replace (-1 - (-1 - b)) with b by lia. apply Z.mod_small. lia.
Qed.

(** [mangle_NegByte] is an involution in either mode: whenever it returns,
    it returns again from the state it left with the random source set back
    to where it was, and the input is then what it was at first.  It
    returns for every size in
    [1, min(HF_INPUT_MAX_SIZE, getLen_cube_limit)]. *)
Theorem mangle_NegByte_twice (hf : Z) (printable : bool) (run : run_t) :
  dynfile_size run < 18446744073709551616 ->
  dynfile_size run <= Z.of_nat (length (dynfile_data run)) ->
  bytes_input run ->
  (forall run1,
     mangle_NegByte hf printable run = Ok (tt, run1) ->
     exists run2,
       mangle_NegByte hf printable (set_urandom_pos (urandom_pos run) run1)
         = Ok (tt, run2) /\
       dynfile_data run2 = dynfile_data run /\
       dynfile_size run2 = dynfile_size run) /\
  (1 <= dynfile_size run <= hf -> dynfile_size run <= getLen_cube_limit ->
   exists run1, mangle_NegByte hf printable run = Ok (tt, run1)).
Proof.
  intros Htyp Hcap Hbytes.
  unfold mangle_NegByte. destruct printable.
  - split.
    + apply (byte_op_round_trip hf (fun b => 94 - (b - 32) + 32)
               (fun b => 94 - (b - 32) + 32)); try assumption.
      intros i Hi. apply NegByte_printable_twice, Hbytes, Hi.
    + intros Hsz Hlim.
      apply (byte_op_returns hf (fun b => 94 - (b - 32) + 32)); assumption.
  - split.
    + apply (byte_op_round_trip hf Z.lnot Z.lnot); try assumption.
      intros i Hi. apply NegByte_lnot_twice, Hbytes, Hi.
    + intros Hsz Hlim. apply (byte_op_returns hf Z.lnot); assumption.
Qed.

Lemma mangle_NegByte_twice_witness :
  (forall run1,
     mangle_NegByte 134217728 false (sample_run [65; 200; 0; 0] 3 [10])
       = Ok (tt, run1) ->
     exists run2,
       mangle_NegByte 134217728 false (set_urandom_pos 0 run1)
         = Ok (tt, run2) /\
       dynfile_data run2 = [65; 200; 0; 0] /\
       dynfile_size run2 = 3) /\
  (exists run1,
     mangle_NegByte 134217728 false (sample_run [65; 200; 0; 0] 3 [10])
       = Ok (tt, run1)).
Proof.
  destruct (mangle_NegByte_twice 134217728 false
              (sample_run [65; 200; 0; 0] 3 [10])) as [H1 H2].
  - cbn. lia.
  - cbn. lia.
  - intros i Hi. cbn in Hi.
    assert (Hc : i = 0 \/ i = 1 \/ i = 2) by lia.
    destruct Hc as [-> | [-> | ->]]; vm_compute; split; congruence.
  - split; [exact H1 |].
    apply H2; unfold getLen_cube_limit; cbn; lia.
Defined.

(** ** [mangle_Bit] *)

Lemma bit_mask (k : Z) :
  0 <= k <= 7 -> u8 (u32 (Z.shiftl 1 k)) = 2 ^ k /\ 0 <= 2 ^ k < 256.
Proof.
  intros Hk.
  assert (Hc : k = 0 \/ k = 1 \/ k = 2 \/ k = 3 \/ k = 4 \/ k = 5 \/ k = 6
               \/ k = 7) by lia.
  destruct Hc as [-> | [-> | [-> | [-> | [-> | [-> | [-> | ->]]]]]]];
    vm_compute; repeat split; congruence.
Qed.

Lemma lxor_byte (a b : Z) :
  0 <= a < 256 -> 0 <= b < 256 -> 0 <= Z.lxor a b < 256.
Proof. intros Ha Hb. apply (lxor_range 8); [lia | exact Ha | exact Hb]. Qed.

Lemma byte_at_splice_one (off v : Z) (d : list Z) (i : Z) :
  0 <= off < Z.of_nat (length d) -> 0 <= i ->
  byte_at (splice off [v] d) i = if i =? off then v else byte_at d i.
Proof.
  intros Hoff Hi. rewrite byte_at_splice by (cbn [length]; lia).
  cbn [length].
  destruct (Z.eqb_spec i off) as [-> | Hne].
  - destruct (Z.leb_spec off off); [| lia].
    destruct (Z.ltb_spec off (off + Z.of_nat 1)); [| lia].
    cbn [andb]. rewrite Z.sub_diag. reflexivity.
  - destruct (Z.leb_spec off i); cbn [andb]; [| reflexivity].
    destruct (Z.ltb_spec i (off + Z.of_nat 1)); [lia | reflexivity].
Qed.

Lemma mangle_Bit_exact (hf : Z) (run : run_t) (off : Z) (run1 : run_t)
      (k : Z) (run2 : run_t) :
  mangle_getOffSet hf run = Ok (off, run1) -> same_file run run1 ->
  util_rndGet 0 7 run1 = Ok (k, run2) -> same_file run1 run2 ->
  0 <= off < dynfile_size run ->
  dynfile_size run <= Z.of_nat (length (dynfile_data run)) ->
  mangle_Bit hf false run
    = Ok (tt, set_data
                (splice off
                        [u8 (Z.lxor (byte_at (dynfile_data run) off)
                                    (u8 (u32 (Z.shiftl 1 k))))]
                        (dynfile_data run)) run2).
Proof.
  intros Heq (Hd1 & Hs1 & _) Hk (Hd2 & Hs2 & _) Hoff Hcap.
  unfold mangle_Bit. unfold bind at 1. rewrite Heq.
  unfold bind at 1. rewrite Hk.
  unfold load_byte, bind.
  rewrite load_Data_ok by (rewrite ?Hd2, ?Hd1; lia).
  unfold ret, store_byte.
  rewrite store_ok by (rewrite ?Hd2, ?Hd1; cbn; lia).
  cbn [when]. unfold ret.
  rewrite Hd2, Hd1, byte_at_slice_one by lia. reflexivity.
Qed.

Lemma mangle_Bit_at (hf : Z) (run : run_t) (off : Z) (run1 : run_t) :
  mangle_getOffSet hf run = Ok (off, run1) ->
  dynfile_size run < 18446744073709551616 ->
  dynfile_size run <= Z.of_nat (length (dynfile_data run)) ->
  bytes_input run ->
  exists k run1' run2,
    mangle_Bit hf false run = Ok (tt, run1') /\
    0 <= off < dynfile_size run /\ 0 <= k <= 7 /\
    dynfile_size run1' = dynfile_size run /\
    (forall i, 0 <= i ->
       byte_at (dynfile_data run1') i =
         if i =? off then Z.lxor (byte_at (dynfile_data run) i) (2 ^ k)
         else byte_at (dynfile_data run) i) /\
    mangle_Bit hf false (set_urandom_pos (urandom_pos run) run1')
      = Ok (tt, run2) /\
    dynfile_data run2 = dynfile_data run.
Proof.
  intros Heq Htyp Hcap Hbytes.
  destruct (mangle_getOffSet_inv hf run off run1 Htyp Heq) as [Hoff _].
  destruct (mangle_getOffSet_replay hf run run off run1) as (n & Ha & _);
    [split; reflexivity | reflexivity | exact Heq |].
  pose proof (advanced_same_file _ _ _ Ha) as Hsame1.
  destruct (util_rndGet_ok 0 7 run1) as (k & Hk & Hkr); [lia | lia | lia |].
  set (run2 := set_urandom_pos (S (urandom_pos run1)) run1) in *.
  assert (Hsame2 : same_file run1 run2) by (repeat split).
  destruct (bit_mask k Hkr) as [Hmask Hm].
  pose proof (Hbytes off Hoff) as Hb.
  pose proof (lxor_byte _ _ Hb Hm) as Hx.
  set (b := byte_at (dynfile_data run) off) in *.
  set (d1 := splice off [Z.lxor b (2 ^ k)] (dynfile_data run)).
  assert (H1 : mangle_Bit hf false run = Ok (tt, set_data d1 run2)).
  { rewrite (mangle_Bit_exact hf run off run1 k run2); try assumption.
    fold b. rewrite Hmask. unfold u8 at 1. change (2 ^ 8) with 256.
    rewrite Z.mod_small by lia. reflexivity. }
  assert (Hl1 : length d1 = length (dynfile_data run))
    by (apply length_splice; cbn [length]; lia).
  assert (Hs2 : dynfile_size run2 = dynfile_size run).
  { destruct Hsame1 as (_ & Hs1 & _). exact Hs1. }
  set (R := set_urandom_pos (urandom_pos run) (set_data d1 run2)).
  assert (HuR : urandom R = urandom run).
  { unfold R, run2. unfold advanced in Ha. rewrite Ha. reflexivity. }
  destruct (mangle_getOffSet_replay hf run R off run1) as (n' & Hn' & Heq2);
    [split; [exact HuR | reflexivity] | exact Hs2 | exact Heq |].
  set (R1 := set_urandom_pos (n' + urandom_pos R) R) in *.
  destruct (util_rndGet_replay 0 7 run1 R1 k run2) as [_ Hk2];
    [| exact Hk |].
  { unfold R1. unfold advanced in Ha, Hn'. split.
    - cbn [urandom set_urandom_pos]. rewrite HuR, Ha. reflexivity.
    - cbn [urandom_pos set_urandom_pos]. rewrite Hn'. reflexivity. }
  assert (Hbd : byte_at d1 off = Z.lxor b (2 ^ k)).
  { unfold d1. rewrite byte_at_splice_one by lia.
    rewrite Z.eqb_refl. reflexivity. }
  set (R2 := set_urandom_pos (S (urandom_pos R1)) R1) in *.
  assert (H2 : mangle_Bit hf false R
               = Ok (tt, set_data
                           (splice off
                              [u8 (Z.lxor (byte_at (dynfile_data R) off)
                                          (u8 (u32 (Z.shiftl 1 k))))]
                              (dynfile_data R)) R2)).
  { apply (mangle_Bit_exact hf R off R1 k R2 Heq2);
      [repeat split | exact Hk2 | repeat split | |].
    - unfold R. cbn [dynfile_size set_urandom_pos set_data]. lia.
    - unfold R. cbn [dynfile_size dynfile_data set_urandom_pos set_data].
      lia. }
  exists k, (set_data d1 run2). eexists.
  split; [exact H1 |]. split; [exact Hoff |]. split; [exact Hkr |].
  split; [exact Hs2 |]. split; [| split; [exact H2 |]].
  - intros i Hi. cbn [dynfile_data set_data]. unfold d1.
    rewrite byte_at_splice_one by lia.
    destruct (Z.eqb_spec i off) as [-> | _]; reflexivity.
  - cbn [dynfile_data set_data set_urandom_pos R].
    rewrite Hbd, Hmask. unfold u8. change (2 ^ 8) with 256.
    rewrite Z.lxor_assoc, Z.lxor_nilpotent, Z.lxor_0_r.
    rewrite Z.mod_small by lia. unfold d1.
    rewrite splice_splice by (cbn [length]; lia).
    apply splice_one_same. lia.
Qed.

(** Without the printable mode, whenever [mangle_Bit] returns it has
    flipped one bit of one byte of the input and left the rest as it was;
    applied again with the same draws it returns and gives the input back.
    It returns for every size in
    [1, min(HF_INPUT_MAX_SIZE, getLen_cube_limit)]. *)
Theorem mangle_Bit_flips_one_bit (hf : Z) (run : run_t) :
  dynfile_size run < 18446744073709551616 ->
  dynfile_size run <= Z.of_nat (length (dynfile_data run)) ->
  bytes_input run ->
  (forall run1,
     mangle_Bit hf false run = Ok (tt, run1) ->
     exists off k run2,
       0 <= off < dynfile_size run /\ 0 <= k <= 7 /\
       dynfile_size run1 = dynfile_size run /\
       (forall i, 0 <= i ->
          byte_at (dynfile_data run1) i =
            if i =? off then Z.lxor (byte_at (dynfile_data run) i) (2 ^ k)
            else byte_at (dynfile_data run) i) /\
       mangle_Bit hf false (set_urandom_pos (urandom_pos run) run1)
         = Ok (tt, run2) /\
       dynfile_data run2 = dynfile_data run) /\
  (1 <= dynfile_size run <= hf -> dynfile_size run <= getLen_cube_limit ->
   exists run1, mangle_Bit hf false run = Ok (tt, run1)).
Proof.
  intros Htyp Hcap Hbytes. split.
  - intros run1 Hret. pose proof Hret as Hret'.
    unfold mangle_Bit in Hret'.
    destruct (bind_getOffSet_inv _ _ _ _ _ Hret') as (off & r1 & Heq & _).
    destruct (mangle_Bit_at hf run off r1 Heq Htyp Hcap Hbytes)
      as (k & run1' & run2 & H1 & H).
    rewrite H1 in Hret. inversion Hret; subst run1'.
    exists off, k, run2. exact H.
  - intros Hsz Hlim.
    destruct (mangle_getOffSet_returns hf run Hsz Hlim)
      as (off & r1 & Heq & _).
    destruct (mangle_Bit_at hf run off r1 Heq Htyp Hcap Hbytes)
      as (k & run1' & run2 & H1 & _).
    exists run1'. exact H1.
Qed.

Lemma mangle_Bit_flips_one_bit_witness :
  (forall run1,
     mangle_Bit 134217728 false (sample_run [65; 66; 67; 0] 3 [10; 5])
       = Ok (tt, run1) ->
     exists off k run2,
       0 <= off < 3 /\ 0 <= k <= 7 /\
       dynfile_size run1 = 3 /\
       (forall i, 0 <= i ->
          byte_at (dynfile_data run1) i =
            if i =? off then Z.lxor (byte_at [65; 66; 67; 0] i) (2 ^ k)
            else byte_at [65; 66; 67; 0] i) /\
       mangle_Bit 134217728 false (set_urandom_pos 0 run1) = Ok (tt, run2) /\
       dynfile_data run2 = [65; 66; 67; 0]) /\
  (exists run1,
     mangle_Bit 134217728 false (sample_run [65; 66; 67; 0] 3 [10; 5])
       = Ok (tt, run1)).
Proof.
  destruct (mangle_Bit_flips_one_bit 134217728
              (sample_run [65; 66; 67; 0] 3 [10; 5])) as [H1 H2].
  - cbn. lia.
  - cbn. lia.
  - intros i Hi. cbn in Hi.
    assert (Hc : i = 0 \/ i = 1 \/ i = 2) by lia.
    destruct Hc as [-> | [-> | ->]]; vm_compute; split; congruence.
  - split; [exact H1 |].
    apply H2; unfold getLen_cube_limit; cbn; lia.
Defined.

(** ** [mangle_MemSet] *)

Lemma wp_mangle_MemSet_block (ab : Prop) (hf : Z) (printable : bool)
      (run : run_t) :
  dynfile_size run < 18446744073709551616 ->
  dynfile_size run <= Z.of_nat (length (dynfile_data run)) ->
  ab \/ (1 <= dynfile_size run <= hf /\
         dynfile_size run <= getLen_cube_limit) ->
  wp ab (mangle_MemSet hf printable) run
     (fun _ run' =>
        exists off len val,
          0 <= off < dynfile_size run /\
          1 <= len <= Z.min HF_MAX_LEN_BLOCK (dynfile_size run - off) /\
          (if printable then 32 <= val <= 126 else 0 <= val <= 255) /\
          dynfile_size run' = dynfile_size run /\
          (forall i, 0 <= i ->
             byte_at (dynfile_data run') i =
               if (off <=? i) && (i <? off + len) then val
               else byte_at (dynfile_data run) i)).
Proof.
  intros Htyp Hcap Hpre. unfold mangle_MemSet.
  apply wp_bind, wp_mangle_getOffSet; [exact Htyp | exact Hpre |].
  intros off run1 Hoff (Hd1 & Hs1 & _).
  apply wp_bind, wp_get_size. rewrite Hs1.
  rewrite (u64_small (dynfile_size run - off)), HF_MIN_spec by lia.
  apply wp_bind, wp_mangle_getLen; [bounded Hpre; lia |].
  intros len run2 Hlen (Hd2 & Hs2 & _).
  assert (Hval : forall Q : Z -> run_t -> Prop,
            (forall val run3,
               (if printable then 32 <= val <= 126 else 0 <= val <= 255) ->
               same_file run2 run3 -> Q val run3) ->
            wp ab (if printable then util_rndPrintable
                   else util_rndGet 0 UINT8_MAX) run2 Q).
  { intros Q HQ. unfold util_rndPrintable, UINT8_MAX.
    destruct printable;
      (apply wp_util_rndGet_same; [lia | lia | lia |]);
      intros val run3 Hval Hk; apply HQ; assumption. }
  apply wp_bind, Hval. intros val run3 Hv (Hd3 & Hs3 & _).
  unfold memset. destruct (Z.leb_spec 0 len); [| lia].
  assert (Hrl : Z.of_nat (length (repeat (u8 val) (Z.to_nat len))) = len)
    by (rewrite repeat_length; lia).
  apply wp_store_exact.
  { right. rewrite Hrl, Hd3, Hd2, Hd1. lia. }
  intros _ Hb. exists off, len, val.
  cbn [dynfile_size dynfile_data set_data].
  split; [exact Hoff |]. split; [exact Hlen |]. split; [exact Hv |].
  split; [lia |].
  intros i Hi. rewrite byte_at_splice by lia. rewrite Hrl, Hd3, Hd2, Hd1.
  destruct ((off <=? i) && (i <? off + len)) eqn:Hin; [| reflexivity].
  apply andb_true_iff in Hin. destruct Hin as [H1 H2].
  apply Z.leb_le in H1. apply Z.ltb_lt in H2.
  rewrite byte_at_repeat by lia.
  unfold u8. change (2 ^ 8) with 256. apply Z.mod_small.
  destruct printable; lia.
Qed.

(** Whenever [mangle_MemSet] returns, it has filled one block
    [off, off + len) of the input, of at most [HF_MAX_LEN_BLOCK] bytes and
    inside [0, size), with a single value (a printable one in printable
    mode), and changed nothing else.  It returns for every size in
    [1, min(HF_INPUT_MAX_SIZE, getLen_cube_limit)]. *)
Theorem mangle_MemSet_block (hf : Z) (printable : bool) (run : run_t) :
  dynfile_size run < 18446744073709551616 ->
  dynfile_size run <= Z.of_nat (length (dynfile_data run)) ->
  (forall run',
     mangle_MemSet hf printable run = Ok (tt, run') ->
     exists off len val,
       0 <= off < dynfile_size run /\
       1 <= len <= Z.min HF_MAX_LEN_BLOCK (dynfile_size run - off) /\
       (if printable then 32 <= val <= 126 else 0 <= val <= 255) /\
       dynfile_size run' = dynfile_size run /\
       (forall i, 0 <= i ->
          byte_at (dynfile_data run') i =
            if (off <=? i) && (i <? off + len) then val
            else byte_at (dynfile_data run) i)) /\
  (1 <= dynfile_size run <= hf /\ dynfile_size run <= getLen_cube_limit ->
   exists run',
     mangle_MemSet hf printable run = Ok (tt, run') /\
     exists off len val,
       0 <= off < dynfile_size run /\
       1 <= len <= Z.min HF_MAX_LEN_BLOCK (dynfile_size run - off) /\
       (if printable then 32 <= val <= 126 else 0 <= val <= 255) /\
       dynfile_size run' = dynfile_size run /\
       (forall i, 0 <= i ->
          byte_at (dynfile_data run') i =
            if (off <=? i) && (i <? off + len) then val
            else byte_at (dynfile_data run) i)).
Proof.
  intros Htyp Hcap.
  apply (wp_both (mangle_MemSet hf printable) run).
  intros ab Hpre. apply wp_mangle_MemSet_block; assumption.
Qed.

Lemma mangle_MemSet_block_witness :
  exists run',
    mangle_MemSet 134217728 false (sample_run [65; 66; 67; 0] 3 [10; 5; 7])
      = Ok (tt, run') /\
    exists off len val,
      0 <= off < 3 /\
      1 <= len <= Z.min HF_MAX_LEN_BLOCK (3 - off) /\
      0 <= val <= 255 /\
      dynfile_size run' = 3 /\
      (forall i, 0 <= i ->
         byte_at (dynfile_data run') i =
           if (off <=? i) && (i <? off + len) then val
           else byte_at [65; 66; 67; 0] i).
Proof.
  destruct (mangle_MemSet_block 134217728 false
              (sample_run [65; 66; 67; 0] 3 [10; 5; 7])) as [_ H2].
  - cbn. lia.
  - cbn. lia.
  - apply H2. unfold getLen_cube_limit. cbn. lia.
Defined.

(** ** [mangle_Shrink] *)

Lemma wp_mangle_Move_exact (ab : Prop) (off_from off_to len : Z)
      (run : run_t) (Q : unit -> run_t -> Prop) :
  0 <= off_from < dynfile_size run -> 0 <= off_to < dynfile_size run ->
  0 <= len ->
  dynfile_size run < 18446744073709551616 ->
  dynfile_size run <= Z.of_nat (length (dynfile_data run)) ->
  Q tt (set_data
          (moved off_from off_to
                 (Z.min (Z.min (dynfile_size run - off_from)
                               (dynfile_size run - off_to)) len)
                 (dynfile_data run)) run) ->
  wp ab (mangle_Move off_from off_to len) run Q.
Proof.
  intros H1 H2 H3 H4 H5 HQ. unfold wp.
  rewrite mangle_Move_ok by assumption. exact HQ.
Qed.

Lemma wp_mangle_Shrink_cuts_block (ab : Prop) (hf : Z) (printable : bool)
      (run : run_t) :
  dynfile_size run < 18446744073709551616 ->
  dynfile_size run <= Z.of_nat (length (dynfile_data run)) ->
  ab \/ (dynfile_size run <= hf /\ dynfile_size run <= getLen_cube_limit) ->
  wp ab (mangle_Shrink hf printable) run
     (fun _ run' =>
        (dynfile_size run <= 2 -> run' = run) /\
        (2 < dynfile_size run ->
         exists off len,
           0 <= off < dynfile_size run /\
           0 <= len <= dynfile_size run - off - 1 /\
           dynfile_size run' = dynfile_size run - len /\
           (forall i, 0 <= i < off ->
              byte_at (dynfile_data run') i = byte_at (dynfile_data run) i) /\
           (forall i, off <= i < dynfile_size run - len ->
              byte_at (dynfile_data run') i
                = byte_at (dynfile_data run) (i + len)))).
Proof.
  intros Htyp Hcap Hpre.
  set (post := fun (_ : unit) (run' : run_t) =>
    (dynfile_size run <= 2 -> run' = run) /\
    (2 < dynfile_size run ->
     exists off len,
       0 <= off < dynfile_size run /\
       0 <= len <= dynfile_size run - off - 1 /\
       dynfile_size run' = dynfile_size run - len /\
       (forall i, 0 <= i < off ->
          byte_at (dynfile_data run') i = byte_at (dynfile_data run) i) /\
       (forall i, off <= i < dynfile_size run - len ->
          byte_at (dynfile_data run') i
            = byte_at (dynfile_data run) (i + len)))).
  unfold mangle_Shrink.
  apply wp_bind, wp_get_size.
  destruct (Z.leb_spec (dynfile_size run) 2) as [Hle | Hgt].
  { apply wp_ret. split; [reflexivity | lia]. }
  apply wp_bind, wp_mangle_getOffSet; [exact Htyp | bounded Hpre; lia |].
  intros off run1 Hoff (Hd1 & Hs1 & _).
  apply wp_bind, (wp_mangle_LenLeft ab); [lia | lia |].
  rewrite Hs1.
  destruct (Z.eqb_spec (dynfile_size run - off - 1) 0) as [Hz | Hnz].
  { apply wp_ret. split; [lia |]. intros _. exists off, 0.
    rewrite Hd1, Hs1.
    split; [exact Hoff |]. split; [lia |]. split; [lia |].
    split; [reflexivity |]. intros i Hi. f_equal. lia. }
  apply wp_bind, wp_util_rnd64_same.
  intros r run2 Hr (Hd2 & Hs2 & _).
  rewrite HF_MIN_spec.
  apply wp_bind.
  assert (Hlen : forall Q : Z -> run_t -> Prop,
            (forall len run',
               1 <= len <= dynfile_size run - off - 1 ->
               same_file run2 run' -> Q len run') ->
            wp ab (if negb (r mod 16 =? 0)
                   then mangle_getLen hf
                          (Z.min 16 (dynfile_size run - off - 1))
                   else mangle_getLen hf (dynfile_size run - off - 1))
               run2 Q).
  { intros Q HQ. destruct (negb (r mod 16 =? 0)).
    - apply wp_mangle_getLen; [bounded Hpre; lia |].
      intros len run' Hlen Hk. apply HQ; [lia | exact Hk].
    - apply wp_mangle_getLen; [bounded Hpre; lia |].
      intros len run' Hlen Hk. apply HQ; [lia | exact Hk]. }
  apply Hlen. intros len run3 Hl (Hd3 & Hs3 & _).
  assert (HS : dynfile_size run3 = dynfile_size run) by congruence.
  assert (HD : dynfile_data run3 = dynfile_data run) by congruence.
  apply wp_bind, wp_get_size.
  rewrite (u64_small (off + len)) by lia.
  rewrite (u64_small (dynfile_size run3 - (off + len))) by lia.
  apply wp_bind, wp_mangle_Move_exact; rewrite ?HS, ?HD; try lia.
  apply wp_bind, wp_get_size, wp_input_setSize.
  cbn [dynfile_size dynfile_data set_data set_size].
  rewrite ?HS, ?HD.
  rewrite u64_small by lia.
  replace (Z.min (Z.min (dynfile_size run - (off + len))
                        (dynfile_size run - off))
                 (dynfile_size run - (off + len)))
    with (dynfile_size run - (off + len)) by lia.
  split; [lia |]. intros _. exists off, len.
  cbn [dynfile_size dynfile_data set_data set_size].
  split; [exact Hoff |]. split; [lia |].
  split; [reflexivity |]. split.
  - intros i Hi. rewrite byte_at_moved by lia.
    destruct (Z.leb_spec off i); [lia | reflexivity].
  - intros i Hi. rewrite byte_at_moved by lia.
    destruct (Z.leb_spec off i); [| lia].
    destruct (Z.ltb_spec i (off + (dynfile_size run - (off + len))));
      [| lia].
    cbn [andb]. f_equal. lia.
Qed.

(** Whenever [mangle_Shrink] returns: an input of at most two bytes is
    left as it is, and out of a longer one a block [off, off + len) is
    cut, with [0 <= len <= size - off - 1]: the bytes before [off] stay,
    the bytes after the block move down by [len], and the size drops by
    [len], so that at least the last byte of the input stays in place.  It
    returns for every size up to
    [min(HF_INPUT_MAX_SIZE, getLen_cube_limit)]. *)
Theorem mangle_Shrink_cuts_block (hf : Z) (printable : bool) (run : run_t) :
  dynfile_size run < 18446744073709551616 ->
  dynfile_size run <= Z.of_nat (length (dynfile_data run)) ->
  (forall run',
     mangle_Shrink hf printable run = Ok (tt, run') ->
     (dynfile_size run <= 2 -> run' = run) /\
     (2 < dynfile_size run ->
      exists off len,
        0 <= off < dynfile_size run /\
        0 <= len <= dynfile_size run - off - 1 /\
        dynfile_size run' = dynfile_size run - len /\
        (forall i, 0 <= i < off ->
           byte_at (dynfile_data run') i = byte_at (dynfile_data run) i) /\
        (forall i, off <= i < dynfile_size run - len ->
           byte_at (dynfile_data run') i
             = byte_at (dynfile_data run) (i + len)))) /\
  (dynfile_size run <= hf /\ dynfile_size run <= getLen_cube_limit ->
   exists run',
     mangle_Shrink hf printable run = Ok (tt, run') /\
     (dynfile_size run <= 2 -> run' = run) /\
     (2 < dynfile_size run ->
      exists off len,
        0 <= off < dynfile_size run /\
        0 <= len <= dynfile_size run - off - 1 /\
        dynfile_size run' = dynfile_size run - len /\
        (forall i, 0 <= i < off ->
           byte_at (dynfile_data run') i = byte_at (dynfile_data run) i) /\
        (forall i, off <= i < dynfile_size run - len ->
           byte_at (dynfile_data run') i
             = byte_at (dynfile_data run) (i + len)))).
Proof.
  intros Htyp Hcap.
  apply (wp_both (mangle_Shrink hf printable) run).
  intros ab Hpre. apply wp_mangle_Shrink_cuts_block; assumption.
Qed.

Lemma mangle_Shrink_cuts_block_witness :
  exists run',
    mangle_Shrink 134217728 false
                  (sample_run [65; 66; 67; 68; 69] 5 [10; 5; 7])
      = Ok (tt, run') /\
    (5 <= 2 -> run' = sample_run [65; 66; 67; 68; 69] 5 [10; 5; 7]) /\
    (2 < 5 ->
     exists off len,
       0 <= off < 5 /\
       0 <= len <= 5 - off - 1 /\
       dynfile_size run' = 5 - len /\
       (forall i, 0 <= i < off ->
          byte_at (dynfile_data run') i = byte_at [65; 66; 67; 68; 69] i) /\
       (forall i, off <= i < 5 - len ->
          byte_at (dynfile_data run') i
            = byte_at [65; 66; 67; 68; 69] (i + len))).
Proof.
  destruct (mangle_Shrink_cuts_block 134217728 false
              (sample_run [65; 66; 67; 68; 69] 5 [10; 5; 7])) as [_ H2].
  - cbn. lia.
  - cbn. lia.
  - apply H2. unfold getLen_cube_limit. cbn. lia.
Defined.

(** ** Integers in memory *)

Lemma pow_bytes_S (w : nat) :
  2 ^ (8 * Z.of_nat (S w)) = 256 * 2 ^ (8 * Z.of_nat w).
Proof.
  replace (8 * Z.of_nat (S w)) with (8 + 8 * Z.of_nat w) by lia.
  rewrite Z.pow_add_r by lia. reflexivity.
Qed.

Lemma pow_bytes_pos (w : nat) : 0 < 2 ^ (8 * Z.of_nat w).
Proof. apply Z.pow_pos_nonneg; lia. Qed.

Lemma decode_encode_le (w : nat) (v : Z) :
  decode_le (encode_le w v) = v mod 2 ^ (8 * Z.of_nat w).
Proof.
  revert v. induction w as [| w IH]; intros v.
  - cbn [encode_le decode_le]. change (2 ^ (8 * Z.of_nat 0)) with 1.
    rewrite Z.mod_1_r. reflexivity.
  - cbn [encode_le decode_le]. rewrite IH, pow_bytes_S.
    pose proof (pow_bytes_pos w).
    rewrite Z.rem_mul_r by lia. reflexivity.
Qed.

Lemma encode_le_bytes (w : nat) (v : Z) :
  Forall (fun b => 0 <= b < 256) (encode_le w v).
Proof.
  revert v. induction w as [| w IH]; intros v; cbn [encode_le];
    constructor; [| apply IH].
  unfold u8. apply Z.mod_pos_bound. reflexivity.
Qed.

Lemma encode_decode_le (bs : list Z) :
  Forall (fun b => 0 <= b < 256) bs ->
  encode_le (length bs) (decode_le bs) = bs.
Proof.
  induction 1 as [| b bs Hb _ IH]; [reflexivity |].
  cbv beta in Hb. cbn [length encode_le decode_le]. f_equal.
  - unfold u8. change (2 ^ 8) with 256.
    rewrite (Z.mul_comm 256), Z_mod_plus_full. apply Z.mod_small, Hb.
  - rewrite (Z.mul_comm 256), Z.div_add by lia.
    rewrite (Z.div_small b), Z.add_0_l by lia. exact IH.
Qed.

Lemma encode_le_congr (w : nat) (a b : Z) :
  a mod 2 ^ (8 * Z.of_nat w) = b mod 2 ^ (8 * Z.of_nat w) ->
  encode_le w a = encode_le w b.
Proof.
  intros Heq.
  rewrite <- (encode_decode_le (encode_le w a)) by apply encode_le_bytes.
  rewrite <- (encode_decode_le (encode_le w b)) by apply encode_le_bytes.
  rewrite !length_encode_le, !decode_encode_le, Heq. reflexivity.
Qed.

Lemma sint_mod (w : nat) (x : Z) :
  sint (Z.of_nat w) x mod 2 ^ (8 * Z.of_nat w) = x mod 2 ^ (8 * Z.of_nat w).
Proof.
  unfold sint. pose proof (pow_bytes_pos w) as Hpos.
  set (m := 2 ^ (8 * Z.of_nat w)) in *.
  destruct (x mod m <? m / 2).
  - apply Z.mod_mod. lia.
  - replace (x mod m - m) with (x mod m + (-1) * m) by lia.
    rewrite Z_mod_plus_full. apply Z.mod_mod. lia.
Qed.

Lemma sint_add_mod (w : nat) (x delta : Z) :
  sint (Z.of_nat w) (sint (Z.of_nat w) x + delta) mod 2 ^ (8 * Z.of_nat w)
  = (x + delta) mod 2 ^ (8 * Z.of_nat w).
Proof.
  pose proof (pow_bytes_pos w) as Hpos.
  rewrite sint_mod, <- Z.add_mod_idemp_l, sint_mod, Z.add_mod_idemp_l by lia.
  reflexivity.
Qed.

Lemma encode_le_bswap (w : nat) (v : Z) :
  encode_le w (bswap w v) = rev (encode_le w v).
Proof.
  unfold bswap.
  rewrite <- (length_encode_le w v) at 1. rewrite <- length_rev.
  apply encode_decode_le. apply Forall_rev, encode_le_bytes.
Qed.

(** ** [mangle_AddSubWithRange], cases 2, 4 and 8 *)

Lemma slice_all (l : list Z) : slice 0 (Z.of_nat (length l)) l = l.
Proof.
  unfold slice. cbn [Z.to_nat skipn]. rewrite Nat2Z.id. apply firstn_all.
Qed.

(** Without the printable mode, the cases 2, 4 and 8 of
    [mangle_AddSubWithRange] add [delta], modulo [2^(8w)], to the [w]-byte
    integer at [off]: read in the byte order of the host when the random
    value is odd, in the other byte order when it is even.  The bytes
    outside [off, off + w) stay. *)
Theorem AddSub_wide_adds_delta (off : Z) (w : nat) (delta : Z) (run : run_t) :
  (1 <= w)%nat -> 0 <= off -> off + Z.of_nat w <= dynfile_size run ->
  dynfile_size run < 18446744073709551616 ->
  dynfile_size run <= Z.of_nat (length (dynfile_data run)) ->
  bytes_input run ->
  exists run',
    AddSub_wide off w delta false run = Ok (tt, run') /\
    dynfile_size run' = dynfile_size run /\
    (forall i, 0 <= i -> ~ (off <= i < off + Z.of_nat w) ->
       byte_at (dynfile_data run') i = byte_at (dynfile_data run) i) /\
    let old := slice off (Z.of_nat w) (dynfile_data run) in
    let new := slice off (Z.of_nat w) (dynfile_data run') in
    if negb (Z.land (u64 (urandom run (urandom_pos run))) 1 =? 0)
    then decode_le new = (decode_le old + delta) mod 2 ^ (8 * Z.of_nat w)
    else decode_le (rev new)
         = (decode_le (rev old) + delta) mod 2 ^ (8 * Z.of_nat w).
Proof.
  intros Hw Hoff Hin Hsz Hcap Hbytes. unfold AddSub_wide, bind.
  rewrite load_Data_ok by lia.
  unfold util_rnd64, urandom_read.
  set (r := u64 (urandom run (urandom_pos run))).
  set (run1 := set_urandom_pos (S (urandom_pos run)) run).
  set (old := slice off (Z.of_nat w) (dynfile_data run)).
  assert (Hlo : length old = w)
    by (unfold old; rewrite length_slice by lia; lia).
  assert (Hbo : Forall (fun b => 0 <= b < 256) old).
  { apply Forall_forall. intros b Hb.
    destruct (In_nth old b 0 Hb) as (k & Hk & <-).
    replace (nth k old 0) with (byte_at old (Z.of_nat k))
      by (unfold byte_at; rewrite Nat2Z.id; reflexivity).
    unfold old. rewrite byte_at_slice by lia. apply Hbytes. lia. }
  match goal with
  | |- context [mangle_Overwrite off (Ext ?b 0) _ false run1] =>
      set (buf := b)
  end.
  assert (Hbuf : length buf = w) by apply length_encode_le.
  destruct (mangle_Overwrite_overwrites off buf 0 (Z.of_nat w) false run1)
    as (run' & Heq & Hs' & Hl' & Hpt);
    cbn [run1 dynfile_size dynfile_data set_urandom_pos]; try lia.
  cbn [run1 dynfile_size dynfile_data set_urandom_pos] in *.
  replace (Z.min (Z.of_nat w) (dynfile_size run - off)) with (Z.of_nat w)
    in Hpt by lia.
  exists run'. split; [exact Heq |]. split; [exact Hs' |]. split.
  - intros i Hi Hout. rewrite Hpt by lia.
    destruct (Z.leb_spec off i); cbn [andb]; [| reflexivity].
    destruct (Z.ltb_spec i (off + Z.of_nat w)); [lia | reflexivity].
  - assert (Hnew : slice off (Z.of_nat w) (dynfile_data run') = buf).
    { apply byte_at_ext.
      - rewrite length_slice by lia. lia.
      - rewrite length_slice by lia. intros i Hi.
        rewrite byte_at_slice, Hpt by lia.
        destruct (Z.leb_spec off (off + i)); [| lia].
        destruct (Z.ltb_spec (off + i) (off + Z.of_nat w)); [| lia].
        cbn [andb]. f_equal. lia. }
    cbv zeta. rewrite Hnew.
    assert (Hold : encode_le w (sint (Z.of_nat w) (decode_le old)) = old).
    { rewrite (encode_le_congr w _ (decode_le old)) by apply sint_mod.
      rewrite <- Hlo at 1. apply encode_decode_le, Hbo. }
    unfold buf. destruct (negb (Z.land r 1 =? 0)).
    + rewrite decode_encode_le. apply sint_add_mod.
    + rewrite (encode_le_congr w _ (bswap w _)) by apply sint_mod.
      rewrite encode_le_bswap, rev_involutive, decode_encode_le.
      rewrite sint_add_mod. f_equal. f_equal.
      unfold bswap. rewrite Hold. reflexivity.
Qed.

Lemma AddSub_wide_adds_delta_witness :
  exists run',
    AddSub_wide 1 2 (-3) false (sample_run [65; 1; 2; 68] 4 [7])
      = Ok (tt, run') /\
    dynfile_size run' = 4 /\
    decode_le (slice 1 2 (dynfile_data run')) = 510.
Proof.
  destruct (AddSub_wide_adds_delta 1 2 (-3)
              (sample_run [65; 1; 2; 68] 4 [7]))
    as (run' & Heq & Hs & _ & Hv); try (cbn; lia).
  - intros i Hi. cbn in Hi.
    assert (Hc : i = 0 \/ i = 1 \/ i = 2 \/ i = 3) by lia.
    destruct Hc as [-> | [-> | [-> | ->]]]; vm_compute; split; congruence.
  - exists run'. split; [exact Heq |]. split; [exact Hs |]. exact Hv.
Defined.

(** ** [mangle_FeedbackDict] and the [mangle_ConstFeedback] operators *)

(** [mangle_FeedbackDict] reads no entry outside [valArr], also when [cnt]
    is larger than the array: it returns, leaving the input as it is, and
    what it returns is [NULL] or the bytes and the length, not 0, of an
    entry of the array. *)
Theorem mangle_FeedbackDict_entry (g : honggfuzz_t) (run : run_t) :
  1 <= Z.of_nat (length (cmp_valArr (feedback_cmpFeedbackMap g)))
    < 4294967296 ->
  exists r run',
    mangle_FeedbackDict g run = Ok (r, run') /\
    same_file run run' /\
    match r with
    | None => True
    | Some (val, len) =>
        feedback_cmpFeedback g = true /\ 1 <= len < 4294967296 /\
        exists t, In t (cmp_valArr (feedback_cmpFeedbackMap g)) /\
                  val = tok_val t /\ len = u32 (Z.of_N (tok_len t))
    end.
Proof.
  intros Harr.
  apply (wp_returns (mangle_FeedbackDict g) run
           (fun r run' =>
              same_file run run' /\
              match r with
              | None => True
              | Some (val, len) =>
                  feedback_cmpFeedback g = true /\ 1 <= len < 4294967296 /\
                  exists t, In t (cmp_valArr (feedback_cmpFeedbackMap g)) /\
                            val = tok_val t /\ len = u32 (Z.of_N (tok_len t))
              end)).
  unfold mangle_FeedbackDict.
  destruct (feedback_cmpFeedback g) eqn:Hfb; cbn [negb];
    [| apply wp_ret; split; [apply same_file_refl | exact I]].
  destruct (Z.eqb_spec (u32 (cmp_cnt (feedback_cmpFeedbackMap g))) 0);
    [apply wp_ret; split; [apply same_file_refl | exact I] |].
  pose proof (u32_range (cmp_cnt (feedback_cmpFeedbackMap g))) as Hc.
  set (cnt0 := u32 (cmp_cnt (feedback_cmpFeedbackMap g))) in *.
  set (arr := cmp_valArr (feedback_cmpFeedbackMap g)) in *.
  set (cnt := if cnt0 >? ARRAYSIZE arr then u32 (ARRAYSIZE arr) else cnt0).
  assert (Hcnt : 1 <= cnt <= Z.of_nat (length arr)).
  { subst cnt. unfold ARRAYSIZE.
    destruct (Z.gtb_spec cnt0 (Z.of_nat (length arr)));
      [rewrite u32_small by lia |]; lia. }
  rewrite (u32_small (cnt - 1)) by lia.
  apply wp_bind, wp_util_rndGet_same; [lia | lia | lia |].
  intros choice run1 Hchoice Hk1.
  apply wp_bind, wp_index.
  { right. rewrite u32_small by lia. lia. }
  intros t Hin.
  pose proof (u32_range (Z.of_N (tok_len t))) as Hlen.
  destruct (Z.eqb_spec (u32 (Z.of_N (tok_len t))) 0); apply wp_ret;
    (split; [exact Hk1 |]); [exact I |].
  split; [reflexivity |]. split; [lia |]. exists t. repeat split. exact Hin.
Qed.

Lemma mangle_FeedbackDict_entry_witness :
  exists r run',
    mangle_FeedbackDict
      (mkGlobal 8 1 [] 0 false true
                (mkCmpFeedback 5 [mkToken [1; 2; 3; 4] 3; mkToken [] 0]) 0)
      (sample_run [65] 1 [6]) = Ok (r, run') /\
    r = Some ([1; 2; 3; 4], 3).
Proof.
  destruct (mangle_FeedbackDict_entry
              (mkGlobal 8 1 [] 0 false true
                        (mkCmpFeedback 5 [mkToken [1; 2; 3; 4] 3;
                                          mkToken [] 0]) 0)
              (sample_run [65] 1 [6]))
    as (r & run' & Heq & _); [cbn; lia |].
  exists r, run'. split; [exact Heq |].
  vm_compute in Heq. congruence.
Defined.

(** When the comparison feedback is disabled or has recorded nothing, the
    two [mangle_ConstFeedback] operators are [mangle_BytesInsert] and
    [mangle_BytesOverwrite]; when every entry of the map has length 0 they
    are these operators run after the one draw that chose the entry. *)
Theorem mangle_ConstFeedback_fallthrough (hf : Z) (g : honggfuzz_t)
        (printable : bool) (run : run_t) :
  1 <= Z.of_nat (length (cmp_valArr (feedback_cmpFeedbackMap g)))
    < 4294967296 ->
  (feedback_cmpFeedback g = false \/
   u32 (cmp_cnt (feedback_cmpFeedbackMap g)) = 0 ->
   mangle_ConstFeedbackInsert hf g printable run
     = mangle_BytesInsert hf g printable run /\
   mangle_ConstFeedbackOverwrite hf g printable run
     = mangle_BytesOverwrite hf printable run) /\
  (feedback_cmpFeedback g = true ->
   u32 (cmp_cnt (feedback_cmpFeedbackMap g)) <> 0 ->
   Forall (fun t => u32 (Z.of_N (tok_len t)) = 0)
          (cmp_valArr (feedback_cmpFeedbackMap g)) ->
   mangle_ConstFeedbackInsert hf g printable run
     = mangle_BytesInsert hf g printable
         (set_urandom_pos (S (urandom_pos run)) run) /\
   mangle_ConstFeedbackOverwrite hf g printable run
     = mangle_BytesOverwrite hf printable
         (set_urandom_pos (S (urandom_pos run)) run)).
Proof.
  intros Harr. split.
  - intros Hoff.
    assert (Hnone : mangle_FeedbackDict g run = Ok (None, run)).
    { unfold mangle_FeedbackDict. destruct Hoff as [-> | ->]; [reflexivity |].
      destruct (feedback_cmpFeedback g); reflexivity. }
    unfold mangle_ConstFeedbackInsert, mangle_ConstFeedbackOverwrite, bind.
    rewrite Hnone. split; reflexivity.
  - intros Hon Hnz Hzero.
    assert (Hnone : mangle_FeedbackDict g run
                    = Ok (None, set_urandom_pos (S (urandom_pos run)) run)).
    { unfold mangle_FeedbackDict. rewrite Hon. cbn [negb].
      destruct (Z.eqb_spec (u32 (cmp_cnt (feedback_cmpFeedbackMap g))) 0);
        [contradiction |].
      pose proof (u32_range (cmp_cnt (feedback_cmpFeedbackMap g))) as Hc.
      set (cnt0 := u32 (cmp_cnt (feedback_cmpFeedbackMap g))) in *.
      set (arr := cmp_valArr (feedback_cmpFeedbackMap g)) in *.
      set (cnt := if cnt0 >? ARRAYSIZE arr then u32 (ARRAYSIZE arr) else cnt0).
      assert (Hcnt : 1 <= cnt <= Z.of_nat (length arr)).
      { subst cnt. unfold ARRAYSIZE.
        destruct (Z.gtb_spec cnt0 (Z.of_nat (length arr)));
          [rewrite u32_small by lia |]; lia. }
      rewrite (u32_small (cnt - 1)) by lia.
      destruct (util_rndGet_ok 0 (cnt - 1) run) as (choice & Hr & Hchoice);
        [lia | lia | lia |].
      unfold bind at 1. rewrite Hr.
      rewrite (u32_small choice) by lia.
      unfold bind, index.
      destruct (Z.leb_spec 0 choice); [| lia].
      destruct (nth_error arr (Z.to_nat choice)) as [t |] eqn:Hnth.
      - unfold ret. apply nth_error_In in Hnth.
        rewrite Forall_forall in Hzero. rewrite (Hzero t Hnth). reflexivity.
      - apply nth_error_None in Hnth. lia. }
    unfold mangle_ConstFeedbackInsert, mangle_ConstFeedbackOverwrite, bind.
    rewrite Hnone. split; reflexivity.
Qed.

Lemma mangle_ConstFeedback_fallthrough_witness :
  mangle_ConstFeedbackInsert 134217728
    (mkGlobal 8 1 [] 0 false false (mkCmpFeedback 5 [mkToken [1; 2] 2]) 0)
    false (sample_run [65; 0; 0; 0; 0; 0; 0; 0] 1 [513; 1])
  = Ok (tt, mkRun [1; 2; 65; 0; 0; 0; 0; 0] 3 1 (tape [513; 1]) 2 [] 0).
Proof.
  destruct (mangle_ConstFeedback_fallthrough 134217728
              (mkGlobal 8 1 [] 0 false false
                        (mkCmpFeedback 5 [mkToken [1; 2] 2]) 0)
              false (sample_run [65; 0; 0; 0; 0; 0; 0; 0] 1 [513; 1]))
    as [Hoff _]; [cbn; lia |].
  destruct Hoff as [Hins _]; [left; reflexivity |].
  rewrite Hins. vm_compute. reflexivity.
Defined.

(** ** [mangle_ASCIINumOverwrite] *)

Lemma digits_chars (fuel : nat) (n : Z) (acc : list Z) :
  0 <= n -> Forall decimal_char acc -> Forall decimal_char (digits fuel n acc).
Proof.
  revert n acc. induction fuel as [| fuel IH]; intros n acc Hn Hacc;
    cbn [digits]; [exact Hacc |].
  assert (Hd : decimal_char (48 + n mod 10)).
  { assert (0 <= n mod 10 < 10) by (apply Z.mod_pos_bound; lia).
    unfold decimal_char. lia. }
  destruct (n / 10 =? 0); [constructor; assumption |].
  apply IH; [apply Z.div_pos; lia | constructor; assumption].
Qed.

Lemma decimal_chars (v : Z) : Forall decimal_char (decimal v).
Proof.
  unfold decimal. destruct (Z.ltb_spec v 0).
  - constructor; [left; reflexivity |]. apply digits_chars; [lia | constructor].
  - apply digits_chars; [lia | constructor].
Qed.

Lemma snprintf_19d_chars (v i : Z) :
  0 <= i < 19 -> decimal_char (byte_at (snprintf_19d v) i).
Proof.
  intros Hi. unfold snprintf_19d, byte_at.
  set (s := decimal v ++ repeat 32 (19 - length (decimal v))).
  assert (Hall : Forall decimal_char s).
  { apply Forall_app. split; [apply decimal_chars |].
    apply Forall_forall. intros x Hx. apply repeat_spec in Hx. subst x.
    right. left. reflexivity. }
  assert (Hlen : (19 <= length s)%nat)
    by (unfold s; rewrite length_app, repeat_length; lia).
  rewrite app_nth1 by (rewrite length_firstn; lia).
  assert (Hf : Forall decimal_char (firstn 19 s)).
  { rewrite <- (firstn_skipn 19 s) in Hall. apply Forall_app in Hall.
    apply Hall. }
  rewrite Forall_forall in Hf. apply Hf, nth_In.
  rewrite length_firstn. lia.
Qed.

Lemma wp_mangle_ASCIINumOverwrite_writes_number (ab : Prop) (hf : Z)
      (run : run_t) :
  dynfile_size run < 18446744073709551616 ->
  dynfile_size run <= Z.of_nat (length (dynfile_data run)) ->
  ab \/ (1 <= dynfile_size run <= hf /\
         dynfile_size run <= getLen_cube_limit) ->
  wp ab (mangle_ASCIINumOverwrite hf false) run
     (fun _ run' =>
        exists off n,
          0 <= off < dynfile_size run /\ 1 <= n <= 8 /\
          off + n <= dynfile_size run /\
          dynfile_size run' = dynfile_size run /\
          (forall i, 0 <= i ->
             if (off <=? i) && (i <? off + n)
             then decimal_char (byte_at (dynfile_data run') i)
             else byte_at (dynfile_data run') i
                  = byte_at (dynfile_data run) i)).
Proof.
  intros Htyp Hcap Hpre. unfold mangle_ASCIINumOverwrite.
  apply wp_bind, wp_mangle_getOffSet; [exact Htyp | exact Hpre |].
  intros off run1 Hoff (Hd1 & Hs1 & _).
  apply wp_bind, wp_util_rndGet_same; [lia | lia | lia |].
  intros len run2 Hlen (Hd2 & Hs2 & _).
  apply wp_bind, wp_util_rnd64_same. intros r run3 Hr (Hd3 & Hs3 & _).
  assert (HS : dynfile_size run3 = dynfile_size run) by congruence.
  assert (HD : dynfile_data run3 = dynfile_data run) by congruence.
  destruct (mangle_Overwrite_overwrites off (snprintf_19d (s64 r)) 0 len
                                        false run3)
    as (run' & Heq & Hs' & _ & Hpt);
    rewrite ?length_snprintf_19d, ?HS, ?HD; try lia.
  unfold wp. rewrite Heq.
  exists off, (Z.min len (dynfile_size run - off)).
  split; [exact Hoff |]. split; [lia |]. split; [lia |].
  split; [congruence |].
  intros i Hi. rewrite Hpt by lia. rewrite HS, HD.
  destruct ((off <=? i) && (i <? off + Z.min len (dynfile_size run - off)))
    eqn:Hin; [| reflexivity].
  apply andb_true_iff in Hin. destruct Hin as [H1 H2].
  apply Z.leb_le in H1. apply Z.ltb_lt in H2.
  apply snprintf_19d_chars. lia.
Qed.

(** Without the printable mode, whenever [mangle_ASCIINumOverwrite]
    returns it has written between one and eight characters of a decimal
    number, inside the input, and changed nothing else: each byte it wrote
    is a digit, a minus sign or the space that pads the number, never the
    NUL that ends [buf].  It returns for every size in
    [1, min(HF_INPUT_MAX_SIZE, getLen_cube_limit)]. *)
Theorem mangle_ASCIINumOverwrite_writes_number (hf : Z) (run : run_t) :
  dynfile_size run < 18446744073709551616 ->
  dynfile_size run <= Z.of_nat (length (dynfile_data run)) ->
  (forall run',
     mangle_ASCIINumOverwrite hf false run = Ok (tt, run') ->
     exists off n,
       0 <= off < dynfile_size run /\ 1 <= n <= 8 /\
       off + n <= dynfile_size run /\
       dynfile_size run' = dynfile_size run /\
       (forall i, 0 <= i ->
          if (off <=? i) && (i <? off + n)
          then decimal_char (byte_at (dynfile_data run') i)
          else byte_at (dynfile_data run') i
               = byte_at (dynfile_data run) i)) /\
  (1 <= dynfile_size run <= hf /\ dynfile_size run <= getLen_cube_limit ->
   exists run',
     mangle_ASCIINumOverwrite hf false run = Ok (tt, run') /\
     exists off n,
       0 <= off < dynfile_size run /\ 1 <= n <= 8 /\
       off + n <= dynfile_size run /\
       dynfile_size run' = dynfile_size run /\
       (forall i, 0 <= i ->
          if (off <=? i) && (i <? off + n)
          then decimal_char (byte_at (dynfile_data run') i)
          else byte_at (dynfile_data run') i
               = byte_at (dynfile_data run) i)).
Proof.
  intros Htyp Hcap.
  apply (wp_both (mangle_ASCIINumOverwrite hf false) run).
  intros ab Hpre. apply wp_mangle_ASCIINumOverwrite_writes_number; assumption.
Qed.

Lemma mangle_ASCIINumOverwrite_writes_number_witness :
  exists run',
    mangle_ASCIINumOverwrite 134217728 false
      (sample_run [65; 66; 67; 68; 0] 4 [10; 5; 18446744073709551615])
      = Ok (tt, run') /\
    exists off n,
      0 <= off < 4 /\ 1 <= n <= 8 /\ off + n <= 4 /\
      dynfile_size run' = 4 /\
      (forall i, 0 <= i ->
         if (off <=? i) && (i <? off + n)
         then decimal_char (byte_at (dynfile_data run') i)
         else byte_at (dynfile_data run') i = byte_at [65; 66; 67; 68; 0] i).
Proof.
  destruct (mangle_ASCIINumOverwrite_writes_number 134217728
              (sample_run [65; 66; 67; 68; 0] 4
                          [10; 5; 18446744073709551615])) as [_ H2].
  - cbn. lia.
  - cbn. lia.
  - apply H2. unfold getLen_cube_limit. cbn. lia.
Defined.

(** ** Printable mode, operator by operator *)

(** In printable mode every entry of [mangleFuncs] other than
    [mangle_AddSub], the tenth, leaves a printable input printable whenever
    it returns, and under the safe configuration it returns. *)
Theorem mangleFuncs_keep_printable (hf : Z) (g : honggfuzz_t)
        (op : bool -> M unit) (run : run_t) :
  typed g -> fits g run -> printable_input run ->
  In op (firstn 9 (mangleFuncs hf g) ++ skipn 10 (mangleFuncs hf g)) ->
  nth_error (mangleFuncs hf g) 9 = Some (mangle_AddSub hf) /\
  (forall run', op true run = Ok (tt, run') -> printable_input run') /\
  (safe_cfg hf g -> safe_run hf g run -> 1 <= dynfile_size run ->
   exists run', op true run = Ok (tt, run') /\ printable_input run').
Proof.
  intros Ht Hf Hp Hin. split; [reflexivity |]. split.
  - intros run' Heq.
    destruct (mangleFuncs_printable True hf g) as [_ Hall].
    rewrite Forall_forall in Hall.
    apply (wp_result _ _ _ _ _ (Hall op Hin run Ht Hf Hp (or_introl I)) Heq).
  - intros Hcfg Hrun Hone.
    destruct (mangleFuncs_printable False hf g) as [_ Hall].
    rewrite Forall_forall in Hall.
    destruct (wp_returns _ _ _
                (Hall op Hin run Ht Hf Hp
                      (or_intror (conj Hcfg (conj Hrun Hone)))))
      as ([] & run' & Heq & HP).
    exists run'. split; assumption.
Qed.

Lemma mangleFuncs_keep_printable_witness :
  exists run',
    mangle_IncByte 134217728 true (sample_run [65; 126; 67; 0] 3 [10])
      = Ok (tt, run') /\
    printable_input run'.
Proof.
  assert (Ht : typed (sample_global 4 true)) by (apply typed_sample; lia).
  assert (Hf : fits (sample_global 4 true)
                    (sample_run [65; 126; 67; 0] 3 [10]))
    by (unfold fits; cbn; lia).
  assert (Hp : printable_input (sample_run [65; 126; 67; 0] 3 [10])).
  { intros i Hi. cbn in Hi. unfold printable_byte.
    assert (Hc : i = 0 \/ i = 1 \/ i = 2) by lia.
    destruct Hc as [-> | [-> | ->]]; vm_compute; split; congruence. }
  destruct (mangleFuncs_keep_printable 134217728 (sample_global 4 true)
              (mangle_IncByte 134217728) _ Ht Hf Hp)
    as (_ & Hres & _).
  { unfold mangleFuncs. cbn [firstn skipn app In]. auto 10. }
  eexists. split; [vm_compute; reflexivity |].
  apply Hres. vm_compute. reflexivity.
Defined.

Lemma AddSub_wide_keeps_printable_witness :
  exists run',
    AddSub_wide 0 2 (-4096) true (sample_run [32; 33; 0; 0] 2 [1])
      = Ok (tt, run') /\
    dynfile_size run' = 2 /\
    printable_input run'.
Proof.
  apply (AddSub_wide_keeps_printable 0 2 (-4096)
           (sample_run [32; 33; 0; 0] 2 [1])); try (cbn; lia).
  intros i Hi. cbn in Hi. unfold printable_byte.
  assert (Hc : i = 0 \/ i = 1) by lia.
  destruct Hc as [-> | ->]; vm_compute; split; congruence.
Defined.

(** ** [mangle_Resize] *)

Lemma mangle_Resize_bytes (ab : Prop) (g : honggfuzz_t) (printable : bool)
      (run : run_t) :
  typed g -> fits g run ->
  mutate_maxInputSz g < 9223372036854775808 ->
  ab \/ (1 <= mutate_maxInputSz g /\
         mutate_maxInputSz g <= Z.of_nat (length (dynfile_data run))) ->
  wp ab (mangle_Resize g printable) run
     (fun _ run' =>
        dynfile_size run' <= mutate_maxInputSz g /\
        (1 <= mutate_maxInputSz g -> 1 <= dynfile_size run') /\
        (forall i, 0 <= i < dynfile_size run ->
           byte_at (dynfile_data run') i = byte_at (dynfile_data run) i) /\
        (if printable
         then forall i, dynfile_size run <= i < dynfile_size run' ->
                        byte_at (dynfile_data run') i = 32
         else dynfile_data run' = dynfile_data run)).
Proof.
  intros Ht Hf H63 Hs. unfold typed, fits in *. unfold mangle_Resize.
  apply wp_bind, wp_get_size.
  apply wp_bind, wp_util_rndGet_same; [lia | lia | lia |].
  intros choice run1 Hchoice (Hd1 & Hs1 & _).
  apply wp_bind.
  assert (Hnew : forall Q : Z -> run_t -> Prop,
            (forall newsz run', same_file run1 run' -> Q newsz run') ->
            wp ab
               (if choice =? 0 then
                  r <- util_rndGet 1 (mutate_maxInputSz g) ;; ret (s64 r)
                else if (1 <=? choice) && (choice <=? 4) then
                  r <- util_rndGet 0 8 ;;
                  ret (s64 (s64 (dynfile_size run) + s64 r))
                else if choice =? 5 then
                  r <- util_rndGet 9 128 ;;
                  ret (s64 (s64 (dynfile_size run) + s64 r))
                else if (6 <=? choice) && (choice <=? 9) then
                  r <- util_rndGet 0 8 ;;
                  ret (s64 (s64 (dynfile_size run) - s64 r))
                else if choice =? 10 then
                  r <- util_rndGet 9 128 ;;
                  ret (s64 (s64 (dynfile_size run) - s64 r))
                else if (11 <=? choice) && (choice <=? 32) then
                  ret (s64 (dynfile_size run))
                else LOG_F) run1 Q).
  { intros Q HQ.
    assert (Hdraw : forall lo hi (f : Z -> Z),
              0 <= lo <= hi -> hi < 1000 ->
              wp ab (r <- util_rndGet lo hi ;; ret (f r)) run1 Q).
    { intros lo hi f Hlo Hhi.
      apply wp_bind, wp_util_rndGet_same; [lia | lia | lia |].
      intros r run' _ Hk. apply wp_ret, HQ, Hk. }
    destruct (Z.eqb_spec choice 0).
    { apply wp_bind, wp_util_rndGet_tape; [lia | lia | |].
      { destruct Hs as [Ha | Hb]; [left; exact Ha | right; lia]. }
      intros r run' _ Hk. apply wp_ret, HQ, Hk. }
    destruct (Z.leb_spec 1 choice); [| lia].
    destruct (Z.leb_spec choice 4); cbn [andb]; [apply Hdraw; lia |].
    destruct (Z.eqb_spec choice 5); [apply Hdraw; lia |].
    destruct (Z.leb_spec 6 choice); [| lia].
    destruct (Z.leb_spec choice 9); cbn [andb]; [apply Hdraw; lia |].
    destruct (Z.eqb_spec choice 10); [apply Hdraw; lia |].
    destruct (Z.leb_spec 11 choice); [| lia].
    destruct (Z.leb_spec choice 32); cbn [andb]; [| lia].
    apply wp_ret, HQ. repeat split. }
  apply Hnew. intros newsz run2 (Hd2 & Hs2 & _).
  destruct (Resize_clamp (mutate_maxInputSz g) newsz Ht) as (Hb & Hone & Hsmall).
  cbv zeta in Hb, Hone, Hsmall. specialize (Hsmall H63).
  set (n2 := if (if newsz <? 1 then 1 else newsz) >? s64 (mutate_maxInputSz g)
             then s64 (mutate_maxInputSz g)
             else if newsz <? 1 then 1 else newsz) in *.
  rewrite Hsmall in *. rewrite (s64_small (dynfile_size run)) by lia.
  apply wp_bind, wp_input_setSize.
  assert (HD : dynfile_data run2 = dynfile_data run) by congruence.
  assert (Hkeep : dynfile_size (set_size n2 run2) <= mutate_maxInputSz g /\
                  (1 <= mutate_maxInputSz g ->
                   1 <= dynfile_size (set_size n2 run2)))
    by (cbn [dynfile_size set_size]; lia).
  assert (Hnone : forall run',
            dynfile_size run' = n2 -> dynfile_data run' = dynfile_data run ->
            n2 <= dynfile_size run \/ printable = false ->
            dynfile_size run' <= mutate_maxInputSz g /\
            (1 <= mutate_maxInputSz g -> 1 <= dynfile_size run') /\
            (forall i, 0 <= i < dynfile_size run ->
               byte_at (dynfile_data run') i = byte_at (dynfile_data run) i) /\
            (if printable
             then forall i, dynfile_size run <= i < dynfile_size run' ->
                            byte_at (dynfile_data run') i = 32
             else dynfile_data run' = dynfile_data run)).
  { intros run' Hs' Hd' Hcase. rewrite Hs', Hd'.
    split; [lia |]. split; [lia |]. split; [reflexivity |].
    destruct printable; [| reflexivity].
    destruct Hcase as [Hle | Hp]; [intros i Hi; lia | discriminate]. }
  destruct (Z.gtb_spec n2 (dynfile_size run)) as [Hgt | Hle].
  - destruct printable; cbn [when].
    + unfold memset. rewrite u64_small by lia.
      destruct (Z.leb_spec 0 (n2 - dynfile_size run)); [| lia].
      assert (Hl : Z.of_nat (length (repeat (u8 32)
                                            (Z.to_nat (n2 - dynfile_size run))))
                   = n2 - dynfile_size run) by (rewrite repeat_length; lia).
      apply wp_store_exact; cbn [dynfile_data dynfile_size set_size].
      { destruct Hs as [Ha | Hcap]; [left; exact Ha | right].
        rewrite Hl, HD. lia. }
      rewrite Hl. intros _ Hcap.
      cbn [dynfile_data dynfile_size set_data set_size].
      split; [lia |]. split; [lia |]. split.
      * intros i Hi. rewrite byte_at_splice by lia. rewrite Hl, HD.
        destruct (Z.leb_spec (dynfile_size run) i); [lia | reflexivity].
      * intros i Hi. rewrite byte_at_splice by lia. rewrite Hl.
        destruct (Z.leb_spec (dynfile_size run) i); [| lia].
        destruct (Z.ltb_spec i (dynfile_size run + (n2 - dynfile_size run)));
          [| lia].
        cbn [andb]. rewrite byte_at_repeat by lia. reflexivity.
    + apply Hnone; [reflexivity | exact HD | right; reflexivity].
  - apply wp_ret, Hnone; [reflexivity | exact HD | left; lia].
Qed.

(** [mangle_Resize] only moves the end of the input: the new size is in
    [1, maxInputSz], the bytes of [0, size) stay, and the bytes it adds
    are spaces in printable mode (otherwise the data are not touched).
    The sizes are compared as [ssize_t], hence [maxInputSz < 2^63]. *)
Theorem mangle_Resize_keeps_bytes (g : honggfuzz_t) (printable : bool)
        (run : run_t) :
  typed g -> fits g run ->
  1 <= mutate_maxInputSz g < 9223372036854775808 ->
  (forall run',
     mangle_Resize g printable run = Ok (tt, run') ->
     1 <= dynfile_size run' <= mutate_maxInputSz g /\
     (forall i, 0 <= i < dynfile_size run ->
        byte_at (dynfile_data run') i = byte_at (dynfile_data run) i) /\
     (if printable
      then forall i, dynfile_size run <= i < dynfile_size run' ->
                     byte_at (dynfile_data run') i = 32
      else dynfile_data run' = dynfile_data run)) /\
  (mutate_maxInputSz g <= Z.of_nat (length (dynfile_data run)) ->
   exists run', mangle_Resize g printable run = Ok (tt, run')).
Proof.
  intros Ht Hf Hmax. split.
  - intros run' Heq.
    pose proof (mangle_Resize_bytes True g printable run Ht Hf
                  (proj2 Hmax) (or_introl I)) as H.
    apply (wp_result _ _ _ _ _ H) in Heq.
    destruct Heq as (H1 & H2 & H3 & H4).
    split; [split; [apply H2; lia | exact H1] |]. split; assumption.
  - intros Hcap.
    destruct (wp_returns _ _ _
                (mangle_Resize_bytes False g printable run Ht Hf
                   (proj2 Hmax) (or_intror (conj (proj1 Hmax) Hcap))))
      as ([] & run' & Heq & _).
    exists run'. exact Heq.
Qed.

Lemma mangle_Resize_keeps_bytes_witness :
  exists run',
    mangle_Resize (sample_global 8 true) true
                  (sample_run [65; 66; 67; 0; 0; 0; 0; 0] 3 [5; 9]) = Ok (tt, run') /\
    1 <= dynfile_size run' <= 8 /\
    (forall i, 0 <= i < 3 ->
       byte_at (dynfile_data run') i = byte_at [65; 66; 67; 0; 0; 0; 0; 0] i) /\
    (forall i, 3 <= i < dynfile_size run' ->
       byte_at (dynfile_data run') i = 32).
Proof.
  assert (Ht : typed (sample_global 8 true)) by (apply typed_sample; lia).
  assert (Hf : fits (sample_global 8 true)
                    (sample_run [65; 66; 67; 0; 0; 0; 0; 0] 3 [5; 9]))
    by (unfold fits; cbn; lia).
  destruct (mangle_Resize_keeps_bytes (sample_global 8 true) true _ Ht Hf)
    as [Hres _]; [cbn; lia |].
  eexists. split; [vm_compute; reflexivity |].
  apply Hres. vm_compute. reflexivity.
Defined.

(** ** The shape of the operators *)

Lemma same_outside_refl (off n : Z) (run : run_t) : same_outside off n run run.
Proof. intros i _ _. reflexivity. Qed.

Lemma same_outside_trans (off n : Z) (a b c : run_t) :
  same_outside off n a b -> same_outside off n b c -> same_outside off n a c.
Proof.
  intros H1 H2 i Hi Hout. rewrite H2, H1 by assumption. reflexivity.
Qed.

Lemma same_outside_mono (off n m : Z) (a b : run_t) :
  n <= m -> same_outside off n a b -> same_outside off m a b.
Proof. intros Hnm H i Hi Hout. apply H; lia. Qed.

Lemma same_outside_splice (off : Z) (bs : list Z) (run : run_t) :
  0 <= off ->
  off + Z.of_nat (length bs) <= Z.of_nat (length (dynfile_data run)) ->
  same_outside off (Z.of_nat (length bs)) run
               (set_data (splice off bs (dynfile_data run)) run).
Proof.
  intros Hoff Hb i Hi Hout. cbn [dynfile_data set_data].
  rewrite byte_at_splice by lia.
  destruct (Z.leb_spec off i); cbn [andb]; [| reflexivity].
  destruct (Z.ltb_spec i (off + Z.of_nat (length bs))); [lia | reflexivity].
Qed.

Lemma wp_store_outside {ab : Prop} (off : Z) (bs : list Z) (run : run_t)
      (Q : unit -> run_t -> Prop) :
  ab \/ (0 <= off /\
         off + Z.of_nat (length bs) <= Z.of_nat (length (dynfile_data run))) ->
  (forall run', keeps run run' ->
                same_outside off (Z.of_nat (length bs)) run run' ->
                Q tt run') ->
  wp ab (store off bs) run Q.
Proof.
  intros Hpre HQ. apply wp_store_exact; [exact Hpre |].
  intros Hoff Hb. apply HQ.
  - apply keeps_set_data, length_splice; lia.
  - apply same_outside_splice; lia.
Qed.

Lemma wp_memset_outside {ab : Prop} (off c n : Z) (run : run_t)
      (Q : unit -> run_t -> Prop) :
  ab \/ (0 <= off /\ 0 <= n /\
         off + n <= Z.of_nat (length (dynfile_data run))) ->
  (forall run', keeps run run' -> same_outside off n run run' -> Q tt run') ->
  wp ab (memset off c n) run Q.
Proof.
  intros Hpre HQ. unfold memset.
  destruct (Z.leb_spec 0 n).
  - apply wp_store_outside.
    + destruct Hpre as [Ha | Hb]; [left; exact Ha | right].
      rewrite repeat_length. lia.
    + rewrite repeat_length, Z2Nat.id by lia. exact HQ.
  - apply wp_undefined. destruct Hpre as [Ha | Hb]; [exact Ha | lia].
Qed.

Lemma wp_util_turnToPrintable_outside {ab : Prop} (off sz : Z) (run : run_t)
      (Q : unit -> run_t -> Prop) :
  ab \/ (0 <= off /\ 0 <= sz /\
         off + sz <= Z.of_nat (length (dynfile_data run))) ->
  (forall run', keeps run run' -> same_outside off sz run run' -> Q tt run') ->
  wp ab (util_turnToPrintable off sz) run Q.
Proof.
  intros Hpre HQ. unfold util_turnToPrintable.
  apply wp_bind, wp_load_exact.
  { destruct Hpre as [Ha | Hb]; [left; exact Ha | right].
    cbn [ptr_off bytes_of]. lia. }
  cbn [ptr_off bytes_of]. intros Hoff Hsz Hb.
  assert (Hl : length (slice off sz (dynfile_data run)) = Z.to_nat sz)
    by (apply length_slice; lia).
  apply wp_store_outside.
  { right. rewrite length_map, Hl. lia. }
  rewrite length_map, Hl, Z2Nat.id by lia. exact HQ.
Qed.

Lemma wp_mangle_Overwrite_outside {ab : Prop} (off : Z) (src : ptr)
      (len : Z) (printable : bool) (run : run_t)
      (Q : unit -> run_t -> Prop) :
  0 <= off <= dynfile_size run -> 0 <= len ->
  dynfile_size run < 18446744073709551616 ->
  ab \/ (dynfile_size run <= Z.of_nat (length (dynfile_data run)) /\
         0 <= ptr_off src /\
         ptr_off src + Z.min len (dynfile_size run - off)
           <= Z.of_nat (length (bytes_of src run))) ->
  (forall n run',
     0 <= n <= len -> off + n <= dynfile_size run ->
     keeps run run' -> same_outside off n run run' -> Q tt run') ->
  wp ab (mangle_Overwrite off src len printable) run Q.
Proof.
  intros Hoff Hlen Hsz Hpre HQ. unfold mangle_Overwrite.
  destruct (Z.eqb_spec len 0) as [Hz | Hnz].
  { apply wp_ret, (HQ 0); [lia | lia | apply keeps_refl |].
    apply same_outside_refl. }
  apply wp_bind, wp_get_size.
  rewrite u64_small by lia.
  set (n := if len >? dynfile_size run - off
            then dynfile_size run - off else len).
  assert (Hn : n = Z.min len (dynfile_size run - off))
    by (subst n; destruct (Z.gtb_spec len (dynfile_size run - off)); lia).
  unfold memmove. apply wp_bind, wp_bind, wp_load_exact.
  { destruct Hpre as [Ha | Hb]; [left; exact Ha | right]. lia. }
  intros Hso Hn0 Hsb.
  assert (Hl : length (slice (ptr_off src) n (bytes_of src run))
               = Z.to_nat n) by (apply length_slice; lia).
  apply wp_store_outside.
  { destruct Hpre as [Ha | Hb]; [left; exact Ha | right]. rewrite Hl. lia. }
  rewrite Hl, Z2Nat.id by lia. intros run1 Hk1 Ho1.
  destruct printable; cbn [when].
  - apply wp_util_turnToPrintable_outside.
    + destruct Hpre as [Ha | Hb]; [left; exact Ha | right].
      destruct Hk1 as (_ & Hl1 & _). rewrite Hl1. lia.
    + intros run2 Hk2 Ho2. apply (HQ n); [lia | lia | |].
      * eapply keeps_trans; eassumption.
      * eapply same_outside_trans; eassumption.
  - apply wp_ret, (HQ n); [lia | lia | exact Hk1 | exact Ho1].
Qed.

Lemma gap_inflated (off n : Z) (printable : bool) (run : run_t) :
  0 <= off < dynfile_size run -> 0 <= n ->
  dynfile_size run + n <= Z.of_nat (length (dynfile_data run)) ->
  gap off n run
      (set_data (inflated off n (dynfile_size run) printable
                          (dynfile_data run))
                (set_size (dynfile_size run + n) run)).
Proof.
  intros Hoff Hn Hcap. unfold gap. cbn [dynfile_data set_data set_size].
  split; [| split]; intros i Hi; rewrite byte_at_inflated by lia.
  - destruct (Z.leb_spec off i); [lia |]. rewrite andb_false_r. cbn [andb].
    destruct (Z.leb_spec (off + n) i); [lia | reflexivity].
  - destruct (Z.ltb_spec (i + n) (off + n)); [lia |]. rewrite andb_false_r.
    destruct (Z.leb_spec (off + n) (i + n)); [| lia].
    destruct (Z.ltb_spec (i + n) (dynfile_size run + n)); [| lia].
    cbn [andb]. f_equal. lia.
  - destruct (Z.ltb_spec i (off + n)); [lia |]. rewrite andb_false_r.
    destruct (Z.ltb_spec i (dynfile_size run + n)); [lia |].
    rewrite andb_false_r. reflexivity.
Qed.

Lemma wp_mangle_Inflate_gap {ab : Prop} (g : honggfuzz_t)
      (off len : Z) (printable : bool) (run : run_t)
      (Q : Z -> run_t -> Prop) :
  0 <= off < dynfile_size run -> 0 <= len ->
  dynfile_size run <= mutate_maxInputSz g ->
  mutate_maxInputSz g < 18446744073709551616 ->
  ab \/ mutate_maxInputSz g <= Z.of_nat (length (dynfile_data run)) ->
  (forall n run',
     0 <= n <= len -> n <= mutate_maxInputSz g - dynfile_size run ->
     grown n run run' -> gap off n run run' -> Q n run') ->
  wp ab (mangle_Inflate g off len printable) run Q.
Proof.
  intros Hoff Hlen Hle Hmax Hpre HQ. unfold mangle_Inflate.
  apply wp_bind, wp_get_size.
  destruct (Z.geb_spec (dynfile_size run) (mutate_maxInputSz g)).
  { apply wp_ret, HQ; [lia | lia | repeat split; lia |].
    unfold gap. split; [reflexivity |].
    split; intros i Hi; f_equal; lia. }
  rewrite (u64_small (mutate_maxInputSz g - dynfile_size run)) by lia.
  set (n := if len >? mutate_maxInputSz g - dynfile_size run
            then mutate_maxInputSz g - dynfile_size run else len).
  assert (Hn : 0 <= n <= len /\ n <= mutate_maxInputSz g - dynfile_size run)
    by (subst n;
        destruct (Z.gtb_spec len (mutate_maxInputSz g - dynfile_size run));
        lia).
  rewrite (u64_small (dynfile_size run + n)), (u64_small (off + n)) by lia.
  apply wp_bind, wp_input_setSize, wp_bind, wp_get_size.
  cbn [dynfile_size set_size].
  apply wp_bind. unfold mangle_Move.
  apply wp_bind, wp_get_size. cbn [dynfile_size set_size].
  destruct (Z.geb_spec off (dynfile_size run + n)); [lia |].
  destruct (Z.geb_spec (off + n) (dynfile_size run + n)); [lia |].
  rewrite !HF_MIN_spec, !u64_small by lia.
  replace (Z.min (Z.min (dynfile_size run + n) (dynfile_size run + n - off))
                 (dynfile_size run + n - (off + n)))
    with (dynfile_size run - off) by lia.
  unfold memmove. apply wp_bind, wp_load_exact.
  { destruct Hpre as [Ha | Hb]; [left; exact Ha | right].
    cbn [ptr_off bytes_of dynfile_data set_size]. lia. }
  cbn [ptr_off bytes_of dynfile_data set_size]. intros _ _ Hsrc.
  assert (Hl : length (slice off (dynfile_size run - off) (dynfile_data run))
               = Z.to_nat (dynfile_size run - off))
    by (apply length_slice; lia).
  apply wp_store_exact.
  { destruct Hpre as [Ha | Hb]; [left; exact Ha | right].
    cbn [dynfile_data set_size]. rewrite Hl. lia. }
  cbn [dynfile_data set_size]. rewrite Hl. intros _ Hdst.
  assert (Hfin : forall d,
            d = inflated off n (dynfile_size run) printable
                         (dynfile_data run) ->
            Q n (set_data d (set_size (dynfile_size run + n) run))).
  { intros d ->. apply HQ; [lia | lia | |].
    - repeat split. cbn [dynfile_data set_data].
      apply length_inflated; lia.
    - apply gap_inflated; lia. }
  destruct printable; cbn [when].
  - apply wp_bind. unfold memset.
    destruct (Z.leb_spec 0 n); [| lia].
    apply wp_store_exact.
    { right. cbn [dynfile_data set_data].
      rewrite repeat_length, length_splice by (rewrite ?Hl; lia). lia. }
    intros _ _. apply wp_ret. cbn [dynfile_data set_data].
    match goal with
    | |- Q n (set_data ?d (set_data _ ?r)) =>
        change (Q n (set_data d r))
    end.
    apply Hfin. reflexivity.
  - apply wp_bind, wp_ret, wp_ret. apply Hfin. reflexivity.
Qed.

Lemma wp_mangle_Insert_gap {ab : Prop} (g : honggfuzz_t) (off : Z)
      (val : ptr) (len : Z) (printable : bool) (run : run_t)
      (Q : unit -> run_t -> Prop) :
  0 <= off < dynfile_size run -> 0 <= len ->
  dynfile_size run <= mutate_maxInputSz g ->
  mutate_maxInputSz g < 18446744073709551616 ->
  ab \/ (mutate_maxInputSz g <= Z.of_nat (length (dynfile_data run)) /\
         0 <= ptr_off val /\
         ptr_off val + Z.min len (mutate_maxInputSz g - dynfile_size run)
           <= Z.of_nat (length (bytes_of val run))) ->
  (forall n run',
     0 <= n <= len -> n <= mutate_maxInputSz g - dynfile_size run ->
     grown n run run' -> gap off n run run' -> Q tt run') ->
  wp ab (mangle_Insert g off val len printable) run Q.
Proof.
  intros Hoff Hlen Hle Hmax Hpre HQ. unfold mangle_Insert.
  apply wp_bind, wp_mangle_Inflate_gap; try assumption.
  { destruct Hpre as [Ha | Hb]; [left; exact Ha | right]. lia. }
  intros n run1 Hn Hroom (Hs1 & Hl1 & Hc1 & Hm1) (Hg1 & Hg2 & Hg3).
  apply wp_mangle_Overwrite_outside; try lia.
  - destruct Hpre as [Ha | Hb]; [left; exact Ha | right].
    rewrite (length_bytes_of val run run1 Hl1). lia.
  - intros n' run2 Hn' Hfit (Hs2 & Hl2 & Hc2 & Hm2) Ho.
    apply (HQ n); [lia | lia | repeat split; congruence |].
    unfold gap. split; [| split]; intros i Hi.
    + rewrite Ho by lia. apply Hg1. lia.
    + rewrite Ho by lia. apply Hg2. lia.
    + rewrite Ho by lia. apply Hg3. lia.
Qed.

Lemma wp_util_rndBuf_same {ab : Prop} (sz : Z) (run : run_t)
      (Q : list Z -> run_t -> Prop) :
  (forall l run', length l = Z.to_nat sz -> same_file run run' -> Q l run') ->
  wp ab (util_rndBuf sz) run Q.
Proof.
  unfold util_rndBuf. generalize (Z.to_nat sz) as n. intros n.
  revert run Q. induction n as [| n IH]; intros run Q HQ; cbn [replicateM].
  - apply wp_ret, HQ; [reflexivity | apply same_file_refl].
  - apply wp_bind, wp_bind, wp_util_rnd64_same.
    intros r run1 _ Hk1. apply wp_ret, wp_bind, IH.
    intros l run2 Hl Hk2. apply wp_ret, HQ.
    + cbn [length]. rewrite Hl. reflexivity.
    + eapply same_file_trans; eassumption.
Qed.

Lemma wp_rnd_bytes_same {ab : Prop} (printable : bool) (len : Z)
      (run : run_t) (Q : list Z -> run_t -> Prop) :
  (forall l run', length l = Z.to_nat len -> same_file run run' -> Q l run') ->
  wp ab (if printable then util_rndBufPrintable len else util_rndBuf len)
     run Q.
Proof.
  intros HQ. destruct printable.
  - apply wp_util_rndBufPrintable_printable.
    intros l run' Hl _ Hk. apply HQ; assumption.
  - apply wp_util_rndBuf_same. exact HQ.
Qed.

Lemma changed_in_place_from (run runN run' : run_t) (off n : Z) :
  dynfile_data runN = dynfile_data run ->
  dynfile_size runN = dynfile_size run ->
  0 <= off -> 0 <= n -> off + n <= dynfile_size run ->
  keeps runN run' -> same_outside off n runN run' ->
  changed_in_place run run'.
Proof.
  intros Hd Hs Hoff Hn Hfit (Hs' & _) Ho. split; [congruence |].
  exists off, n. repeat split; try assumption.
  intros i Hi Hout. rewrite <- Hd. apply Ho; assumption.
Qed.

Lemma block_inserted_from (run runN run' : run_t) (off n : Z) :
  dynfile_data runN = dynfile_data run ->
  dynfile_size runN = dynfile_size run ->
  0 <= off <= dynfile_size run -> 0 <= n ->
  dynfile_size run' = dynfile_size runN + n -> gap off n runN run' ->
  block_inserted run run'.
Proof.
  intros Hd Hs Hoff Hn Hs' (Hg1 & Hg2 & Hg3). exists off, n.
  split; [exact Hoff |]. split; [exact Hn |]. split; [congruence |].
  unfold gap. rewrite <- Hd, <- Hs. repeat split; assumption.
Qed.

Lemma gap_then_outside (off n n' : Z) (a b c : run_t) :
  0 <= off <= dynfile_size a -> 0 <= n' <= n ->
  gap off n a b -> same_outside off n' b c -> gap off n a c.
Proof.
  intros Hoff Hn (Hg1 & Hg2 & Hg3) Ho. unfold gap.
  split; [| split]; intros i Hi; rewrite Ho by lia;
    [apply Hg1 | apply Hg2 | apply Hg3]; lia.
Qed.

(** A step that left the input as it was: its data are still those of the
    start, and the sizes are those of before. *)
Ltac same_data H :=
  match type of H with
  | same_file ?a ?b =>
      match goal with
      | Hd : dynfile_data a = dynfile_data ?r |- _ =>
          let Hd' := fresh "Hd" in
          assert (Hd' : dynfile_data b = dynfile_data r)
            by (rewrite (proj1 H); exact Hd);
          clear Hd
      end
  end;
  frame H.

Ltac start_data run :=
  let Hd := fresh "Hd" in
  assert (Hd : dynfile_data run = dynfile_data run) by reflexivity.

Ltac in_place_at off n :=
  match goal with
  | Hd : dynfile_data ?r = dynfile_data ?r0 |- changed_in_place ?r0 _ =>
      apply (changed_in_place_from r0 r _ off n Hd)
  end.

Ltac inserted_at off n :=
  match goal with
  | Hd : dynfile_data ?r = dynfile_data ?r0 |- block_inserted ?r0 _ =>
      apply (block_inserted_from r0 r _ off n Hd)
  end.

Section Shapes.

Variable ab : Prop.
Variable hf : Z.
Variable g : honggfuzz_t.

(** An operator run after steps that left the input as it was. *)
Lemma has_shape_after (P : run_t -> run_t -> Prop) (op : bool -> M unit)
      (printable : bool) (run run0 : run_t) :
  (forall a b c, dynfile_data b = dynfile_data a ->
                 dynfile_size b = dynfile_size a -> P b c -> P a c) ->
  has_shape ab hf g P op -> typed g -> fits g run ->
  dynfile_size run0 = dynfile_size run ->
  dynfile_data run0 = dynfile_data run ->
  incl (corpus run0) (corpus run) ->
  ab \/ (safe_cfg hf g /\ safe_run hf g run /\ 1 <= dynfile_size run) ->
  wp ab (op printable) run0 (fun _ run' => P run run').
Proof.
  intros HP Hop Ht Hf Hs0 Hd0 Hc0 Hs.
  eapply wp_mono.
  - apply Hop; [exact Ht | unfold fits in *; lia |].
    destruct Hs as [Ha | (Hcfg & Hrun & Hone)]; [left; exact Ha | right].
    split; [exact Hcfg |]. split; [| lia].
    destruct Hrun as [Hcap Hcorp]. split; [rewrite Hd0; lia |].
    rewrite Forall_forall in *. intros f Hin. apply Hcorp, Hc0, Hin.
  - intros u run' H. apply (HP run run0 run' Hd0 Hs0 H).
Qed.

Lemma changed_in_place_same (a b c : run_t) :
  dynfile_data b = dynfile_data a -> dynfile_size b = dynfile_size a ->
  changed_in_place b c -> changed_in_place a c.
Proof.
  intros Hd Hs (Hs' & off & n & H1 & H2 & H3 & Ho). split; [congruence |].
  exists off, n. repeat split; try lia.
  intros i Hi Hout. rewrite <- Hd. apply Ho; assumption.
Qed.

Lemma block_inserted_same (a b c : run_t) :
  dynfile_data b = dynfile_data a -> dynfile_size b = dynfile_size a ->
  block_inserted b c -> block_inserted a c.
Proof.
  intros Hd Hs (off & n & H1 & H2 & H3 & Hg). exists off, n.
  split; [lia |]. split; [lia |]. split; [lia |].
  unfold gap in *. rewrite <- Hd, <- Hs. exact Hg.
Qed.

(** *** Changes in place *)

Lemma mangle_BytesOverwrite_in_place :
  has_shape ab hf g changed_in_place (mangle_BytesOverwrite hf).
Proof.
  intros printable run Ht Hf Hs. unfold typed, fits in *. start_data run.
  unfold mangle_BytesOverwrite.
  apply wp_bind, wp_mangle_getOffSet; [lia | side Hs; lia |].
  intros off run1 Hoff Hk1. same_data Hk1.
  apply wp_bind, wp_rnd_uint16_buf_same. intros buf run2 Hbuf Hk2.
  same_data Hk2.
  apply wp_bind, wp_util_rndGet_same; [lia | lia | lia |].
  intros toCopy run3 HtoCopy Hk3. same_data Hk3.
  apply wp_mangle_Overwrite_outside; try lia.
  - side Hs. cbn [ptr_off bytes_of]. lia.
  - intros n run4 Hn Hfit Hk4 Ho. in_place_at off n; try lia; assumption.
Qed.

Lemma mangle_MemCopyOverwrite_in_place :
  has_shape ab hf g changed_in_place (mangle_MemCopyOverwrite hf).
Proof.
  intros printable run Ht Hf Hs. unfold typed, fits in *. start_data run.
  unfold mangle_MemCopyOverwrite.
  apply wp_bind, wp_mangle_getOffSet; [lia | side Hs; lia |].
  intros off_from run1 Hfrom Hk1. same_data Hk1.
  apply wp_bind, wp_mangle_getOffSet; [lia | side Hs; lia |].
  intros off_to run2 Hto Hk2. same_data Hk2.
  apply wp_bind, wp_get_size.
  rewrite (u64_small (dynfile_size run2 - off_from)), HF_MIN_spec by lia.
  apply wp_bind, wp_mangle_getLen; [side Hs; unfold HF_MAX_LEN_BLOCK; lia |].
  intros len run3 Hlen Hk3. same_data Hk3.
  apply wp_mangle_Overwrite_outside; try lia.
  - side Hs. cbn [ptr_off bytes_of]. lia.
  - intros n run4 Hn Hfit Hk4 Ho. in_place_at off_to n; try lia; assumption.
Qed.

Lemma mangle_ByteRepeatOverwrite_in_place :
  has_shape ab hf g changed_in_place (mangle_ByteRepeatOverwrite hf).
Proof.
  intros printable run Ht Hf Hs. unfold mangle_ByteRepeatOverwrite.
  pose proof Ht as Ht'. pose proof Hf as Hf'. unfold typed, fits in Ht', Hf'.
  start_data run.
  apply wp_bind, wp_mangle_getOffSet; [lia | side Hs; lia |].
  intros off run1 Hoff Hk1. same_data Hk1.
  apply wp_bind, wp_get_size.
  rewrite (u64_small (off + 1)) by lia.
  rewrite (u64_small (dynfile_size run1 - (off + 1))) by lia.
  destruct (Z.eqb_spec (dynfile_size run1 - (off + 1)) 0) as [Hz | Hnz].
  - apply (has_shape_after _ _ printable run run1 changed_in_place_same
             mangle_BytesOverwrite_in_place); try assumption.
    replace (corpus run1) with (corpus run) by congruence. apply incl_refl.
  - rewrite HF_MIN_spec.
    apply wp_bind, wp_mangle_getLen; [side Hs; unfold HF_MAX_LEN_BLOCK; lia |].
    intros len run2 Hlen Hk2. same_data Hk2.
    apply wp_bind, wp_load_byte; [side Hs; lia |]. intros b.
    apply wp_memset_outside; [side Hs; lia |].
    intros run3 Hk3 Ho. in_place_at (off + 1) len; try lia; assumption.
Qed.

Lemma mangle_Bit_in_place : has_shape ab hf g changed_in_place (mangle_Bit hf).
Proof.
  intros printable run Ht Hf Hs. unfold typed, fits in *. start_data run.
  unfold mangle_Bit.
  apply wp_bind, wp_mangle_getOffSet; [lia | side Hs; lia |].
  intros off run1 Hoff Hk1. same_data Hk1.
  apply wp_bind, wp_util_rndGet_same; [lia | lia | lia |].
  intros k run2 Hk Hk2. same_data Hk2.
  apply wp_bind, wp_load_byte; [side Hs; lia |]. intros b.
  unfold store_byte. apply wp_bind, wp_store_outside.
  { side Hs. cbn [length]. lia. }
  cbn [length]. intros run3 Hk3 Ho3.
  destruct printable; cbn [when].
  - apply wp_util_turnToPrintable_outside.
    + side Hs. destruct Hk3 as (_ & Hl3 & _). rewrite Hl3. lia.
    + intros run4 Hk4 Ho4. in_place_at off 1; try lia.
      * eapply keeps_trans; eassumption.
      * eapply same_outside_trans; eassumption.
  - apply wp_ret. in_place_at off 1; try lia; assumption.
Qed.

(** The operators that rewrite the byte at a random offset. *)
Lemma byte_op_in_place (f : bool -> Z -> Z) :
  has_shape ab hf g changed_in_place
            (fun printable =>
               off <- mangle_getOffSet hf ;;
               b <- load_byte off ;;
               store_byte off (f printable b)).
Proof.
  intros printable run Ht Hf Hs. unfold typed, fits in *. start_data run.
  apply wp_bind, wp_mangle_getOffSet; [lia | side Hs; lia |].
  intros off run1 Hoff Hk1. same_data Hk1.
  apply wp_bind, wp_load_byte; [side Hs; lia |]. intros b.
  unfold store_byte. apply wp_store_outside.
  { side Hs. cbn [length]. lia. }
  cbn [length]. intros run2 Hk2 Ho2.
  in_place_at off 1; try lia; assumption.
Qed.

Lemma mangle_IncByte_in_place :
  has_shape ab hf g changed_in_place (mangle_IncByte hf).
Proof.
  intros printable run Ht Hf Hs.
  pose proof (byte_op_in_place
                (fun p b => if p then Z.rem (b - 32 + 1) 95 + 32 else b + 1)
                printable run Ht Hf Hs) as H.
  unfold mangle_IncByte. destruct printable; exact H.
Qed.

Lemma mangle_DecByte_in_place :
  has_shape ab hf g changed_in_place (mangle_DecByte hf).
Proof.
  intros printable run Ht Hf Hs.
  pose proof (byte_op_in_place
                (fun p b => if p then Z.rem (b - 32 + 94) 95 + 32 else b - 1)
                printable run Ht Hf Hs) as H.
  unfold mangle_DecByte. destruct printable; exact H.
Qed.

Lemma mangle_NegByte_in_place :
  has_shape ab hf g changed_in_place (mangle_NegByte hf).
Proof.
  intros printable run Ht Hf Hs.
  pose proof (byte_op_in_place
                (fun p b => if p then 94 - (b - 32) + 32 else Z.lnot b)
                printable run Ht Hf Hs) as H.
  unfold mangle_NegByte. destruct printable; exact H.
Qed.

Lemma mangle_MagicOverwrite_in_place :
  has_shape ab hf g changed_in_place (mangle_MagicOverwrite hf).
Proof.
  intros printable run Ht Hf Hs. unfold typed, fits in *. start_data run.
  unfold mangle_MagicOverwrite.
  apply wp_bind, wp_mangle_getOffSet; [lia | side Hs; lia |].
  intros off run1 Hoff Hk1. same_data Hk1.
  change (ARRAYSIZE mangleMagicVals - 1) with 220.
  apply wp_bind, wp_util_rndGet_same; [lia | lia | lia |].
  intros choice run2 Hchoice Hk2. same_data Hk2.
  apply wp_bind, wp_index.
  { right. change (Z.of_nat (length mangleMagicVals)) with 221. lia. }
  intros m Hin. pose proof (In_token_ok _ _ mangleMagicVals_ok Hin) as Hm.
  apply wp_mangle_Overwrite_outside; try lia.
  - side Hs. cbn [ptr_off bytes_of]. lia.
  - intros n run3 Hn Hfit Hk3 Ho. in_place_at off n; try lia; assumption.
Qed.

Lemma mangle_DictionaryOverwrite_in_place :
  has_shape ab hf g changed_in_place (mangle_DictionaryOverwrite hf g).
Proof.
  intros printable run Ht Hf Hs. unfold mangle_DictionaryOverwrite.
  destruct (Z.eqb_spec (mutate_dictionaryCnt g) 0) as [Hz | Hnz];
    [apply mangle_BytesOverwrite_in_place; assumption |].
  unfold typed, fits in *. start_data run.
  apply wp_bind, wp_mangle_getOffSet; [lia | side Hs; lia |].
  intros off run1 Hoff Hk1. same_data Hk1.
  pose proof (u64_range (mutate_dictionaryCnt g - 1)) as Hu.
  apply wp_bind, wp_util_rndGet_tape; [lia | lia | |].
  { side Hs. rewrite u64_small by lia. lia. }
  intros choice run2 Hchoice Hk2. same_data Hk2.
  apply wp_bind, wp_index.
  { side Hs. rewrite u64_small in Hchoice by lia. lia. }
  intros t Hin.
  apply wp_mangle_Overwrite_outside; try lia.
  - side Hs. cbn [ptr_off bytes_of].
    assert (Z.of_N (tok_len t) <= Z.of_nat (length (tok_val t)))
      by (eapply In_token_ok; eassumption).
    lia.
  - intros n run3 Hn Hfit Hk3 Ho. in_place_at off n; try lia; assumption.
Qed.

Lemma mangle_ConstFeedbackOverwrite_in_place :
  has_shape ab hf g changed_in_place (mangle_ConstFeedbackOverwrite hf g).
Proof.
  intros printable run Ht Hf Hs. unfold mangle_ConstFeedbackOverwrite.
  start_data run.
  apply wp_bind, (wp_mangle_FeedbackDict_same hf).
  - destruct Hs as [Ha | (Hcfg & _)]; [left; exact Ha | right; exact Hcfg].
  - intros run1 Hk1. same_data Hk1.
    apply (has_shape_after _ _ printable run run1 changed_in_place_same
             mangle_BytesOverwrite_in_place); try assumption.
    replace (corpus run1) with (corpus run) by congruence. apply incl_refl.
  - intros t run1 Hk1 Hin. same_data Hk1. unfold typed, fits in *.
    pose proof (u32_range (Z.of_N (tok_len t))) as Hlen.
    apply wp_bind, wp_mangle_getOffSet; [lia | side Hs; lia |].
    intros off run2 Hoff Hk2. same_data Hk2.
    apply wp_mangle_Overwrite_outside; try lia.
    + destruct Hs as [Ha | (Hcfg & (Hcap & _) & Hone)];
        [left; exact Ha | right].
      pose proof (In_feedback_ok hf g t Hcfg Hin).
      destruct Hcfg as (? & ? & _). cbn [ptr_off bytes_of]. lia.
    + intros n run3 Hn Hfit Hk3 Ho. in_place_at off n; try lia; assumption.
Qed.

Lemma mangle_MemSet_in_place :
  has_shape ab hf g changed_in_place (mangle_MemSet hf).
Proof.
  intros printable run Ht Hf Hs. unfold typed, fits in *. start_data run.
  unfold mangle_MemSet.
  apply wp_bind, wp_mangle_getOffSet; [lia | side Hs; lia |].
  intros off run1 Hoff Hk1. same_data Hk1.
  apply wp_bind, wp_get_size.
  rewrite (u64_small (dynfile_size run1 - off)), HF_MIN_spec by lia.
  apply wp_bind, wp_mangle_getLen; [side Hs; unfold HF_MAX_LEN_BLOCK; lia |].
  intros len run2 Hlen Hk2. same_data Hk2.
  assert (Hval : forall Q : Z -> run_t -> Prop,
            (forall val run3, same_file run2 run3 -> Q val run3) ->
            wp ab (if printable then util_rndPrintable
                   else util_rndGet 0 UINT8_MAX) run2 Q).
  { intros Q HQ. unfold util_rndPrintable, UINT8_MAX.
    destruct printable;
      (apply wp_util_rndGet_same; [lia | lia | lia |]);
      intros val run3 _ Hk; apply HQ; assumption. }
  apply wp_bind, Hval. intros val run3 Hk3. same_data Hk3.
  apply wp_memset_outside; [side Hs; lia |].
  intros run4 Hk4 Ho. in_place_at off len; try lia; assumption.
Qed.

Lemma mangle_RandomOverwrite_in_place :
  has_shape ab hf g changed_in_place (mangle_RandomOverwrite hf).
Proof.
  intros printable run Ht Hf Hs. unfold typed, fits in *. start_data run.
  unfold mangle_RandomOverwrite.
  apply wp_bind, wp_mangle_getOffSet; [lia | side Hs; lia |].
  intros off run1 Hoff Hk1. same_data Hk1.
  apply wp_bind, wp_get_size.
  rewrite (u64_small (dynfile_size run1 - off)), HF_MIN_spec by lia.
  apply wp_bind, wp_mangle_getLen; [side Hs; unfold HF_MAX_LEN_BLOCK; lia |].
  intros len run2 Hlen Hk2. same_data Hk2.
  apply wp_bind, wp_rnd_bytes_same. intros bs run3 Hbs Hk3. same_data Hk3.
  apply wp_store_outside; [side Hs; lia |].
  rewrite Hbs, Z2Nat.id by lia.
  intros run4 Hk4 Ho. in_place_at off len; try lia; assumption.
Qed.

Lemma mangle_ASCIINumOverwrite_in_place :
  has_shape ab hf g changed_in_place (mangle_ASCIINumOverwrite hf).
Proof.
  intros printable run Ht Hf Hs. unfold typed, fits in *. start_data run.
  unfold mangle_ASCIINumOverwrite.
  apply wp_bind, wp_mangle_getOffSet; [lia | side Hs; lia |].
  intros off run1 Hoff Hk1. same_data Hk1.
  apply wp_bind, wp_util_rndGet_same; [lia | lia | lia |].
  intros len run2 Hlen Hk2. same_data Hk2.
  apply wp_bind, wp_util_rnd64_same. intros r run3 Hr Hk3. same_data Hk3.
  apply wp_mangle_Overwrite_outside; try lia.
  - side Hs. cbn [ptr_off bytes_of]. rewrite length_snprintf_19d. lia.
  - intros n run4 Hn Hfit Hk4 Ho. in_place_at off n; try lia; assumption.
Qed.

Lemma mangle_SpliceOverwrite_in_place :
  has_shape ab hf g changed_in_place (mangle_SpliceOverwrite hf).
Proof.
  intros printable run Ht Hf Hs. unfold mangle_SpliceOverwrite.
  apply wp_bind, wp_input_getRandomInputAsBuf_same.
  intros buf run0 Hs0 Hd0 Hc0 Hbuf. unfold ARRAYSIZE.
  destruct (Z.eqb_spec (Z.of_nat (length buf)) 0) as [Hz | Hnz].
  { apply (has_shape_after _ _ printable run run0 changed_in_place_same
             mangle_BytesOverwrite_in_place); assumption. }
  destruct Hbuf as [-> | Hin]; [cbn in Hnz; lia |].
  assert (Hok : ab \/ (corpus_ok hf buf)).
  { destruct Hs as [Ha | (_ & Hrun & _)]; [left; exact Ha | right].
    eapply In_corpus_ok; eassumption. }
  unfold typed, fits in *.
  assert (Hl0 : length (dynfile_data run0) = length (dynfile_data run))
    by congruence.
  apply wp_bind, wp_mangle_getLen.
  { destruct Hok as [Ha | [Hb1 Hb2]]; [left; exact Ha | right]. lia. }
  intros r run1 Hr Hk1. same_data Hk1.
  apply wp_bind, wp_mangle_getOffSet; [lia | side Hs; lia |].
  intros localOff run2 Hoff Hk2. same_data Hk2.
  apply wp_bind, wp_get_size.
  rewrite (u64_small (dynfile_size run2 - localOff)), HF_MIN_spec by lia.
  pose proof (u64_range (Z.of_nat (length buf) - u64 (r - 1))) as Hu.
  apply wp_bind, wp_mangle_getLen.
  { destruct Hok as [Ha | [Hb1 Hb2]]; [left; exact Ha |]. side Hs.
    rewrite (u64_small (r - 1)) by lia.
    rewrite (u64_small (Z.of_nat (length buf) - (r - 1))) by lia. lia. }
  intros len run3 Hlen Hk3. same_data Hk3.
  apply wp_mangle_Overwrite_outside; try lia.
  - destruct Hok as [Ha | [Hb1 Hb2]]; [left; exact Ha |]. side Hs.
    rewrite (u64_small (r - 1)) in * by lia.
    rewrite (u64_small (Z.of_nat (length buf) - (r - 1))) in Hlen by lia.
    cbn [ptr_off bytes_of]. lia.
  - intros n run4 Hn Hfit Hk4 Ho. in_place_at localOff n; try lia; assumption.
Qed.

Lemma wp_AddSub_wide_outside (off : Z) (w : nat) (delta : Z)
      (printable : bool) (run : run_t) (Q : unit -> run_t -> Prop) :
  0 <= off -> off + Z.of_nat w <= dynfile_size run ->
  dynfile_size run < 18446744073709551616 ->
  ab \/ dynfile_size run <= Z.of_nat (length (dynfile_data run)) ->
  (forall run', keeps run run' ->
                same_outside off (Z.of_nat w) run run' -> Q tt run') ->
  wp ab (AddSub_wide off w delta printable) run Q.
Proof.
  intros Hoff Hfit Hsz Hpre HQ. unfold AddSub_wide.
  apply wp_bind, wp_load.
  { destruct Hpre as [Ha | Hp]; [left; exact Ha | right].
    cbn [ptr_off bytes_of]. lia. }
  intros bs _ _.
  apply wp_bind, wp_util_rnd64_same. intros r run1 _ Hk1.
  pose proof (proj1 Hk1) as Hd1. frame Hk1.
  apply wp_mangle_Overwrite_outside; try lia.
  - destruct Hpre as [Ha | Hp]; [left; exact Ha | right].
    cbn [ptr_off bytes_of]. rewrite length_encode_le. lia.
  - intros n run2 Hn Hfit2 Hk2 Ho. apply HQ.
    + destruct Hk2 as (? & ? & ? & ?). repeat split; congruence.
    + apply (same_outside_mono off n); [lia |].
      intros i Hi Hout. rewrite <- Hd1. apply Ho; assumption.
Qed.

Lemma wp_mangle_AddSubWithRange_outside (off varLen range : Z)
      (printable : bool) (run : run_t) (Q : unit -> run_t -> Prop) :
  0 <= range < 4294967296 ->
  0 <= off -> off + varLen <= dynfile_size run ->
  varLen = 1 \/ varLen = 2 \/ varLen = 4 \/ varLen = 8 ->
  dynfile_size run < 18446744073709551616 ->
  ab \/ dynfile_size run <= Z.of_nat (length (dynfile_data run)) ->
  (forall run', keeps run run' -> same_outside off varLen run run' ->
                Q tt run') ->
  wp ab (mangle_AddSubWithRange off varLen range printable) run Q.
Proof.
  intros Hrange Hoff Hfit Hv Hsz Hpre HQ. unfold mangle_AddSubWithRange.
  rewrite (u64_small (range * 2)) by lia.
  apply wp_bind, wp_util_rndGet_same; [lia | lia | lia |].
  intros r run1 Hr Hk1. pose proof (proj1 Hk1) as Hd1. frame Hk1.
  assert (Hback : forall run',
            keeps run1 run' -> same_outside off varLen run1 run' ->
            Q tt run').
  { intros run' Hk' Ho. apply HQ.
    - destruct Hk' as (? & ? & ? & ?). repeat split; congruence.
    - intros i Hi Hout. rewrite <- Hd1. apply Ho; assumption. }
  assert (Hwide : forall w : nat, varLen = Z.of_nat w ->
            wp ab (AddSub_wide off w (s64 (s64 r - s64 range)) printable)
               run1 Q).
  { intros w Hw. apply wp_AddSub_wide_outside; try lia.
    - destruct Hpre as [Ha | Hp]; [left; exact Ha | right]. lia.
    - rewrite <- Hw. exact Hback. }
  destruct (Z.eqb_spec varLen 1) as [-> | ?].
  { apply wp_bind, wp_load_byte.
    { destruct Hpre as [Ha | Hp]; [left; exact Ha | right]. lia. }
    intros b. unfold store_byte. apply wp_store_outside.
    { destruct Hpre as [Ha | Hp]; [left; exact Ha | right].
      cbn [length]. lia. }
    cbn [length]. exact Hback. }
  destruct (Z.eqb_spec varLen 2); [apply (Hwide 2%nat); assumption |].
  destruct (Z.eqb_spec varLen 4); [apply (Hwide 4%nat); assumption |].
  destruct (Z.eqb_spec varLen 8); [apply (Hwide 8%nat); assumption |].
  lia.
Qed.

Lemma mangle_AddSub_in_place :
  has_shape ab hf g changed_in_place (mangle_AddSub hf).
Proof.
  intros printable run Ht Hf Hs. unfold typed, fits in *. start_data run.
  unfold mangle_AddSub.
  apply wp_bind, wp_mangle_getOffSet; [lia | side Hs; lia |].
  intros off run1 Hoff Hk1. same_data Hk1.
  apply wp_bind, wp_util_rndGet_same; [lia | lia | lia |].
  intros k run2 Hk Hk2. same_data Hk2.
  apply wp_bind, wp_get_size.
  rewrite (u64_small (dynfile_size run2 - off)) by lia.
  assert (Hcase : forall varLen range,
            (varLen = 1 \/ varLen = 2 \/ varLen = 4 \/ varLen = 8) ->
            0 <= range < 4294967296 ->
            off + varLen <= dynfile_size run2 ->
            wp ab (mangle_AddSubWithRange off varLen range printable) run2
               (fun _ run' => changed_in_place run run')).
  { intros varLen range Hv Hr Hfit.
    apply wp_mangle_AddSubWithRange_outside; try lia; try assumption.
    - side Hs. lia.
    - intros run3 Hk3 Ho. in_place_at off varLen; try lia; assumption. }
  assert (Hk' : k = 0 \/ k = 1 \/ k = 2 \/ k = 3) by lia.
  destruct Hk' as [-> | [-> | [-> | ->]]].
  - change (u32 (Z.shiftl 1 0)) with 1.
    destruct (dynfile_size run2 - off <? 1);
      cbn [Z.eqb Pos.eqb]; apply wp_bind, wp_ret, Hcase; lia.
  - change (u32 (Z.shiftl 1 1)) with 2.
    destruct (Z.ltb_spec (dynfile_size run2 - off) 2);
      cbn [Z.eqb Pos.eqb]; apply wp_bind, wp_ret, Hcase; lia.
  - change (u32 (Z.shiftl 1 2)) with 4.
    destruct (Z.ltb_spec (dynfile_size run2 - off) 4);
      cbn [Z.eqb Pos.eqb]; apply wp_bind, wp_ret, Hcase; lia.
  - change (u32 (Z.shiftl 1 3)) with 8.
    destruct (Z.ltb_spec (dynfile_size run2 - off) 8);
      cbn [Z.eqb Pos.eqb]; apply wp_bind, wp_ret, Hcase; lia.
Qed.

(** *** Insertions *)

Lemma mangle_BytesInsert_inserts_block :
  has_shape ab hf g block_inserted (mangle_BytesInsert hf g).
Proof.
  intros printable run Ht Hf Hs. unfold typed, fits in *. start_data run.
  unfold mangle_BytesInsert.
  apply wp_bind, wp_rnd_uint16_buf_same. intros buf run1 Hbuf Hk1.
  same_data Hk1.
  apply wp_bind, wp_mangle_getOffSet; [lia | side Hs; lia |].
  intros off run2 Hoff Hk2. same_data Hk2.
  apply wp_bind, wp_util_rndGet_same; [lia | lia | lia |].
  intros toCopy run3 HtoCopy Hk3. same_data Hk3.
  apply wp_mangle_Insert_gap; try lia.
  - side Hs. cbn [ptr_off bytes_of]. lia.
  - intros n run4 Hn Hroom (Hs4 & _) Hg.
    inserted_at off n; try lia; assumption.
Qed.

Lemma mangle_MemCopyInsert_inserts_block :
  has_shape ab hf g block_inserted (mangle_MemCopyInsert hf g).
Proof.
  intros printable run Ht Hf Hs. unfold typed, fits in *. start_data run.
  unfold mangle_MemCopyInsert.
  apply wp_bind, wp_mangle_getOffSet; [lia | side Hs; lia |].
  intros off_to run1 Hto Hk1. same_data Hk1.
  apply wp_bind, wp_mangle_getOffSet; [lia | side Hs; lia |].
  intros off_from run2 Hfrom Hk2. same_data Hk2.
  apply wp_bind, wp_get_size.
  rewrite (u64_small (dynfile_size run2 - off_from)), HF_MIN_spec by lia.
  apply wp_bind, wp_mangle_getLen; [side Hs; unfold HF_MAX_LEN_BLOCK; lia |].
  intros len run3 Hlen Hk3. same_data Hk3.
  apply wp_mangle_Insert_gap; try lia.
  - side Hs. cbn [ptr_off bytes_of]. lia.
  - intros n run4 Hn Hroom (Hs4 & _) Hg.
    inserted_at off_to n; try lia; assumption.
Qed.

Lemma mangle_ByteRepeatInsert_inserts_block :
  has_shape ab hf g block_inserted (mangle_ByteRepeatInsert hf g).
Proof.
  intros printable run Ht Hf Hs. unfold mangle_ByteRepeatInsert.
  pose proof Ht as Ht'. pose proof Hf as Hf'. unfold typed, fits in Ht', Hf'.
  start_data run.
  apply wp_bind, wp_mangle_getOffSet; [lia | side Hs; lia |].
  intros off run1 Hoff Hk1. same_data Hk1.
  apply wp_bind, wp_get_size.
  rewrite (u64_small (off + 1)) by lia.
  rewrite (u64_small (dynfile_size run1 - (off + 1))) by lia.
  destruct (Z.eqb_spec (dynfile_size run1 - (off + 1)) 0) as [Hz | Hnz].
  - apply (has_shape_after _ _ printable run run1 block_inserted_same
             mangle_BytesInsert_inserts_block); try assumption.
    replace (corpus run1) with (corpus run) by congruence. apply incl_refl.
  - rewrite HF_MIN_spec.
    apply wp_bind, wp_mangle_getLen; [side Hs; unfold HF_MAX_LEN_BLOCK; lia |].
    intros len run2 Hlen Hk2. same_data Hk2.
    apply wp_bind, wp_mangle_Inflate_gap; try lia.
    { side Hs. lia. }
    intros n run3 Hn Hroom (Hs3 & Hl3 & _) Hg.
    apply wp_bind, wp_load_byte; [side Hs; lia |]. intros b.
    apply wp_memset_outside; [side Hs; lia |].
    intros run4 (Hs4 & _) Ho.
    inserted_at (off + 1) n; try lia.
    apply (gap_then_outside (off + 1) n n run2 run3 run4); try lia;
      assumption.
Qed.

Lemma mangle_MagicInsert_inserts_block :
  has_shape ab hf g block_inserted (mangle_MagicInsert hf g).
Proof.
  intros printable run Ht Hf Hs. unfold typed, fits in *. start_data run.
  unfold mangle_MagicInsert.
  change (ARRAYSIZE mangleMagicVals - 1) with 220.
  apply wp_bind, wp_util_rndGet_same; [lia | lia | lia |].
  intros choice run1 Hchoice Hk1. same_data Hk1.
  apply wp_bind, wp_mangle_getOffSet; [lia | side Hs; lia |].
  intros off run2 Hoff Hk2. same_data Hk2.
  apply wp_bind, wp_index.
  { right. change (Z.of_nat (length mangleMagicVals)) with 221. lia. }
  intros m Hin. pose proof (In_token_ok _ _ mangleMagicVals_ok Hin) as Hm.
  apply wp_mangle_Insert_gap; try lia.
  - side Hs. cbn [ptr_off bytes_of]. lia.
  - intros n run3 Hn Hroom (Hs3 & _) Hg.
    inserted_at off n; try lia; assumption.
Qed.

Lemma mangle_DictionaryInsert_inserts_block :
  has_shape ab hf g block_inserted (mangle_DictionaryInsert hf g).
Proof.
  intros printable run Ht Hf Hs. unfold mangle_DictionaryInsert.
  destruct (Z.eqb_spec (mutate_dictionaryCnt g) 0) as [Hz | Hnz];
    [apply mangle_BytesInsert_inserts_block; assumption |].
  unfold typed, fits in *. start_data run.
  pose proof (u64_range (mutate_dictionaryCnt g - 1)) as Hu.
  apply wp_bind, wp_util_rndGet_tape; [lia | lia | |].
  { side Hs. rewrite u64_small by lia. lia. }
  intros choice run1 Hchoice Hk1. same_data Hk1.
  apply wp_bind, wp_mangle_getOffSet; [lia | side Hs; lia |].
  intros off run2 Hoff Hk2. same_data Hk2.
  apply wp_bind, wp_index.
  { side Hs. rewrite u64_small in Hchoice by lia. lia. }
  intros t Hin.
  apply wp_mangle_Insert_gap; try lia.
  - side Hs. cbn [ptr_off bytes_of].
    assert (Z.of_N (tok_len t) <= Z.of_nat (length (tok_val t)))
      by (eapply In_token_ok; eassumption).
    lia.
  - intros n run3 Hn Hroom (Hs3 & _) Hg.
    inserted_at off n; try lia; assumption.
Qed.

Lemma mangle_ConstFeedbackInsert_inserts_block :
  has_shape ab hf g block_inserted (mangle_ConstFeedbackInsert hf g).
Proof.
  intros printable run Ht Hf Hs. unfold mangle_ConstFeedbackInsert.
  start_data run.
  apply wp_bind, (wp_mangle_FeedbackDict_same hf).
  - destruct Hs as [Ha | (Hcfg & _)]; [left; exact Ha | right; exact Hcfg].
  - intros run1 Hk1. same_data Hk1.
    apply (has_shape_after _ _ printable run run1 block_inserted_same
             mangle_BytesInsert_inserts_block); try assumption.
    replace (corpus run1) with (corpus run) by congruence. apply incl_refl.
  - intros t run1 Hk1 Hin. same_data Hk1. unfold typed, fits in *.
    pose proof (u32_range (Z.of_N (tok_len t))) as Hlen.
    apply wp_bind, wp_mangle_getOffSet; [lia | side Hs; lia |].
    intros off run2 Hoff Hk2. same_data Hk2.
    apply wp_mangle_Insert_gap; try lia.
    + destruct Hs as [Ha | (Hcfg & (Hcap & _) & Hone)];
        [left; exact Ha | right].
      pose proof (In_feedback_ok hf g t Hcfg Hin).
      destruct Hcfg as (? & ? & _). cbn [ptr_off bytes_of]. lia.
    + intros n run3 Hn Hroom (Hs3 & _) Hg.
      inserted_at off n; try lia; assumption.
Qed.

Lemma mangle_RandomInsert_inserts_block :
  has_shape ab hf g block_inserted (mangle_RandomInsert hf g).
Proof.
  intros printable run Ht Hf Hs. unfold typed, fits in *. start_data run.
  unfold mangle_RandomInsert.
  apply wp_bind, wp_mangle_getOffSet; [lia | side Hs; lia |].
  intros off run1 Hoff Hk1. same_data Hk1.
  apply wp_bind, wp_get_size.
  rewrite (u64_small (dynfile_size run1 - off)), HF_MIN_spec by lia.
  apply wp_bind, wp_mangle_getLen; [side Hs; unfold HF_MAX_LEN_BLOCK; lia |].
  intros len run2 Hlen Hk2. same_data Hk2.
  apply wp_bind, wp_mangle_Inflate_gap; try lia.
  { side Hs. lia. }
  intros n run3 Hn Hroom (Hs3 & Hl3 & _) Hg.
  apply wp_bind, wp_rnd_bytes_same. intros bs run4 Hbs (Hd4 & Hs4 & _).
  apply wp_store_outside.
  { side Hs. rewrite Hd4. lia. }
  rewrite Hbs, Z2Nat.id by lia.
  intros run5 (Hs5 & _) Ho.
  inserted_at off n; try lia.
  apply (gap_then_outside off n n run2 run3 run5); try lia; [assumption |].
  intros i Hi Hout. rewrite <- Hd4. apply Ho; assumption.
Qed.

Lemma mangle_Expand_inserts_block :
  has_shape ab hf g block_inserted (mangle_Expand hf g).
Proof.
  intros printable run Ht Hf Hs. unfold typed, fits in *. start_data run.
  unfold mangle_Expand.
  apply wp_bind, wp_mangle_getOffSet; [lia | side Hs; lia |].
  intros off run1 Hoff Hk1. same_data Hk1.
  apply wp_bind, wp_util_rnd64_same. intros r run2 Hr Hk2. same_data Hk2.
  rewrite (u64_small (mutate_maxInputSz g - off)), HF_MIN_spec by lia.
  apply wp_bind.
  assert (Hlen : forall Q : Z -> run_t -> Prop,
            (forall len run', 1 <= len -> same_file run2 run' -> Q len run') ->
            wp ab (if negb (r mod 16 =? 0)
                   then mangle_getLen hf (Z.min 16 (mutate_maxInputSz g - off))
                   else mangle_getLen hf (mutate_maxInputSz g - off)) run2 Q).
  { intros Q HQ. destruct (negb (r mod 16 =? 0)).
    - apply wp_mangle_getLen; [side Hs; lia |].
      intros len run' Hlen Hk. apply HQ; [lia | exact Hk].
    - apply wp_mangle_getLen; [side Hs; lia |].
      intros len run' Hlen Hk. apply HQ; [lia | exact Hk]. }
  apply Hlen. intros len run3 Hl Hk3. same_data Hk3.
  apply wp_bind, wp_mangle_Inflate_gap; try lia.
  { side Hs. lia. }
  intros n run4 Hn Hroom (Hs4 & _) Hg. apply wp_ret.
  inserted_at off n; try lia; assumption.
Qed.

Lemma mangle_ASCIINumInsert_inserts_block :
  has_shape ab hf g block_inserted (mangle_ASCIINumInsert hf g).
Proof.
  intros printable run Ht Hf Hs. unfold typed, fits in *. start_data run.
  unfold mangle_ASCIINumInsert.
  apply wp_bind, wp_mangle_getOffSet; [lia | side Hs; lia |].
  intros off run1 Hoff Hk1. same_data Hk1.
  apply wp_bind, wp_util_rndGet_same; [lia | lia | lia |].
  intros len run2 Hlen Hk2. same_data Hk2.
  apply wp_bind, wp_util_rnd64_same. intros r run3 Hr Hk3. same_data Hk3.
  apply wp_mangle_Insert_gap; try lia.
  - side Hs. cbn [ptr_off bytes_of]. rewrite length_snprintf_19d. lia.
  - intros n run4 Hn Hroom (Hs4 & _) Hg.
    inserted_at off n; try lia; assumption.
Qed.

Lemma mangle_SpliceInsert_inserts_block :
  has_shape ab hf g block_inserted (mangle_SpliceInsert hf g).
Proof.
  intros printable run Ht Hf Hs. unfold mangle_SpliceInsert.
  apply wp_bind, wp_input_getRandomInputAsBuf_same.
  intros buf run0 Hs0 Hd0 Hc0 Hbuf. unfold ARRAYSIZE.
  destruct (Z.eqb_spec (Z.of_nat (length buf)) 0) as [Hz | Hnz].
  { apply (has_shape_after _ _ printable run run0 block_inserted_same
             mangle_BytesInsert_inserts_block); assumption. }
  destruct Hbuf as [-> | Hin]; [cbn in Hnz; lia |].
  assert (Hok : ab \/ (corpus_ok hf buf)).
  { destruct Hs as [Ha | (_ & Hrun & _)]; [left; exact Ha | right].
    eapply In_corpus_ok; eassumption. }
  unfold typed, fits in *.
  assert (Hl0 : length (dynfile_data run0) = length (dynfile_data run))
    by congruence.
  apply wp_bind, wp_mangle_getLen.
  { destruct Hok as [Ha | [Hb1 Hb2]]; [left; exact Ha | right]. lia. }
  intros r run1 Hr Hk1. same_data Hk1.
  apply wp_bind, wp_mangle_getOffSet; [lia | side Hs; lia |].
  intros localOff run2 Hoff Hk2. same_data Hk2.
  apply wp_bind, wp_get_size.
  rewrite (u64_small (dynfile_size run2 - localOff)), HF_MIN_spec by lia.
  pose proof (u64_range (Z.of_nat (length buf) - u64 (r - 1))) as Hu.
  apply wp_bind, wp_mangle_getLen.
  { destruct Hok as [Ha | [Hb1 Hb2]]; [left; exact Ha |]. side Hs.
    rewrite (u64_small (r - 1)) by lia.
    rewrite (u64_small (Z.of_nat (length buf) - (r - 1))) by lia. lia. }
  intros len run3 Hlen Hk3. same_data Hk3.
  apply wp_mangle_Insert_gap; try lia.
  - destruct Hok as [Ha | [Hb1 Hb2]]; [left; exact Ha |]. side Hs.
    rewrite (u64_small (r - 1)) in * by lia.
    rewrite (u64_small (Z.of_nat (length buf) - (r - 1))) in Hlen by lia.
    cbn [ptr_off bytes_of]. lia.
  - intros n run4 Hn Hroom (Hs4 & _) Hg.
    inserted_at localOff n; try lia; assumption.
Qed.

End Shapes.

Lemma overwriting_in_place (ab : Prop) (hf : Z) (g : honggfuzz_t) :
  Forall (has_shape ab hf g changed_in_place) (overwriting hf g).
Proof.
  unfold overwriting.
  repeat (apply Forall_cons;
          [first [ apply mangle_Bit_in_place
                 | apply mangle_IncByte_in_place
                 | apply mangle_DecByte_in_place
                 | apply mangle_NegByte_in_place
                 | apply mangle_AddSub_in_place
                 | apply mangle_MemSet_in_place
                 | apply mangle_MemCopyOverwrite_in_place
                 | apply mangle_BytesOverwrite_in_place
                 | apply mangle_ASCIINumOverwrite_in_place
                 | apply mangle_ByteRepeatOverwrite_in_place
                 | apply mangle_MagicOverwrite_in_place
                 | apply mangle_DictionaryOverwrite_in_place
                 | apply mangle_ConstFeedbackOverwrite_in_place
                 | apply mangle_RandomOverwrite_in_place
                 | apply mangle_SpliceOverwrite_in_place ] |]).
  apply Forall_nil.
Qed.

Lemma inserting_inserts_block (ab : Prop) (hf : Z) (g : honggfuzz_t) :
  Forall (has_shape ab hf g block_inserted) (inserting hf g).
Proof.
  unfold inserting.
  repeat (apply Forall_cons;
          [first [ apply mangle_Expand_inserts_block
                 | apply mangle_MemCopyInsert_inserts_block
                 | apply mangle_BytesInsert_inserts_block
                 | apply mangle_ASCIINumInsert_inserts_block
                 | apply mangle_ByteRepeatInsert_inserts_block
                 | apply mangle_MagicInsert_inserts_block
                 | apply mangle_DictionaryInsert_inserts_block
                 | apply mangle_ConstFeedbackInsert_inserts_block
                 | apply mangle_RandomInsert_inserts_block
                 | apply mangle_SpliceInsert_inserts_block ] |]).
  apply Forall_nil.
Qed.

Lemma has_shape_both (hf : Z) (g : honggfuzz_t)
      (P : run_t -> run_t -> Prop) (op : bool -> M unit)
      (printable : bool) (run : run_t) :
  (forall ab, has_shape ab hf g P op) -> typed g -> fits g run ->
  (forall run', op printable run = Ok (tt, run') -> P run run') /\
  (safe_cfg hf g -> safe_run hf g run -> 1 <= dynfile_size run ->
   exists run', op printable run = Ok (tt, run') /\ P run run').
Proof.
  intros Hop Ht Hf. split.
  - intros run' Heq.
    apply (wp_result _ _ _ _ _ (Hop True printable run Ht Hf (or_introl I))
                     Heq).
  - intros Hcfg Hrun Hone.
    destruct (wp_returns _ _ _
                (Hop False printable run Ht Hf
                     (or_intror (conj Hcfg (conj Hrun Hone)))))
      as ([] & run' & Heq & HP).
    exists run'. split; assumption.
Qed.

(** Fifteen of the entries of [mangleFuncs] change the input in place:
    whenever one of them returns, the size is what it was, and so is every
    byte outside one block that lies inside [0, size).  Under the safe
    configuration they do return. *)
Theorem mangleFuncs_change_in_place (hf : Z) (g : honggfuzz_t)
        (op : bool -> M unit) (printable : bool) (run : run_t) :
  typed g -> fits g run -> In op (overwriting hf g) ->
  In op (mangleFuncs hf g) /\
  (forall run', op printable run = Ok (tt, run') ->
                changed_in_place run run') /\
  (safe_cfg hf g -> safe_run hf g run -> 1 <= dynfile_size run ->
   exists run', op printable run = Ok (tt, run') /\
                changed_in_place run run').
Proof.
  intros Ht Hf Hin. split.
  - unfold overwriting in Hin. unfold mangleFuncs.
    repeat (destruct Hin as [<- | Hin];
            [repeat first [left; reflexivity | right] |]).
    destruct Hin.
  - apply has_shape_both; [| exact Ht | exact Hf].
    intros ab. pose proof (overwriting_in_place ab hf g) as Hall.
    rewrite Forall_forall in Hall. apply Hall, Hin.
Qed.

Lemma mangleFuncs_change_in_place_witness :
  exists run',
    mangle_MemSet 134217728 false (sample_run [65; 66; 67; 0] 3 [10; 5; 7])
      = Ok (tt, run') /\
    changed_in_place (sample_run [65; 66; 67; 0] 3 [10; 5; 7]) run'.
Proof.
  assert (Ht : typed (sample_global 4 false)) by (apply typed_sample; lia).
  assert (Hf : fits (sample_global 4 false)
                    (sample_run [65; 66; 67; 0] 3 [10; 5; 7]))
    by (unfold fits; cbn; lia).
  destruct (mangleFuncs_change_in_place 134217728 (sample_global 4 false)
              (mangle_MemSet 134217728) false _ Ht Hf)
    as (_ & Hres & _).
  { unfold overwriting. cbn [In]. auto 10. }
  eexists. split; [vm_compute; reflexivity |].
  apply Hres. vm_compute. reflexivity.
Defined.

(** Ten of the entries of [mangleFuncs] insert a block: whenever one of
    them returns, the size has grown by some [n >= 0], the bytes before
    the place of the insertion stay, the bytes after it are [n] places
    further, and the bytes past the new size stay: no byte of the input
    is lost.  Under the safe configuration they do return. *)
Theorem mangleFuncs_insert_block (hf : Z) (g : honggfuzz_t)
        (op : bool -> M unit) (printable : bool) (run : run_t) :
  typed g -> fits g run -> In op (inserting hf g) ->
  In op (mangleFuncs hf g) /\
  (forall run', op printable run = Ok (tt, run') ->
                block_inserted run run') /\
  (safe_cfg hf g -> safe_run hf g run -> 1 <= dynfile_size run ->
   exists run', op printable run = Ok (tt, run') /\
                block_inserted run run').
Proof.
  intros Ht Hf Hin. split.
  - unfold inserting in Hin. unfold mangleFuncs.
    repeat (destruct Hin as [<- | Hin];
            [repeat first [left; reflexivity | right] |]).
    destruct Hin.
  - apply has_shape_both; [| exact Ht | exact Hf].
    intros ab. pose proof (inserting_inserts_block ab hf g) as Hall.
    rewrite Forall_forall in Hall. apply Hall, Hin.
Qed.

Lemma mangleFuncs_insert_block_witness :
  exists run',
    mangle_Expand 134217728 (sample_global 8 false) false
                  (sample_run [65; 66; 67; 0; 0; 0; 0; 0] 3 [10; 5; 7])
      = Ok (tt, run') /\
    block_inserted (sample_run [65; 66; 67; 0; 0; 0; 0; 0] 3 [10; 5; 7]) run'.
Proof.
  assert (Ht : typed (sample_global 8 false)) by (apply typed_sample; lia).
  assert (Hf : fits (sample_global 8 false)
                    (sample_run [65; 66; 67; 0; 0; 0; 0; 0] 3 [10; 5; 7]))
    by (unfold fits; cbn; lia).
  destruct (mangleFuncs_insert_block 134217728 (sample_global 8 false)
              (mangle_Expand 134217728 (sample_global 8 false)) false _ Ht Hf)
    as (_ & Hres & _).
  { unfold inserting. cbn [In]. auto 10. }
  eexists. split; [vm_compute; reflexivity |].
  apply Hres. vm_compute. reflexivity.
Defined.

(** ** The dictionary and the table of magic values *)

(** [arr[i]] inside the array is the element at [i]. *)
Lemma wp_index_at {A} (ab : Prop) (l : list A) (i : Z) (run : run_t)
      (Q : A -> run_t -> Prop) :
  0 <= i < Z.of_nat (length l) ->
  (forall a, nth_error l (Z.to_nat i) = Some a -> Q a run) ->
  wp ab (index l i) run Q.
Proof.
  intros Hi HQ. unfold index.
  destruct (Z.leb_spec 0 i); [| lia].
  destruct (nth_error l (Z.to_nat i)) as [a |] eqn:Hn.
  - apply wp_ret, HQ. reflexivity.
  - apply nth_error_None in Hn. lia.
Qed.

Lemma overwritten_from (off : Z) (buf : list Z) (n : Z) (printable : bool)
      (run0 run run' : run_t) :
  dynfile_data run = dynfile_data run0 ->
  dynfile_size run = dynfile_size run0 ->
  overwritten off buf 0 n printable run run' ->
  overwritten off buf 0 n printable run0 run'.
Proof.
  unfold overwritten. intros Hd Hs. rewrite Hd, Hs. exact (fun H => H).
Qed.

Lemma inserted_from (off : Z) (buf : list Z) (n : Z) (printable : bool)
      (run0 run run' : run_t) :
  dynfile_data run = dynfile_data run0 ->
  dynfile_size run = dynfile_size run0 ->
  inserted off buf 0 n printable run run' ->
  inserted off buf 0 n printable run0 run'.
Proof.
  unfold inserted. intros Hd Hs. rewrite Hd, Hs. exact (fun H => H).
Qed.

(** Every entry of [mangleMagicVals] has size 1, 2, 4 or 8 and holds that
    many bytes. *)
Lemma mangleMagicVals_sizes (m : token_t) :
  In m mangleMagicVals ->
  In (Z.of_N (tok_len m)) [1; 2; 4; 8] /\
  Z.of_N (tok_len m) <= Z.of_nat (length (tok_val m)).
Proof.
  intros Hin.
  assert (Hb : forallb
                 (fun t =>
                    ((Z.of_N (tok_len t) =? 1) || (Z.of_N (tok_len t) =? 2)
                     || (Z.of_N (tok_len t) =? 4)
                     || (Z.of_N (tok_len t) =? 8))
                    && (Z.of_N (tok_len t) <=? Z.of_nat (length (tok_val t))))
                 mangleMagicVals = true) by (vm_compute; reflexivity).
  rewrite forallb_forall in Hb. specialize (Hb m Hin).
  apply andb_true_iff in Hb. destruct Hb as [Hs Hl].
  apply Z.leb_le in Hl. split; [| exact Hl].
  repeat (apply orb_true_iff in Hs; destruct Hs as [Hs | Hs]);
    apply Z.eqb_eq in Hs; rewrite Hs; cbn; tauto.
Qed.

Section Tables.

Variable ab : Prop.
Variable hf : Z.
Variable g : honggfuzz_t.
Variable printable : bool.
Variable run : run_t.

Hypothesis Hmax : mutate_maxInputSz g < 18446744073709551616.
Hypothesis Hfits : dynfile_size run <= mutate_maxInputSz g.
Hypothesis Hcap :
  mutate_maxInputSz g <= Z.of_nat (length (dynfile_data run)).
Hypothesis Hpre :
  ab \/ (1 <= dynfile_size run <= hf /\
         dynfile_size run <= getLen_cube_limit).

Section Dictionary.

Hypothesis Hcnt :
  1 <= mutate_dictionaryCnt g <= Z.of_nat (length (mutate_dictionary g)).
Hypothesis Hcnt64 : mutate_dictionaryCnt g < 18446744073709551616.
Hypothesis Hdict : Forall token_ok (mutate_dictionary g).

Lemma wp_mangle_DictionaryOverwrite_entry :
  wp ab (mangle_DictionaryOverwrite hf g printable) run
     (fun _ run' => entry_written g printable run run').
Proof.
  unfold mangle_DictionaryOverwrite.
  replace (mutate_dictionaryCnt g =? 0) with false
    by (symmetry; apply Z.eqb_neq; lia).
  apply wp_bind, wp_mangle_getOffSet; [lia | exact Hpre |].
  intros off run1 Hoff (Hd1 & Hs1 & _).
  rewrite u64_small by lia.
  apply wp_bind, wp_util_rndGet_same; [lia | lia | lia |].
  intros k run2 Hk (Hd2 & Hs2 & _).
  apply wp_bind, wp_index_at; [lia |]. intros t Ht.
  assert (HS : dynfile_size run2 = dynfile_size run) by congruence.
  assert (HD : dynfile_data run2 = dynfile_data run) by congruence.
  pose proof (In_token_ok _ _ Hdict (nth_error_In _ _ Ht)) as Htok.
  destruct (mangle_Overwrite_overwrites off (tok_val t) 0
              (Z.of_N (tok_len t)) printable run2)
    as (run' & Heq & Hov); rewrite ?HS, ?HD; try lia.
  unfold wp. rewrite Heq. exists k, t, off.
  split; [lia |]. split; [exact Ht |]. split; [exact Hoff |].
  rewrite HS in Hov. exact (overwritten_from _ _ _ _ _ _ _ HD HS Hov).
Qed.

Lemma wp_mangle_DictionaryInsert_entry :
  wp ab (mangle_DictionaryInsert hf g printable) run
     (fun _ run' => entry_inserted g printable run run').
Proof.
  unfold mangle_DictionaryInsert.
  replace (mutate_dictionaryCnt g =? 0) with false
    by (symmetry; apply Z.eqb_neq; lia).
  rewrite u64_small by lia.
  apply wp_bind, wp_util_rndGet_same; [lia | lia | lia |].
  intros k run1 Hk (Hd1 & Hs1 & _).
  apply wp_bind, wp_mangle_getOffSet; [lia | rewrite Hs1; exact Hpre |].
  intros off run2 Hoff (Hd2 & Hs2 & _).
  apply wp_bind, wp_index_at; [lia |]. intros t Ht.
  assert (HS : dynfile_size run2 = dynfile_size run) by congruence.
  assert (HD : dynfile_data run2 = dynfile_data run) by congruence.
  pose proof (In_token_ok _ _ Hdict (nth_error_In _ _ Ht)) as Htok.
  destruct (mangle_Insert_inserts g off (tok_val t) 0
              (Z.of_N (tok_len t)) printable run2)
    as (run' & Heq & Hin); rewrite ?HS, ?HD; try lia.
  unfold wp. rewrite Heq. exists k, t, off.
  split; [lia |]. split; [exact Ht |]. split; [lia |].
  rewrite HS in Hin. exact (inserted_from _ _ _ _ _ _ _ HD HS Hin).
Qed.

End Dictionary.

Lemma wp_mangle_MagicOverwrite_entry :
  wp ab (mangle_MagicOverwrite hf printable) run
     (fun _ run' => magic_written printable run run').
Proof.
  unfold mangle_MagicOverwrite.
  apply wp_bind, wp_mangle_getOffSet; [lia | exact Hpre |].
  intros off run1 Hoff (Hd1 & Hs1 & _).
  change (ARRAYSIZE mangleMagicVals - 1) with 220.
  apply wp_bind, wp_util_rndGet_same; [lia | lia | lia |].
  intros k run2 Hk (Hd2 & Hs2 & _).
  apply wp_bind, wp_index_at.
  { change (Z.of_nat (length mangleMagicVals)) with 221. lia. }
  intros m Hm. apply nth_error_In in Hm.
  assert (HS : dynfile_size run2 = dynfile_size run) by congruence.
  assert (HD : dynfile_data run2 = dynfile_data run) by congruence.
  destruct (mangleMagicVals_sizes m Hm) as [Hsize Htok].
  destruct (mangle_Overwrite_overwrites off (tok_val m) 0
              (Z.of_N (tok_len m)) printable run2)
    as (run' & Heq & Hov); rewrite ?HS, ?HD; try lia.
  unfold wp. rewrite Heq. exists m, off.
  split; [exact Hm |]. split; [exact Hsize |]. split; [exact Hoff |].
  rewrite HS in Hov. exact (overwritten_from _ _ _ _ _ _ _ HD HS Hov).
Qed.

Lemma wp_mangle_MagicInsert_entry :
  wp ab (mangle_MagicInsert hf g printable) run
     (fun _ run' => magic_inserted g printable run run').
Proof.
  unfold mangle_MagicInsert.
  change (ARRAYSIZE mangleMagicVals - 1) with 220.
  apply wp_bind, wp_util_rndGet_same; [lia | lia | lia |].
  intros k run1 Hk (Hd1 & Hs1 & _).
  apply wp_bind, wp_mangle_getOffSet; [lia | rewrite Hs1; exact Hpre |].
  intros off run2 Hoff (Hd2 & Hs2 & _).
  apply wp_bind, wp_index_at.
  { change (Z.of_nat (length mangleMagicVals)) with 221. lia. }
  intros m Hm. apply nth_error_In in Hm.
  assert (HS : dynfile_size run2 = dynfile_size run) by congruence.
  assert (HD : dynfile_data run2 = dynfile_data run) by congruence.
  destruct (mangleMagicVals_sizes m Hm) as [Hsize Htok].
  destruct (mangle_Insert_inserts g off (tok_val m) 0
              (Z.of_N (tok_len m)) printable run2)
    as (run' & Heq & Hin); rewrite ?HS, ?HD; try lia.
  unfold wp. rewrite Heq. exists m, off.
  split; [exact Hm |]. split; [exact Hsize |]. split; [lia |].
  rewrite HS in Hin. exact (inserted_from _ _ _ _ _ _ _ HD HS Hin).
Qed.

End Tables.

(** With a dictionary of at least one entry, whenever
    [mangle_DictionaryOverwrite] returns it has written the bytes of one of
    the first [dictionaryCnt] entries over the input at an offset inside
    it, cut at the end of the input, and whenever [mangle_DictionaryInsert]
    returns it has inserted the bytes of such an entry, cut at the room
    left under [maxInputSz]; in printable mode each byte is remapped.
    Neither falls back to the [mangle_Bytes] operators.  Both return for
    every size in [1, min(HF_INPUT_MAX_SIZE, getLen_cube_limit)]. *)
Theorem mangle_Dictionary_entry (hf : Z) (g : honggfuzz_t)
        (printable : bool) (run : run_t) :
  mutate_maxInputSz g < 18446744073709551616 ->
  dynfile_size run <= mutate_maxInputSz g ->
  mutate_maxInputSz g <= Z.of_nat (length (dynfile_data run)) ->
  1 <= mutate_dictionaryCnt g <= Z.of_nat (length (mutate_dictionary g)) ->
  mutate_dictionaryCnt g < 18446744073709551616 ->
  Forall token_ok (mutate_dictionary g) ->
  ((forall run',
      mangle_DictionaryOverwrite hf g printable run = Ok (tt, run') ->
      entry_written g printable run run') /\
   (1 <= dynfile_size run <= hf /\ dynfile_size run <= getLen_cube_limit ->
    exists run',
      mangle_DictionaryOverwrite hf g printable run = Ok (tt, run') /\
      entry_written g printable run run')) /\
  ((forall run',
      mangle_DictionaryInsert hf g printable run = Ok (tt, run') ->
      entry_inserted g printable run run') /\
   (1 <= dynfile_size run <= hf /\ dynfile_size run <= getLen_cube_limit ->
    exists run',
      mangle_DictionaryInsert hf g printable run = Ok (tt, run') /\
      entry_inserted g printable run run')).
Proof.
  intros Hmax Hfits Hcap Hcnt Hcnt64 Hdict. split.
  - apply (wp_both (mangle_DictionaryOverwrite hf g printable) run).
    intros ab Hpre. apply wp_mangle_DictionaryOverwrite_entry; assumption.
  - apply (wp_both (mangle_DictionaryInsert hf g printable) run).
    intros ab Hpre. apply wp_mangle_DictionaryInsert_entry; assumption.
Qed.

Lemma mangle_Dictionary_entry_witness :
  (exists run',
     mangle_DictionaryOverwrite 134217728
       (mkGlobal 6 1 [mkToken [65; 66; 67] 3; mkToken [88; 89] 2] 2 false
                 false (mkCmpFeedback 0 []) 0)
       false (sample_run [1; 2; 3; 4; 0; 0] 4 [10; 2; 1]) = Ok (tt, run') /\
     entry_written
       (mkGlobal 6 1 [mkToken [65; 66; 67] 3; mkToken [88; 89] 2] 2 false
                 false (mkCmpFeedback 0 []) 0)
       false (sample_run [1; 2; 3; 4; 0; 0] 4 [10; 2; 1]) run') /\
  (exists run',
     mangle_DictionaryInsert 134217728
       (mkGlobal 6 1 [mkToken [65; 66; 67] 3; mkToken [88; 89] 2] 2 false
                 false (mkCmpFeedback 0 []) 0)
       false (sample_run [1; 2; 3; 4; 0; 0] 4 [10; 2; 1]) = Ok (tt, run') /\
     entry_inserted
       (mkGlobal 6 1 [mkToken [65; 66; 67] 3; mkToken [88; 89] 2] 2 false
                 false (mkCmpFeedback 0 []) 0)
       false (sample_run [1; 2; 3; 4; 0; 0] 4 [10; 2; 1]) run').
Proof.
  destruct (mangle_Dictionary_entry 134217728
              (mkGlobal 6 1 [mkToken [65; 66; 67] 3; mkToken [88; 89] 2] 2
                        false false (mkCmpFeedback 0 []) 0)
              false (sample_run [1; 2; 3; 4; 0; 0] 4 [10; 2; 1]))
    as [[_ Ho] [_ Hi]]; try (cbn; lia).
  - repeat constructor; unfold token_ok; cbn; lia.
  - split; [apply Ho | apply Hi]; unfold getLen_cube_limit; cbn; lia.
Defined.

(** Whenever [mangle_MagicOverwrite] returns, it has written the bytes of
    one entry of [mangleMagicVals], 1, 2, 4 or 8 of them, over the input at
    an offset inside it, cut at the end of the input; whenever
    [mangle_MagicInsert] returns, it has inserted them, cut at the room
    left under [maxInputSz]; in printable mode each byte is remapped.  Both
    return for every size in
    [1, min(HF_INPUT_MAX_SIZE, getLen_cube_limit)]. *)
Theorem mangle_Magic_entry (hf : Z) (g : honggfuzz_t)
        (printable : bool) (run : run_t) :
  mutate_maxInputSz g < 18446744073709551616 ->
  dynfile_size run <= mutate_maxInputSz g ->
  mutate_maxInputSz g <= Z.of_nat (length (dynfile_data run)) ->
  ((forall run',
      mangle_MagicOverwrite hf printable run = Ok (tt, run') ->
      magic_written printable run run') /\
   (1 <= dynfile_size run <= hf /\ dynfile_size run <= getLen_cube_limit ->
    exists run',
      mangle_MagicOverwrite hf printable run = Ok (tt, run') /\
      magic_written printable run run')) /\
  ((forall run',
      mangle_MagicInsert hf g printable run = Ok (tt, run') ->
      magic_inserted g printable run run') /\
   (1 <= dynfile_size run <= hf /\ dynfile_size run <= getLen_cube_limit ->
    exists run',
      mangle_MagicInsert hf g printable run = Ok (tt, run') /\
      magic_inserted g printable run run')).
Proof.
  intros Hmax Hfits Hcap. split.
  - apply (wp_both (mangle_MagicOverwrite hf printable) run).
    intros ab Hpre. apply (wp_mangle_MagicOverwrite_entry ab hf g);
      assumption.
  - apply (wp_both (mangle_MagicInsert hf g printable) run).
    intros ab Hpre. apply wp_mangle_MagicInsert_entry; assumption.
Qed.

Lemma mangle_Magic_entry_witness :
  (exists run',
     mangle_MagicOverwrite 134217728 false
       (sample_run [1; 2; 3; 4; 0; 0] 4 [10; 2; 1]) = Ok (tt, run') /\
     magic_written false (sample_run [1; 2; 3; 4; 0; 0] 4 [10; 2; 1]) run') /\
  (exists run',
     mangle_MagicInsert 134217728 (sample_global 6 false) false
       (sample_run [1; 2; 3; 4; 0; 0] 4 [10; 2; 1]) = Ok (tt, run') /\
     magic_inserted (sample_global 6 false) false
       (sample_run [1; 2; 3; 4; 0; 0] 4 [10; 2; 1]) run').
Proof.
  destruct (mangle_Magic_entry 134217728 (sample_global 6 false) false
              (sample_run [1; 2; 3; 4; 0; 0] 4 [10; 2; 1]))
    as [[_ Ho] [_ Hi]]; try (cbn; lia).
  split; [apply Ho | apply Hi]; unfold getLen_cube_limit; cbn; lia.
Defined.

(** ** [mangle_ByteRepeatOverwrite] and [mangle_ByteRepeatInsert] *)

Lemma bind_Ok {A B} (m : M A) (f : A -> M B) (run : run_t) (a : A)
      (run1 : run_t) :
  m run = Ok (a, run1) -> bind m f run = f a run1.
Proof. intros H. unfold bind. rewrite H. reflexivity. Qed.

(** [mangle_getOffSet] returns only for a size that [HF_INPUT_MAX_SIZE]
    allows. *)
Lemma mangle_getOffSet_fits (hf : Z) (run : run_t) (off : Z)
      (run1 : run_t) :
  mangle_getOffSet hf run = Ok (off, run1) -> dynfile_size run <= hf.
Proof.
  unfold mangle_getOffSet, bind, get_size, mangle_getLen.
  destruct (Z.gtb_spec (dynfile_size run) hf); [discriminate | lia].
Qed.

(** Both operators draw an offset [off] first.  At the last byte of the
    input they fall back to [mangle_BytesOverwrite] and
    [mangle_BytesInsert].  Elsewhere [mangle_ByteRepeatOverwrite] returns,
    having written the byte at [off] over the [len] bytes that follow it,
    at most [HF_MAX_LEN_BLOCK] of them and all inside the input, and
    changed nothing else; and [mangle_ByteRepeatInsert] returns, having
    inserted [len] copies of the byte at [off] after it, [len] being cut at
    the room left under [maxInputSz], and moved the bytes that followed
    [off] behind them.  This holds of every offset [mangle_getOffSet]
    returns, and it returns one for every size in
    [1, min(HF_INPUT_MAX_SIZE, getLen_cube_limit)]. *)
Theorem mangle_ByteRepeat_repeats (hf : Z) (g : honggfuzz_t)
        (printable : bool) (run : run_t) :
  mutate_maxInputSz g < 18446744073709551616 ->
  dynfile_size run <= mutate_maxInputSz g ->
  mutate_maxInputSz g <= Z.of_nat (length (dynfile_data run)) ->
  bytes_input run ->
  (forall off run1,
     mangle_getOffSet hf run = Ok (off, run1) ->
     0 <= off < dynfile_size run /\
     (off + 1 = dynfile_size run ->
      mangle_ByteRepeatOverwrite hf printable run
        = mangle_BytesOverwrite hf printable run1 /\
      mangle_ByteRepeatInsert hf g printable run
        = mangle_BytesInsert hf g printable run1) /\
     (off + 1 < dynfile_size run ->
      (exists len run',
         mangle_ByteRepeatOverwrite hf printable run = Ok (tt, run') /\
         1 <= len <= Z.min HF_MAX_LEN_BLOCK (dynfile_size run - off - 1) /\
         dynfile_size run' = dynfile_size run /\
         (forall i, 0 <= i ->
            byte_at (dynfile_data run') i =
              if (off <? i) && (i <=? off + len)
              then byte_at (dynfile_data run) off
              else byte_at (dynfile_data run) i)) /\
      (exists len run',
         mangle_ByteRepeatInsert hf g printable run = Ok (tt, run') /\
         0 <= len <= Z.min HF_MAX_LEN_BLOCK (dynfile_size run - off - 1) /\
         len <= mutate_maxInputSz g - dynfile_size run /\
         dynfile_size run' = dynfile_size run + len /\
         (forall i, 0 <= i <= off ->
            byte_at (dynfile_data run') i = byte_at (dynfile_data run) i) /\
         (forall i, off < i <= off + len ->
            byte_at (dynfile_data run') i = byte_at (dynfile_data run) off) /\
         (forall i, off < i < dynfile_size run ->
            byte_at (dynfile_data run') (i + len)
              = byte_at (dynfile_data run) i)))) /\
  (1 <= dynfile_size run <= hf -> dynfile_size run <= getLen_cube_limit ->
   exists off run1, mangle_getOffSet hf run = Ok (off, run1)).
Proof.
  intros Hmax Hsz Hcap Hbytes. split.
  2: { intros Hone Hlim.
       destruct (mangle_getOffSet_returns hf run Hone Hlim)
         as (off & run1 & Heq & _).
       exists off, run1. exact Heq. }
  intros off run1 Heq.
  destruct (mangle_getOffSet_inv hf run off run1) as [Hoff (Hd1 & Hs1 & _)];
    [lia | exact Heq |].
  pose proof (mangle_getOffSet_fits hf run off run1 Heq) as Hhf.
  assert (Hb : 0 <= byte_at (dynfile_data run) off < 256)
    by (apply Hbytes; exact Hoff).
  split; [exact Hoff |].
  unfold mangle_ByteRepeatOverwrite, mangle_ByteRepeatInsert.
  rewrite !(bind_Ok (mangle_getOffSet hf) _ run off run1 Heq).
  cbv beta zeta.
  rewrite (u64_small (off + 1)) by lia.
  split.
  - intros Hlast.
    assert (Hz : (u64 (dynfile_size run1 - (off + 1)) =? 0) = true).
    { rewrite Hs1. replace (dynfile_size run - (off + 1)) with 0 by lia.
      reflexivity. }
    split; unfold bind at 1, get_size; cbv beta iota; rewrite Hz;
      reflexivity.
  - intros Hin. split.
    + match goal with
      | |- exists len run', ?m run1 = _ /\ _ =>
          destruct (wp_returns m run1
                      (fun _ run' =>
                         exists len,
                           1 <= len <= Z.min HF_MAX_LEN_BLOCK
                                             (dynfile_size run - off - 1) /\
                           dynfile_size run' = dynfile_size run /\
                           (forall i, 0 <= i ->
                              byte_at (dynfile_data run') i =
                                if (off <? i) && (i <=? off + len)
                                then byte_at (dynfile_data run) off
                                else byte_at (dynfile_data run) i)))
            as ([] & run' & Hr & len & H)
      end.
      { apply wp_bind, wp_get_size. rewrite Hs1.
        rewrite (u64_small (dynfile_size run - (off + 1))) by lia.
        destruct (Z.eqb_spec (dynfile_size run - (off + 1)) 0) as [Hz | Hnz];
          [lia |].
        rewrite HF_MIN_spec.
        apply wp_bind, wp_mangle_getLen.
        { right. unfold getLen_cube_limit, HF_MAX_LEN_BLOCK. lia. }
        intros len run2 Hlen (Hd2 & Hs2 & _).
        apply wp_bind, wp_load_byte_exact; [right; rewrite Hd2, Hd1; lia |].
        intros _. unfold memset. destruct (Z.leb_spec 0 len); [| lia].
        assert (Hrl : Z.of_nat
                        (length
                           (repeat (u8 (byte_at (dynfile_data run2) off))
                                   (Z.to_nat len))) = len)
          by (rewrite repeat_length; lia).
        apply wp_store_exact.
        { right. rewrite Hrl, Hd2, Hd1. lia. }
        intros _ Hbound. exists len.
        cbn [dynfile_size dynfile_data set_data].
        split; [lia |]. split; [lia |].
        intros i Hi. rewrite byte_at_splice by lia. rewrite Hrl, Hd2, Hd1.
        destruct (Z.leb_spec (off + 1) i), (Z.ltb_spec i (off + 1 + len)),
          (Z.ltb_spec off i), (Z.leb_spec i (off + len));
          cbn [andb]; try lia; try reflexivity.
        rewrite byte_at_repeat by lia.
        unfold u8. change (2 ^ 8) with 256. apply Z.mod_small. exact Hb. }
      exists len, run'. split; [exact Hr | exact H].
    + match goal with
      | |- exists len run', ?m run1 = _ /\ _ =>
          destruct (wp_returns m run1
                      (fun _ run' =>
                         exists len,
                           0 <= len <= Z.min HF_MAX_LEN_BLOCK
                                             (dynfile_size run - off - 1) /\
                           len <= mutate_maxInputSz g - dynfile_size run /\
                           dynfile_size run' = dynfile_size run + len /\
                           (forall i, 0 <= i <= off ->
                              byte_at (dynfile_data run') i
                                = byte_at (dynfile_data run) i) /\
                           (forall i, off < i <= off + len ->
                              byte_at (dynfile_data run') i
                                = byte_at (dynfile_data run) off) /\
                           (forall i, off < i < dynfile_size run ->
                              byte_at (dynfile_data run') (i + len)
                                = byte_at (dynfile_data run) i)))
            as ([] & run' & Hr & len & H)
      end.
      { apply wp_bind, wp_get_size. rewrite Hs1.
        rewrite (u64_small (dynfile_size run - (off + 1))) by lia.
        destruct (Z.eqb_spec (dynfile_size run - (off + 1)) 0) as [Hz | Hnz];
          [lia |].
        rewrite HF_MIN_spec.
        apply wp_bind, wp_mangle_getLen.
        { right. unfold getLen_cube_limit, HF_MAX_LEN_BLOCK. lia. }
        intros len run2 Hlen (Hd2 & Hs2 & _).
        assert (HS : dynfile_size run2 = dynfile_size run) by congruence.
        assert (HD : dynfile_data run2 = dynfile_data run) by congruence.
        apply wp_bind, wp_mangle_Inflate_gap; rewrite ?HS, ?HD; try lia.
        intros n run3 Hn Hroom (Hs3 & Hl3 & _) (Hg1 & Hg2 & _).
        rewrite ?HS in Hroom, Hs3, Hg2. rewrite ?HD in Hl3, Hg1, Hg2.
        apply wp_bind, wp_load_byte_exact; [right; rewrite Hl3; lia |].
        intros _. rewrite (Hg1 off) by lia.
        unfold memset. destruct (Z.leb_spec 0 n); [| lia].
        assert (Hrl : Z.of_nat
                        (length
                           (repeat (u8 (byte_at (dynfile_data run) off))
                                   (Z.to_nat n))) = n)
          by (rewrite repeat_length; lia).
        apply wp_store_exact.
        { right. rewrite Hrl, Hl3. lia. }
        intros _ Hbound. exists n.
        cbn [dynfile_size dynfile_data set_data].
        split; [lia |]. split; [lia |]. split; [lia |].
        split; [| split]; intros i Hi; rewrite byte_at_splice by lia;
          rewrite Hrl.
        * destruct (Z.leb_spec (off + 1) i); [lia |]. cbn [andb].
          apply Hg1. lia.
        * destruct (Z.leb_spec (off + 1) i), (Z.ltb_spec i (off + 1 + n));
            try lia. cbn [andb].
          rewrite byte_at_repeat by lia.
          unfold u8. change (2 ^ 8) with 256. apply Z.mod_small. exact Hb.
        * destruct (Z.leb_spec (off + 1) (i + n)),
            (Z.ltb_spec (i + n) (off + 1 + n)); try lia; cbn [andb];
            apply Hg2; lia. }
      exists len, run'. split; [exact Hr | exact H].
Qed.

Lemma mangle_ByteRepeat_repeats_witness :
  exists off run1,
    mangle_getOffSet 134217728 (sample_run [65; 66; 67; 68; 0; 0] 4 [9; 5])
      = Ok (off, run1) /\
    0 <= off < 4 /\
    (off + 1 < 4 ->
     exists len run',
       mangle_ByteRepeatOverwrite 134217728 false
         (sample_run [65; 66; 67; 68; 0; 0] 4 [9; 5]) = Ok (tt, run') /\
       1 <= len <= Z.min HF_MAX_LEN_BLOCK (4 - off - 1) /\
       dynfile_size run' = 4 /\
       (forall i, 0 <= i ->
          byte_at (dynfile_data run') i =
            if (off <? i) && (i <=? off + len)
            then byte_at [65; 66; 67; 68; 0; 0] off
            else byte_at [65; 66; 67; 68; 0; 0] i)).
Proof.
  destruct (mangle_ByteRepeat_repeats 134217728 (sample_global 6 false)
              false (sample_run [65; 66; 67; 68; 0; 0] 4 [9; 5]))
    as [H1 H2].
  - cbn. lia.
  - cbn. lia.
  - cbn. lia.
  - intros i Hi. cbn in Hi.
    assert (Hc : i = 0 \/ i = 1 \/ i = 2 \/ i = 3) by lia.
    destruct Hc as [-> | [-> | [-> | ->]]]; vm_compute; split; congruence.
  - destruct H2 as (off & run1 & Heq);
      [cbn; lia | unfold getLen_cube_limit; cbn; lia |].
    destruct (H1 off run1 Heq) as (Hoff & _ & Hin).
    exists off, run1. split; [exact Heq |]. split; [exact Hoff |].
    intros Hlt. exact (proj1 (Hin Hlt)).
Defined.
